(** * Multi-chamber leak-test bench: embedding and verified properties

    Shallow embedding of the chamber test orchestrator (test_manager.py),
    the adaptive pulse regulator (pid_controller.py), the pressure sensor
    error backoff (pressure_sensor.py) and the calibration engine
    (calibration_manager.py, calibration_db.py), the test log (logger.py)
    and the role manager (roles.py).

    Python floats are idealised as rationals ([Q]); the results of NumPy
    divisions, which may be infinite or NaN, are carried by [npfloat].
    Part I holds the definitions, Part II the lemmas and theorems. *)

From Stdlib Require Import QArith Qabs Qminmax ZArith List String Lia Lqa.
From stdpp Require Import gmap strings list sorting.

(* ===================================================================== *)
(** * Part I.  Definitions                                                *)
(* ===================================================================== *)

(** ** Rational helpers (Python float comparisons) *)

Definition Qltb (x y : Q) : bool := negb (Qle_bool y x).
Definition Qleb (x y : Q) : bool := Qle_bool x y.
Definition Qeqb (x y : Q) : bool := Qeq_bool x y.

(** Python [sum] over a list of floats. *)
Definition Qsum (l : list Q) : Q := fold_left Qplus l 0%Q.

(** ** NumPy float64 values: finite, infinite or NaN

    Rounding is not modelled.  Zero carries no sign: every divisor in the
    modelled code is a sum of squares, which NumPy never returns as -0.0. *)

Module NumPy.

Inductive npfloat : Type :=
| Fin (q : Q)
| PInf
| NInf
| NaN.

Definition Qsign (q : Q) : comparison := (q ?= 0)%Q.

Definition fneg (a : npfloat) : npfloat :=
  match a with
  | Fin q => Fin (- q)%Q
  | PInf => NInf
  | NInf => PInf
  | NaN => NaN
  end.

Definition fadd (a b : npfloat) : npfloat :=
  match a, b with
  | NaN, _ | _, NaN => NaN
  | Fin x, Fin y => Fin (x + y)%Q
  | PInf, NInf | NInf, PInf => NaN
  | PInf, _ | _, PInf => PInf
  | NInf, _ | _, NInf => NInf
  end.

Definition fsub (a b : npfloat) : npfloat := fadd a (fneg b).

(** Infinity scaled by the sign of a finite factor. *)
Definition inf_signed (positive : bool) (s : comparison) : npfloat :=
  match s with
  | Eq => NaN
  | Gt => if positive then PInf else NInf
  | Lt => if positive then NInf else PInf
  end.

Definition fmul (a b : npfloat) : npfloat :=
  match a, b with
  | NaN, _ | _, NaN => NaN
  | Fin x, Fin y => Fin (x * y)%Q
  | Fin x, PInf | PInf, Fin x => inf_signed true (Qsign x)
  | Fin x, NInf | NInf, Fin x => inf_signed false (Qsign x)
  | PInf, PInf | NInf, NInf => PInf
  | PInf, NInf | NInf, PInf => NInf
  end.

(** Division of float64 scalars: x/0 is NaN for x = 0 and a signed
    infinity otherwise (NumPy warns, it does not raise). *)
Definition fdiv (a b : npfloat) : npfloat :=
  match a, b with
  | NaN, _ | _, NaN => NaN
  | Fin x, Fin y =>
      if Qeqb y 0 then
        match Qsign x with Eq => NaN | Gt => PInf | Lt => NInf end
      else Fin (x / y)%Q
  | Fin _, (PInf | NInf) => Fin 0
  | PInf, Fin y => match Qsign y with Lt => NInf | _ => PInf end
  | NInf, Fin y => match Qsign y with Lt => PInf | _ => NInf end
  | (PInf | NInf), (PInf | NInf) => NaN
  end.

(** [a == b] on float64 scalars (NaN equals nothing). *)
Definition feqb (a b : npfloat) : bool :=
  match a, b with
  | Fin x, Fin y => Qeqb x y
  | PInf, PInf | NInf, NInf => true
  | _, _ => false
  end.

Definition is_nan (a : npfloat) : bool :=
  match a with NaN => true | _ => false end.

(** Values that denote the same float. *)
Definition feq (a b : npfloat) : Prop :=
  match a, b with
  | Fin x, Fin y => (x == y)%Q
  | PInf, PInf | NInf, NInf | NaN, NaN => True
  | _, _ => False
  end.

(** [np.array([...])] of finite Python floats. *)
Definition np_array (l : list Q) : list npfloat := map Fin l.

(** [np.sum]. *)
Definition np_sum (l : list npfloat) : npfloat := fold_left fadd l (Fin 0).

(** [np.mean]: the sum divided by the number of elements. *)
Definition np_mean (l : list npfloat) : npfloat :=
  fdiv (np_sum l) (Fin (inject_Z (Z.of_nat (length l)))).

(** Broadcasting [arr - c], [m * arr + c] and element-wise products. *)
Definition arr_sub_scalar (l : list npfloat) (c : npfloat) : list npfloat :=
  map (fun v => fsub v c) l.

Definition arr_affine (m : npfloat) (l : list npfloat) (c : npfloat)
  : list npfloat :=
  map (fun v => fadd (fmul m v) c) l.

Fixpoint arr_mul (l1 l2 : list npfloat) : list npfloat :=
  match l1, l2 with
  | a :: l1', b :: l2' => fmul a b :: arr_mul l1' l2'
  | _, _ => []
  end.

Fixpoint arr_sub (l1 l2 : list npfloat) : list npfloat :=
  match l1, l2 with
  | a :: l1', b :: l2' => fsub a b :: arr_sub l1' l2'
  | _, _ => []
  end.

(** [arr ** 2]. *)
Definition arr_sq (l : list npfloat) : list npfloat :=
  map (fun v => fmul v v) l.

End NumPy.

(** ** pid_controller.py: PIDControllerWrapper *)

Module PidController.

Inductive mode : Type := fast | medium | fine.

Record mode_config : Type := {
  threshold : Q;
  pulse_on : Q;
  pulse_off : Q
}.

(** [self.modes]. *)
Definition modes (m : mode) : mode_config :=
  match m with
  | fast => {| threshold := 40; pulse_on := 0.3; pulse_off := 0.1 |}
  | medium => {| threshold := 15; pulse_on := 0.2; pulse_off := 0.2 |}
  | fine => {| threshold := 5; pulse_on := 0.1; pulse_off := 0.3 |}
  end.

(** The fields of the wrapper that [compute_adaptive_pulse] and [reset]
    touch; the wrapped [simple_pid.PID] object plays no part in them. *)
Record PIDControllerWrapper : Type := {
  setpoint : Q;
  sample_time : Q;
  last_pressure : option Q;
  pressure_history : list Q
}.

(** [__init__] with its default arguments, for a given setpoint. *)
Definition init (sp : Q) : PIDControllerWrapper :=
  {| setpoint := sp; sample_time := 0.1;
     last_pressure := None; pressure_history := [] |}.

(** [reset]. *)
Definition reset (c : PIDControllerWrapper) : PIDControllerWrapper :=
  {| setpoint := setpoint c; sample_time := sample_time c;
     last_pressure := None; pressure_history := [] |}.

(** The dictionary returned by [compute_adaptive_pulse]; [rate] is the
    value that only feeds the debug log line. *)
Record pulse : Type := {
  out_pulse_on : Q;
  out_pulse_off : Q;
  out_mode : mode;
  logged_rate : Q
}.

Definition select_mode (abs_error : Q) : mode :=
  if Qltb (threshold (modes fast)) abs_error then fast
  else if Qltb (threshold (modes medium)) abs_error then medium
  else fine.

(** [append] followed by [pop(0)] when more than ten entries are held. *)
Definition push_history (h : list Q) (p : Q) : list Q :=
  let h' := h ++ [p] in
  if (10 <? length h')%nat then tail h' else h'.

(** [sum(h[i] - h[i-1] for i in range(1, len(h))) / max(1, len(h) - 1)]. *)
Definition avg_rate_of (h : list Q) : Q :=
  (Qsum (map (fun i => nth i h 0 - nth (i - 1) h 0)%Q
             (seq 1 (length h - 1)))
   / inject_Z (Z.of_nat (Nat.max 1 (length h - 1))))%Q.

Definition rate_factor_of (avg_rate : Q) : Q :=
  Qmin 1 (Qabs avg_rate / 10).

(** [compute_adaptive_pulse].  [None] stands for the [ZeroDivisionError]
    of the division by [self.sample_time], which is made only when there
    is a previous pressure; it is raised before anything is assigned, so
    the wrapper is then as it was. *)
Definition compute_adaptive_pulse (c : PIDControllerWrapper)
  (current_pressure : Q) : option (pulse * PIDControllerWrapper) :=
  let error := (setpoint c - current_pressure)%Q in
  let abs_error := Qabs error in
  let mode := select_mode abs_error in
  let mode_config := modes mode in
  match
    match last_pressure c with
    | Some lp =>
        if Qeqb (sample_time c) 0 then None
        else Some ((current_pressure - lp) / sample_time c)%Q
    | None => Some 0%Q
    end
  with
  | None => None
  | Some rate =>
      let history := push_history (pressure_history c) current_pressure in
      let avg_rate := avg_rate_of history in
      let rate_factor := rate_factor_of avg_rate in
      let adjusted_on := (pulse_on mode_config * (1 - rate_factor))%Q in
      let adjusted_off := (pulse_off mode_config * (1 + rate_factor))%Q in
      Some ({| out_pulse_on := Qmax 0.05 adjusted_on;
               out_pulse_off := Qmax 0.05 adjusted_off;
               out_mode := mode;
               logged_rate := rate |},
            {| setpoint := setpoint c; sample_time := sample_time c;
               last_pressure := Some current_pressure;
               pressure_history := history |})
  end.

(** Successive calls on a stream of samples, by a caller that goes on
    after a call that raised: the output of the last call, [None] when
    there was no call or the last one raised, and the wrapper after
    it. *)
Fixpoint feed (c : PIDControllerWrapper) (samples : list Q)
  : option pulse * PIDControllerWrapper :=
  match samples with
  | [] => (None, c)
  | p :: rest =>
      match compute_adaptive_pulse c p with
      | Some (out, c') =>
          match rest with
          | [] => (Some out, c')
          | _ => feed c' rest
          end
      | None =>
          match rest with
          | [] => (None, c)
          | _ => feed c rest
          end
      end
  end.

End PidController.

(** ** calibration_db.py: CalibrationDatabase *)

Module CalibrationDb.
Import NumPy.

(** Timestamps ([datetime]) are integers (microseconds); the ISO-8601
    strings the database stores are ordered the same way. *)
Record CalibrationPoint : Type := {
  pressure : Q;
  voltage : Q;
  timestamp : Z
}.

Record CalibrationResult : Type := {
  chamber_id : Z;
  multiplier : npfloat;
  offset : npfloat;
  r_squared : npfloat;
  calibration_date : Z;
  points : list CalibrationPoint
}.

(** A row of table [calibration_records]. *)
Record record_row : Type := {
  rec_id : Z;
  rec_chamber_id : Z;
  rec_multiplier : npfloat;
  rec_offset : npfloat;
  rec_r_squared : npfloat;
  rec_calibration_date : Z;
  rec_is_active : bool
}.

(** A row of table [calibration_points]. *)
Record point_row : Type := {
  pt_id : Z;
  pt_calibration_id : Z;
  pt_pressure : Q;
  pt_voltage : Q;
  pt_timestamp : Z
}.

Record database : Type := {
  calibration_records : list record_row;
  calibration_points : list point_row
}.

(** [_init_database] on a fresh file: two empty tables. *)
Definition _init_database : database :=
  {| calibration_records := []; calibration_points := [] |}.

(** [INTEGER PRIMARY KEY AUTOINCREMENT]: one more than the largest id. *)
Definition next_rowid (ids : list Z) : Z :=
  (1 + fold_right Z.max 0 ids)%Z.

(** [UPDATE ... SET is_active = 0 WHERE chamber_id = ? AND is_active = 1]. *)
Definition deactivate (c : Z) (r : record_row) : record_row :=
  if (rec_chamber_id r =? c)%Z && rec_is_active r then
    {| rec_id := rec_id r; rec_chamber_id := rec_chamber_id r;
       rec_multiplier := rec_multiplier r; rec_offset := rec_offset r;
       rec_r_squared := rec_r_squared r;
       rec_calibration_date := rec_calibration_date r;
       rec_is_active := false |}
  else r.

(** SQLite binds a NaN as NULL, which the [REAL NOT NULL] columns refuse. *)
Definition storable (cal : CalibrationResult) : bool :=
  negb (is_nan (multiplier cal)) && negb (is_nan (offset cal))
  && negb (is_nan (r_squared cal)).

(** Insertion of the points of one calibration, ids assigned in order. *)
Fixpoint insert_points (calibration_id : Z) (pts : list CalibrationPoint)
  (table : list point_row) : list point_row :=
  match pts with
  | [] => table
  | p :: rest =>
      insert_points calibration_id rest
        (table ++ [{| pt_id := next_rowid (map pt_id table);
                      pt_calibration_id := calibration_id;
                      pt_pressure := pressure p;
                      pt_voltage := voltage p;
                      pt_timestamp := timestamp p |}])
  end.

(** [save_calibration].  [None] stands for the [sqlite3.IntegrityError]
    raised by the INSERT; leaving the [with] block then rolls the UPDATE
    back, so the database is unchanged. *)
Definition save_calibration (db : database) (calibration : CalibrationResult)
  : option database :=
  if storable calibration then
    let records := map (deactivate (chamber_id calibration))
                       (calibration_records db) in
    let calibration_id := next_rowid (map rec_id records) in
    let row :=
      {| rec_id := calibration_id;
         rec_chamber_id := chamber_id calibration;
         rec_multiplier := multiplier calibration;
         rec_offset := offset calibration;
         rec_r_squared := r_squared calibration;
         rec_calibration_date := calibration_date calibration;
         rec_is_active := true |} in
    Some {| calibration_records := records ++ [row];
            calibration_points :=
              insert_points calibration_id (points calibration)
                            (calibration_points db) |}
  else None.

(** A sequence of calls; a call that raises leaves the database as it was. *)
Definition save_all (db : database) (cals : list CalibrationResult)
  : database :=
  fold_left (fun d cal => default d (save_calibration d cal)) cals db.

(** [ORDER BY calibration_date DESC] and [ORDER BY timestamp].  SQL leaves
    the order of equal keys open; a merge sort is one admissible choice. *)
Definition date_desc (r1 r2 : record_row) : Prop :=
  (rec_calibration_date r2 <= rec_calibration_date r1)%Z.

Definition timestamp_asc (p1 p2 : point_row) : Prop :=
  (pt_timestamp p1 <= pt_timestamp p2)%Z.

#[export] Instance date_desc_dec : RelDecision date_desc.
Proof. intros r1 r2. unfold date_desc. apply _. Defined.

#[export] Instance timestamp_asc_dec : RelDecision timestamp_asc.
Proof. intros p1 p2. unfold timestamp_asc. apply _. Defined.

(** [LIMIT ?]: a negative limit means no limit in SQLite. *)
Definition sql_limit {A} (limit : Z) (rows : list A) : list A :=
  if (limit <? 0)%Z then rows else take (Z.to_nat limit) rows.

Definition point_of_row (p : point_row) : CalibrationPoint :=
  {| pressure := pt_pressure p; voltage := pt_voltage p;
     timestamp := pt_timestamp p |}.

(** The inner SELECT: the points of one calibration, by timestamp. *)
Definition select_points (db : database) (calibration_id : Z)
  : list CalibrationPoint :=
  map point_of_row
      (merge_sort timestamp_asc
         (filter (fun p => pt_calibration_id p = calibration_id)
                 (calibration_points db))).

Definition result_of_row (db : database) (c : Z) (r : record_row)
  : CalibrationResult :=
  {| chamber_id := c;
     multiplier := rec_multiplier r;
     offset := rec_offset r;
     r_squared := rec_r_squared r;
     calibration_date := rec_calibration_date r;
     points := select_points db (rec_id r) |}.

(** The outer SELECT of [get_calibration_history]. *)
Definition select_history (db : database) (c : Z) (limit : Z)
  : list record_row :=
  sql_limit limit
    (merge_sort date_desc
       (filter (fun r => rec_chamber_id r = c) (calibration_records db))).

Definition get_calibration_history (db : database) (c : Z) (limit : Z)
  : list CalibrationResult :=
  map (result_of_row db c) (select_history db c limit).

(** [get_active_calibration]. *)
Definition get_active_calibration (db : database) (c : Z)
  : option CalibrationResult :=
  match
    merge_sort date_desc
      (filter (fun r => rec_chamber_id r = c ∧ rec_is_active r = true)
              (calibration_records db))
  with
  | [] => None
  | r :: _ => Some (result_of_row db c r)
  end.

(** The regression of [CalibrationDatabase.calculate_calibration]; [None]
    stands for the [ValueError] on fewer than two points, [now] for
    [datetime.now()].  No division is guarded here. *)
Definition calculate_calibration (now : Z) (c : Z)
  (pts : list CalibrationPoint) : option CalibrationResult :=
  if (length pts <? 2)%nat then None
  else
    let x := np_array (map voltage pts) in
    let y := np_array (map pressure pts) in
    let x_mean := np_mean x in
    let y_mean := np_mean y in
    let mult :=
      fdiv (np_sum (arr_mul (arr_sub_scalar x x_mean)
                            (arr_sub_scalar y y_mean)))
           (np_sum (arr_sq (arr_sub_scalar x x_mean))) in
    let off := fsub y_mean (fmul mult x_mean) in
    let y_pred := arr_affine mult x off in
    let r2 :=
      fsub (Fin 1)
           (fdiv (np_sum (arr_sq (arr_sub y y_pred)))
                 (np_sum (arr_sq (arr_sub_scalar y y_mean)))) in
    Some {| chamber_id := c; multiplier := mult; offset := off;
            r_squared := r2; calibration_date := now; points := pts |}.

End CalibrationDb.

(** ** calibration_manager.py: CalibrationManager *)

Module CalibrationManager.
Import NumPy.
Import CalibrationDb.

(** The calibration session state read by [calculate_calibration]. *)
Record CalibrationManager : Type := {
  current_chamber : option Z;
  calibration_points : list CalibrationPoint;
  current_point_index : nat;
  calibration_db : database
}.

(** [calculate_calibration]: [None] when no chamber is selected, fewer
    than two points are recorded, or the voltages have no spread. *)
Definition calculate_calibration (self : CalibrationManager) (now : Z)
  : option CalibrationResult :=
  match current_chamber self with
  | None => None
  | Some chamber =>
      if (length (calibration_points self) <? 2)%nat then None
      else
        let x := np_array (map voltage (calibration_points self)) in
        let y := np_array (map pressure (calibration_points self)) in
        let x_mean := np_mean x in
        let y_mean := np_mean y in
        let numerator :=
          np_sum (arr_mul (arr_sub_scalar x x_mean)
                          (arr_sub_scalar y y_mean)) in
        let denominator := np_sum (arr_sq (arr_sub_scalar x x_mean)) in
        if feqb denominator (Fin 0) then None
        else
          let mult := fdiv numerator denominator in
          let off := fsub y_mean (fmul mult x_mean) in
          let y_pred := arr_affine mult x off in
          let ss_total := np_sum (arr_sq (arr_sub_scalar y y_mean)) in
          let ss_residual := np_sum (arr_sq (arr_sub y y_pred)) in
          let r2 :=
            if feqb ss_total (Fin 0) then Fin 0
            else fsub (Fin 1) (fdiv ss_residual ss_total) in
          Some {| chamber_id := chamber; multiplier := mult; offset := off;
                  r_squared := r2; calibration_date := now;
                  points := calibration_points self |}
  end.

(** [save_calibration]: the database call inside [try]; [False] is
    returned when it raises. *)
Definition save_calibration (self : CalibrationManager)
  (calibration : CalibrationResult) : bool * CalibrationManager :=
  match CalibrationDb.save_calibration (calibration_db self) calibration with
  | Some db' =>
      (true, {| current_chamber := current_chamber self;
                calibration_points := calibration_points self;
                current_point_index := current_point_index self;
                calibration_db := db' |})
  | None => (false, self)
  end.

End CalibrationManager.

(** ** Vocabulary of the statements about the calibration store *)

Module CalibrationSpec.
Import NumPy CalibrationDb.

(** The rows of a chamber that are marked active. *)
Definition active_rows (db : database) (c : Z) : list record_row :=
  filter (fun r => rec_chamber_id r = c /\ rec_is_active r = true)
         (calibration_records db).

(** A row carries the values of a calibration. *)
Definition same_header (r : record_row) (cal : CalibrationResult) : Prop :=
  rec_chamber_id r = chamber_id cal
  /\ rec_multiplier r = multiplier cal
  /\ rec_offset r = offset cal
  /\ rec_r_squared r = r_squared cal
  /\ rec_calibration_date r = calibration_date cal.

(** The points stored for a calibration id, in insertion order. *)
Definition points_of (db : database) (calibration_id : Z)
  : list CalibrationPoint :=
  map point_of_row
      (filter (fun p => pt_calibration_id p = calibration_id)
              (calibration_points db)).

(** A row, with the points stored under its id, holds a calibration. *)
Definition stored_as (db : database) (r : record_row)
  (cal : CalibrationResult) : Prop :=
  same_header r cal /\ points_of db (rec_id r) = points cal.

(** A returned result is a saved calibration: the same values, and the
    same points (which come back ordered by timestamp). *)
Definition returned_as (res cal : CalibrationResult) : Prop :=
  chamber_id res = chamber_id cal
  /\ multiplier res = multiplier cal
  /\ offset res = offset cal
  /\ r_squared res = r_squared cal
  /\ calibration_date res = calibration_date cal
  /\ points res ≡ₚ points cal.

(** No result is older than one that comes before it. *)
Definition most_recent_first (l : list CalibrationResult) : Prop :=
  StronglySorted
    (fun a b => (calibration_date b <= calibration_date a)%Z) l.

(** The ids of the rows are bounded by their number, which is also the
    largest id in use; the points refer to ids within that bound. *)
Definition ids_in_order (db : database) : Prop :=
  let n := Z.of_nat (length (calibration_records db)) in
  Forall (fun r => (1 <= rec_id r <= n)%Z) (calibration_records db)
  /\ fold_right Z.max 0%Z (map rec_id (calibration_records db)) = n
  /\ Forall (fun p => (1 <= pt_calibration_id p <= n)%Z)
            (calibration_points db).

(** The calibration of a chamber that was accepted last. *)
Definition last_saved (c : Z) (cals : list CalibrationResult)
  : option CalibrationResult :=
  last (filter (fun cal => chamber_id cal = c) (List.filter storable cals)).

End CalibrationSpec.

(** ** The regression as the specification words it *)

Module OlsSpec.

(** Modelled on the specification's formulas, over exact rationals:
    the mean, and the sums over the paired samples (x_i, y_i). *)
Definition mean (l : list Q) : Q :=
  (Qsum l / inject_Z (Z.of_nat (length l)))%Q.

Definition sxy (xs ys : list Q) : Q :=
  Qsum (map (fun p => ((fst p - mean xs) * (snd p - mean ys))%Q)
            (combine xs ys)).

Definition sxx (xs : list Q) : Q :=
  Qsum (map (fun x => ((x - mean xs) * (x - mean xs))%Q) xs).

Definition ols_multiplier (xs ys : list Q) : Q := (sxy xs ys / sxx xs)%Q.

Definition ols_offset (xs ys : list Q) : Q :=
  (mean ys - ols_multiplier xs ys * mean xs)%Q.

Definition ss_tot (ys : list Q) : Q := sxx ys.

Definition ss_res (xs ys : list Q) : Q :=
  Qsum (map (fun p =>
               let e := (snd p - (ols_multiplier xs ys * fst p
                                  + ols_offset xs ys))%Q in
               (e * e)%Q)
            (combine xs ys)).

Definition ols_r_squared (xs ys : list Q) : Q :=
  (1 - ss_res xs ys / ss_tot ys)%Q.

End OlsSpec.

(** ** pressure_sensor.py: PressureSensor *)

Module PressureSensor.

(** What a call does to the outside world, oldest first. *)
Inductive effect : Type :=
| Sleep (seconds : Q)
| AdcOpen
| AdcRead (channel : Z)
| LogWarning (channel : Z).

(** What the I2C device answers to [read_adc]: a raw count, or an
    exception, whose text may name a lost connection. *)
Inductive adc_outcome : Type :=
| Raw (raw : Z)
| ReadError (connection_lost : bool).

(** The surroundings of one call: the clock, whether opening the ADC
    would succeed, and what a read would answer. *)
Record env : Type := {
  now : Q;
  open_ok : bool;
  adc_answer : adc_outcome
}.

Record PressureSensor : Type := {
  voltage_offset : Q;
  voltage_multiplier : Q;
  chamber_offsets : list Q;
  adc_present : bool;
  initialized : bool;
  initialization_attempts : Z;
  last_init_attempt : Q;
  init_retry_interval : Q;
  alpha : Q;
  filtered_values : list Q;
  consecutive_errors : list Z;
  max_consecutive_errors : Z;
  error_sleep_duration : Q;
  effects : list effect
}.

Definition with_errors (s : PressureSensor) (ce : list Z) : PressureSensor :=
  {| voltage_offset := voltage_offset s;
     voltage_multiplier := voltage_multiplier s;
     chamber_offsets := chamber_offsets s;
     adc_present := adc_present s;
     initialized := initialized s;
     initialization_attempts := initialization_attempts s;
     last_init_attempt := last_init_attempt s;
     init_retry_interval := init_retry_interval s;
     alpha := alpha s;
     filtered_values := filtered_values s;
     consecutive_errors := ce;
     max_consecutive_errors := max_consecutive_errors s;
     error_sleep_duration := error_sleep_duration s;
     effects := effects s |}.

Definition with_effect (s : PressureSensor) (e : effect) : PressureSensor :=
  {| voltage_offset := voltage_offset s;
     voltage_multiplier := voltage_multiplier s;
     chamber_offsets := chamber_offsets s;
     adc_present := adc_present s;
     initialized := initialized s;
     initialization_attempts := initialization_attempts s;
     last_init_attempt := last_init_attempt s;
     init_retry_interval := init_retry_interval s;
     alpha := alpha s;
     filtered_values := filtered_values s;
     consecutive_errors := consecutive_errors s;
     max_consecutive_errors := max_consecutive_errors s;
     error_sleep_duration := error_sleep_duration s;
     effects := effects s ++ [e] |}.

Definition with_adc (s : PressureSensor) (present init : bool)
  : PressureSensor :=
  {| voltage_offset := voltage_offset s;
     voltage_multiplier := voltage_multiplier s;
     chamber_offsets := chamber_offsets s;
     adc_present := present;
     initialized := init;
     initialization_attempts := initialization_attempts s;
     last_init_attempt := last_init_attempt s;
     init_retry_interval := init_retry_interval s;
     alpha := alpha s;
     filtered_values := filtered_values s;
     consecutive_errors := consecutive_errors s;
     max_consecutive_errors := max_consecutive_errors s;
     error_sleep_duration := error_sleep_duration s;
     effects := effects s |}.

Definition with_attempt (s : PressureSensor) (t : Q) : PressureSensor :=
  {| voltage_offset := voltage_offset s;
     voltage_multiplier := voltage_multiplier s;
     chamber_offsets := chamber_offsets s;
     adc_present := adc_present s;
     initialized := initialized s;
     initialization_attempts := (initialization_attempts s + 1)%Z;
     last_init_attempt := t;
     init_retry_interval := init_retry_interval s;
     alpha := alpha s;
     filtered_values := filtered_values s;
     consecutive_errors := consecutive_errors s;
     max_consecutive_errors := max_consecutive_errors s;
     error_sleep_duration := error_sleep_duration s;
     effects := effects s |}.

Definition with_filtered (s : PressureSensor) (fv : list Q)
  : PressureSensor :=
  {| voltage_offset := voltage_offset s;
     voltage_multiplier := voltage_multiplier s;
     chamber_offsets := chamber_offsets s;
     adc_present := adc_present s;
     initialized := initialized s;
     initialization_attempts := initialization_attempts s;
     last_init_attempt := last_init_attempt s;
     init_retry_interval := init_retry_interval s;
     alpha := alpha s;
     filtered_values := fv;
     consecutive_errors := consecutive_errors s;
     max_consecutive_errors := max_consecutive_errors s;
     error_sleep_duration := error_sleep_duration s;
     effects := effects s |}.

(** The object [__init__] builds, before its first [ensure_initialized]. *)
Definition init : PressureSensor :=
  {| voltage_offset := -0.579;
     voltage_multiplier := 1.286;
     chamber_offsets := [0; 0; 0]%Q;
     adc_present := false;
     initialized := false;
     initialization_attempts := 0;
     last_init_attempt := 0;
     init_retry_interval := 5;
     alpha := 0.2;
     filtered_values := [0; 0; 0; 0]%Q;
     consecutive_errors := [0; 0; 0; 0]%Z;
     max_consecutive_errors := 5;
     error_sleep_duration := 2;
     effects := [] |}.

(** [self.consecutive_errors[channel]] for a valid channel. *)
Definition errors_of (s : PressureSensor) (channel : Z) : Z :=
  default 0%Z (consecutive_errors s !! Z.to_nat channel).

(** [self.consecutive_errors[channel] += 1]. *)
Definition bump_errors (s : PressureSensor) (channel : Z) : PressureSensor :=
  with_errors s
    (<[Z.to_nat channel := (errors_of s channel + 1)%Z]>
       (consecutive_errors s)).

Definition valid_channel (channel : Z) : bool :=
  (0 <=? channel)%Z && (channel <=? 3)%Z.

(** [ensure_initialized]. *)
Definition ensure_initialized (e : env) (s : PressureSensor)
  : bool * PressureSensor :=
  if initialized s && adc_present s then (true, s)
  else if Qltb (now e - last_init_attempt s) (init_retry_interval s)
          && (0 <? initialization_attempts s)%Z
  then (false, s)
  else
    let s1 := with_effect (with_attempt s (now e)) AdcOpen in
    if open_ok e then
      (true, with_errors (with_adc s1 true true) [0; 0; 0; 0]%Z)
    else (false, with_adc s1 false false).

(** [read_voltage]. *)
Definition read_voltage (e : env) (channel : Z) (s : PressureSensor)
  : option Q * PressureSensor :=
  if negb (valid_channel channel) then (None, s)
  else if (max_consecutive_errors s <=? errors_of s channel)%Z then
    if (errors_of s channel =? max_consecutive_errors s)%Z then
      (None, bump_errors (with_effect s (LogWarning channel)) channel)
    else (None, s)
  else
    let '(ready, s1) :=
      if negb (initialized s) || negb (adc_present s)
      then ensure_initialized e s
      else (true, s) in
    if negb ready then (None, bump_errors s1 channel)
    else
      let s2 := with_effect s1 (AdcRead channel) in
      match adc_answer e with
      | Raw raw =>
          let voltage := (inject_Z raw / 32767 * 4.096)%Q in
          (Some voltage,
           with_errors s2 (<[Z.to_nat channel := 0%Z]> (consecutive_errors s2)))
      | ReadError connection_lost =>
          let s3 := bump_errors s2 channel in
          (None, if connection_lost then with_adc s3 false false else s3)
      end.

(** [read_pressure].  Nothing in the [try] block raises in this model,
    so its [except] branch is not represented. *)
Definition read_pressure (e : env) (channel : Z) (apply_filter : bool)
  (s : PressureSensor) : option Q * PressureSensor :=
  if negb (valid_channel channel) then (None, s)
  else if (max_consecutive_errors s <=? errors_of s channel)%Z then
    if (errors_of s channel =? max_consecutive_errors s)%Z then
      (None, with_effect s (Sleep (error_sleep_duration s)))
    else (None, s)
  else
    match read_voltage e channel s with
    | (None, s1) => (None, s1)
    | (Some voltage, s1) =>
        let base_pressure :=
          (voltage * voltage_multiplier s1 * 1000
           + voltage_offset s1 * 1000)%Q in
        let adjusted_pressure :=
          if (channel <=? 2)%Z then
            Qmax 0 (base_pressure
                    + default 0%Q (chamber_offsets s1 !! Z.to_nat channel))
          else Qmax 0 base_pressure in
        if apply_filter then
          let f :=
            (alpha s1 * adjusted_pressure
             + (1 - alpha s1)
               * default 0%Q (filtered_values s1 !! Z.to_nat channel))%Q in
          (Some f,
           with_filtered s1 (<[Z.to_nat channel := f]> (filtered_values s1)))
        else (Some adjusted_pressure, s1)
    end.

(** Successive [read_pressure] calls on one channel. *)
Fixpoint read_pressure_seq (es : list env) (channel : Z)
  (s : PressureSensor) : list (option Q) * PressureSensor :=
  match es with
  | [] => ([], s)
  | e :: rest =>
      let '(r, s1) := read_pressure e channel true s in
      let '(rs, s2) := read_pressure_seq rest channel s1 in
      (r :: rs, s2)
  end.

Definition is_sleep (e : effect) : bool :=
  match e with Sleep _ => true | _ => false end.

Definition touches_adc (e : effect) : bool :=
  match e with AdcOpen | AdcRead _ => true | _ => false end.

(** How many cooldown sleeps a log of effects holds. *)
Definition count_sleeps (l : list effect) : nat :=
  length (List.filter is_sleep l).

(** How many times the device was touched. *)
Definition count_adc (l : list effect) : nat :=
  length (List.filter touches_adc l).

(** *** The other methods of the sensor *)

(** [PRESSURE_DEFAULTS['MAX_PRESSURE']] of constants.py. *)
Definition MAX_PRESSURE : Q := 600.

Definition with_conversion (s : PressureSensor) (offset multiplier : Q)
  : PressureSensor :=
  {| voltage_offset := offset;
     voltage_multiplier := multiplier;
     chamber_offsets := chamber_offsets s;
     adc_present := adc_present s;
     initialized := initialized s;
     initialization_attempts := initialization_attempts s;
     last_init_attempt := last_init_attempt s;
     init_retry_interval := init_retry_interval s;
     alpha := alpha s;
     filtered_values := filtered_values s;
     consecutive_errors := consecutive_errors s;
     max_consecutive_errors := max_consecutive_errors s;
     error_sleep_duration := error_sleep_duration s;
     effects := effects s |}.

Definition with_chamber_offsets (s : PressureSensor) (offsets : list Q)
  : PressureSensor :=
  {| voltage_offset := voltage_offset s;
     voltage_multiplier := voltage_multiplier s;
     chamber_offsets := offsets;
     adc_present := adc_present s;
     initialized := initialized s;
     initialization_attempts := initialization_attempts s;
     last_init_attempt := last_init_attempt s;
     init_retry_interval := init_retry_interval s;
     alpha := alpha s;
     filtered_values := filtered_values s;
     consecutive_errors := consecutive_errors s;
     max_consecutive_errors := max_consecutive_errors s;
     error_sleep_duration := error_sleep_duration s;
     effects := effects s |}.

Definition with_alpha (s : PressureSensor) (a : Q) : PressureSensor :=
  {| voltage_offset := voltage_offset s;
     voltage_multiplier := voltage_multiplier s;
     chamber_offsets := chamber_offsets s;
     adc_present := adc_present s;
     initialized := initialized s;
     initialization_attempts := initialization_attempts s;
     last_init_attempt := last_init_attempt s;
     init_retry_interval := init_retry_interval s;
     alpha := a;
     filtered_values := filtered_values s;
     consecutive_errors := consecutive_errors s;
     max_consecutive_errors := max_consecutive_errors s;
     error_sleep_duration := error_sleep_duration s;
     effects := effects s |}.

Definition with_max_errors (s : PressureSensor) (m : Z) : PressureSensor :=
  {| voltage_offset := voltage_offset s;
     voltage_multiplier := voltage_multiplier s;
     chamber_offsets := chamber_offsets s;
     adc_present := adc_present s;
     initialized := initialized s;
     initialization_attempts := initialization_attempts s;
     last_init_attempt := last_init_attempt s;
     init_retry_interval := init_retry_interval s;
     alpha := alpha s;
     filtered_values := filtered_values s;
     consecutive_errors := consecutive_errors s;
     max_consecutive_errors := m;
     error_sleep_duration := error_sleep_duration s;
     effects := effects s |}.

(** [set_conversion_parameters]. *)
Definition set_conversion_parameters (offset multiplier : Q)
  (s : PressureSensor) : PressureSensor :=
  with_conversion s offset multiplier.

(** [set_chamber_offset]: an index outside 0..2 is logged and ignored. *)
Definition set_chamber_offset (chamber_index : Z) (offset : Q)
  (s : PressureSensor) : PressureSensor :=
  if negb ((0 <=? chamber_index)%Z && (chamber_index <=? 2)%Z) then s
  else with_chamber_offsets s
         (<[Z.to_nat chamber_index := offset]> (chamber_offsets s)).

(** [set_filter_parameters]: an alpha outside [0, 1] is logged and
    ignored. *)
Definition set_filter_parameters (a : Q) (s : PressureSensor)
  : PressureSensor :=
  if negb (Qleb 0 a && Qleb a 1) then s else with_alpha s a.

(** [reset_filtered_values] and [reset_error_counters]. *)
Definition reset_filtered_values (s : PressureSensor) : PressureSensor :=
  with_filtered s [0; 0; 0; 0]%Q.

Definition reset_error_counters (s : PressureSensor) : PressureSensor :=
  with_errors s [0; 0; 0; 0]%Z.

(** [set_error_threshold]: a threshold below 1 is logged and ignored. *)
Definition set_error_threshold (max_errors : Z) (s : PressureSensor)
  : PressureSensor :=
  if (max_errors <? 1)%Z then s else with_max_errors s max_errors.

(** The opening lines of the methods that read: an attempt to open the
    ADC when it is not open. *)
Definition open_if_needed (e : env) (s : PressureSensor)
  : bool * PressureSensor :=
  if negb (initialized s) || negb (adc_present s)
  then ensure_initialized e s
  else (true, s).

(** [read_all_pressures]: [e0] is the environment of the attempt to
    open the ADC, [es channel] the one of the read of that channel. *)
Definition read_all_pressures (e0 : env) (es : Z -> env)
  (apply_filter : bool) (s : PressureSensor)
  : list (option Q) * PressureSensor :=
  let s0 := (open_if_needed e0 s).2 in
  let '(p0, s1) := read_pressure (es 0%Z) 0 apply_filter s0 in
  let '(p1, s2) := read_pressure (es 1%Z) 1 apply_filter s1 in
  let '(p2, s3) := read_pressure (es 2%Z) 2 apply_filter s2 in
  ([p0; p1; p2], s3).

(** How the sampling loop of [take_averaged_reading] is left: by its
    condition, or by the [ValueError] of [time.sleep] on a negative
    delay. *)
Inductive sampling_end : Type :=
| Sampled (readings : list Q)
| SleepRaised.

(** The [while] loop of [take_averaged_reading]; [es k] is the
    environment of its k-th read.  The loop runs at most
    [2 * num_samples - 1] times, so the fuel its caller gives is never
    used up. *)
Fixpoint sampling_loop (fuel : nat) (es : nat -> env) (k : nat)
  (channel num_samples : Z) (delay : Q) (readings : list Q) (errors : Z)
  (s : PressureSensor) : sampling_end * PressureSensor :=
  if (Z.of_nat (length readings) <? num_samples)%Z
     && (errors <? num_samples)%Z
  then
    match fuel with
    | O => (Sampled readings, s)
    | S fuel' =>
        let '(pressure, s1) := read_pressure (es k) channel false s in
        let readings' :=
          match pressure with
          | Some p => readings ++ [p]
          | None => readings
          end in
        let errors' :=
          match pressure with
          | Some _ => errors
          | None => (errors + 1)%Z
          end in
        if Qltb delay 0 then (SleepRaised, s1)
        else sampling_loop fuel' es (S k) channel num_samples delay
                           readings' errors' (with_effect s1 (Sleep delay))
    end
  else (Sampled readings, s).

(** [take_averaged_reading].  A reading is only obtained on a valid
    channel, so the two assignments by index are within the lists. *)
Definition take_averaged_reading (e0 : env) (es : nat -> env)
  (channel num_samples : Z) (delay : Q) (s : PressureSensor)
  : option Q * PressureSensor :=
  let '(ready, s0) := open_if_needed e0 s in
  if negb ready then (None, s0)
  else
    match sampling_loop (Z.to_nat (2 * num_samples)) es 0 channel
                        num_samples delay [] 0 s0 with
    | (SleepRaised, s1) => (None, s1)
    | (Sampled [], s1) => (None, s1)
    | (Sampled readings, s1) =>
        let avg_pressure :=
          (Qsum readings / inject_Z (Z.of_nat (length readings)))%Q in
        let s2 :=
          with_filtered s1
            (<[Z.to_nat channel := avg_pressure]> (filtered_values s1)) in
        (Some avg_pressure,
         with_errors s2 (<[Z.to_nat channel := 0%Z]> (consecutive_errors s2)))
    end.

(** The loop body of [validate_sensors] for one channel. *)
Definition validate_channel (es : Z -> env)
  (acc : gmap Z bool * PressureSensor) (channel : Z)
  : gmap Z bool * PressureSensor :=
  let '(results, s) := acc in
  let '(pressure, s1) := read_pressure (es channel) channel false s in
  let is_valid :=
    match pressure with
    | Some p => Qleb 0 p && Qleb p (MAX_PRESSURE * 1.1)
    | None => false
    end in
  (<[channel := is_valid]> results, s1).

(** [validate_sensors]. *)
Definition validate_sensors (e0 : env) (es : Z -> env) (s : PressureSensor)
  : gmap Z bool * PressureSensor :=
  fold_left (validate_channel es) [0; 1; 2]%Z (∅, (open_if_needed e0 s).2).

End PressureSensor.

(** ** Vocabulary of the statements about the pressure sensor *)

Module SensorSpec.
Import PressureSensor.

(** The public methods as calls with their arguments and surroundings. *)
Inductive method_call : Type :=
| EnsureInitialized (e : env)
| SetConversionParameters (offset multiplier : Q)
| SetChamberOffset (chamber_index : Z) (offset : Q)
| ReadVoltage (e : env) (channel : Z)
| ReadPressure (e : env) (channel : Z) (apply_filter : bool)
| ReadAllPressures (e0 : env) (es : Z -> env) (apply_filter : bool)
| TakeAveragedReading (e0 : env) (es : nat -> env) (channel num_samples : Z)
                      (delay : Q)
| ValidateSensors (e0 : env) (es : Z -> env)
| SetFilterParameters (a : Q)
| ResetFilteredValues
| ResetErrorCounters
| SetErrorThreshold (max_errors : Z).

(** The sensor as a call leaves it. *)
Definition perform (s : PressureSensor) (c : method_call) : PressureSensor :=
  match c with
  | EnsureInitialized e => (ensure_initialized e s).2
  | SetConversionParameters offset multiplier =>
      set_conversion_parameters offset multiplier s
  | SetChamberOffset i offset => set_chamber_offset i offset s
  | ReadVoltage e channel => (read_voltage e channel s).2
  | ReadPressure e channel f => (read_pressure e channel f s).2
  | ReadAllPressures e0 es f => (read_all_pressures e0 es f s).2
  | TakeAveragedReading e0 es channel n delay =>
      (take_averaged_reading e0 es channel n delay s).2
  | ValidateSensors e0 es => (validate_sensors e0 es s).2
  | SetFilterParameters a => set_filter_parameters a s
  | ResetFilteredValues => reset_filtered_values s
  | ResetErrorCounters => reset_error_counters s
  | SetErrorThreshold m => set_error_threshold m s
  end.

(** The sensor after [__init__] and a sequence of calls. *)
Definition after (calls : list method_call) : PressureSensor :=
  fold_left perform calls init.

(** The reads of one channel in a log of effects. *)
Definition reads_channel (channel : Z) (e : effect) : bool :=
  match e with
  | AdcRead c => (c =? channel)%Z
  | _ => false
  end.

Definition reads_of (channel : Z) (l : list effect) : nat :=
  length (List.filter (reads_channel channel) l).

(** A read that fails with a lost connection ("No such device",
    "I/O error"), after which the ADC is opened anew. *)
Definition connection_lost (e : env) : bool :=
  match adc_answer e with
  | ReadError true => true
  | _ => false
  end.

(** The calls other than [reset_error_counters] and
    [set_error_threshold], made while no read loses the connection. *)
Definition keeps_connection (c : method_call) : Prop :=
  match c with
  | ReadVoltage e _ | ReadPressure e _ _ => connection_lost e = false
  | ReadAllPressures _ es _ | ValidateSensors _ es =>
      forall k, connection_lost (es k) = false
  | TakeAveragedReading _ es _ _ _ =>
      forall k, connection_lost (es k) = false
  | ResetErrorCounters | SetErrorThreshold _ => False
  | _ => True
  end.

(** An open ADC on which a channel is disabled: its counter has reached
    the threshold [limit], and [n] reads of it have been made. *)
Record locked_out (channel limit : Z) (n : nat) (s : PressureSensor)
  : Prop := {
  lo_initialized : initialized s = true;
  lo_present : adc_present s = true;
  lo_length : length (consecutive_errors s) = 4%nat;
  lo_limit : max_consecutive_errors s = limit;
  lo_errors : (limit <= errors_of s channel)%Z;
  lo_reads : reads_of channel (effects s) = n
}.


(** [self.filtered_values[channel]] for a valid channel. *)
Definition filtered_of (s : PressureSensor) (channel : Z) : Q :=
  default 0%Q (filtered_values s !! Z.to_nat channel).

(** [q ** n]. *)
Fixpoint Qpow (q : Q) (n : nat) : Q :=
  match n with
  | O => 1%Q
  | S n' => (q * Qpow q n')%Q
  end.

(** An open ADC and a channel below its error threshold. *)
Record healthy (channel : Z) (s : PressureSensor) : Prop := {
  he_valid : valid_channel channel = true;
  he_initialized : initialized s = true;
  he_present : adc_present s = true;
  he_errors : length (consecutive_errors s) = 4%nat;
  he_filtered : length (filtered_values s) = 4%nat;
  he_threshold : (1 <= max_consecutive_errors s)%Z;
  he_below : (errors_of s channel < max_consecutive_errors s)%Z
}.


(** What every method relies on and keeps: the three lists have their
    lengths, the filter factor lies in [0, 1], the filtered values and
    the error counters are not negative, the threshold is at least 1. *)
Record well_formed (s : PressureSensor) : Prop := {
  wf_offsets : length (chamber_offsets s) = 3%nat;
  wf_filtered : length (filtered_values s) = 4%nat;
  wf_errors : length (consecutive_errors s) = 4%nat;
  wf_alpha : (0 <= alpha s)%Q /\ (alpha s <= 1)%Q;
  wf_nonneg : Forall (fun v => (0 <= v)%Q) (filtered_values s);
  wf_counts : Forall (fun n => (0 <= n)%Z) (consecutive_errors s);
  wf_threshold : (1 <= max_consecutive_errors s)%Z
}.

(** The pressure that a raw count converts to on a channel. *)
Definition converted (s : PressureSensor) (channel raw : Z) : Q :=
  let base_pressure :=
    (inject_Z raw / 32767 * 4.096 * voltage_multiplier s * 1000
     + voltage_offset s * 1000)%Q in
  if (channel <=? 2)%Z then
    Qmax 0 (base_pressure
            + default 0%Q (chamber_offsets s !! Z.to_nat channel))
  else Qmax 0 base_pressure.

(** The sensor after a successful read of a channel. *)
Definition read_done (s : PressureSensor) (channel : Z) : PressureSensor :=
  with_errors (with_effect s (AdcRead channel))
              (<[Z.to_nat channel := 0%Z]> (consecutive_errors s)).

End SensorSpec.

(** ** test_manager.py: ChamberTestState and TestManager *)

Module TestManager.

(** [PRESSURE_DEFAULTS] and [TIME_DEFAULTS] of constants.py (the values
    of the module's last assignments). *)
Definition PRESSURE_DEFAULTS_TARGET : Q := 150.
Definition PRESSURE_DEFAULTS_THRESHOLD : Q := 5.
Definition PRESSURE_DEFAULTS_TOLERANCE : Q := 2.
Definition PRESSURE_DEFAULTS_MAX_PRESSURE : Q := 600.
Definition TIME_DEFAULTS_TEST_DURATION : Q := 90.
Definition TIME_DEFAULTS_STABILIZATION_TIME : Q := 25.
Definition TIME_DEFAULTS_EMPTY_TIME : Q := 10.

(** *** ChamberTestState *)

(** [result] is a Python attribute that the code tests against [None];
    it is always present, so [hasattr(chamber, 'result')] holds. *)
Record ChamberTestState : Type := {
  chamber_index : Z;
  enabled : bool;
  pressure_target : Q;
  pressure_threshold : Q;
  pressure_tolerance : Q;
  current_pressure : Q;
  pressure_readings : list Q;
  start_pressure : Q;
  final_pressure : Q;
  result : option bool;
  filled : bool;
  regulated : bool;
  stabilized : bool;
  tested : bool;
  pid_controller : option PidController.PIDControllerWrapper
}.

(** [ChamberTestState.__init__]. *)
Definition new_chamber (i : Z) : ChamberTestState :=
  {| chamber_index := i; enabled := true;
     pressure_target := PRESSURE_DEFAULTS_TARGET;
     pressure_threshold := PRESSURE_DEFAULTS_THRESHOLD;
     pressure_tolerance := PRESSURE_DEFAULTS_TOLERANCE;
     current_pressure := 0; pressure_readings := [];
     start_pressure := 0; final_pressure := 0;
     result := Some false;
     filled := false; regulated := false; stabilized := false;
     tested := false; pid_controller := None |}.

(** [ChamberTestState.reset]. *)
Definition reset (ch : ChamberTestState) : ChamberTestState :=
  {| chamber_index := chamber_index ch; enabled := enabled ch;
     pressure_target := pressure_target ch;
     pressure_threshold := pressure_threshold ch;
     pressure_tolerance := pressure_tolerance ch;
     current_pressure := 0; pressure_readings := [];
     start_pressure := 0; final_pressure := 0;
     result := Some false;
     filled := false; regulated := false; stabilized := false;
     tested := false;
     pid_controller := PidController.reset <$> pid_controller ch |}.

(** [ChamberTestState.init_pid_controller]. *)
Definition init_pid_controller (ch : ChamberTestState) : ChamberTestState :=
  {| chamber_index := chamber_index ch; enabled := enabled ch;
     pressure_target := pressure_target ch;
     pressure_threshold := pressure_threshold ch;
     pressure_tolerance := pressure_tolerance ch;
     current_pressure := current_pressure ch;
     pressure_readings := pressure_readings ch;
     start_pressure := start_pressure ch;
     final_pressure := final_pressure ch;
     result := result ch;
     filled := filled ch; regulated := regulated ch;
     stabilized := stabilized ch; tested := tested ch;
     pid_controller := Some (PidController.init (pressure_target ch)) |}.

(** Assignments to single attributes of a chamber. *)
Definition set_enabled (b : bool) (ch : ChamberTestState) :=
  {| chamber_index := chamber_index ch; enabled := b;
     pressure_target := pressure_target ch;
     pressure_threshold := pressure_threshold ch;
     pressure_tolerance := pressure_tolerance ch;
     current_pressure := current_pressure ch;
     pressure_readings := pressure_readings ch;
     start_pressure := start_pressure ch;
     final_pressure := final_pressure ch; result := result ch;
     filled := filled ch; regulated := regulated ch;
     stabilized := stabilized ch; tested := tested ch;
     pid_controller := pid_controller ch |}.

Definition set_parameters (target threshold tolerance : Q)
  (ch : ChamberTestState) :=
  {| chamber_index := chamber_index ch; enabled := enabled ch;
     pressure_target := target;
     pressure_threshold := threshold;
     pressure_tolerance := tolerance;
     current_pressure := current_pressure ch;
     pressure_readings := pressure_readings ch;
     start_pressure := start_pressure ch;
     final_pressure := final_pressure ch; result := result ch;
     filled := filled ch; regulated := regulated ch;
     stabilized := stabilized ch; tested := tested ch;
     pid_controller := pid_controller ch |}.

Definition set_pressure_target (q : Q) (ch : ChamberTestState) :=
  set_parameters q (pressure_threshold ch) (pressure_tolerance ch) ch.

Definition set_pressure_threshold (q : Q) (ch : ChamberTestState) :=
  set_parameters (pressure_target ch) q (pressure_tolerance ch) ch.

Definition set_pressure_tolerance (q : Q) (ch : ChamberTestState) :=
  set_parameters (pressure_target ch) (pressure_threshold ch) q ch.

Definition set_current_pressure (q : Q) (ch : ChamberTestState) :=
  {| chamber_index := chamber_index ch; enabled := enabled ch;
     pressure_target := pressure_target ch;
     pressure_threshold := pressure_threshold ch;
     pressure_tolerance := pressure_tolerance ch;
     current_pressure := q;
     pressure_readings := pressure_readings ch;
     start_pressure := start_pressure ch;
     final_pressure := final_pressure ch; result := result ch;
     filled := filled ch; regulated := regulated ch;
     stabilized := stabilized ch; tested := tested ch;
     pid_controller := pid_controller ch |}.

(** The measurements a test writes: readings, snapshots and verdict. *)
Definition set_measurements (readings : list Q) (start final : Q)
  (res : option bool) (ch : ChamberTestState) :=
  {| chamber_index := chamber_index ch; enabled := enabled ch;
     pressure_target := pressure_target ch;
     pressure_threshold := pressure_threshold ch;
     pressure_tolerance := pressure_tolerance ch;
     current_pressure := current_pressure ch;
     pressure_readings := readings;
     start_pressure := start;
     final_pressure := final; result := res;
     filled := filled ch; regulated := regulated ch;
     stabilized := stabilized ch; tested := tested ch;
     pid_controller := pid_controller ch |}.

Definition append_reading (q : Q) (ch : ChamberTestState) :=
  set_measurements (pressure_readings ch ++ [q]) (start_pressure ch)
                   (final_pressure ch) (result ch) ch.

Definition set_result (r : option bool) (ch : ChamberTestState) :=
  set_measurements (pressure_readings ch) (start_pressure ch)
                   (final_pressure ch) r ch.

Definition set_start_pressure (q : Q) (ch : ChamberTestState) :=
  set_measurements (pressure_readings ch) q (final_pressure ch)
                   (result ch) ch.

Definition set_final_pressure (q : Q) (ch : ChamberTestState) :=
  set_measurements (pressure_readings ch) (start_pressure ch) q
                   (result ch) ch.

(** The phase progress flags. *)
Definition set_flags (f r s t : bool) (ch : ChamberTestState) :=
  {| chamber_index := chamber_index ch; enabled := enabled ch;
     pressure_target := pressure_target ch;
     pressure_threshold := pressure_threshold ch;
     pressure_tolerance := pressure_tolerance ch;
     current_pressure := current_pressure ch;
     pressure_readings := pressure_readings ch;
     start_pressure := start_pressure ch;
     final_pressure := final_pressure ch; result := result ch;
     filled := f; regulated := r; stabilized := s; tested := t;
     pid_controller := pid_controller ch |}.

Definition set_filled (ch : ChamberTestState) :=
  set_flags true (regulated ch) (stabilized ch) (tested ch) ch.

Definition set_regulated (ch : ChamberTestState) :=
  set_flags (filled ch) true (stabilized ch) (tested ch) ch.

Definition set_stabilized (ch : ChamberTestState) :=
  set_flags (filled ch) (regulated ch) true (tested ch) ch.

Definition set_tested (ch : ChamberTestState) :=
  set_flags (filled ch) (regulated ch) (stabilized ch) true ch.

(** *** TestManager *)

Record TestManager : Type := {
  chamber_states : list ChamberTestState;
  test_mode : string;
  current_reference : option string;
  test_duration : Q;
  test_state : string;
  test_phase : option string;
  elapsed_time : Q;
  running_test : bool;
  _stop_requested : bool;
  _monitoring_running : bool
}.

(** [TestManager.__init__]. *)
Definition new_manager : TestManager :=
  {| chamber_states := [new_chamber 0; new_chamber 1; new_chamber 2];
     test_mode := "manual"; current_reference := None;
     test_duration := TIME_DEFAULTS_TEST_DURATION;
     test_state := "IDLE"; test_phase := None; elapsed_time := 0;
     running_test := false; _stop_requested := false;
     _monitoring_running := false |}.

Definition set_chambers (l : list ChamberTestState) (tm : TestManager) :=
  {| chamber_states := l; test_mode := test_mode tm;
     current_reference := current_reference tm;
     test_duration := test_duration tm; test_state := test_state tm;
     test_phase := test_phase tm; elapsed_time := elapsed_time tm;
     running_test := running_test tm;
     _stop_requested := _stop_requested tm;
     _monitoring_running := _monitoring_running tm |}.

Definition set_test_state (s : string) (tm : TestManager) :=
  {| chamber_states := chamber_states tm; test_mode := test_mode tm;
     current_reference := current_reference tm;
     test_duration := test_duration tm; test_state := s;
     test_phase := test_phase tm; elapsed_time := elapsed_time tm;
     running_test := running_test tm;
     _stop_requested := _stop_requested tm;
     _monitoring_running := _monitoring_running tm |}.

Definition set_test_phase (p : option string) (tm : TestManager) :=
  {| chamber_states := chamber_states tm; test_mode := test_mode tm;
     current_reference := current_reference tm;
     test_duration := test_duration tm; test_state := test_state tm;
     test_phase := p; elapsed_time := elapsed_time tm;
     running_test := running_test tm;
     _stop_requested := _stop_requested tm;
     _monitoring_running := _monitoring_running tm |}.

Definition set_elapsed_time (t : Q) (tm : TestManager) :=
  {| chamber_states := chamber_states tm; test_mode := test_mode tm;
     current_reference := current_reference tm;
     test_duration := test_duration tm; test_state := test_state tm;
     test_phase := test_phase tm; elapsed_time := t;
     running_test := running_test tm;
     _stop_requested := _stop_requested tm;
     _monitoring_running := _monitoring_running tm |}.

Definition set_running_test (b : bool) (tm : TestManager) :=
  {| chamber_states := chamber_states tm; test_mode := test_mode tm;
     current_reference := current_reference tm;
     test_duration := test_duration tm; test_state := test_state tm;
     test_phase := test_phase tm; elapsed_time := elapsed_time tm;
     running_test := b;
     _stop_requested := _stop_requested tm;
     _monitoring_running := _monitoring_running tm |}.

Definition set_stop_requested (b : bool) (tm : TestManager) :=
  {| chamber_states := chamber_states tm; test_mode := test_mode tm;
     current_reference := current_reference tm;
     test_duration := test_duration tm; test_state := test_state tm;
     test_phase := test_phase tm; elapsed_time := elapsed_time tm;
     running_test := running_test tm;
     _stop_requested := b;
     _monitoring_running := _monitoring_running tm |}.

Definition set_monitoring_running (b : bool) (tm : TestManager) :=
  {| chamber_states := chamber_states tm; test_mode := test_mode tm;
     current_reference := current_reference tm;
     test_duration := test_duration tm; test_state := test_state tm;
     test_phase := test_phase tm; elapsed_time := elapsed_time tm;
     running_test := running_test tm;
     _stop_requested := _stop_requested tm;
     _monitoring_running := b |}.

(** In-place mutation of the chamber object at position [i]. *)
Definition update_chamber (i : nat) (f : ChamberTestState -> ChamberTestState)
  (tm : TestManager) : TestManager :=
  set_chambers (alter f i (chamber_states tm)) tm.

(** *** set_chamber_parameters *)

(** The values a parameter dictionary holds, with Python's [bool()] and
    [float()] conversions. *)
Inductive pyval : Type :=
| PyBool (b : bool)
| PyFloat (q : Q).

Definition py_bool (v : pyval) : bool :=
  match v with
  | PyBool b => b
  | PyFloat q => negb (Qeqb q 0)
  end.

Definition py_float (v : pyval) : Q :=
  match v with
  | PyBool b => if b then 1%Q else 0%Q
  | PyFloat q => q
  end.

(** One validated field assignment: the flag tells whether the method
    goes on ([true]) or has returned [False]; the chamber is the object
    as mutated so far. *)
Definition field_update : Type :=
  ChamberTestState -> bool * ChamberTestState.

Definition and_then (f g : field_update) : field_update :=
  fun ch => let '(ok, ch') := f ch in if ok then g ch' else (false, ch').

Definition update_enabled (params : gmap string pyval) : field_update :=
  fun ch =>
    match params !! "enabled" with
    | Some v => (true, set_enabled (py_bool v) ch)
    | None => (true, ch)
    end.

Definition update_target (params : gmap string pyval) : field_update :=
  fun ch =>
    match params !! "pressure_target" with
    | Some v =>
        let target := py_float v in
        if Qleb 0 target && Qleb target PRESSURE_DEFAULTS_MAX_PRESSURE
        then (true, set_pressure_target target ch)
        else (false, ch)
    | None => (true, ch)
    end.

Definition update_threshold (params : gmap string pyval) : field_update :=
  fun ch =>
    match params !! "pressure_threshold" with
    | Some v =>
        let threshold := py_float v in
        if Qleb 0 threshold
        then (true, set_pressure_threshold threshold ch)
        else (false, ch)
    | None => (true, ch)
    end.

Definition update_tolerance (params : gmap string pyval) : field_update :=
  fun ch =>
    match params !! "pressure_tolerance" with
    | Some v =>
        let tolerance := py_float v in
        if Qleb 0 tolerance
        then (true, set_pressure_tolerance tolerance ch)
        else (false, ch)
    | None => (true, ch)
    end.

(** [set_chamber_parameters]: the returned flag and the manager as the
    call leaves it. *)
Definition set_chamber_parameters (tm : TestManager) (chamber_index : Z)
  (params : gmap string pyval) : bool * TestManager :=
  if negb ((0 <=? chamber_index)%Z && (chamber_index <=? 2)%Z)
  then (false, tm)
  else if running_test tm then (false, tm)
  else
    match chamber_states tm !! Z.to_nat chamber_index with
    | None => (false, tm)
    | Some chamber =>
        let '(ok, chamber') :=
          and_then (update_enabled params)
            (and_then (update_target params)
               (and_then (update_threshold params)
                  (update_tolerance params))) chamber in
        (ok, update_chamber (Z.to_nat chamber_index)
                            (fun _ => chamber') tm)
    end.

(** *** The world a test run acts on *)

(** Observable actions of the manager, oldest first: status and progress
    reports, valve commands, sleeps, and the final report. *)
Inductive event : Type :=
| Status (state message : string)
| Progress (phase : string) (overall : Q)
| SetChamberValves (chamber : Z) (inlet outlet : bool)
| SetInletValve (chamber : Z) (opened : bool)
| EmptyChamber (chamber : Z)
| StopChamber (chamber : Z)
| TimeSleep (seconds : Q)
| LogError (message : string)
| ReportResult (overall : bool) (chambers : list (Z * bool)).

Record World : Type := {
  tm : TestManager;
  clock : Q;
  events : list event
}.

Definition on_tm (f : TestManager -> TestManager) (w : World) : World :=
  {| tm := f (tm w); clock := clock w; events := events w |}.

Definition emit (e : event) (w : World) : World :=
  {| tm := tm w; clock := clock w; events := events w ++ [e] |}.

Definition set_clock (t : Q) (w : World) : World :=
  {| tm := tm w; clock := t; events := events w |}.

(** What the other threads did since the test thread last looked: the
    time that [time.time()] now returns, whether the operator called
    [stop_test], and the pressures the monitoring thread read. *)
Record env_step : Type := {
  at_time : Q;
  ui_stop : bool;
  published : list (option Q)
}.

(** [_update_status]: the call of the status callback is an event, and
    the callback is taken to return; [update_status_with], further
    down, is the method with a callback that may raise. *)
Definition _update_status (message : string) (w : World) : World :=
  emit (Status (test_state (tm w)) message) w.

(** [_update_progress], with a progress callback that returns. *)
Definition _update_progress (phase : string) (progress : Q) (w : World)
  : World :=
  emit (Progress phase progress) w.

(** [stop_test]. *)
Definition stop_test (w : World) : World :=
  if negb (running_test (tm w)) then w
  else
    _update_status "Stopping test..."
      (on_tm (fun t => set_test_state "STOPPING" (set_stop_requested true t))
             w).

(** One round of [_monitor_pressure]: the pressures that are not [None]
    are stored in the chambers of the same position. *)
Fixpoint store_pressures (i : nat) (pressures : list (option Q))
  (chambers : list ChamberTestState) : list ChamberTestState :=
  match pressures with
  | [] => chambers
  | p :: rest =>
      store_pressures (S i) rest
        (match p with
         | Some q => alter (set_current_pressure q) i chambers
         | None => chambers
         end)
  end.

Definition _monitor_pressure (pressures : list (option Q)) (t : TestManager)
  : TestManager :=
  if _monitoring_running t && running_test t
  then set_chambers (store_pressures 0 pressures (chamber_states t)) t
  else t.

Definition apply_env (e : env_step) (w : World) : World :=
  let w1 := set_clock (at_time e) w in
  let w2 := if ui_stop e then stop_test w1 else w1 in
  on_tm (_monitor_pressure (published e)) w2.

(** [_check_stop_requested]. *)
Definition _check_stop_requested (w : World) : bool * World :=
  if _stop_requested (tm w) then
    if negb (String.eqb (test_state (tm w)) "STOPPING")
       && negb (String.eqb (test_state (tm w)) "EMPTYING")
    then (true, _update_status "Test stop requested"
                  (on_tm (set_test_state "STOPPING") w))
    else (true, w)
  else (false, w).

Definition enter_phase (phase state message : string) (w : World) : World :=
  _update_status message
    (on_tm (fun t => set_test_state state (set_test_phase (Some phase) t)) w).

(** How a call ends: with a value, or with an exception.  The second
    class is the one [except Exception] does not catch. *)
Inductive exn : Type :=
| PyException (message : string)
| PyBaseException (message : string).

Inductive outcome (A : Type) : Type :=
| Val (a : A)
| Exc (e : exn).
Arguments Val {A} a.
Arguments Exc {A} e.

(** A method of the manager run by the test thread.  It consumes the
    steps of the environment it lives through; [None] means that the
    listed steps ended while the method was still looping. *)
Definition action (A : Type) : Type :=
  list env_step -> World -> option (outcome A * World * list env_step).

(** *** TESTING *)

(** The body of the monitoring loop for one chamber. *)
Definition testing_sample (ch : ChamberTestState) : ChamberTestState :=
  if negb (enabled ch) || negb (stabilized ch) then ch
  else
    let ch1 := append_reading (current_pressure ch) ch in
    if Qltb (current_pressure ch1) (pressure_threshold ch1)
    then set_result (Some false) ch1
    else ch1.

(** The [while] loop of [_run_testing_phase]. *)
Fixpoint testing_loop (env : list env_step) (start_time duration : Q)
  (w : World) : option (World * list env_step) :=
  match env with
  | [] => None
  | e :: env' =>
      let w0 := apply_env e w in
      if Qltb (elapsed_time (tm w0)) duration then
        let '(stop, w1) := _check_stop_requested w0 in
        if stop then Some (w1, env')
        else
          let elapsed := (clock w1 - start_time)%Q in
          let w2 := on_tm (set_elapsed_time elapsed) w1 in
          let w3 :=
            _update_progress "testing" (0.4 + 0.4 * (elapsed / duration))
                             w2 in
          let w4 :=
            on_tm (fun t => set_chambers
                              (map testing_sample (chamber_states t)) t)
                  w3 in
          testing_loop env' start_time duration (emit (TimeSleep 0.1) w4)
      else Some (w0, env')
  end.

(** The final pass over the chambers. *)
Definition testing_conclude (ch : ChamberTestState) : ChamberTestState :=
  if enabled ch && stabilized ch then
    let ch1 := set_final_pressure (current_pressure ch) (set_tested ch) in
    match result ch1 with
    | None => set_result (Some true) ch1
    | Some _ => ch1
    end
  else ch.

(** [_run_testing_phase]. *)
Definition _run_testing_phase : action bool :=
  fun env w =>
    let w1 := enter_phase "testing" "TESTING" "Test in progress..." w in
    match testing_loop env (clock w1) (test_duration (tm w1)) w1 with
    | None => None
    | Some (w2, env') =>
        let w3 :=
          on_tm (fun t => set_chambers
                            (map testing_conclude (chamber_states t)) t)
                w2 in
        let '(stop, w4) := _check_stop_requested w3 in
        Some (Val (negb stop), w4, env')
    end.

(** *** EMPTYING *)

Definition for_enabled (f : Z -> event) (w : World) : World :=
  fold_left (fun acc ch => if enabled ch then emit (f (chamber_index ch)) acc
                           else acc)
            (chamber_states (tm w)) w.

Definition all_empty (t : TestManager) : bool :=
  forallb (fun ch => negb (enabled ch && Qltb 10 (current_pressure ch)))
          (chamber_states t).

Fixpoint emptying_loop (env : list env_step) (emptying_start timeout : Q)
  (w : World) : option (World * list env_step) :=
  match env with
  | [] => None
  | e :: env' =>
      let w0 := apply_env e w in
      let elapsed := (clock w0 - emptying_start)%Q in
      if Qltb elapsed timeout then
        let w1 :=
          _update_progress "emptying" (0.8 + 0.2 * (elapsed / timeout)) w0 in
        if all_empty (tm w1) then Some (w1, env')
        else emptying_loop env' emptying_start timeout
                           (emit (TimeSleep 0.1) w1)
      else Some (w0, env')
  end.

(** [_run_emptying_phase], with callbacks that return; a valve command
    that raises is caught and logged by the method itself. *)
Definition _run_emptying_phase : action bool :=
  fun env w =>
    let w1 := enter_phase "emptying" "EMPTYING" "Emptying chambers..." w in
    let emptying_start := clock w1 in
    let w2 := for_enabled (fun i => SetInletValve i false) w1 in
    let w3 := emit (TimeSleep 0.2) w2 in
    let w4 := for_enabled EmptyChamber w3 in
    match emptying_loop env emptying_start TIME_DEFAULTS_EMPTY_TIME w4 with
    | None => None
    | Some (w5, env') =>
        Some (Val true, for_enabled StopChamber w5, env')
    end.

(** *** Results *)

(** Python truth of [chamber.result]. *)
Definition result_truth (ch : ChamberTestState) : bool :=
  match result ch with Some true => true | _ => false end.

(** The loop that computes [overall_result]. *)
Definition overall_result (t : TestManager) : bool :=
  forallb (fun ch => negb (enabled ch) || (tested ch && result_truth ch))
          (chamber_states t).

Definition test_data (t : TestManager) : list (Z * bool) :=
  map (fun ch => (chamber_index ch, result_truth ch))
      (List.filter enabled (chamber_states t)).

(** [_process_results], with callbacks that return (the logger and the
    printer catch their own exceptions); [_process_results_with],
    further down, is the method with callbacks that may raise. *)
Definition _process_results (success : bool) : action unit :=
  fun env w =>
    if negb success then
      let stopped := _stop_requested (tm w) in
      Some (Val tt,
            _update_status (if stopped then "Test stopped" else "Test error")
              (on_tm (set_test_state (if stopped then "STOPPED" else "ERROR"))
                     w),
            env)
    else
      let overall := overall_result (tm w) in
      let w1 :=
        _update_status
          (if overall then "Test complete - PASS" else "Test complete - FAIL")
          (on_tm (set_test_state "COMPLETE") w) in
      Some (Val tt, emit (ReportResult overall (test_data (tm w1))) w1, env).

(** [_start_monitoring] and [_stop_monitoring]. *)
Definition _start_monitoring : action unit :=
  fun env w => Some (Val tt, on_tm (set_monitoring_running true) w, env).

Definition _stop_monitoring : action unit :=
  fun env w => Some (Val tt, on_tm (set_monitoring_running false) w, env).

(** *** FILLING *)

(** Lists of chamber objects are lists of positions in [chamber_states]:
    the objects are shared, so a later read sees every earlier write. *)
Definition chamber_at (t : TestManager) (i : nat) : option ChamberTestState :=
  chamber_states t !! i.

Definition holds_at (t : TestManager) (P : ChamberTestState -> bool)
  (i : nat) : bool :=
  match chamber_at t i with Some ch => P ch | None => false end.

Definition chambers_where (t : TestManager) (P : ChamberTestState -> bool)
  : list nat :=
  List.filter (holds_at t P) (seq 0 (length (chamber_states t))).

(** [all(P(ch) for ch in self.chamber_states if ch.enabled)]. *)
Definition all_enabled (t : TestManager) (P : ChamberTestState -> bool)
  : bool :=
  forallb (fun ch => negb (enabled ch) || P ch) (chamber_states t).

(** How a loop is left: by its condition or a [break], or by [return]. *)
Inductive loop_exit : Type :=
| LoopDone
| Returned (value : bool).

Definition fill_one (w : World) (i : nat) : World :=
  match chamber_at (tm w) i with
  | None => w
  | Some ch =>
      if Qleb (pressure_target ch) (current_pressure ch) then
        on_tm (update_chamber i set_filled)
              (emit (SetChamberValves (chamber_index ch) false false) w)
      else emit (SetChamberValves (chamber_index ch) true false) w
  end.

Fixpoint filling_loop (env : list env_step) (start_time : Q)
  (chambers_filling : list nat) (w : World)
  : option (loop_exit * World * list env_step) :=
  match env with
  | [] => None
  | e :: env' =>
      let w0 := apply_env e w in
      match chambers_filling with
      | [] => Some (LoopDone, w0, env')
      | _ =>
          let '(stop, w1) := _check_stop_requested w0 in
          if stop then Some (LoopDone, w1, env')
          else
            let elapsed := (clock w1 - start_time)%Q in
            if Qltb 60 elapsed then
              Some (Returned false, emit (LogError "Fill phase timeout") w1,
                    env')
            else
              let w2 := _update_progress "filling" (0.1 * (elapsed / 60)) w1 in
              let still :=
                List.filter (holds_at (tm w2) (fun ch => negb (filled ch)))
                            chambers_filling in
              match still with
              | [] => Some (LoopDone, w2, env')
              | _ =>
                  let w3 := fold_left fill_one still w2 in
                  filling_loop env' start_time still
                               (emit (TimeSleep 0.1) w3)
              end
      end
  end.

(** [_run_filling_phase]. *)
Definition _run_filling_phase : action bool :=
  fun env w =>
    let w1 := enter_phase "filling" "FILLING" "Filling chambers..." w in
    match filling_loop env (clock w1) (chambers_where (tm w1) enabled) w1 with
    | None => None
    | Some (Returned b, w2, env') => Some (Val b, w2, env')
    | Some (LoopDone, w2, env') =>
        let '(stop, w3) := _check_stop_requested w2 in
        if stop then Some (Val false, w3, env')
        else Some (Val (all_enabled (tm w3) filled), w3, env')
    end.

(** *** REGULATING *)

(** The three control modes written out in [_run_regulation_phase]. *)
Inductive control_mode : Type := FAST | MEDIUM | FINE.

Definition mode_threshold (m : control_mode) : Q :=
  match m with FAST => 10 | MEDIUM => 5 | FINE => 1 end.

Definition mode_pulse_on (m : control_mode) : Q :=
  match m with FAST => 0.1 | MEDIUM => 0.05 | FINE => 0.02 end.

Definition mode_pulse_off (m : control_mode) : Q :=
  match m with FAST => 0.05 | MEDIUM => 0.1 | FINE => 0.2 end.

Definition select_control_mode (abs_error : Q) : control_mode :=
  if Qltb (mode_threshold FAST) abs_error then FAST
  else if Qltb (mode_threshold MEDIUM) abs_error then MEDIUM
  else FINE.

(** The four dictionaries keyed by chamber index. *)
Record regulation_locals : Type := {
  regulation_states : gmap Z string;
  pressure_rates : gmap Z (list Q);
  last_pressures : gmap Z (option Q);
  stable_counts : gmap Z Z
}.

Definition init_locals (t : TestManager) (chambers : list nat)
  : regulation_locals :=
  let keys :=
    omap (fun i => chamber_index <$> chamber_at t i) chambers in
  {| regulation_states := list_to_map (map (fun k => (k, "fast")) keys);
     pressure_rates := list_to_map (map (fun k => (k, [])) keys);
     last_pressures := list_to_map (map (fun k => (k, None)) keys);
     stable_counts := list_to_map (map (fun k => (k, 0%Z)) keys) |}.

(** [rates.append(rate)] with [pop(0)] beyond ten entries. *)
Definition push_rate (rates : list Q) (rate : Q) : list Q :=
  let r := rates ++ [rate] in
  if (10 <? length r)%nat then tail r else r.

Definition record_rate (k : Z) (current : Q) (loc : regulation_locals)
  : regulation_locals :=
  {| regulation_states := regulation_states loc;
     pressure_rates :=
       match default None (last_pressures loc !! k) with
       | Some lp =>
           <[k := push_rate (default [] (pressure_rates loc !! k))
                            ((current - lp) / 0.1)%Q]>
             (pressure_rates loc)
       | None => pressure_rates loc
       end;
     last_pressures := <[k := Some current]> (last_pressures loc);
     stable_counts := stable_counts loc |}.

Definition set_stable_count (k : Z) (n : Z) (loc : regulation_locals)
  : regulation_locals :=
  {| regulation_states := regulation_states loc;
     pressure_rates := pressure_rates loc;
     last_pressures := last_pressures loc;
     stable_counts := <[k := n]> (stable_counts loc) |}.

Definition set_regulation_state (k : Z) (s : string)
  (loc : regulation_locals) : regulation_locals :=
  {| regulation_states := <[k := s]> (regulation_states loc);
     pressure_rates := pressure_rates loc;
     last_pressures := last_pressures loc;
     stable_counts := stable_counts loc |}.

(** The mean of the recorded rates, or 0 when none is recorded. *)
Definition average_rate (rates : list Q) : Q :=
  match rates with
  | [] => 0%Q
  | _ => (Qsum rates / inject_Z (Z.of_nat (length rates)))%Q
  end.

(** The control action at the end of the loop body. *)
Definition control_action (k : Z) (error tolerance : Q) (mode : control_mode)
  (avg_rate : Q) (w : World) (loc : regulation_locals)
  : World * regulation_locals :=
  let rate_factor := Qmin 1 (Qabs avg_rate / 10) in
  let adjusted_pulse_on := (mode_pulse_on mode * (1 - rate_factor))%Q in
  let adjusted_pulse_off := (mode_pulse_off mode * (1 + rate_factor))%Q in
  if Qltb tolerance error then
    (emit (TimeSleep adjusted_pulse_off)
       (emit (SetChamberValves k false false)
          (emit (TimeSleep adjusted_pulse_on)
             (emit (SetChamberValves k true false) w))),
     set_regulation_state k "filling" loc)
  else if Qltb error (- tolerance) then
    (emit (TimeSleep adjusted_pulse_off)
       (emit (SetChamberValves k false false)
          (emit (TimeSleep (adjusted_pulse_on * 1.5))
             (emit (SetChamberValves k false true) w))),
     set_regulation_state k "venting" loc)
  else
    (emit (SetChamberValves k false false) w,
     set_regulation_state k "stable" loc).

(** The loop body for one chamber. *)
Definition regulate_one (st : World * regulation_locals) (i : nat)
  : World * regulation_locals :=
  let '(w, loc) := st in
  match chamber_at (tm w) i with
  | None => st
  | Some ch =>
      let k := chamber_index ch in
      let current := current_pressure ch in
      let error := (pressure_target ch - current)%Q in
      let abs_error := Qabs error in
      let tolerance := pressure_tolerance ch in
      let loc1 := record_rate k current loc in
      let within := Qleb abs_error tolerance in
      let count :=
        if within then (default 0%Z (stable_counts loc1 !! k) + 1)%Z
        else 0%Z in
      let loc2 := set_stable_count k count loc1 in
      if within && (5 <=? count)%Z then
        (on_tm (update_chamber i set_regulated)
               (emit (SetChamberValves k false false) w),
         loc2)
      else
        control_action k error tolerance (select_control_mode abs_error)
          (average_rate (default [] (pressure_rates loc2 !! k))) w loc2
  end.

Fixpoint regulation_loop (env : list env_step) (start_time : Q)
  (chambers_regulating : list nat) (loc : regulation_locals) (w : World)
  : option (loop_exit * World * list env_step) :=
  match env with
  | [] => None
  | e :: env' =>
      let w0 := apply_env e w in
      match chambers_regulating with
      | [] => Some (LoopDone, w0, env')
      | _ =>
          let '(stop, w1) := _check_stop_requested w0 in
          if stop then Some (LoopDone, w1, env')
          else
            let elapsed := (clock w1 - start_time)%Q in
            if Qltb 120 elapsed then
              Some (Returned false,
                    emit (LogError "Regulation phase timeout") w1, env')
            else
              let w2 :=
                _update_progress "regulating"
                                 (0.1 + 0.2 * (elapsed / 120)) w1 in
              let still :=
                List.filter (holds_at (tm w2) (fun ch => negb (regulated ch)))
                            chambers_regulating in
              match still with
              | [] => Some (LoopDone, w2, env')
              | _ =>
                  let '(w3, loc') := fold_left regulate_one still (w2, loc) in
                  regulation_loop env' start_time still loc'
                                  (emit (TimeSleep 0.1) w3)
              end
      end
  end.

(** [_run_regulation_phase]. *)
Definition _run_regulation_phase : action bool :=
  fun env w =>
    let w1 := enter_phase "regulating" "REGULATING" "Regulating pressure..."
                          w in
    let chambers :=
      chambers_where (tm w1) (fun ch => enabled ch && filled ch) in
    match regulation_loop env (clock w1) chambers
                          (init_locals (tm w1) chambers) w1 with
    | None => None
    | Some (Returned b, w2, env') => Some (Val b, w2, env')
    | Some (LoopDone, w2, env') =>
        let w3 := for_enabled (fun k => SetChamberValves k false false) w2 in
        let '(stop, w4) := _check_stop_requested w3 in
        if stop then Some (Val false, w4, env')
        else Some (Val (all_enabled (tm w4) regulated), w4, env')
    end.

(** *** STABILIZING *)

(** [readings.append(p)] with [pop(0)] beyond fifty entries. *)
Definition push_reading (readings : list Q) (p : Q) : list Q :=
  let r := readings ++ [p] in
  if (50 <? length r)%nat then tail r else r.

(** [readings[-20:]]. *)
Definition last20 (readings : list Q) : list Q :=
  drop (length readings - 20) readings.

(** Whether the last twenty readings stay within the tolerance of
    their mean. *)
Definition window_stable (readings : list Q) (tolerance : Q) : bool :=
  if (20 <=? length readings)%nat then
    let mean_pressure := (Qsum (last20 readings) / 20)%Q in
    let max_deviation :=
      fold_right Qmax 0%Q
        (map (fun p => Qabs (p - mean_pressure)) (last20 readings)) in
    negb (Qltb tolerance max_deviation)
  else false.

(** The loop body over all chambers: the readings dictionary and the
    flag [all_stable]. *)
Definition stabilize_one (st : gmap Z (list Q) * bool)
  (ch : ChamberTestState)
  : gmap Z (list Q) * bool :=
  let '(readings, all_stable) := st in
  if negb (enabled ch) || negb (regulated ch) then st
  else
    let k := chamber_index ch in
    let r := push_reading (default [] (readings !! k)) (current_pressure ch) in
    (<[k := r]> readings,
     all_stable && window_stable r (pressure_tolerance ch)).

Fixpoint stabilization_loop (env : list env_step)
  (start_time stability_duration : Q) (readings : gmap Z (list Q))
  (all_stable : bool) (w : World)
  : option (bool * World * list env_step) :=
  match env with
  | [] => None
  | e :: env' =>
      let w0 := apply_env e w in
      if all_stable then Some (all_stable, w0, env')
      else
        let '(stop, w1) := _check_stop_requested w0 in
        if stop then Some (all_stable, w1, env')
        else
          let elapsed := (clock w1 - start_time)%Q in
          if Qltb stability_duration elapsed then
            Some (all_stable, w1, env')
          else
            let w2 :=
              _update_progress "stabilizing"
                (0.3 + 0.1 * (elapsed / stability_duration)) w1 in
            let '(readings', stable') :=
              fold_left stabilize_one (chamber_states (tm w2))
                        (readings, true) in
            stabilization_loop env' start_time stability_duration
                               readings' stable' (emit (TimeSleep 0.1) w2)
  end.

Definition stabilization_conclude (ch : ChamberTestState)
  : ChamberTestState :=
  if enabled ch && regulated ch
  then set_start_pressure (current_pressure ch) (set_stabilized ch)
  else ch.

(** [_run_stabilization_phase]. *)
Definition _run_stabilization_phase : action bool :=
  fun env w =>
    let w1 := enter_phase "stabilizing" "STABILIZING"
                          "Stabilizing pressure..." w in
    let readings : gmap Z (list Q) :=
      list_to_map
        (map (fun ch => (chamber_index ch, []))
             (List.filter enabled (chamber_states (tm w1)))) in
    match stabilization_loop env (clock w1) TIME_DEFAULTS_STABILIZATION_TIME
                             readings false w1 with
    | None => None
    | Some (_, w2, env') =>
        Some (Val true,
              on_tm (fun t => set_chambers
                                (map stabilization_conclude (chamber_states t))
                                t) w2,
              env')
    end.

(** *** The test thread: _run_test *)

(** The phase methods, as names in the record of calls. *)
Inductive phase_name : Type :=
| FILLING | REGULATING | STABILIZING | TESTING | EMPTYING.

#[export] Instance phase_name_eq_dec : EqDecision phase_name.
Proof. solve_decision. Defined.

(** The state of a run: which phase methods have been called so far
    (kept apart from the world, so that no method can alter it), the
    world, and the environment steps still to come. *)
Record run_state : Type := {
  calls : list phase_name;
  world : World;
  pending : list env_step
}.

(** Computations of the test thread: state passing with exceptions. *)
Definition M (A : Type) : Type :=
  run_state -> option (outcome A * run_state).

#[export] Instance M_ret : MRet M :=
  fun A (a : A) st => Some (Val a, st).

#[export] Instance M_bind : MBind M :=
  fun A B (f : A -> M B) (c : M A) st =>
    match c st with
    | None => None
    | Some (Val a, st') => f a st'
    | Some (Exc e, st') => Some (Exc e, st')
    end.

Definition raise {A} (e : exn) : M A := fun st => Some (Exc e, st).

(** A method of the manager run inside the test thread. *)
Definition lift {A} (a : action A) : M A :=
  fun st =>
    match a (pending st) (world st) with
    | None => None
    | Some (o, w', env') =>
        Some (o, {| calls := calls st; world := w'; pending := env' |})
    end.

(** A call of a phase method, noted in the record of calls. *)
Definition call {A} (p : phase_name) (a : action A) : M A :=
  fun st =>
    lift a {| calls := calls st ++ [p]; world := world st;
              pending := pending st |}.

Definition modify_tm (f : TestManager -> TestManager) : M unit :=
  fun st =>
    Some (Val tt, {| calls := calls st; world := on_tm f (world st);
                     pending := pending st |}).

Definition get_tm : M TestManager :=
  fun st => Some (Val (tm (world st)), st).

(** [try: body / except Exception as e: handler(str(e))]. *)
Definition try_except {A} (body : M A) (handler : string -> M A) : M A :=
  fun st =>
    match body st with
    | Some (Exc (PyException message), st') => handler message st'
    | r => r
    end.

(** [try: body / finally: final].  The final block is given the way the
    body ended, from which it reads the local variables the body has
    set; an exception raised by the final block replaces a pending one. *)
Definition try_finally {A} (body : M A) (final : outcome A -> M unit)
  : M A :=
  fun st =>
    match body st with
    | None => None
    | Some (o, st') =>
        match final o st' with
        | None => None
        | Some (Val _, st'') => Some (o, st'')
        | Some (Exc e, st'') => Some (Exc e, st'')
        end
    end.

(** [if not phase(): raise Exception(message)]. *)
Definition require (b : bool) (message : string) : M unit :=
  if b then mret tt else raise (PyException message).

Definition terminal_state (s : string) : bool :=
  String.eqb s "COMPLETE" || String.eqb s "ERROR" || String.eqb s "STOPPED".

Section RunTest.

(** The methods [_run_test] calls.  The theorems about [_run_test]
    hold for any behaviour of theirs. *)
Variables filling regulation stabilization testing emptying : action bool.
Variable process_results : bool -> action unit.
Variables start_monitoring stop_monitoring : action unit.
Variable update_status : string -> action unit.

(** The inner [try] block; its value is the local variable [result]. *)
Definition run_phases : M bool :=
  ok ← call FILLING filling;
  require ok "Fill phase failed";;
  ok ← call REGULATING regulation;
  require ok "Regulation phase failed";;
  ok ← call STABILIZING stabilization;
  require ok "Stabilization phase failed";;
  ok ← call TESTING testing;
  require ok "Testing phase failed";;
  mret true.

Definition on_test_error (prefix message : string) : M unit :=
  modify_tm (set_test_state "ERROR");;
  lift (update_status (String.append prefix message)).

(** The inner [finally] block; [result] is [True] only when the
    [try] block ran to its last statement. *)
Definition cleanup (o : outcome bool) : M unit :=
  let result := match o with Val b => b | Exc _ => false end in
  call EMPTYING emptying;;
  lift (process_results result);;
  lift stop_monitoring.

Definition mark_not_running : M unit :=
  modify_tm (set_running_test false);;
  t ← get_tm;
  if terminal_state (test_state t) then mret tt
  else modify_tm (set_test_state "IDLE");; lift (update_status "Test idle").

(** [_run_test]. *)
Definition _run_test : M unit :=
  try_finally
    (try_except
       (lift start_monitoring;;
        try_finally
          (try_except run_phases
             (fun message =>
                on_test_error "Error: " message;; mret false))
          cleanup;;
        mret tt)
       (fun message => on_test_error "Unhandled error: " message))
    (fun _ => mark_not_running).

End RunTest.

(** [_update_status] as a method call of the test thread. *)
Definition update_status_action (message : string) : action unit :=
  fun env w => Some (Val tt, _update_status message w, env).

(** The test thread of this class: [_run_test] on its own methods. *)
Abbreviation test_thread :=
  (_run_test _run_filling_phase _run_regulation_phase
             _run_stabilization_phase _run_testing_phase _run_emptying_phase
             _process_results _start_monitoring _stop_monitoring
             update_status_action).

(** [start_test], up to the start of the thread; [has_permission] is the
    answer of the role manager. *)
Definition start_test (has_permission : bool) (w : World) : bool * World :=
  let t := tm w in
  if running_test t then (false, w)
  else if String.eqb (test_mode t) "reference"
          && match current_reference t with
             | None | Some "" => true
             | Some _ => false
             end
  then (false, w)
  else if negb (existsb enabled (chamber_states t)) then (false, w)
  else if negb has_permission then (false, _update_status "ERROR" w)
  else
    (true,
     on_tm (fun t =>
              set_chambers
                (map (fun ch => init_pid_controller (reset ch))
                     (chamber_states t))
                (set_elapsed_time 0
                   (set_test_phase None
                      (set_test_state "IDLE"
                         (set_running_test true
                            (set_stop_requested false t))))))
           w).

(** A whole run: [start_test] and, when it starts one, the test thread
    lived through the given environment.  When [start_test] refuses, no
    thread runs and the state is the one [start_test] left. *)
Definition run (has_permission : bool) (env : list env_step) (w : World)
  : option (outcome unit * run_state) :=
  let '(started, w1) := start_test has_permission w in
  let st := {| calls := []; world := w1; pending := env |} in
  if started then test_thread st else Some (Val tt, st).

(** *** Configuration of a test *)

(** Assignment of the three configuration attributes of the manager. *)
Definition with_configuration (mode : string) (reference : option string)
  (duration : Q) (tm : TestManager) : TestManager :=
  {| chamber_states := chamber_states tm; test_mode := mode;
     current_reference := reference;
     test_duration := duration; test_state := test_state tm;
     test_phase := test_phase tm; elapsed_time := elapsed_time tm;
     running_test := running_test tm;
     _stop_requested := _stop_requested tm;
     _monitoring_running := _monitoring_running tm |}.

Definition with_test_mode (mode : string) (tm : TestManager) : TestManager :=
  with_configuration mode (current_reference tm) (test_duration tm) tm.

Definition with_current_reference (reference : option string)
  (tm : TestManager) : TestManager :=
  with_configuration (test_mode tm) reference (test_duration tm) tm.

Definition with_test_duration (duration : Q) (tm : TestManager)
  : TestManager :=
  with_configuration (test_mode tm) (current_reference tm) duration tm.

(** What [reference_db.load_reference] returns for a barcode that it
    knows, a dictionary that is not empty: the keys that [set_test_mode]
    reads, each of which may be missing. *)
Record reference_chamber : Type := {
  ref_enabled : option bool;
  ref_pressure_target : option Q;
  ref_pressure_threshold : option Q;
  ref_pressure_tolerance : option Q
}.

Record reference_data : Type := {
  ref_test_duration : option Q;
  ref_chambers : option (list reference_chamber)
}.

(** The assignments of one entry of the reference to a chamber. *)
Definition apply_reference_chamber (r : reference_chamber)
  (ch : ChamberTestState) : ChamberTestState :=
  set_parameters
    (default PRESSURE_DEFAULTS_TARGET (ref_pressure_target r))
    (default PRESSURE_DEFAULTS_THRESHOLD (ref_pressure_threshold r))
    (default PRESSURE_DEFAULTS_TOLERANCE (ref_pressure_tolerance r))
    (set_enabled (default true (ref_enabled r)) ch).

(** [for i, chamber in enumerate(chamber_data)]. *)
Fixpoint apply_reference_chambers (i : nat) (data : list reference_chamber)
  (chambers : list ChamberTestState) : list ChamberTestState :=
  match data with
  | [] => chambers
  | r :: rest =>
      apply_reference_chambers (S i) rest
        (if (i <? length chambers)%nat
         then alter (apply_reference_chamber r) i chambers
         else chambers)
  end.

(** [set_test_mode]; [reference_db] is the database, if the manager has
    one, as the function from barcodes to what [load_reference] returns
    ([None] for an unknown barcode). *)
Definition set_test_mode
  (reference_db : option (string -> option reference_data))
  (mode : string) (reference : option string) (tm : TestManager)
  : bool * TestManager :=
  if running_test tm then (false, tm)
  else if negb (String.eqb mode "manual" || String.eqb mode "reference")
  then (false, tm)
  else
    let tm1 := with_test_mode mode tm in
    if String.eqb mode "reference" then
      match reference with
      | None | Some "" => (false, tm1)
      | Some barcode =>
          match reference_db with
          | None => (false, tm1)
          | Some load_reference =>
              match load_reference barcode with
              | None => (false, tm1)
              | Some ref_data =>
                  let tm2 :=
                    with_test_duration
                      (default TIME_DEFAULTS_TEST_DURATION
                               (ref_test_duration ref_data))
                      (with_current_reference (Some barcode) tm1) in
                  (true,
                   set_chambers
                     (apply_reference_chambers 0
                        (default [] (ref_chambers ref_data))
                        (chamber_states tm2))
                     tm2)
              end
          end
      end
    else (true, with_current_reference None tm1).

(** [reload_reference]. *)
Definition reload_reference
  (reference_db : option (string -> option reference_data))
  (tm : TestManager) : bool * TestManager :=
  if negb (String.eqb (test_mode tm) "reference")
     || match current_reference tm with
        | None | Some "" => true
        | Some _ => false
        end
  then (false, tm)
  else set_test_mode reference_db "reference" (current_reference tm) tm.

(** [set_test_duration]. *)
Definition set_test_duration (duration : Z) (tm : TestManager)
  : bool * TestManager :=
  if running_test tm then (false, tm)
  else if (duration <=? 0)%Z then (false, tm)
  else (true, with_test_duration (inject_Z duration) tm).

(** [get_enabled_chambers]. *)
Definition get_enabled_chambers (tm : TestManager) : list Z :=
  map chamber_index (List.filter enabled (chamber_states tm)).

(** Python's [int()] on a number: truncation toward zero. *)
Definition py_int (v : pyval) : Z :=
  match v with
  | PyBool b => if b then 1%Z else 0%Z
  | PyFloat q => Z.quot (Qnum q) (Zpos (Qden q))
  end.

(** A chamber entry of a configuration dictionary: the value of
    ['index'] ([None] when the key is missing) and the other keys. *)
Record chamber_config : Type := {
  config_index : option Z;
  config_params : gmap string pyval
}.

(** A configuration dictionary, with the types that
    [serialize_test_config] gives its values; every key may be
    missing. *)
Record test_config : Type := {
  config_test_mode : option string;
  config_reference : option (option string);
  config_test_duration : option pyval;
  config_chambers : option (list chamber_config)
}.

(** [serialize_test_config]. *)
Definition serialize_chamber (ch : ChamberTestState) : chamber_config :=
  {| config_index := Some (chamber_index ch);
     config_params :=
       {[ "enabled" := PyBool (enabled ch);
          "pressure_target" := PyFloat (pressure_target ch);
          "pressure_threshold" := PyFloat (pressure_threshold ch);
          "pressure_tolerance" := PyFloat (pressure_tolerance ch) ]} |}.

Definition serialize_test_config (tm : TestManager) : test_config :=
  {| config_test_mode := Some (test_mode tm);
     config_reference := Some (current_reference tm);
     config_test_duration := Some (PyFloat (test_duration tm));
     config_chambers := Some (map serialize_chamber (chamber_states tm)) |}.

(** A validated assignment of one key: the value must be strictly
    positive, and at most [upper] when a bound is given. *)
Definition update_positive (key : string) (upper : option Q)
  (assign : Q -> ChamberTestState -> ChamberTestState)
  (params : gmap string pyval) : field_update :=
  fun ch =>
    match params !! key with
    | Some v =>
        let value := py_float v in
        if Qltb 0 value
           && match upper with
              | Some bound => Qleb value bound
              | None => true
              end
        then (true, assign value ch)
        else (false, ch)
    | None => (true, ch)
    end.

(** The four assignments of [load_test_config] to one chamber. *)
Definition load_chamber_fields (params : gmap string pyval) : field_update :=
  and_then (update_enabled params)
    (and_then (update_positive "pressure_target" None set_pressure_target
                               params)
       (and_then (update_positive "pressure_threshold" None
                                  set_pressure_threshold params)
          (update_positive "pressure_tolerance" None set_pressure_tolerance
                           params))).

(** The loop of [load_test_config] over the chamber entries: the flag
    tells whether the loop ran to its end ([true]) or the method has
    returned [False].  A missing index raises in the comparison, an
    index out of range is skipped. *)
Fixpoint load_chambers (configs : list chamber_config) (tm : TestManager)
  : bool * TestManager :=
  match configs with
  | [] => (true, tm)
  | c :: rest =>
      match config_index c with
      | None => (false, tm)
      | Some index =>
          if negb ((0 <=? index)%Z && (index <=? 2)%Z)
          then load_chambers rest tm
          else
            match chamber_states tm !! Z.to_nat index with
            | None => (false, tm)
            | Some chamber =>
                let '(ok, chamber') :=
                  load_chamber_fields (config_params c) chamber in
                let tm' :=
                  update_chamber (Z.to_nat index) (fun _ => chamber') tm in
                if ok then load_chambers rest tm' else (false, tm')
            end
      end
  end.

(** One validated step of a method on the manager: the flag tells
    whether the method goes on or has returned [False]; the manager is
    the object as mutated so far. *)
Definition manager_update : Type := TestManager -> bool * TestManager.

Definition and_then_tm (f g : manager_update) : manager_update :=
  fun tm => let '(ok, tm') := f tm in if ok then g tm' else (false, tm').

Definition load_mode (mode : option string) : manager_update :=
  fun tm =>
    match mode with
    | Some m =>
        if String.eqb m "manual" || String.eqb m "reference"
        then (true, with_test_mode m tm)
        else (false, tm)
    | None => (true, tm)
    end.

Definition load_reference_key (reference : option (option string))
  : manager_update :=
  fun tm =>
    match reference with
    | Some r => (true, with_current_reference r tm)
    | None => (true, tm)
    end.

Definition load_duration (duration : option pyval) : manager_update :=
  fun tm =>
    match duration with
    | Some v =>
        if (0 <? py_int v)%Z
        then (true, with_test_duration (inject_Z (py_int v)) tm)
        else (false, tm)
    | None => (true, tm)
    end.

(** [load_test_config]. *)
Definition load_test_config (config : test_config) (tm : TestManager)
  : bool * TestManager :=
  if running_test tm then (false, tm)
  else
    and_then_tm (load_mode (config_test_mode config))
      (and_then_tm (load_reference_key (config_reference config))
         (and_then_tm (load_duration (config_test_duration config))
            (fun tm3 =>
               match config_chambers config with
               | Some configs => load_chambers configs tm3
               | None => (true, tm3)
               end))) tm.

(** A settings dictionary of [update_settings_from_dict]: the duration
    and the dictionaries under ['chamber1'], ['chamber2'], ['chamber3']. *)
Record settings_dict : Type := {
  settings_test_duration : option pyval;
  settings_chambers : list (option (gmap string pyval))
}.

Definition update_chamber_fields (params : gmap string pyval) : field_update :=
  and_then (update_enabled params)
    (and_then (update_positive "pressure_target"
                               (Some PRESSURE_DEFAULTS_MAX_PRESSURE)
                               set_pressure_target params)
       (and_then (update_positive "pressure_threshold" None
                                  set_pressure_threshold params)
          (update_positive "pressure_tolerance" None set_pressure_tolerance
                           params))).

(** [for i in range(3)] of [update_settings_from_dict]. *)
Fixpoint update_chambers (i : nat)
  (settings : list (option (gmap string pyval))) (tm : TestManager)
  : bool * TestManager :=
  match settings with
  | [] => (true, tm)
  | None :: rest => update_chambers (S i) rest tm
  | Some params :: rest =>
      match chamber_states tm !! i with
      | None => (false, tm)
      | Some chamber =>
          let '(ok, chamber') := update_chamber_fields params chamber in
          let tm' := update_chamber i (fun _ => chamber') tm in
          if ok then update_chambers (S i) rest tm' else (false, tm')
      end
  end.

(** [update_settings_from_dict]. *)
Definition update_settings_from_dict (settings : settings_dict)
  (tm : TestManager) : bool * TestManager :=
  if running_test tm then (false, tm)
  else
    and_then_tm (load_duration (settings_test_duration settings))
      (update_chambers 0 (take 3 (settings_chambers settings))) tm.

(** [l[::step]] for a positive step: the first element, then the
    slice of what follows [step] places on.  The fuel is the length of
    the list, which every step shortens. *)
Fixpoint every_nth_from {A} (fuel step : nat) (l : list A) : list A :=
  match fuel, l with
  | S fuel', x :: _ => x :: every_nth_from fuel' step (drop step l)
  | _, _ => []
  end.

Definition every_nth {A} (step : nat) (l : list A) : list A :=
  every_nth_from (length l) step l.

(** The [pressure_log] that [_process_results] hands to the logger. *)
Definition pressure_log (readings : list Q) : list Q :=
  if (100 <? length readings)%nat then
    let sample_step := (length readings / 100)%nat in
    take 100 (every_nth sample_step readings)
  else readings.

(** *** Callbacks that may raise *)

(** The callables given to [set_callbacks], each as what a call of it
    does: it returns ([None]) or raises.  The callable decides this
    from the world in which it is called, where its own call, with its
    arguments, is the event recorded last. *)
Record callbacks : Type := {
  status_callback : World -> option exn;
  progress_callback : World -> option exn;
  result_callback : World -> option exn
}.

(** Callbacks that return from every call. *)
Definition returning : callbacks :=
  {| status_callback := fun _ => None;
     progress_callback := fun _ => None;
     result_callback := fun _ => None |}.

Definition callbacks_return (cb : callbacks) : Prop :=
  forall w, status_callback cb w = None
            /\ progress_callback cb w = None
            /\ result_callback cb w = None.

(** How a method goes on after the call of a callback. *)
Definition after_callback {A} (raised : option exn)
  (rest : option (outcome A * World * list env_step)) (w : World)
  (env : list env_step) : option (outcome A * World * list env_step) :=
  match raised with
  | Some e => Some (Exc e, w, env)
  | None => rest
  end.

(** [_update_status] as a method call of the test thread. *)
Definition update_status_with (cb : callbacks) (message : string)
  : action unit :=
  fun env w =>
    let w1 := _update_status message w in
    after_callback (status_callback cb w1) (Some (Val tt, w1, env)) w1 env.

(** The [while] loop of [_run_emptying_phase]. *)
Fixpoint emptying_loop_with (cb : callbacks) (env : list env_step)
  (emptying_start timeout : Q) (w : World)
  : option (outcome unit * World * list env_step) :=
  match env with
  | [] => None
  | e :: env' =>
      let w0 := apply_env e w in
      let elapsed := (clock w0 - emptying_start)%Q in
      if Qltb elapsed timeout then
        let w1 :=
          _update_progress "emptying" (0.8 + 0.2 * (elapsed / timeout)) w0 in
        after_callback (progress_callback cb w1)
          (if all_empty (tm w1) then Some (Val tt, w1, env')
           else emptying_loop_with cb env' emptying_start timeout
                                   (emit (TimeSleep 0.1) w1))
          w1 env'
      else Some (Val tt, w0, env')
  end.

(** [_run_emptying_phase]: an exception of the status callback leaves
    the method before any valve command, one of the progress callback
    before the chambers are stopped. *)
Definition _run_emptying_phase_with (cb : callbacks) : action bool :=
  fun env w =>
    let w1 := enter_phase "emptying" "EMPTYING" "Emptying chambers..." w in
    after_callback (status_callback cb w1)
      (let emptying_start := clock w1 in
       let w2 := for_enabled (fun i => SetInletValve i false) w1 in
       let w3 := emit (TimeSleep 0.2) w2 in
       let w4 := for_enabled EmptyChamber w3 in
       match emptying_loop_with cb env emptying_start
                                TIME_DEFAULTS_EMPTY_TIME w4 with
       | None => None
       | Some (Exc e, w5, env') => Some (Exc e, w5, env')
       | Some (Val _, w5, env') =>
           Some (Val true, for_enabled StopChamber w5, env')
       end)
      w1 env.

(** [_process_results]: the status callback, then, for a test that ran
    through, the result callback. *)
Definition _process_results_with (cb : callbacks) (success : bool)
  : action unit :=
  fun env w =>
    if negb success then
      let stopped := _stop_requested (tm w) in
      let w1 :=
        _update_status (if stopped then "Test stopped" else "Test error")
          (on_tm (set_test_state (if stopped then "STOPPED" else "ERROR"))
                 w) in
      after_callback (status_callback cb w1) (Some (Val tt, w1, env)) w1 env
    else
      let overall := overall_result (tm w) in
      let w1 :=
        _update_status
          (if overall then "Test complete - PASS" else "Test complete - FAIL")
          (on_tm (set_test_state "COMPLETE") w) in
      after_callback (status_callback cb w1)
        (let w2 := emit (ReportResult overall (test_data (tm w1))) w1 in
         after_callback (result_callback cb w2) (Some (Val tt, w2, env))
                        w2 env)
        w1 env.

(** The test thread with callbacks that may raise.  The four phases
    before the emptying and [_start_monitoring] are left open: what is
    proved of this thread holds whatever they do, a callback raising
    inside them included. *)
Definition test_thread_with (cb : callbacks)
  (filling regulation stabilization testing : action bool)
  (start_monitoring : action unit) : M unit :=
  _run_test filling regulation stabilization testing
            (_run_emptying_phase_with cb) (_process_results_with cb)
            start_monitoring _stop_monitoring (update_status_with cb).

End TestManager.

(** ** The regulator's decision as the specification words it *)

Module RegulatorSpec.

(** Modelled on the specification's step 3: the per-sample rates
    [(current - last) / sample_interval] of a stream of samples, one
    for every sample that has a predecessor. *)
Fixpoint rates_from (sample_interval last : Q) (samples : list Q) : list Q :=
  match samples with
  | [] => []
  | p :: rest =>
      ((p - last) / sample_interval)%Q :: rates_from sample_interval p rest
  end.

Definition sample_rates (sample_interval : Q) (samples : list Q) : list Q :=
  match samples with
  | [] => []
  | p :: rest => rates_from sample_interval p rest
  end.

(** The bounded history: the ten most recent entries. *)
Definition bounded_history (l : list Q) : list Q :=
  drop (length l - 10) l.

Definition mean (l : list Q) : Q :=
  match l with
  | [] => 0%Q
  | _ => (Qsum l / inject_Z (Z.of_nat (length l)))%Q
  end.

Definition avg_rate (sample_interval : Q) (samples : list Q) : Q :=
  mean (bounded_history (sample_rates sample_interval samples)).

(** Step 4: the rate factor and the two clamped pulse durations. *)
Definition rate_factor (avg : Q) : Q := Qmin 1 (Qabs avg / 10).

Definition pulse_on (base_pulse_on avg : Q) : Q :=
  Qmax 0.05 (base_pulse_on * (1 - rate_factor avg)).

Definition pulse_off (base_pulse_off avg : Q) : Q :=
  Qmax 0.05 (base_pulse_off * (1 + rate_factor avg)).

End RegulatorSpec.

(** ** Reference scenarios *)

Module Scenario.
Import TestManager.

(** The monitoring thread reports the same pressure on every chamber. *)
Definition reading (t p : Q) : env_step :=
  {| at_time := t; ui_stop := false;
     published := [Some p; Some p; Some p] |}.

(** Three enabled chambers, targets 150, thresholds 5, tolerance 2, and
    a test of 5 seconds. *)
Definition bench : World :=
  {| tm := {| chamber_states := [new_chamber 0; new_chamber 1; new_chamber 2];
              test_mode := "manual"; current_reference := None;
              test_duration := 5;
              test_state := "IDLE"; test_phase := None; elapsed_time := 0;
              running_test := false; _stop_requested := false;
              _monitoring_running := false |};
     clock := 0; events := [] |}.

(** Every reading is held at 150 mbar until the chambers are vented:
    forty polls within the first second (filling, regulation and
    stabilisation), three polls of the test, then the emptying. *)
Definition held_at_150 : list env_step :=
  map (fun _ => reading 1 150) (seq 0 40)
  ++ [reading 2 150; reading 8 150; reading 9 150]
  ++ [reading 10 0; reading 11 0].

(** The same run, but the operator presses stop while the chambers are
    being regulated. *)
Definition stopped_early : list env_step :=
  map (fun _ => reading 1 150) (seq 0 4)
  ++ [{| at_time := 2; ui_stop := true; published := [] |};
      reading 3 150; reading 4 0; reading 5 0].

(** The run of [held_at_150], except that chamber 2 reads 3 mbar at one
    poll of the test and is back at 150 mbar at the next. *)
Definition one_dip : list env_step :=
  map (fun _ => reading 1 150) (seq 0 40)
  ++ [{| at_time := 2; ui_stop := false;
         published := [Some 150; Some 150; Some 3]%Q |};
      reading 8 150; reading 9 150]
  ++ [reading 10 0; reading 11 0].

(** The state in which [start_test] hands the bench to the test thread. *)
Definition started (env : list env_step) : run_state :=
  {| calls := []; world := (start_test true bench).2; pending := env |}.

(** Two calibrations of chamber 0, the second one dated later, each
    with two points. *)
Definition first_calibration : CalibrationDb.CalibrationResult :=
  {| CalibrationDb.chamber_id := 0;
     CalibrationDb.multiplier := NumPy.Fin 1000;
     CalibrationDb.offset := NumPy.Fin 0;
     CalibrationDb.r_squared := NumPy.Fin 1;
     CalibrationDb.calibration_date := 100;
     CalibrationDb.points :=
       [ {| CalibrationDb.pressure := 0; CalibrationDb.voltage := 0;
            CalibrationDb.timestamp := 90 |};
         {| CalibrationDb.pressure := 1000; CalibrationDb.voltage := 1;
            CalibrationDb.timestamp := 95 |} ] |}.

Definition second_calibration : CalibrationDb.CalibrationResult :=
  {| CalibrationDb.chamber_id := 0;
     CalibrationDb.multiplier := NumPy.Fin 990;
     CalibrationDb.offset := NumPy.Fin 2;
     CalibrationDb.r_squared := NumPy.Fin 0.99;
     CalibrationDb.calibration_date := 200;
     CalibrationDb.points :=
       [ {| CalibrationDb.pressure := 0; CalibrationDb.voltage := 0;
            CalibrationDb.timestamp := 190 |};
         {| CalibrationDb.pressure := 300; CalibrationDb.voltage := 0.3;
            CalibrationDb.timestamp := 195 |} ] |}.

(** A third calibration of chamber 0, saved last but dated between the
    other two. *)
Definition third_calibration : CalibrationDb.CalibrationResult :=
  {| CalibrationDb.chamber_id := 0;
     CalibrationDb.multiplier := NumPy.Fin 995;
     CalibrationDb.offset := NumPy.Fin 1;
     CalibrationDb.r_squared := NumPy.Fin 0.98;
     CalibrationDb.calibration_date := 150;
     CalibrationDb.points :=
       [ {| CalibrationDb.pressure := 0; CalibrationDb.voltage := 0;
            CalibrationDb.timestamp := 140 |};
         {| CalibrationDb.pressure := 600; CalibrationDb.voltage := 0.6;
            CalibrationDb.timestamp := 145 |} ] |}.

(** A reference whose first chamber carries a tolerance of -1 mbar, and
    the database that knows it under every barcode. *)
Definition loose_reference : reference_data :=
  {| ref_test_duration := None;
     ref_chambers :=
       Some [ {| ref_enabled := Some true;
                 ref_pressure_target := Some 150%Q;
                 ref_pressure_threshold := Some 5%Q;
                 ref_pressure_tolerance := Some (-1)%Q |} ] |}.

Definition loose_reference_db (barcode : string) : option reference_data :=
  Some loose_reference.

(** The new manager after [set_test_mode("reference", "REF-1")] on that
    database, with chamber 0 read at its target of 150 mbar. *)
Definition loose_bench : World :=
  {| tm :=
       update_chamber 0 (set_current_pressure 150)
         (set_test_mode (Some loose_reference_db) "reference"
                        (Some "REF-1") new_manager).2;
     clock := 0; events := [] |}.

(** A wrapper with a sample time of 0 that has seen one pressure. *)
Definition unsampled_wrapper : PidController.PIDControllerWrapper :=
  {| PidController.setpoint := 150; PidController.sample_time := 0;
     PidController.last_pressure := Some 150%Q;
     PidController.pressure_history := [150%Q] |}.

(** A status callback that raises when it is told of the emptying. *)
Definition raises_when_emptying : callbacks :=
  {| status_callback :=
       fun w => if String.eqb (test_state (tm w)) "EMPTYING"
                then Some (PyException "status callback failed")
                else None;
     progress_callback := fun _ => None;
     result_callback := fun _ => None |}.

(** A sensor whose device opens but fails every read. *)
Definition failing_device : PressureSensor.env :=
  {| PressureSensor.now := 0; PressureSensor.open_ok := true;
     PressureSensor.adc_answer := PressureSensor.ReadError false |}.

End Scenario.

(** ** Vocabulary of the statements about runs *)

Module RunSpec.
Import TestManager.

(** [adds c P]: whenever the computation [c] ends, the phase calls it
    has recorded extend the earlier ones by a list [l], and the way it
    ended together with [l] satisfies [P]. *)
Definition adds {A} (c : M A) (P : outcome A -> list phase_name -> Prop)
  : Prop :=
  forall st o st',
    c st = Some (o, st') ->
    exists l, calls st' = calls st ++ l /\ P o l.

(** A method that returns whenever it ends: it raises nothing. *)
Definition never_raises {A} (a : action A) : Prop :=
  forall env w o w' env',
    a env w = Some (o, w', env') -> exists v, o = Val v.

(** A method that ends in every world and environment. *)
Definition always_ends {A} (a : action A) : Prop :=
  forall env w, is_Some (a env w).

(** The four phases that precede the emptying, in their order. *)
Definition earlier_phases : list phase_name :=
  [FILLING; REGULATING; STABILIZING; TESTING].

(** The chamber at position [i] of a run state. *)
Definition chamber_of (st : run_state) (i : nat)
  : option ChamberTestState :=
  chamber_at (tm (world st)) i.

(** A method, or a computation of the test thread, under which a
    property of the world is kept. *)
Definition preserves {A} (I : World -> Prop) (a : action A) : Prop :=
  forall env w o w' env', a env w = Some (o, w', env') -> I w -> I w'.

Definition keeps {A} (I : World -> Prop) (c : M A) : Prop :=
  forall st o st', c st = Some (o, st') -> I (world st) -> I (world st').

(** A sampled pressure strictly below the chamber's threshold. *)
Definition below_threshold (ch : ChamberTestState) (p : Q) : Prop :=
  (p < pressure_threshold ch)%Q.

(** How a chamber [ch] relates to its earlier self [ch0] when
    [samples] are the pressures sampled in between: the samples are
    what has been appended to the readings, they are taken only of an
    enabled and stabilised chamber, a result of false is kept, and a
    sample below the threshold leaves the result false. *)
Record latched (ch0 ch : ChamberTestState) (samples : list Q) : Prop := {
  latched_threshold : pressure_threshold ch = pressure_threshold ch0;
  latched_enabled : enabled ch = enabled ch0;
  latched_stabilized : stabilized ch0 = true -> stabilized ch = true;
  latched_readings : pressure_readings ch = pressure_readings ch0 ++ samples;
  latched_active :
    samples <> [] -> enabled ch = true /\ stabilized ch = true;
  latched_kept : result ch0 = Some false -> result ch = Some false;
  latched_dip :
    Exists (below_threshold ch0) samples -> result ch = Some false
}.

(** A relation between earlier and later chambers, held position by
    position by the chambers of a world. *)
Definition all_related (P : ChamberTestState -> ChamberTestState -> Prop)
  (chambers0 : list ChamberTestState) (w : World) : Prop :=
  Forall2 P chambers0 (chamber_states (tm w)).

(** Some samples latch the later chamber to the earlier one. *)
Definition latched_by_some (ch0 ch : ChamberTestState) : Prop :=
  exists samples, latched ch0 ch samples.

(** Neither the readings nor the result have changed. *)
Definition unsampled (ch0 ch : ChamberTestState) : Prop :=
  pressure_readings ch = pressure_readings ch0 /\ result ch = result ch0.

(** A function on chambers that touches neither the parameters, nor
    the readings, nor the result, and does not clear [stabilized]. *)
Definition quiet (f : ChamberTestState -> ChamberTestState) : Prop :=
  forall ch,
    pressure_threshold (f ch) = pressure_threshold ch
    /\ enabled (f ch) = enabled ch
    /\ (stabilized ch = true -> stabilized (f ch) = true)
    /\ pressure_readings (f ch) = pressure_readings ch
    /\ result (f ch) = result ch.

(** A relation that no quiet function breaks. *)
Definition respects_quiet (P : ChamberTestState -> ChamberTestState -> Prop)
  : Prop :=
  forall f ch0 ch, quiet f -> P ch0 ch -> P ch0 (f ch).

End RunSpec.

(** ** Vocabulary of the statements about the configuration *)

Module TestConfigSpec.
Import TestManager.

(** The limits that the validated setters enforce. *)
Definition within_limits (ch : ChamberTestState) : Prop :=
  (0 <= pressure_target ch)%Q
  /\ (pressure_target ch <= PRESSURE_DEFAULTS_MAX_PRESSURE)%Q
  /\ (0 <= pressure_threshold ch)%Q
  /\ (0 <= pressure_tolerance ch)%Q.

Definition nonnegative (ch : ChamberTestState) : Prop :=
  (0 <= pressure_target ch)%Q
  /\ (0 <= pressure_threshold ch)%Q
  /\ (0 <= pressure_tolerance ch)%Q.

Definition strictly_positive (ch : ChamberTestState) : Prop :=
  (0 < pressure_target ch)%Q
  /\ (0 < pressure_threshold ch)%Q
  /\ (0 < pressure_tolerance ch)%Q.

(** Two chambers, and two managers, with the same configuration. *)
Definition same_parameters (ch1 ch2 : ChamberTestState) : Prop :=
  enabled ch1 = enabled ch2
  /\ pressure_target ch1 = pressure_target ch2
  /\ pressure_threshold ch1 = pressure_threshold ch2
  /\ pressure_tolerance ch1 = pressure_tolerance ch2.

Definition same_configuration (tm1 tm2 : TestManager) : Prop :=
  test_mode tm1 = test_mode tm2
  /\ current_reference tm1 = current_reference tm2
  /\ test_duration tm1 = test_duration tm2
  /\ Forall2 same_parameters (chamber_states tm1) (chamber_states tm2).

(** A configuration dictionary that holds nothing but a target
    pressure for chamber 0. *)
Definition only_target (t : Q) : test_config :=
  {| config_test_mode := None; config_reference := None;
     config_test_duration := None;
     config_chambers :=
       Some [ {| config_index := Some 0%Z;
                 config_params := {[ "pressure_target" := PyFloat t ]} |} ]
  |}.

End TestConfigSpec.

(** ** Vocabulary of the statements about the end of a run *)

Module ValveSpec.
Import TestManager.

(** Commands to the valve controller. *)
Definition is_valve_command (e : event) : bool :=
  match e with
  | SetChamberValves _ _ _ | SetInletValve _ _ | EmptyChamber _
  | StopChamber _ => true
  | _ => false
  end.

(** A command that leaves at least one valve of the chamber closed, and
    a sleep that [time.sleep] accepts. *)
Definition harmless (e : event) : Prop :=
  match e with
  | SetChamberValves _ inlet outlet => inlet && outlet = false
  | TimeSleep seconds => (0 <= seconds)%Q
  | _ => True
  end.

(** The indices of the enabled chambers, in the order of the list. *)
Definition enabled_indices (t : TestManager) : list Z :=
  map chamber_index (List.filter enabled (chamber_states t)).

(** The events a world has gained since an earlier log are all [P]. *)
Definition emitted_since (P : event -> Prop) (log : list event) (w : World)
  : Prop :=
  exists new, events w = log ++ new /\ Forall P new.

(** The local variable [result] of [_run_test]. *)
Definition phases_succeeded (o : outcome bool) : bool :=
  match o with Val b => b | Exc _ => false end.

End ValveSpec.

(** ** logger.py: TestLogger *)

Module TestLogger.

(** [l[start:]]: a negative start counts from the end. *)
Definition slice_from {A} (start : Z) (l : list A) : list A :=
  if (start <? 0)%Z then drop (length l - Z.to_nat (- start)) l
  else drop (Z.to_nat start) l.

(** The entry of one chamber in the dictionary that
    [TestManager._process_results] hands to [log_test_result], and in
    the record that is kept; ['pressure_log'] may be missing. *)
Record chamber_record : Type := {
  chamber_id : Z;
  enabled : bool;
  pressure_target : Q;
  pressure_threshold : Q;
  pressure_tolerance : Q;
  final_pressure : Q;
  result : bool;
  pressure_log : option (list Q)
}.

(** The dictionary of one test, with a [datetime] as its timestamp, and
    the record made of it, with the timestamp as an ISO string (both
    integers here). *)
Record test_record : Type := {
  timestamp : Z;
  reference : option string;
  test_mode : string;
  test_duration : Q;
  overall_result : bool;
  chambers : list chamber_record
}.

Record TestLogger : Type := {
  max_records : Z;
  test_records : list test_record;
  total_tests : Z;
  passed_tests : Z;
  failed_tests : Z;
  last_test_time : option Z
}.

(** [__init__]. *)
Definition init (max_records : Z) : TestLogger :=
  {| max_records := max_records; test_records := [];
     total_tests := 0; passed_tests := 0; failed_tests := 0;
     last_test_time := None |}.

(** The chamber entry as it is recorded: the pressure log is cut down
    to a hundred values. *)
Definition record_chamber (c : chamber_record) : chamber_record :=
  {| chamber_id := chamber_id c; enabled := enabled c;
     pressure_target := pressure_target c;
     pressure_threshold := pressure_threshold c;
     pressure_tolerance := pressure_tolerance c;
     final_pressure := final_pressure c;
     result := result c;
     pressure_log := TestManager.pressure_log <$> pressure_log c |}.

Definition record_of (test_data : test_record) : test_record :=
  {| timestamp := timestamp test_data;
     reference := reference test_data;
     test_mode := test_mode test_data;
     test_duration := test_duration test_data;
     overall_result := overall_result test_data;
     chambers := map record_chamber (chambers test_data) |}.

(** [log_test_result] on a dictionary of the types above, on which no
    conversion raises: the method returns [True]. *)
Definition log_test_result (test_data : test_record) (self : TestLogger)
  : TestLogger :=
  let record := record_of test_data in
  let appended := test_records self ++ [record] in
  {| max_records := max_records self;
     test_records :=
       if (max_records self <? Z.of_nat (length appended))%Z
       then tail appended else appended;
     total_tests := total_tests self + 1;
     passed_tests :=
       if overall_result record then passed_tests self + 1
       else passed_tests self;
     failed_tests :=
       if overall_result record then failed_tests self
       else failed_tests self + 1;
     last_test_time := Some (timestamp record) |}.

(** [get_recent_tests]: [self.test_records[-count:][::-1]]. *)
Definition get_recent_tests (count : Z) (self : TestLogger)
  : list test_record :=
  reverse (slice_from (- count) (test_records self)).

(** [get_test_by_reference]. *)
Definition get_test_by_reference (r : string) (self : TestLogger)
  : list test_record :=
  if String.eqb r "" then []
  else List.filter
         (fun record =>
            match reference record with
            | Some r' => String.eqb r' r
            | None => false
            end)
         (test_records self).

(** [get_test_statistics]: the pass rate in percent, and the number of
    records held. *)
Definition pass_rate (self : TestLogger) : Q :=
  if (0 <? total_tests self)%Z
  then (inject_Z (passed_tests self) / inject_Z (total_tests self) * 100)%Q
  else 0%Q.

Definition record_count (self : TestLogger) : nat :=
  length (test_records self).

(** [clear_records]: the records go, the counters stay. *)
Definition clear_records (self : TestLogger) : TestLogger :=
  {| max_records := max_records self; test_records := [];
     total_tests := total_tests self; passed_tests := passed_tests self;
     failed_tests := failed_tests self;
     last_test_time := last_test_time self |}.

(** [TestManager.get_last_test_result], for a manager with a logger. *)
Definition get_last_test_result (self : TestLogger) : option test_record :=
  head (get_recent_tests 1 self).

End TestLogger.

(** ** roles.py: the role manager *)

Module Roles.

(** One entry of [USER_ROLES] (config/constants.py). *)
Record role_definition := {
  level : Z;
  default_password : string;
  permissions : list string
}.

(** The dictionary [USER_ROLES], in the order of its source text. *)
Definition USER_ROLES : list (string * role_definition) :=
  [ ("OPERATOR",
     {| level := 1; default_password := "5673";
        permissions := ["run_test"] |});
    ("MAINTENANCE",
     {| level := 2; default_password := "5678";
        permissions := ["run_test"; "view_history"; "edit_settings";
                        "calibrate"] |});
    ("ADMIN",
     {| level := 3; default_password := "9012";
        permissions := ["run_test"; "view_history"; "edit_settings";
                        "calibrate"; "manage_users"] |}) ].

(** [USER_ROLES.get(role)]. *)
Definition USER_ROLES_get (role : string) : option role_definition :=
  match find (fun entry => String.eqb (fst entry) role) USER_ROLES with
  | Some entry => Some (snd entry)
  | None => None
  end.

(** [role in USER_ROLES]. *)
Definition in_USER_ROLES (role : string) : bool :=
  match USER_ROLES_get role with Some _ => true | None => false end.

(** The fields of [RoleManager] that its access checks read or write.
    Times are the floats of [time.time()]. *)
Record RoleManager := {
  current_role : string;
  current_username : option string;
  authenticated : bool;
  last_auth_time : Q;
  session_timeout : Z;
  require_login : bool;
  default_role : string
}.

(** [__init__], before [_load_settings] reads the stored settings. *)
Definition init : RoleManager :=
  {| current_role := "OPERATOR";
     current_username := None;
     authenticated := false;
     last_auth_time := 0;
     session_timeout := 600;
     require_login := false;
     default_role := "OPERATOR" |}.

Definition set_require_login (required : bool) (rm : RoleManager)
  : RoleManager :=
  {| current_role := current_role rm;
     current_username := current_username rm;
     authenticated := authenticated rm;
     last_auth_time := last_auth_time rm;
     session_timeout := session_timeout rm;
     require_login := required;
     default_role := default_role rm |}.

Definition set_default_role (role : string) (rm : RoleManager)
  : RoleManager :=
  if in_USER_ROLES role then
    {| current_role := current_role rm;
       current_username := current_username rm;
       authenticated := authenticated rm;
       last_auth_time := last_auth_time rm;
       session_timeout := session_timeout rm;
       require_login := require_login rm;
       default_role := role |}
  else rm.

Definition set_session_timeout (timeout_seconds : Z) (rm : RoleManager)
  : RoleManager :=
  let timeout_seconds :=
    if (timeout_seconds <? 60)%Z then 60%Z else timeout_seconds in
  {| current_role := current_role rm;
     current_username := current_username rm;
     authenticated := authenticated rm;
     last_auth_time := last_auth_time rm;
     session_timeout := timeout_seconds;
     require_login := require_login rm;
     default_role := default_role rm |}.

(** The state [logout] and an expired session leave. *)
Definition logout (rm : RoleManager) : RoleManager :=
  {| current_role := default_role rm;
     current_username := None;
     authenticated := false;
     last_auth_time := last_auth_time rm;
     session_timeout := session_timeout rm;
     require_login := require_login rm;
     default_role := default_role rm |}.

(** Python's truth value of a string. *)
Definition nonempty (s : string) : bool := negb (String.eqb s "").

(** [authenticate_user]; [user_db] is the answer of
    [UserDB.authenticate_user], the role stored for the user or [None],
    and [now] the value of [time.time()]. *)
Definition authenticate_user (user_db : string -> string -> option string)
    (username password : string) (now : Q) (rm : RoleManager)
  : option string * RoleManager :=
  match user_db username password with
  | Some role =>
      if nonempty role then
        (Some role,
         {| current_role := role;
            current_username := Some username;
            authenticated := true;
            last_auth_time := now;
            session_timeout := session_timeout rm;
            require_login := require_login rm;
            default_role := default_role rm |})
      else (None, rm)
  | None => (None, rm)
  end.

(** [is_authenticated]; [now] is the value of [time.time()], read only
    when somebody is logged in. *)
Definition is_authenticated (now : Q) (rm : RoleManager)
  : bool * RoleManager :=
  if negb (authenticated rm) then (false, rm)
  else if Qltb (inject_Z (session_timeout rm)) (now - last_auth_time rm)
  then (false, logout rm)
  else (true, rm).

Definition refresh_session (now : Q) (rm : RoleManager) : RoleManager :=
  if authenticated rm then
    {| current_role := current_role rm;
       current_username := current_username rm;
       authenticated := authenticated rm;
       last_auth_time := now;
       session_timeout := session_timeout rm;
       require_login := require_login rm;
       default_role := default_role rm |}
  else rm.

Definition get_current_role (now : Q) (rm : RoleManager)
  : string * RoleManager :=
  let '(valid, rm) := is_authenticated now rm in
  if valid then (current_role rm, rm)
  else if require_login rm then ("NONE", rm)
  else (default_role rm, rm).

Definition get_current_username (now : Q) (rm : RoleManager)
  : option string * RoleManager :=
  let '(valid, rm) := is_authenticated now rm in
  ((if valid then current_username rm else None), rm).

(** The level of a role name: the last two lines of [get_role_level]. *)
Definition level_of (role : string) : Z :=
  if String.eqb role "NONE" then 0
  else match USER_ROLES_get role with
       | Some definition => level definition
       | None => 0
       end.

(** [get_role_level]: [role or self.get_current_role()] asks for the
    current role when the argument is [None] or the empty string. *)
Definition get_role_level (role : option string) (now : Q)
    (rm : RoleManager) : Z * RoleManager :=
  let '(role, rm) :=
    match role with
    | Some r => if nonempty r then (r, rm) else get_current_role now rm
    | None => get_current_role now rm
    end in
  (level_of role, rm).

Definition has_permission (permission : string) (now : Q)
    (rm : RoleManager) : bool * RoleManager :=
  let '(role, rm) := get_current_role now rm in
  if String.eqb role "NONE" then (false, rm)
  else match USER_ROLES_get role with
       | Some definition =>
           (existsb (String.eqb permission) (permissions definition), rm)
       | None => (false, rm)
       end.

(** [has_access]: the level of the current role is read first, at time
    [now], then the level of [min_role], which reads the clock again, at
    [later], only when [min_role] is empty. *)
Definition has_access (min_role : string) (now later : Q)
    (rm : RoleManager) : bool * RoleManager :=
  let '(current, rm) := get_role_level None now rm in
  let '(required, rm) := get_role_level (Some min_role) later rm in
  ((required <=? current)%Z, rm).

(** [require_role]: [and] does not call [has_access] when nobody is
    logged in. *)
Definition require_role (min_role : string) (now later latest : Q)
    (rm : RoleManager) : bool * RoleManager :=
  let '(valid, rm) := is_authenticated now rm in
  if valid then has_access min_role later latest rm else (false, rm).

End Roles.

(** ** A user database for the examples *)

Module AccessScenario.

(** The user database of a bench with one administrator. *)
Definition one_admin (username password : string) : option string :=
  if String.eqb username "admin" && String.eqb password "9012"
  then Some "ADMIN" else None.

End AccessScenario.

(** ** calibration_manager.py: completing a calibration *)

Module CalibrationSession.
Import NumPy CalibrationDb.

(** The calibration manager together with the pressure sensor it holds.
    The manager's own [voltage_offset] and [voltage_multiplier] are
    written but never read, and are left out. *)
Record Bench : Type := {
  manager : CalibrationManager.CalibrationManager;
  pressure_sensor : PressureSensor.PressureSensor
}.

(** The printer manager (printer.py): there may be none, and
    [print_calibration_report], which catches every exception of the
    printer, answers whether the report was printed. *)
Inductive printer_manager : Type :=
| NoPrinter
| Prints
| PrintFails.

(** The sensor carries rationals: an infinite float or a NaN has no
    image in it. *)
Definition as_rational (x : npfloat) : option Q :=
  match x with
  | Fin q => Some q
  | _ => None
  end.

(** [pressure_sensor.set_conversion_parameters(offset, multiplier)] with
    the two floats of a calibration; [None] when one of them is not
    finite. *)
Definition set_conversion_parameters (offset multiplier : npfloat)
  (s : PressureSensor.PressureSensor) : option PressureSensor.PressureSensor :=
  match as_rational offset, as_rational multiplier with
  | Some o, Some m => Some (PressureSensor.set_conversion_parameters o m s)
  | _, _ => None
  end.

(** The loop body of [_load_active_calibrations] for one chamber. *)
Definition load_active_calibration (db : database)
  (sensor : option PressureSensor.PressureSensor) (chamber_id : Z)
  : option PressureSensor.PressureSensor :=
  match sensor with
  | None => None
  | Some s =>
      match get_active_calibration db chamber_id with
      | Some cal_result =>
          if (chamber_id =? 0)%Z then
            set_conversion_parameters (offset cal_result)
                                      (multiplier cal_result) s
          else Some s
      | None => Some s
      end
  end.

(** [_load_active_calibrations], the last step of [__init__]. *)
Definition _load_active_calibrations (b : Bench) : option Bench :=
  match
    fold_left
      (load_active_calibration
         (CalibrationManager.calibration_db (manager b)))
      [0; 1; 2]%Z (Some (pressure_sensor b))
  with
  | Some s => Some {| manager := manager b; pressure_sensor := s |}
  | None => None
  end.

(** [save_calibration]: the database, then the sensor for chamber 0,
    then the printer.  An exception of the database makes the answer
    [False]; the answer of [print_calibration_report] is not looked
    at. *)
Definition save_calibration (printer : printer_manager)
  (calibration : CalibrationResult) (b : Bench) : option (bool * Bench) :=
  match CalibrationManager.save_calibration (manager b) calibration with
  | (false, _) => Some (false, b)
  | (true, manager') =>
      match
        if (chamber_id calibration =? 0)%Z then
          set_conversion_parameters (offset calibration)
                                    (multiplier calibration)
                                    (pressure_sensor b)
        else Some (pressure_sensor b)
      with
      | None => None
      | Some s =>
          let b' := {| manager := manager'; pressure_sensor := s |} in
          match printer with
          | NoPrinter => Some (true, b')
          | Prints | PrintFails => Some (true, b')
          end
      end
  end.

(** The three assignments that end a session. *)
Definition reset_session (b : Bench) : Bench :=
  {| manager :=
       {| CalibrationManager.current_chamber := None;
          CalibrationManager.calibration_points := [];
          CalibrationManager.current_point_index := 0;
          CalibrationManager.calibration_db :=
            CalibrationManager.calibration_db (manager b) |};
     pressure_sensor := pressure_sensor b |}.

(** [complete_calibration]; [now] is the date [calculate_calibration]
    stamps the result with. *)
Definition complete_calibration (printer : printer_manager) (now : Z)
  (b : Bench) : option (bool * Bench) :=
  match CalibrationManager.current_chamber (manager b) with
  | None => Some (false, b)
  | Some _ =>
      match CalibrationManager.calculate_calibration (manager b) now with
      | None => Some (false, b)
      | Some calibration =>
          match save_calibration printer calibration b with
          | None => None
          | Some (success, b') =>
              if success then Some (true, reset_session b')
              else Some (false, b')
          end
      end
  end.

End CalibrationSession.

(** ** A calibration session for the examples *)

Module CalibrationScenario.
Import NumPy CalibrationDb CalibrationSession.

(** Three points on the line pressure = 1500 * voltage - 750. *)
Definition three_points : list CalibrationPoint :=
  [ {| pressure := 0; voltage := 0.5; timestamp := 1 |};
    {| pressure := 300; voltage := 0.7; timestamp := 2 |};
    {| pressure := 600; voltage := 0.9; timestamp := 3 |} ].

(** A bench on which the three points of a chamber are recorded, with
    an empty database and the sensor as [__init__] builds it. *)
Definition calibrating (chamber : Z) : Bench :=
  {| manager :=
       {| CalibrationManager.current_chamber := Some chamber;
          CalibrationManager.calibration_points := three_points;
          CalibrationManager.current_point_index := 3;
          CalibrationManager.calibration_db := _init_database |};
     pressure_sensor := PressureSensor.init |}.

End CalibrationScenario.

(* ===================================================================== *)
(** * Part II.  Lemmas and theorems                                       *)
(* ===================================================================== *)

(** ** Comparisons on rationals *)

Lemma Qltb_true (x y : Q) : Qltb x y = true <-> (x < y)%Q.
Proof.
  unfold Qltb. rewrite negb_true_iff. split.
  - intros H. apply Qnot_le_lt. intros Hle.
    apply Qle_bool_iff in Hle. congruence.
  - intros H. destruct (Qle_bool y x) eqn:E; [|reflexivity].
    apply Qle_bool_iff in E. exfalso. exact (Qlt_not_le _ _ H E).
Qed.

Lemma Qltb_false (x y : Q) : Qltb x y = false <-> (y <= x)%Q.
Proof.
  unfold Qltb. rewrite negb_false_iff. apply Qle_bool_iff.
Qed.

Lemma Qleb_true (x y : Q) : Qleb x y = true <-> (x <= y)%Q.
Proof. apply Qle_bool_iff. Qed.

Lemma Qleb_false (x y : Q) : Qleb x y = false <-> (y < x)%Q.
Proof.
  unfold Qleb. split.
  - intros H. apply Qnot_le_lt. intros Hle.
    apply Qle_bool_iff in Hle. congruence.
  - intros H. destruct (Qle_bool x y) eqn:E; [|reflexivity].
    apply Qle_bool_iff in E. exfalso. exact (Qlt_not_le _ _ H E).
Qed.

Lemma Qeqb_true (x y : Q) : Qeqb x y = true <-> (x == y)%Q.
Proof. apply Qeq_bool_iff. Qed.

Lemma Qeqb_false (x y : Q) : Qeqb x y = false <-> ~ (x == y)%Q.
Proof.
  unfold Qeqb. split.
  - intros H Heq. apply Qeq_bool_iff in Heq. congruence.
  - intros H. destruct (Qeq_bool x y) eqn:E; [|reflexivity].
    apply Qeq_bool_iff in E. contradiction.
Qed.

Lemma Qabs_diff_zero (x y : Q) : (x == y)%Q -> (Qabs (y - x) == 0)%Q.
Proof.
  intros H. rewrite H.
  assert (E : (y - y == 0)%Q) by ring.
  rewrite E. reflexivity.
Qed.

(** ** set_chamber_parameters *)

Section SetChamberParameters.
Import TestManager.

Lemma update_tolerance_negative params v ch :
  params !! "pressure_tolerance" = Some v ->
  (py_float v < 0)%Q ->
  update_tolerance params ch = (false, ch).
Proof.
  intros Hv Hneg. unfold update_tolerance. rewrite Hv.
  apply Qleb_false in Hneg. cbv zeta. rewrite Hneg. reflexivity.
Qed.

(** The fields a later step leaves alone. *)
Lemma update_threshold_frame params ch :
  enabled (update_threshold params ch).2 = enabled ch
  /\ pressure_target (update_threshold params ch).2 = pressure_target ch.
Proof.
  unfold update_threshold.
  destruct (params !! "pressure_threshold"); [|done].
  cbv zeta. destruct (Qleb 0 _); done.
Qed.

Lemma update_tolerance_frame params ch :
  enabled (update_tolerance params ch).2 = enabled ch
  /\ pressure_target (update_tolerance params ch).2 = pressure_target ch.
Proof.
  unfold update_tolerance.
  destruct (params !! "pressure_tolerance"); [|done].
  cbv zeta. destruct (Qleb 0 _); done.
Qed.

Lemma update_target_frame params ch :
  enabled (update_target params ch).2 = enabled ch.
Proof.
  unfold update_target.
  destruct (params !! "pressure_target"); [|done].
  cbv zeta. destruct (_ && _); done.
Qed.

Lemma update_chamber_lookup i f t ch :
  chamber_states t !! i = Some ch ->
  chamber_states (update_chamber i f t) !! i = Some (f ch).
Proof.
  intros H. unfold update_chamber. simpl.
  rewrite list_lookup_alter_eq, H. reflexivity.
Qed.

End SetChamberParameters.

Section SetChamberParametersClaim.
Import TestManager.

(** C10.  [set_chamber_parameters] is not atomic on failure.  Called
    while no test is running, for a chamber 0..2, with a dictionary whose
    ['pressure_tolerance'] is negative, it returns [False]; yet the
    chamber then holds the ['enabled'] value of the dictionary, and its
    ['pressure_target'] when that one is within 0 and the maximum
    pressure: the earlier valid fields have been applied. *)
Theorem set_chamber_parameters_not_atomic
  (t : TestManager) (i : Z) (params : gmap string pyval)
  (ch : ChamberTestState) (tol : pyval) :
  running_test t = false ->
  (0 <= i <= 2)%Z ->
  chamber_states t !! Z.to_nat i = Some ch ->
  params !! "pressure_tolerance" = Some tol ->
  (py_float tol < 0)%Q ->
  (set_chamber_parameters t i params).1 = false
  /\ exists ch',
       chamber_states (set_chamber_parameters t i params).2 !! Z.to_nat i
       = Some ch'
       /\ (forall v, params !! "enabled" = Some v ->
                     enabled ch' = py_bool v)
       /\ (forall v, params !! "pressure_target" = Some v ->
                     (0 <= py_float v)%Q ->
                     (py_float v <= PRESSURE_DEFAULTS_MAX_PRESSURE)%Q ->
                     pressure_target ch' = py_float v).
Proof.
  intros Hrun [Hlo Hhi] Hch Htol Hneg.
  unfold set_chamber_parameters.
  assert (Hrange : (0 <=? i)%Z && (i <=? 2)%Z = true).
  { apply andb_true_iff. split; apply Z.leb_le; assumption. }
  rewrite Hrange, Hrun, Hch. cbn [negb].
  destruct (and_then _ _ ch) as [ok ch'] eqn:E. cbn [fst snd].
  unfold and_then in E.
  assert (Hen : forall v, params !! "enabled" = Some v ->
                          enabled (update_enabled params ch).2 = py_bool v).
  { intros v Hv. unfold update_enabled. rewrite Hv. reflexivity. }
  assert (Hok0 : (update_enabled params ch).1 = true).
  { unfold update_enabled. destruct (params !! "enabled"); reflexivity. }
  destruct (update_enabled params ch) as [ok0 ch0] eqn:E0.
  cbn [fst snd] in Hen, Hok0. subst ok0.
  assert (Htg : forall v, params !! "pressure_target" = Some v ->
                  (0 <= py_float v)%Q ->
                  (py_float v <= PRESSURE_DEFAULTS_MAX_PRESSURE)%Q ->
                  update_target params ch0
                  = (true, set_pressure_target (py_float v) ch0)).
  { intros v Hv H0 Hmax. unfold update_target. rewrite Hv. cbv zeta.
    apply Qleb_true in H0. apply Qleb_true in Hmax.
    rewrite H0, Hmax. reflexivity. }
  pose proof (update_target_frame params ch0) as Hf1.
  destruct (update_target params ch0) as [ok1 ch1] eqn:E1.
  cbn [snd] in Hf1.
  pose proof (update_threshold_frame params ch1) as [Hf2 Hf2'].
  pose proof (update_tolerance_negative params tol
                (update_threshold params ch1).2 Htol Hneg) as Hneg'.
  destruct (update_threshold params ch1) as [ok2 ch2] eqn:E2.
  cbn [snd] in Hf2, Hf2', Hneg'.
  assert (Hres : ok = false
                 /\ enabled ch' = enabled ch0
                 /\ (ok1 = true -> pressure_target ch' = pressure_target ch1)).
  { destruct ok1.
    - destruct ok2.
      + rewrite Hneg' in E. inversion E; subst.
        repeat split; congruence.
      + inversion E; subst. repeat split; congruence.
    - inversion E; subst. repeat split; congruence. }
  destruct Hres as (Hok & Hen' & Htg').
  split; [exact Hok|].
  exists ch'. split.
  - apply update_chamber_lookup with (f := fun _ => ch') in Hch. exact Hch.
  - split.
    + intros v Hv. rewrite Hen'. apply Hen. exact Hv.
    + intros v Hv H0 Hmax. specialize (Htg v Hv H0 Hmax).
      inversion Htg; subst. rewrite Htg' by reflexivity. reflexivity.
Qed.

(** The claim at work on the default bench: chamber 0 is switched off
    and re-targeted although the call reports failure. *)
Lemma set_chamber_parameters_not_atomic_witness :
  let params : gmap string pyval :=
    <["enabled" := PyBool false]>
      (<["pressure_target" := PyFloat 200]>
         (<["pressure_tolerance" := PyFloat (-1)]> ∅)) in
  (set_chamber_parameters new_manager 0 params).1 = false
  /\ exists ch',
       chamber_states (set_chamber_parameters new_manager 0 params).2 !! 0%nat
       = Some ch'
       /\ enabled ch' = false
       /\ pressure_target ch' = 200%Q.
Proof.
  intros params.
  destruct (set_chamber_parameters_not_atomic new_manager 0 params
              (new_chamber 0) (PyFloat (-1)))
    as (Hok & ch' & Hch & Hen & Htg).
  - reflexivity.
  - lia.
  - reflexivity.
  - reflexivity.
  - reflexivity.
  - split; [exact Hok|]. exists ch'. split; [exact Hch|]. split.
    + apply (Hen (PyBool false)). reflexivity.
    + apply (Htg (PyFloat 200)); [reflexivity| |]; discriminate.
Defined.

End SetChamberParametersClaim.

(** ** What a call of compute_adaptive_pulse does *)

Section AdaptivePulseOutcome.
Import PidController.

(** What a call that returns has computed and assigned. *)
Lemma compute_adaptive_pulse_returned (c c' : PIDControllerWrapper)
  (p : Q) (out : pulse) :
  compute_adaptive_pulse c p = Some (out, c') ->
  let history := push_history (pressure_history c) p in
  let rate_factor := rate_factor_of (avg_rate_of history) in
  out_mode out = select_mode (Qabs (setpoint c - p))
  /\ out_pulse_on out
     = Qmax 0.05 (pulse_on (modes (out_mode out)) * (1 - rate_factor))
  /\ out_pulse_off out
     = Qmax 0.05 (pulse_off (modes (out_mode out)) * (1 + rate_factor))
  /\ c' = {| setpoint := setpoint c; sample_time := sample_time c;
             last_pressure := Some p; pressure_history := history |}.
Proof.
  unfold compute_adaptive_pulse. cbv zeta.
  destruct (last_pressure c) as [lp|].
  - destruct (Qeqb (sample_time c) 0); [discriminate|].
    intros [= <- <-]. simpl. auto.
  - intros [= <- <-]. simpl. auto.
Qed.

(** The call raises exactly when it divides by a sample time of 0. *)
Lemma compute_adaptive_pulse_raises (c : PIDControllerWrapper) (p : Q) :
  compute_adaptive_pulse c p = None
  <-> (exists lp, last_pressure c = Some lp) /\ (sample_time c == 0)%Q.
Proof.
  unfold compute_adaptive_pulse. cbv zeta.
  destruct (last_pressure c) as [lp|].
  - destruct (Qeqb (sample_time c) 0) eqn:E.
    + apply Qeqb_true in E. split; [eauto|reflexivity].
    + apply Qeqb_false in E. split; [discriminate|].
      intros [_ H]. contradiction.
  - split; [discriminate|]. intros [[lp H] _]. discriminate.
Qed.

Lemma compute_adaptive_pulse_returns (c : PIDControllerWrapper) (p : Q) :
  last_pressure c = None \/ ~ (sample_time c == 0)%Q ->
  exists out c', compute_adaptive_pulse c p = Some (out, c').
Proof.
  intros H.
  destruct (compute_adaptive_pulse c p) as [[out c']|] eqn:E; [eauto|].
  apply compute_adaptive_pulse_raises in E. destruct E as [[lp Hl] Hs].
  destruct H as [H|H]; [congruence|contradiction].
Qed.

End AdaptivePulseOutcome.

(** ** The regulator at its setpoint *)

Section RegulatorAtTarget.
Import TestManager.

Lemma select_mode_zero (e : Q) :
  (e == 0)%Q -> PidController.select_mode (Qabs e) = PidController.fine.
Proof.
  intros He. unfold PidController.select_mode.
  assert (H40 : Qltb (PidController.threshold
                        (PidController.modes PidController.fast))
                     (Qabs e) = false).
  { apply Qltb_false. rewrite He. discriminate. }
  assert (H15 : Qltb (PidController.threshold
                        (PidController.modes PidController.medium))
                     (Qabs e) = false).
  { apply Qltb_false. rewrite He. discriminate. }
  rewrite H40, H15. reflexivity.
Qed.

Lemma select_control_mode_zero (e : Q) :
  (e == 0)%Q -> select_control_mode (Qabs e) = FINE.
Proof.
  intros He. unfold select_control_mode.
  assert (H10 : Qltb (mode_threshold FAST) (Qabs e) = false).
  { apply Qltb_false. rewrite He. discriminate. }
  assert (H5 : Qltb (mode_threshold MEDIUM) (Qabs e) = false).
  { apply Qltb_false. rewrite He. discriminate. }
  rewrite H10, H5. reflexivity.
Qed.

(** With no error and a tolerance that is not negative, the control
    action neither fills nor vents. *)
Lemma control_action_idle k error tolerance mode avg w loc :
  (error == 0)%Q -> (0 <= tolerance)%Q ->
  events (control_action k error tolerance mode avg w loc).1
  = events w ++ [SetChamberValves k false false].
Proof.
  intros He Htol. unfold control_action. cbv zeta.
  assert (H1 : Qltb tolerance error = false).
  { apply Qltb_false. rewrite He. exact Htol. }
  assert (H2 : Qltb error (- tolerance) = false).
  { apply Qltb_false. rewrite He.
    apply (Qopp_le_compat 0 tolerance). exact Htol. }
  rewrite H1, H2. reflexivity.
Qed.

(** C7.  Called with the current pressure equal to the setpoint, the
    wrapper, when it returns (there is no earlier pressure, or the
    sample time is not 0), selects mode "fine"; and for a tolerance that
    is not negative the control action of the regulation loop selects
    FINE and is idle: the only valve command it issues closes both
    valves, so neither the inlet nor the outlet is pulsed. *)
Theorem regulator_at_target_fine_and_idle
  (c : PidController.PIDControllerWrapper) (p : Q)
  (w : World) (loc : regulation_locals) (i : nat) (ch : ChamberTestState) :
  (p == PidController.setpoint c)%Q ->
  PidController.last_pressure c = None
  \/ ~ (PidController.sample_time c == 0)%Q ->
  chamber_at (tm w) i = Some ch ->
  (current_pressure ch == pressure_target ch)%Q ->
  (0 <= pressure_tolerance ch)%Q ->
  (exists out c',
     PidController.compute_adaptive_pulse c p = Some (out, c')
     /\ PidController.out_mode out = PidController.fine)
  /\ select_control_mode (Qabs (pressure_target ch - current_pressure ch))
     = FINE
  /\ events (regulate_one (w, loc) i).1
     = events w ++ [SetChamberValves (chamber_index ch) false false].
Proof.
  intros Hp Hst Hch Heq Htol.
  assert (Herr : (pressure_target ch - current_pressure ch == 0)%Q).
  { rewrite Heq. ring. }
  split; [|split].
  - destruct (compute_adaptive_pulse_returns c p Hst) as (out & c' & E).
    exists out, c'. split; [exact E|].
    destruct (compute_adaptive_pulse_returned c c' p out E) as (Hm & _).
    rewrite Hm. apply select_mode_zero. rewrite Hp. ring.
  - apply select_control_mode_zero. exact Herr.
  - unfold regulate_one. rewrite Hch. cbv zeta.
    destruct (Qleb _ _ && _).
    + reflexivity.
    + apply control_action_idle; assumption.
Qed.

(** A chamber of the default bench, read at its target of 150 mbar. *)
Lemma regulator_at_target_fine_and_idle_witness :
  let ch := set_current_pressure 150 (new_chamber 0) in
  let w := {| tm := set_chambers [ch] new_manager; clock := 0;
              events := [] |} in
  (exists out c',
     PidController.compute_adaptive_pulse (PidController.init 150) 150
     = Some (out, c')
     /\ PidController.out_mode out = PidController.fine)
  /\ select_control_mode (Qabs (pressure_target ch - current_pressure ch))
     = FINE
  /\ events (regulate_one (w, init_locals (tm w) [0%nat]) 0%nat).1
     = [SetChamberValves 0 false false].
Proof.
  intros ch w.
  apply (regulator_at_target_fine_and_idle (PidController.init 150) 150
           w (init_locals (tm w) [0%nat]) 0%nat ch).
  - reflexivity.
  - left. reflexivity.
  - reflexivity.
  - reflexivity.
  - discriminate.
Defined.

(** C7, against the claim as worded.  [set_test_mode] stores the
    tolerance of a reference as it finds it; with the tolerance of -1
    that [Scenario.loose_reference] carries, chamber 0 at its target of
    150 mbar is not idle: the first command of the loop opens the inlet
    for a pulse.  And a
    wrapper with a sample time of 0 that has seen a pressure raises
    instead of selecting a mode. *)
Theorem regulator_at_target_pulses_inlet :
  (exists ch,
     chamber_at (tm Scenario.loose_bench) 0 = Some ch
     /\ (current_pressure ch == pressure_target ch)%Q
     /\ (pressure_tolerance ch == -1)%Q)
  /\ head (events (regulate_one
                     (Scenario.loose_bench,
                      init_locals (tm Scenario.loose_bench) [0%nat])
                     0%nat).1)
     = Some (SetChamberValves 0 true false)
  /\ PidController.compute_adaptive_pulse Scenario.unsampled_wrapper 150
     = None.
Proof.
  split; [|split].
  - eexists. split; [reflexivity|]. split; reflexivity.
  - vm_compute. reflexivity.
  - reflexivity.
Qed.

End RegulatorAtTarget.

(** ** The adaptive pulse of PIDControllerWrapper *)

Section AdaptivePulse.
Import PidController.

Lemma push_history_bounded (h : list Q) (p : Q) :
  (length h <= 10)%nat -> (length (push_history h p) <= 10)%nat.
Proof.
  intros H. unfold push_history. cbv zeta.
  destruct (10 <? length (h ++ [p]))%nat eqn:E.
  - rewrite length_tl, length_app. simpl. lia.
  - apply Nat.ltb_ge in E. exact E.
Qed.

(** The history never holds more than ten pressures. *)
Lemma compute_adaptive_pulse_history_bounded
  (c c' : PIDControllerWrapper) (p : Q) (out : pulse) :
  (length (pressure_history c) <= 10)%nat ->
  compute_adaptive_pulse c p = Some (out, c') ->
  (length (pressure_history c') <= 10)%nat.
Proof.
  intros H E.
  destruct (compute_adaptive_pulse_returned c c' p out E) as (_ & _ & _ & ->).
  simpl. apply push_history_bounded. exact H.
Qed.

(** The returned durations are the scaled base durations of the
    selected mode, clamped from below at 0.05 s; the rate that scales
    them is the mean difference of the stored pressures. *)
Lemma compute_adaptive_pulse_durations (c c' : PIDControllerWrapper)
  (p : Q) (out : pulse) :
  compute_adaptive_pulse c p = Some (out, c') ->
  let rate_factor := rate_factor_of (avg_rate_of (pressure_history c')) in
  out_pulse_on out
  = Qmax 0.05 (pulse_on (modes (out_mode out)) * (1 - rate_factor))
  /\ out_pulse_off out
     = Qmax 0.05 (pulse_off (modes (out_mode out)) * (1 + rate_factor))
  /\ (0.05 <= out_pulse_on out)%Q
  /\ (0.05 <= out_pulse_off out)%Q.
Proof.
  intros E.
  destruct (compute_adaptive_pulse_returned c c' p out E)
    as (_ & Hon & Hoff & ->).
  cbv zeta in *. cbn [pressure_history].
  rewrite Hon, Hoff. repeat split; apply Q.le_max_l.
Qed.

(** The mean that [compute_adaptive_pulse] takes is over differences of
    pressures: between two samples it is their difference, whatever the
    sample time. *)
Lemma avg_rate_of_two (a b : Q) : (avg_rate_of [a; b] == b - a)%Q.
Proof.
  unfold avg_rate_of, Qsum. simpl. field.
Qed.

(** C6, on the code.  Two calls after a reset, with 100 and then
    101 mbar against a setpoint of 150 and the default sample time of
    0.1 s: the wrapper returns 0.27 s and 0.11 s in mode "fast", the
    durations for a rate of 1.  The mean of the per-sample rates
    [(current - last) / sample_interval] is 10 mbar/s, for which the
    stated formulas give 0.05 s and 0.2 s. *)
Theorem adaptive_pulse_averages_differences_not_rates :
  let c := init 150 in
  let samples := [100; 101]%Q in
  exists out,
    (feed c samples).1 = Some out
    /\ out_mode out = fast
    /\ (out_pulse_on out == 0.27)%Q
    /\ (out_pulse_off out == 0.11)%Q
    /\ (logged_rate out == 10)%Q
    /\ (RegulatorSpec.avg_rate (sample_time c) samples == 10)%Q
    /\ (RegulatorSpec.pulse_on (pulse_on (modes fast))
          (RegulatorSpec.avg_rate (sample_time c) samples) == 0.05)%Q
    /\ (RegulatorSpec.pulse_off (pulse_off (modes fast))
          (RegulatorSpec.avg_rate (sample_time c) samples) == 0.2)%Q
    /\ ~ (out_pulse_on out
          == RegulatorSpec.pulse_on (pulse_on (modes (out_mode out)))
               (RegulatorSpec.avg_rate (sample_time c) samples))%Q
    /\ ~ (out_pulse_off out
          == RegulatorSpec.pulse_off (pulse_off (modes (out_mode out)))
               (RegulatorSpec.avg_rate (sample_time c) samples))%Q.
Proof.
  intros c samples.
  eexists. split; [vm_compute; reflexivity|].
  repeat split; try (vm_compute; reflexivity);
    intros H; vm_compute in H; discriminate.
Qed.

End AdaptivePulse.

(** The regulation loop of the test manager does average the rates per
    second, and does not clamp its pulse durations: in mode FINE the
    inlet pulse lasts at most 0.02 s. *)
Lemma regulation_loop_pulse_not_clamped :
  let w := {| TestManager.tm := TestManager.new_manager;
              TestManager.clock := 0; TestManager.events := [] |} in
  TestManager.events
    (TestManager.control_action 0 3 2 TestManager.FINE 0 w
       (TestManager.init_locals (TestManager.tm w) [])).1
  = [TestManager.SetChamberValves 0 true false;
     TestManager.TimeSleep (0.02 * (1 - Qmin 1 (Qabs 0 / 10)));
     TestManager.SetChamberValves 0 false false;
     TestManager.TimeSleep (0.2 * (1 + Qmin 1 (Qabs 0 / 10)))].
Proof. reflexivity. Qed.

(** ** The sensor's error backoff *)

Section SensorBackoff.
Import PressureSensor.

Lemma errors_of_bump (s : PressureSensor) (channel : Z) :
  (Z.to_nat channel < length (consecutive_errors s))%nat ->
  errors_of (bump_errors s channel) channel = (errors_of s channel + 1)%Z.
Proof.
  intros H. unfold errors_of at 1. unfold bump_errors. simpl.
  rewrite list_lookup_insert_eq by exact H. reflexivity.
Qed.

Lemma valid_channel_in_range (s : PressureSensor) (channel : Z) :
  valid_channel channel = true ->
  length (consecutive_errors s) = 4%nat ->
  (Z.to_nat channel < length (consecutive_errors s))%nat.
Proof.
  unfold valid_channel. intros Hv Hlen.
  apply andb_true_iff in Hv as [H0 H3].
  apply Z.leb_le in H0. apply Z.leb_le in H3. lia.
Qed.

(** A read that fails on an open device adds one to the channel's
    counter and returns nothing. *)
Lemma read_voltage_failure_increments
  (e : env) (channel : Z) (s : PressureSensor) (lost : bool) :
  valid_channel channel = true ->
  length (consecutive_errors s) = 4%nat ->
  (errors_of s channel < max_consecutive_errors s)%Z ->
  initialized s = true -> adc_present s = true ->
  adc_answer e = ReadError lost ->
  (read_voltage e channel s).1 = None
  /\ errors_of (read_voltage e channel s).2 channel
     = (errors_of s channel + 1)%Z.
Proof.
  intros Hv Hlen Hlt Hi Ha Hans. unfold read_voltage.
  rewrite Hv. cbn [negb].
  assert (Hle : (max_consecutive_errors s <=? errors_of s channel)%Z = false)
    by (apply Z.leb_gt; exact Hlt).
  rewrite Hle, Hi, Ha. cbn [negb orb]. rewrite Hans. cbn [fst snd].
  split; [reflexivity|].
  assert (Hb : errors_of (bump_errors (with_effect s (AdcRead channel)) channel)
                         channel = (errors_of s channel + 1)%Z).
  { rewrite errors_of_bump; [reflexivity|].
    simpl. apply valid_channel_in_range; assumption. }
  destruct lost; exact Hb.
Qed.

(** So does a read that cannot open the device. *)
Lemma read_voltage_unopened_increments
  (e : env) (channel : Z) (s : PressureSensor) :
  valid_channel channel = true ->
  length (consecutive_errors s) = 4%nat ->
  (errors_of s channel < max_consecutive_errors s)%Z ->
  initialized s && adc_present s = false ->
  (ensure_initialized e s).1 = false ->
  (read_voltage e channel s).1 = None
  /\ errors_of (read_voltage e channel s).2 channel
     = (errors_of s channel + 1)%Z.
Proof.
  intros Hv Hlen Hlt Hni Hfail. unfold read_voltage.
  rewrite Hv. cbn [negb].
  assert (Hle : (max_consecutive_errors s <=? errors_of s channel)%Z = false)
    by (apply Z.leb_gt; exact Hlt).
  rewrite Hle.
  assert (Hor : negb (initialized s) || negb (adc_present s) = true).
  { destruct (initialized s), (adc_present s); simpl in *; congruence. }
  rewrite Hor.
  assert (Hce : consecutive_errors (ensure_initialized e s).2
                = consecutive_errors s).
  { revert Hfail. unfold ensure_initialized. rewrite Hni.
    destruct (Qltb _ _ && _); [reflexivity|].
    destruct (open_ok e); [discriminate|reflexivity]. }
  destruct (ensure_initialized e s) as [ready s1]. cbn [fst snd] in *.
  subst ready. cbn [negb fst snd]. split; [reflexivity|].
  rewrite errors_of_bump.
  - unfold errors_of. rewrite Hce. reflexivity.
  - rewrite Hce. apply valid_channel_in_range; assumption.
Qed.

(** A read that succeeds puts the channel's counter back to zero. *)
Lemma read_voltage_success_resets
  (e : env) (channel : Z) (s : PressureSensor) (raw : Z) :
  valid_channel channel = true ->
  length (consecutive_errors s) = 4%nat ->
  (errors_of s channel < max_consecutive_errors s)%Z ->
  initialized s = true -> adc_present s = true ->
  adc_answer e = Raw raw ->
  (read_voltage e channel s).1 = Some (inject_Z raw / 32767 * 4.096)%Q
  /\ errors_of (read_voltage e channel s).2 channel = 0%Z.
Proof.
  intros Hv Hlen Hlt Hi Ha Hans. unfold read_voltage.
  rewrite Hv. cbn [negb].
  assert (Hle : (max_consecutive_errors s <=? errors_of s channel)%Z = false)
    by (apply Z.leb_gt; exact Hlt).
  rewrite Hle, Hi, Ha. cbn [negb orb]. rewrite Hans. cbn [fst snd].
  split; [reflexivity|].
  unfold errors_of. simpl.
  rewrite list_lookup_insert_eq; [reflexivity|].
  apply valid_channel_in_range; assumption.
Qed.

(** Once the counter has reached the threshold, a read returns nothing,
    leaves the device alone and keeps the channel disabled. *)
Lemma read_pressure_disabled
  (e : env) (channel : Z) (filtered : bool) (s : PressureSensor) :
  valid_channel channel = true ->
  (max_consecutive_errors s <= errors_of s channel)%Z ->
  (read_pressure e channel filtered s).1 = None
  /\ consecutive_errors (read_pressure e channel filtered s).2
     = consecutive_errors s
  /\ max_consecutive_errors (read_pressure e channel filtered s).2
     = max_consecutive_errors s
  /\ count_adc (effects (read_pressure e channel filtered s).2)
     = count_adc (effects s).
Proof.
  intros Hv Hge. unfold read_pressure. rewrite Hv. cbn [negb].
  assert (Hle : (max_consecutive_errors s <=? errors_of s channel)%Z = true)
    by (apply Z.leb_le; exact Hge).
  rewrite Hle.
  destruct (errors_of s channel =? max_consecutive_errors s)%Z;
    cbn [fst snd]; repeat split; try reflexivity.
  unfold count_adc. simpl. rewrite List.filter_app. simpl.
  rewrite length_app. simpl. lia.
Qed.

Lemma read_voltage_disabled
  (e : env) (channel : Z) (s : PressureSensor) :
  valid_channel channel = true ->
  length (consecutive_errors s) = 4%nat ->
  (max_consecutive_errors s <= errors_of s channel)%Z ->
  (read_voltage e channel s).1 = None
  /\ (max_consecutive_errors s
      <= errors_of (read_voltage e channel s).2 channel)%Z
  /\ count_adc (effects (read_voltage e channel s).2) = count_adc (effects s).
Proof.
  intros Hv Hlen Hge. unfold read_voltage. rewrite Hv. cbn [negb].
  assert (Hle : (max_consecutive_errors s <=? errors_of s channel)%Z = true)
    by (apply Z.leb_le; exact Hge).
  rewrite Hle.
  destruct (errors_of s channel =? max_consecutive_errors s)%Z;
    cbn [fst snd]; repeat split; try reflexivity; try exact Hge.
  - rewrite errors_of_bump.
    + unfold errors_of in *. simpl. lia.
    + simpl. apply valid_channel_in_range; assumption.
  - unfold count_adc. simpl. rewrite List.filter_app. simpl.
    rewrite length_app. simpl. lia.
Qed.

(** At the threshold, [read_pressure] sleeps and changes nothing else:
    the counter stays at the threshold, so the next call sleeps again. *)
Lemma read_pressure_at_threshold
  (e : env) (channel : Z) (filtered : bool) (s : PressureSensor) :
  valid_channel channel = true ->
  errors_of s channel = max_consecutive_errors s ->
  read_pressure e channel filtered s
  = (None, with_effect s (Sleep (error_sleep_duration s))).
Proof.
  intros Hv Heq. unfold read_pressure. rewrite Hv. cbn [negb].
  rewrite Heq, Z.leb_refl, Z.eqb_refl. reflexivity.
Qed.

(** Hence every one of the following reads sleeps. *)
Lemma read_pressure_seq_at_threshold
  (es : list env) (channel : Z) (s : PressureSensor) :
  valid_channel channel = true ->
  errors_of s channel = max_consecutive_errors s ->
  (read_pressure_seq es channel s).1 = repeat None (length es)
  /\ count_sleeps (effects (read_pressure_seq es channel s).2)
     = (count_sleeps (effects s) + length es)%nat
  /\ count_adc (effects (read_pressure_seq es channel s).2)
     = count_adc (effects s).
Proof.
  intros Hv. revert s. induction es as [|e es IH]; intros s Heq.
  - simpl. repeat split; lia.
  - simpl. rewrite read_pressure_at_threshold by assumption.
    specialize (IH (with_effect s (Sleep (error_sleep_duration s)))).
    destruct (read_pressure_seq es channel _) as [rs s2].
    cbn [fst snd] in *.
    destruct IH as (H1 & H2 & H3); [exact Heq|].
    rewrite H1, H2, H3. repeat split.
    + unfold count_sleeps. simpl. rewrite List.filter_app, length_app.
      simpl. lia.
    + unfold count_adc. simpl. rewrite List.filter_app, length_app.
      simpl. lia.
Qed.

(** C9, on the code.  A device that fails every read: five calls of
    [read_pressure] on channel 0 bring its counter to the threshold 5;
    each of the next three calls returns nothing without touching the
    device, and each of them sleeps for the cooldown of 2 s, so the log
    holds three sleeps, not one. *)
Theorem read_pressure_cooldown_sleeps_on_every_call :
  let r := read_pressure_seq (repeat Scenario.failing_device 8) 0 init in
  r.1 = repeat None 8
  /\ errors_of r.2 0 = 5%Z
  /\ effects r.2
     = [AdcOpen; AdcRead 0; AdcRead 0; AdcRead 0; AdcRead 0; AdcRead 0;
        Sleep 2; Sleep 2; Sleep 2]
  /\ count_sleeps (effects r.2) = 3%nat.
Proof. vm_compute. repeat split. Qed.

End SensorBackoff.

(** ** The calibration regression *)

Section NumPyOnFiniteValues.
Import NumPy.

Lemma fold_fadd_fin (l : list Q) (a : Q) :
  fold_left fadd (map Fin l) (Fin a) = Fin (fold_left Qplus l a).
Proof.
  revert a. induction l as [|x l IH]; intros a; simpl; [reflexivity|].
  apply IH.
Qed.

Lemma np_sum_fin (l : list Q) : np_sum (np_array l) = Fin (Qsum l).
Proof. apply fold_fadd_fin. Qed.

Lemma length_nonzero (n : nat) :
  (0 < n)%nat -> Qeqb (inject_Z (Z.of_nat n)) 0 = false.
Proof.
  intros H. apply Qeqb_false. intros E.
  unfold Qeq in E. simpl in E. lia.
Qed.

Lemma np_mean_fin (l : list Q) :
  (0 < length l)%nat -> np_mean (np_array l) = Fin (OlsSpec.mean l).
Proof.
  intros H. unfold np_mean. rewrite np_sum_fin.
  unfold np_array at 1. rewrite length_map. unfold fdiv.
  rewrite length_nonzero by exact H. reflexivity.
Qed.

Lemma arr_sub_scalar_fin (l : list Q) (c : Q) :
  arr_sub_scalar (np_array l) (Fin c)
  = np_array (map (fun v => (v - c)%Q) l).
Proof.
  unfold arr_sub_scalar, np_array. rewrite !map_map. reflexivity.
Qed.

Lemma arr_sq_fin (l : list Q) :
  arr_sq (np_array l) = np_array (map (fun v => (v * v)%Q) l).
Proof. unfold arr_sq, np_array. rewrite !map_map. reflexivity. Qed.

Lemma arr_affine_fin (m : Q) (l : list Q) (c : Q) :
  arr_affine (Fin m) (np_array l) (Fin c)
  = np_array (map (fun v => (m * v + c)%Q) l).
Proof. unfold arr_affine, np_array. rewrite !map_map. reflexivity. Qed.

Lemma arr_mul_fin (f g : Q -> Q) (xs ys : list Q) :
  arr_mul (np_array (map f xs)) (np_array (map g ys))
  = np_array (map (fun p => (f p.1 * g p.2)%Q) (combine xs ys)).
Proof.
  revert ys. induction xs as [|x xs IH]; intros [|y ys]; simpl;
    try reflexivity.
  f_equal. apply IH.
Qed.

Lemma arr_sub_fin (h : Q -> Q) (xs ys : list Q) :
  length xs = length ys ->
  arr_sub (np_array ys) (np_array (map h xs))
  = np_array (map (fun p => (p.2 - h p.1)%Q) (combine xs ys)).
Proof.
  revert ys. induction xs as [|x xs IH]; intros [|y ys] Hlen; simpl in *;
    try reflexivity; try discriminate.
  f_equal. apply IH. lia.
Qed.

Lemma fdiv_fin (a b : Q) :
  Qeqb b 0 = false -> fdiv (Fin a) (Fin b) = Fin (a / b).
Proof. intros H. unfold fdiv. rewrite H. reflexivity. Qed.

End NumPyOnFiniteValues.

Section Regression.
Import NumPy CalibrationDb.

(** What both regressions compute on finite samples, up to the first
    division: the sums of the specification. *)
Lemma numerator_is_sxy (xs ys : list Q) :
  (0 < length xs)%nat -> (0 < length ys)%nat ->
  np_sum (arr_mul (arr_sub_scalar (np_array xs) (np_mean (np_array xs)))
                  (arr_sub_scalar (np_array ys) (np_mean (np_array ys))))
  = Fin (OlsSpec.sxy xs ys).
Proof.
  intros Hx Hy. rewrite !np_mean_fin by assumption.
  rewrite !arr_sub_scalar_fin.
  rewrite (arr_mul_fin (fun v => v - OlsSpec.mean xs)%Q
                       (fun v => v - OlsSpec.mean ys)%Q).
  apply np_sum_fin.
Qed.

Lemma denominator_is_sxx (xs : list Q) :
  (0 < length xs)%nat ->
  np_sum (arr_sq (arr_sub_scalar (np_array xs) (np_mean (np_array xs))))
  = Fin (OlsSpec.sxx xs).
Proof.
  intros Hx. rewrite np_mean_fin by assumption.
  rewrite arr_sub_scalar_fin, arr_sq_fin, np_sum_fin.
  unfold OlsSpec.sxx. rewrite map_map. reflexivity.
Qed.

Lemma residual_is_ss_res (xs ys : list Q) :
  length xs = length ys ->
  np_sum (arr_sq (arr_sub (np_array ys)
                    (arr_affine (Fin (OlsSpec.ols_multiplier xs ys))
                                (np_array xs)
                                (Fin (OlsSpec.ols_offset xs ys)))))
  = Fin (OlsSpec.ss_res xs ys).
Proof.
  intros Hlen. rewrite arr_affine_fin.
  rewrite (arr_sub_fin (fun v => OlsSpec.ols_multiplier xs ys * v
                                 + OlsSpec.ols_offset xs ys)%Q)
    by exact Hlen.
  rewrite arr_sq_fin, np_sum_fin. unfold OlsSpec.ss_res.
  rewrite map_map. reflexivity.
Qed.

(** The unguarded regression of the database class on finite samples
    whose voltages are not all equal. *)
Lemma db_calculate_calibration_fin (now c : Z) (pts : list CalibrationPoint) :
  let xs := map voltage pts in
  let ys := map pressure pts in
  (2 <= length pts)%nat ->
  ~ (OlsSpec.sxx xs == 0)%Q ->
  CalibrationDb.calculate_calibration now c pts
  = Some {| chamber_id := c;
            multiplier := Fin (OlsSpec.ols_multiplier xs ys);
            offset := Fin (OlsSpec.ols_offset xs ys);
            r_squared :=
              fsub (Fin 1) (fdiv (Fin (OlsSpec.ss_res xs ys))
                                 (Fin (OlsSpec.ss_tot ys)));
            calibration_date := now;
            points := pts |}.
Proof.
  intros xs ys Hlen Hvar. unfold CalibrationDb.calculate_calibration.
  assert (Hlt : (length pts <? 2)%nat = false) by (apply Nat.ltb_ge; lia).
  rewrite Hlt. fold xs ys.
  assert (Hx : (0 < length xs)%nat) by (unfold xs; rewrite length_map; lia).
  assert (Hy : (0 < length ys)%nat) by (unfold ys; rewrite length_map; lia).
  assert (Hxy : length xs = length ys)
    by (unfold xs, ys; rewrite !length_map; reflexivity).
  rewrite numerator_is_sxy, denominator_is_sxx by assumption.
  rewrite (denominator_is_sxx ys) by assumption.
  rewrite fdiv_fin by (apply Qeqb_false; exact Hvar).
  rewrite !np_mean_fin by assumption.
  change (fsub (Fin (OlsSpec.mean ys))
               (fmul (Fin (OlsSpec.sxy xs ys / OlsSpec.sxx xs))
                     (Fin (OlsSpec.mean xs))))
    with (Fin (OlsSpec.ols_offset xs ys)).
  change (Fin (OlsSpec.sxy xs ys / OlsSpec.sxx xs))
    with (Fin (OlsSpec.ols_multiplier xs ys)).
  rewrite residual_is_ss_res by assumption.
  reflexivity.
Qed.

(** The guarded regression of the manager on the same samples. *)
Lemma manager_calculate_calibration_fin
  (self : CalibrationManager.CalibrationManager) (now c : Z) :
  let pts := CalibrationManager.calibration_points self in
  let xs := map voltage pts in
  let ys := map pressure pts in
  CalibrationManager.current_chamber self = Some c ->
  (2 <= length pts)%nat ->
  ~ (OlsSpec.sxx xs == 0)%Q ->
  CalibrationManager.calculate_calibration self now
  = Some {| chamber_id := c;
            multiplier := Fin (OlsSpec.ols_multiplier xs ys);
            offset := Fin (OlsSpec.ols_offset xs ys);
            r_squared :=
              if Qeqb (OlsSpec.ss_tot ys) 0 then Fin 0
              else Fin (OlsSpec.ols_r_squared xs ys);
            calibration_date := now;
            points := pts |}.
Proof.
  intros pts xs ys Hc Hlen Hvar.
  unfold CalibrationManager.calculate_calibration.
  rewrite Hc. fold pts.
  assert (Hlt : (length pts <? 2)%nat = false) by (apply Nat.ltb_ge; lia).
  rewrite Hlt. fold xs ys.
  assert (Hx : (0 < length xs)%nat) by (unfold xs; rewrite length_map; lia).
  assert (Hy : (0 < length ys)%nat) by (unfold ys; rewrite length_map; lia).
  assert (Hxy : length xs = length ys)
    by (unfold xs, ys; rewrite !length_map; reflexivity).
  rewrite numerator_is_sxy, denominator_is_sxx by assumption.
  rewrite (denominator_is_sxx ys) by assumption.
  assert (Hden : Qeqb (OlsSpec.sxx xs) 0 = false)
    by (apply Qeqb_false; exact Hvar).
  cbn [feqb]. rewrite Hden.
  rewrite fdiv_fin by exact Hden.
  rewrite !np_mean_fin by assumption.
  change (fsub (Fin (OlsSpec.mean ys))
               (fmul (Fin (OlsSpec.sxy xs ys / OlsSpec.sxx xs))
                     (Fin (OlsSpec.mean xs))))
    with (Fin (OlsSpec.ols_offset xs ys)).
  change (Fin (OlsSpec.sxy xs ys / OlsSpec.sxx xs))
    with (Fin (OlsSpec.ols_multiplier xs ys)).
  rewrite residual_is_ss_res by assumption.
  unfold OlsSpec.ss_tot at 1.
  destruct (Qeqb (OlsSpec.sxx ys) 0) eqn:E.
  - reflexivity.
  - rewrite fdiv_fin by exact E. reflexivity.
Qed.

End Regression.

Section ConstantPressures.
Import NumPy CalibrationDb.

Lemma fold_Qplus_const (l : list Q) (y0 a : Q) :
  Forall (fun q => (q == y0)%Q) l ->
  (fold_left Qplus l a == a + inject_Z (Z.of_nat (length l)) * y0)%Q.
Proof.
  intros H. revert a. induction H as [|q l Hq _ IH]; intros a.
  - simpl. ring.
  - replace (Z.of_nat (length (q :: l))) with (Z.of_nat (length l) + 1)%Z
      by (cbn [length]; lia).
    cbn [fold_left]. rewrite IH, Hq, inject_Z_plus. ring.
Qed.

Lemma Qsum_zero (l : list Q) :
  Forall (fun q => (q == 0)%Q) l -> (Qsum l == 0)%Q.
Proof.
  intros H. unfold Qsum. rewrite (fold_Qplus_const l 0 0 H). ring.
Qed.

Lemma mean_const (l : list Q) (y0 : Q) :
  (0 < length l)%nat -> Forall (fun q => (q == y0)%Q) l ->
  (OlsSpec.mean l == y0)%Q.
Proof.
  intros Hlen H. unfold OlsSpec.mean, Qsum.
  rewrite (fold_Qplus_const l y0 0 H). field.
  intros E. unfold Qeq in E. simpl in E. lia.
Qed.

Lemma ss_tot_const (ys : list Q) (y0 : Q) :
  (0 < length ys)%nat -> Forall (fun q => (q == y0)%Q) ys ->
  (OlsSpec.ss_tot ys == 0)%Q.
Proof.
  intros Hlen H. unfold OlsSpec.ss_tot, OlsSpec.sxx. apply Qsum_zero.
  apply Forall_map. pose proof (mean_const ys y0 Hlen H) as Hm.
  eapply Forall_impl; [exact H|]. intros y Hy. simpl.
  rewrite Hy, Hm. ring.
Qed.

Lemma Forall_combine_snd (P : Q -> Prop) (xs ys : list Q) :
  Forall P ys -> Forall (fun p : Q * Q => P p.2) (combine xs ys).
Proof.
  intros H. revert xs. induction H as [|y ys Hy _ IH]; intros [|x xs];
    simpl; constructor; auto.
Qed.

Lemma sxy_const (xs ys : list Q) (y0 : Q) :
  (0 < length ys)%nat -> Forall (fun q => (q == y0)%Q) ys ->
  (OlsSpec.sxy xs ys == 0)%Q.
Proof.
  intros Hlen H. unfold OlsSpec.sxy. apply Qsum_zero. apply Forall_map.
  pose proof (mean_const ys y0 Hlen H) as Hm.
  eapply Forall_impl; [apply (Forall_combine_snd _ xs ys H)|].
  intros [x y] Hy. simpl in *. rewrite Hy, Hm. ring.
Qed.

Lemma ols_const (xs ys : list Q) (y0 : Q) :
  (0 < length ys)%nat -> Forall (fun q => (q == y0)%Q) ys ->
  ~ (OlsSpec.sxx xs == 0)%Q ->
  (OlsSpec.ols_multiplier xs ys == 0)%Q
  /\ (OlsSpec.ols_offset xs ys == y0)%Q.
Proof.
  intros Hlen H Hvar.
  assert (Hm : (OlsSpec.ols_multiplier xs ys == 0)%Q).
  { unfold OlsSpec.ols_multiplier. rewrite (sxy_const xs ys y0 Hlen H).
    field. exact Hvar. }
  split; [exact Hm|].
  unfold OlsSpec.ols_offset. rewrite Hm, (mean_const ys y0 Hlen H). ring.
Qed.

Lemma ss_res_const (xs ys : list Q) (y0 : Q) :
  (0 < length ys)%nat -> Forall (fun q => (q == y0)%Q) ys ->
  ~ (OlsSpec.sxx xs == 0)%Q ->
  (OlsSpec.ss_res xs ys == 0)%Q.
Proof.
  intros Hlen H Hvar. destruct (ols_const xs ys y0 Hlen H Hvar) as [Hm Ho].
  unfold OlsSpec.ss_res. apply Qsum_zero. apply Forall_map.
  eapply Forall_impl; [apply (Forall_combine_snd _ xs ys H)|].
  intros [x y] Hy. simpl in *. rewrite Hy, Hm, Ho. ring.
Qed.

(** The guard of the manager: equal reference pressures give r² = 0. *)
Lemma manager_r_squared_guarded
  (self : CalibrationManager.CalibrationManager) (now c : Z) (y0 : Q) :
  let pts := CalibrationManager.calibration_points self in
  CalibrationManager.current_chamber self = Some c ->
  (2 <= length pts)%nat ->
  Forall (fun q => (q == y0)%Q) (map pressure pts) ->
  ~ (OlsSpec.sxx (map voltage pts) == 0)%Q ->
  exists res,
    CalibrationManager.calculate_calibration self now = Some res
    /\ r_squared res = Fin 0.
Proof.
  intros pts Hc Hlen Hconst Hvar.
  rewrite (manager_calculate_calibration_fin self now c Hc Hlen Hvar).
  eexists. split; [reflexivity|]. cbn [r_squared].
  assert (Hz : Qeqb (OlsSpec.ss_tot (map pressure pts)) 0 = true).
  { apply Qeqb_true. apply (ss_tot_const _ y0); [|exact Hconst].
    rewrite length_map. fold pts. lia. }
  fold pts. rewrite Hz. reflexivity.
Qed.

(** The regression of the database class has no such guard: on the same
    samples its r² is 0/0, a NaN. *)
Lemma db_r_squared_unguarded (now c : Z) (pts : list CalibrationPoint)
  (y0 : Q) :
  (2 <= length pts)%nat ->
  Forall (fun q => (q == y0)%Q) (map pressure pts) ->
  ~ (OlsSpec.sxx (map voltage pts) == 0)%Q ->
  exists res,
    CalibrationDb.calculate_calibration now c pts = Some res
    /\ r_squared res = NaN.
Proof.
  intros Hlen Hconst Hvar.
  rewrite (db_calculate_calibration_fin now c pts Hlen Hvar).
  eexists. split; [reflexivity|]. cbn [r_squared].
  assert (Hy : (0 < length (map pressure pts))%nat)
    by (rewrite length_map; lia).
  assert (Hz : Qeqb (OlsSpec.ss_tot (map pressure pts)) 0 = true).
  { apply Qeqb_true. apply (ss_tot_const _ y0); assumption. }
  assert (Hr : Qsign (OlsSpec.ss_res (map voltage pts) (map pressure pts))
               = Eq).
  { unfold Qsign. apply Qeq_alt.
    apply (ss_res_const _ _ y0); assumption. }
  unfold fdiv. rewrite Hz, Hr. reflexivity.
Qed.

End ConstantPressures.

Section RegressionClaims.
Import NumPy CalibrationDb.

(** The calibration session of chamber [c] holding the points [pts]. *)
Let session (c : Z) (pts : list CalibrationPoint)
  : CalibrationManager.CalibrationManager :=
  {| CalibrationManager.current_chamber := Some c;
     CalibrationManager.calibration_points := pts;
     CalibrationManager.current_point_index := length pts;
     CalibrationManager.calibration_db := _init_database |}.

(** C5.  For at least two calibration points whose voltages are not all
    equal, [calculate_calibration] (of the manager, for the selected
    chamber, and of the database class) returns the least-squares fit:
    multiplier Sxy/Sxx and offset mean(y) - multiplier * mean(x), with
    r² = 1 - SS_res/SS_tot when SS_tot is not zero.  For the points
    (0 V, 0 mbar) and (1 V, 1000 mbar) both return multiplier 1000,
    offset 0 and r² 1. *)
Theorem calculate_calibration_least_squares :
  (forall (self : CalibrationManager.CalibrationManager) (now c : Z),
     let pts := CalibrationManager.calibration_points self in
     let xs := map voltage pts in
     let ys := map pressure pts in
     CalibrationManager.current_chamber self = Some c ->
     (2 <= length pts)%nat ->
     ~ (OlsSpec.sxx xs == 0)%Q ->
     (exists res,
        CalibrationManager.calculate_calibration self now = Some res
        /\ multiplier res = Fin (OlsSpec.ols_multiplier xs ys)
        /\ offset res = Fin (OlsSpec.ols_offset xs ys)
        /\ (~ (OlsSpec.ss_tot ys == 0)%Q ->
            r_squared res = Fin (OlsSpec.ols_r_squared xs ys)))
     /\ (exists res,
           CalibrationDb.calculate_calibration now c pts = Some res
           /\ multiplier res = Fin (OlsSpec.ols_multiplier xs ys)
           /\ offset res = Fin (OlsSpec.ols_offset xs ys)
           /\ (~ (OlsSpec.ss_tot ys == 0)%Q ->
               r_squared res = Fin (OlsSpec.ols_r_squared xs ys))))
  /\ (let pts := [ {| pressure := 0; voltage := 0; timestamp := 0 |};
                   {| pressure := 1000; voltage := 1; timestamp := 1 |} ] in
      (exists res,
         CalibrationManager.calculate_calibration (session 0 pts) 2 = Some res
         /\ feq (multiplier res) (Fin 1000)
         /\ feq (offset res) (Fin 0)
         /\ feq (r_squared res) (Fin 1))
      /\ (exists res,
            CalibrationDb.calculate_calibration 2 0 pts = Some res
            /\ feq (multiplier res) (Fin 1000)
            /\ feq (offset res) (Fin 0)
            /\ feq (r_squared res) (Fin 1))).
Proof.
  split.
  - intros self now c pts xs ys Hc Hlen Hvar. split.
    + rewrite (manager_calculate_calibration_fin self now c Hc Hlen Hvar).
      eexists. split; [reflexivity|]. cbn [multiplier offset r_squared].
      fold pts xs ys. repeat split.
      intros Htot. apply Qeqb_false in Htot. rewrite Htot. reflexivity.
    + rewrite (db_calculate_calibration_fin now c pts Hlen Hvar).
      eexists. split; [reflexivity|]. cbn [multiplier offset r_squared].
      fold xs ys. repeat split.
      intros Htot. apply Qeqb_false in Htot.
      rewrite fdiv_fin by exact Htot. reflexivity.
  - cbv zeta. split; eexists; (split; [vm_compute; reflexivity|]);
      vm_compute; repeat split.
Qed.

(** The general statement at the two points of the example. *)
Lemma calculate_calibration_least_squares_witness :
  let pts := [ {| pressure := 0; voltage := 0; timestamp := 0 |};
               {| pressure := 1000; voltage := 1; timestamp := 1 |} ] in
  let xs := map voltage pts in
  let ys := map pressure pts in
  exists res,
    CalibrationManager.calculate_calibration (session 0 pts) 2 = Some res
    /\ multiplier res = Fin (OlsSpec.ols_multiplier xs ys)
    /\ offset res = Fin (OlsSpec.ols_offset xs ys)
    /\ (OlsSpec.ols_multiplier xs ys == 1000)%Q
    /\ (OlsSpec.ols_offset xs ys == 0)%Q.
Proof.
  intros pts xs ys.
  destruct (proj1 calculate_calibration_least_squares (session 0 pts) 2%Z 0%Z)
    as [(res & Hres & Hm & Ho & _) _].
  - reflexivity.
  - simpl. lia.
  - intros H. vm_compute in H. discriminate.
  - exists res. split; [exact Hres|]. split; [exact Hm|].
    split; [exact Ho|]. split; vm_compute; reflexivity.
Defined.

(** C8, on the code.  Two points with the same reference pressure of
    100 mbar, read at 0 V and 1 V: the regression of the database class
    divides 0 by SS_tot = 0 and returns a NaN as r², where the manager's
    regression, which guards the division, returns 0. *)
Theorem db_calculate_calibration_r_squared_nan :
  let pts := [ {| pressure := 100; voltage := 0; timestamp := 0 |};
               {| pressure := 100; voltage := 1; timestamp := 1 |} ] in
  (OlsSpec.ss_tot (map pressure pts) == 0)%Q
  /\ ~ (OlsSpec.sxx (map voltage pts) == 0)%Q
  /\ (exists res,
        CalibrationDb.calculate_calibration 2 0 pts = Some res
        /\ r_squared res = NaN)
  /\ (exists res,
        CalibrationManager.calculate_calibration (session 0 pts) 2 = Some res
        /\ r_squared res = Fin 0).
Proof.
  cbv zeta. split; [vm_compute; reflexivity|].
  split; [intros H; vm_compute in H; discriminate|].
  split; eexists; (split; [vm_compute; reflexivity|]); reflexivity.
Qed.

End RegressionClaims.

(** ** The test thread and its cleanup *)

Section CallsOfCombinators.
Import TestManager RunSpec.

Lemma adds_weaken {A} (c : M A) (P Q : outcome A -> list phase_name -> Prop) :
  adds c P -> (forall o l, P o l -> Q o l) -> adds c Q.
Proof.
  intros Hc HPQ st o st' Hrun.
  destruct (Hc st o st' Hrun) as (l & Hl & HP). eauto.
Qed.

Lemma adds_ret {A} (a : A) :
  adds (mret a) (fun o l => o = Val a /\ l = []).
Proof.
  intros st o st' H. inversion H; subst. exists [].
  rewrite app_nil_r. auto.
Qed.

Lemma adds_raise {A} (e : exn) :
  adds (@raise A e) (fun o l => o = Exc e /\ l = []).
Proof.
  intros st o st' H. inversion H; subst. exists [].
  rewrite app_nil_r. auto.
Qed.

Lemma adds_lift {A} (a : action A) :
  adds (lift a) (fun _ l => l = []).
Proof.
  intros st o st' H. unfold lift in H.
  destruct (a (pending st) (world st)) as [[[o1 w1] env1]|]; [|discriminate].
  inversion H; subst. exists []. simpl. rewrite app_nil_r. auto.
Qed.

Lemma adds_lift_never_raises {A} (a : action A) :
  never_raises a ->
  adds (lift a) (fun o l => l = [] /\ exists v, o = Val v).
Proof.
  intros Ha st o st' H. unfold lift in H.
  destruct (a (pending st) (world st)) as [[[o1 w1] env1]|] eqn:E;
    [|discriminate].
  inversion H; subst. exists []. simpl. rewrite app_nil_r.
  split; [reflexivity|]. split; [reflexivity|]. eapply Ha. exact E.
Qed.

Lemma adds_call {A} (p : phase_name) (a : action A) :
  adds (call p a) (fun _ l => l = [p]).
Proof.
  intros st o st' H. unfold call, lift in H. simpl in H.
  destruct (a (pending st) (world st)) as [[[o1 w1] env1]|]; [|discriminate].
  inversion H; subst. exists [p]. simpl. auto.
Qed.

Lemma adds_modify_tm (f : TestManager -> TestManager) :
  adds (modify_tm f) (fun o l => o = Val tt /\ l = []).
Proof.
  intros st o st' H. inversion H; subst. exists []. simpl.
  rewrite app_nil_r. auto.
Qed.

Lemma adds_get_tm : adds get_tm (fun _ l => l = []).
Proof.
  intros st o st' H. inversion H; subst. exists [].
  rewrite app_nil_r. auto.
Qed.

Lemma adds_bind {A B} (c : M A) (f : A -> M B)
  (P : outcome A -> list phase_name -> Prop)
  (Q : A -> outcome B -> list phase_name -> Prop) :
  adds c P -> (forall a, adds (f a) (Q a)) ->
  adds (c ≫= f)
       (fun o l =>
          (exists a l1 l2, P (Val a) l1 /\ Q a o l2 /\ l = l1 ++ l2)
          \/ (exists e, o = Exc e /\ P (Exc e) l)).
Proof.
  intros Hc Hf st o st' H. unfold mbind, M_bind in H.
  destruct (c st) as [[[a|e] st1]|] eqn:E; [| |discriminate].
  - destruct (Hc _ _ _ E) as (l1 & Hl1 & HP).
    destruct (Hf a _ _ _ H) as (l2 & Hl2 & HQ).
    exists (l1 ++ l2). split.
    + rewrite Hl2, Hl1, app_assoc. reflexivity.
    + left. exists a, l1, l2. auto.
  - inversion H; subst.
    destruct (Hc _ _ _ E) as (l1 & Hl1 & HP).
    exists l1. split; [exact Hl1|]. right. eauto.
Qed.

Lemma adds_try_except {A} (body : M A) (handler : string -> M A)
  (P Q : outcome A -> list phase_name -> Prop) :
  adds body P -> (forall m, adds (handler m) (fun o l => Q o l)) ->
  adds (try_except body handler)
       (fun o l =>
          P o l \/ (exists l1 l2, (exists m, P (Exc (PyException m)) l1)
                                  /\ Q o l2 /\ l = l1 ++ l2)).
Proof.
  intros Hb Hh st o st' H. unfold try_except in H.
  destruct (body st) as [[[a|[m|m]] st1]|] eqn:E; try discriminate.
  - inversion H; subst. destruct (Hb _ _ _ E) as (l & Hl & HP). eauto.
  - destruct (Hb _ _ _ E) as (l1 & Hl1 & HP).
    destruct (Hh m _ _ _ H) as (l2 & Hl2 & HQ).
    exists (l1 ++ l2). split.
    + rewrite Hl2, Hl1, app_assoc. reflexivity.
    + right. exists l1, l2. eauto.
  - inversion H; subst. destruct (Hb _ _ _ E) as (l & Hl & HP). eauto.
Qed.

Lemma adds_try_finally {A} (body : M A) (final : outcome A -> M unit)
  (P : outcome A -> list phase_name -> Prop)
  (Q : list phase_name -> Prop) :
  adds body P -> (forall o, adds (final o) (fun _ l => Q l)) ->
  adds (try_finally body final)
       (fun _ l => exists o1 l1 l2, P o1 l1 /\ Q l2 /\ l = l1 ++ l2).
Proof.
  intros Hb Hf st o st' H. unfold try_finally in H.
  destruct (body st) as [[o1 st1]|] eqn:E; [|discriminate].
  destruct (final o1 st1) as [[o2 st2]|] eqn:E2; [|discriminate].
  destruct (Hb _ _ _ E) as (l1 & Hl1 & HP).
  destruct (Hf o1 _ _ _ E2) as (l2 & Hl2 & HQ).
  assert (Hst : st' = st2) by (destruct o2; inversion H; reflexivity).
  subst st'. exists (l1 ++ l2). split.
  - rewrite Hl2, Hl1, app_assoc. reflexivity.
  - exists o1, l1, l2. auto.
Qed.

Lemma adds_require (b : bool) (message : string) :
  adds (require b message)
       (fun o l => l = [] /\ (o = Val tt -> b = true)).
Proof.
  intros st o st' H. unfold require in H. destruct b.
  - inversion H; subst. exists []. rewrite app_nil_r. auto.
  - inversion H; subst. exists []. rewrite app_nil_r.
    split; [reflexivity|]. split; [reflexivity|]. discriminate.
Qed.

End CallsOfCombinators.

Section RunTestCalls.
Import TestManager RunSpec.

Variables filling regulation stabilization testing emptying : action bool.
Variable process_results : bool -> action unit.
Variables start_monitoring stop_monitoring : action unit.
Variable update_status : string -> action unit.

(** The [try] block calls the phases in their order and stops at the
    first that fails or raises; it never calls the emptying. *)
Lemma run_phases_calls :
  adds (run_phases filling regulation stabilization testing)
       (fun _ l => (l `prefix_of` earlier_phases) /\ EMPTYING ∉ l).
Proof.
  intros st o st' H.
  unfold run_phases, mbind, M_bind, call, lift, require, mret, M_ret, raise
    in H.
  simpl in H.
  repeat match type of H with
         | context [match ?a ?env ?w with _ => _ end] =>
             destruct (a env w) as [[[[[|]|?] ?] ?]|]; simpl in H
         end;
    try discriminate; inversion H; subst; simpl;
    rewrite <- ?app_assoc; simpl;
    (eexists; split; [reflexivity|]);
    (split; [eexists; reflexivity|]);
    intros Hin;
    repeat (apply elem_of_cons in Hin as [Hin|Hin]; [discriminate|]);
    apply elem_of_nil in Hin; exact Hin.
Qed.

Lemma on_test_error_calls (prefix message : string) :
  adds (on_test_error update_status prefix message) (fun _ l => l = []).
Proof.
  unfold on_test_error.
  eapply adds_weaken.
  - apply adds_bind; [apply adds_modify_tm|].
    intros ?u. apply adds_lift.
  - simpl. intros o l [(a & l1 & l2 & [_ H1] & H2 & ->)|(e & _ & [_ H1])];
      subst; reflexivity.
Qed.

(** The [finally] block calls the emptying, once, however it is entered
    and however the emptying, the result processing and the monitor
    shutdown end. *)
Lemma cleanup_calls (o : outcome bool) :
  adds (cleanup emptying process_results stop_monitoring o)
       (fun _ l => l = [EMPTYING]).
Proof.
  unfold cleanup. cbv zeta.
  eapply adds_weaken.
  - apply adds_bind; [apply adds_call|].
    intros ?u. apply adds_bind; [apply adds_lift|].
    intros ?u. apply adds_lift.
  - simpl. intros o' l H.
    destruct H as [(a & l1 & l2 & -> & H2 & ->)|(e & _ & ->)];
      [|reflexivity].
    destruct H2 as [(a' & l3 & l4 & -> & -> & ->)|(e & _ & ->)]; reflexivity.
Qed.

Lemma mark_not_running_calls :
  adds (mark_not_running update_status) (fun _ l => l = []).
Proof.
  unfold mark_not_running.
  eapply adds_weaken.
  - apply adds_bind; [apply adds_modify_tm|].
    intros ?u. apply adds_bind; [apply adds_get_tm|].
    intros t.
    instantiate (1 := fun _ _ l => l = []).
    destruct (terminal_state (test_state t)).
    + eapply adds_weaken; [apply adds_ret|]. intros ? ? [_ ->]. reflexivity.
    + eapply adds_weaken.
      * apply adds_bind; [apply adds_modify_tm|]. intros ?u. apply adds_lift.
      * simpl. intros o l [(a & l1 & l2 & [_ ->] & -> & ->)|(e & _ & [_ ->])];
          reflexivity.
  - simpl. intros o l H.
    destruct H as [(a & l1 & l2 & [_ ->] & H2 & ->)|(e & _ & [_ ->])];
      [|reflexivity].
    destruct H2 as [(a' & l3 & l4 & -> & -> & ->)|(e & _ & ->)]; reflexivity.
Qed.

(** The inner [try ... except ... finally]. *)
Lemma guarded_phases_calls :
  adds (try_finally
          (try_except
             (run_phases filling regulation stabilization testing)
             (fun message =>
                on_test_error update_status "Error: " message;; mret false))
          (cleanup emptying process_results stop_monitoring))
       (fun _ l => exists earlier,
                     l = earlier ++ [EMPTYING]
                     /\ (earlier `prefix_of` earlier_phases)
                     /\ EMPTYING ∉ earlier).
Proof.
  eapply adds_weaken.
  - apply adds_try_finally with (Q := fun l => l = [EMPTYING]).
    + apply adds_try_except with (Q := fun _ l => l = []).
      * apply run_phases_calls.
      * intros m. eapply adds_weaken.
        -- apply adds_bind; [apply on_test_error_calls|].
           intros ?u. apply adds_ret.
        -- simpl. intros o l
             [(a & l1 & l2 & -> & [_ ->] & ->)|(e & _ & ->)]; reflexivity.
    + intros o. apply cleanup_calls.
  - simpl. intros _ l (o1 & l1 & l2 & H1 & -> & ->).
    destruct H1 as [[Hp Hn]|(l3 & l4 & [m [Hp Hn]] & -> & ->)].
    + exists l1. auto.
    + exists l3. rewrite app_nil_r. auto.
Qed.

(** C2.  Whatever the phase methods do (return true, return false after
    a timeout or a stop request, or raise), and whatever the status
    callback, the result processing and the monitor shutdown do, a run
    of [_run_test] whose monitoring has started and which ends has
    called the emptying phase exactly once, as the last phase, after a
    prefix of filling, regulation, stabilisation and testing. *)
Theorem emptying_runs_exactly_once (st st' : run_state) (o : outcome unit) :
  never_raises start_monitoring ->
  _run_test filling regulation stabilization testing emptying
            process_results start_monitoring stop_monitoring update_status st
  = Some (o, st') ->
  exists earlier,
    calls st' = calls st ++ earlier ++ [EMPTYING]
    /\ (earlier `prefix_of` earlier_phases)
    /\ (EMPTYING ∉ earlier)
    /\ length (List.filter (fun p => bool_decide (p = EMPTYING))
                           (earlier ++ [EMPTYING])) = 1%nat.
Proof.
  intros Hmon Hrun.
  assert (Hadds :
    adds (_run_test filling regulation stabilization testing emptying
                    process_results start_monitoring stop_monitoring
                    update_status)
         (fun _ l => exists earlier,
                       l = earlier ++ [EMPTYING]
                       /\ (earlier `prefix_of` earlier_phases)
                       /\ EMPTYING ∉ earlier)).
  { unfold _run_test. eapply adds_weaken.
    - apply adds_try_finally with (Q := fun l => l = []).
      + apply adds_try_except with (Q := fun _ l => l = []).
        * apply adds_bind; [apply adds_lift_never_raises; exact Hmon|].
          intros ?u. apply adds_bind; [apply guarded_phases_calls|].
          intros ?u. apply adds_ret.
        * intros m. apply on_test_error_calls.
      + intros _. apply mark_not_running_calls.
    - simpl. intros _ l (o1 & l1 & l2 & H1 & -> & ->).
      rewrite app_nil_r.
      assert (Hbody : forall o' l',
        ((exists (a : unit) l1 l2,
            (l1 = [] /\ exists v, Val a = Val v)
            /\ ((exists (a0 : bool) l3 l4,
                   (exists earlier, l3 = earlier ++ [EMPTYING]
                      /\ (earlier `prefix_of` earlier_phases)
                      /\ EMPTYING ∉ earlier)
                   /\ (o' = Val tt /\ l4 = []) /\ l2 = l3 ++ l4)
                \/ (exists e, o' = Exc e
                      /\ exists earlier, l2 = earlier ++ [EMPTYING]
                           /\ (earlier `prefix_of` earlier_phases)
                           /\ EMPTYING ∉ earlier))
            /\ l' = l1 ++ l2)
         \/ (exists e, o' = Exc e /\ l' = [] /\ exists v : unit, Exc e = Val v))
        -> exists earlier, l' = earlier ++ [EMPTYING]
             /\ (earlier `prefix_of` earlier_phases) /\ EMPTYING ∉ earlier).
      { intros o' l' [(a & k1 & k2 & [-> _] & Hk & ->)
                     |(e & _ & _ & v & Hv)]; [|discriminate].
        simpl.
        destruct Hk as [(a0 & k3 & k4 & He & [_ ->] & ->)|(e & _ & He)].
        - rewrite app_nil_r. exact He.
        - exact He. }
      destruct H1 as [H1|(l3 & l4 & [m H1] & -> & ->)].
      + eapply Hbody. exact H1.
      + rewrite app_nil_r. eapply Hbody. exact H1. }
  destruct (Hadds st o st' Hrun) as (l & Hl & earlier & -> & Hp & Hn).
  exists earlier. split; [exact Hl|]. split; [exact Hp|]. split; [exact Hn|].
  rewrite List.filter_app, length_app. simpl.
  assert (Hz : List.filter (fun p => bool_decide (p = EMPTYING)) earlier = []).
  { clear -Hn. induction earlier as [|p l IH]; [reflexivity|].
    simpl. rewrite bool_decide_eq_false_2 by set_solver.
    apply IH. set_solver. }
  rewrite Hz. reflexivity.
Qed.

(** The run does end when every method it calls ends. *)
Lemma run_test_ends (st : run_state) :
  always_ends filling -> always_ends regulation ->
  always_ends stabilization -> always_ends testing ->
  always_ends emptying -> (forall b, always_ends (process_results b)) ->
  always_ends start_monitoring -> always_ends stop_monitoring ->
  (forall m, always_ends (update_status m)) ->
  is_Some (_run_test filling regulation stabilization testing emptying
                     process_results start_monitoring stop_monitoring
                     update_status st).
Proof.
  intros Hf Hr Hs Ht He Hp Hsm Hst Hu.
  assert (Hlift : forall A (a : action A) s,
            always_ends a -> is_Some (lift a s)).
  { intros A a s Ha. unfold lift.
    destruct (Ha (pending s) (world s)) as [[[o1 w1] e1] ->]. eauto. }
  assert (Hcall : forall A p (a : action A) s,
            always_ends a -> is_Some (call p a s)).
  { intros A p a s Ha. unfold call. apply Hlift. exact Ha. }
  assert (Hbind : forall A B (c : M A) (f : A -> M B) s,
            is_Some (c s) -> (forall a s', is_Some (f a s')) ->
            is_Some ((c ≫= f) s)).
  { intros A B c f s [[[a|e] s1] Hc] Hk; unfold mbind, M_bind; rewrite Hc;
      eauto. }
  assert (Htry : forall A (b : M A) (h : string -> M A) s,
            is_Some (b s) -> (forall m s', is_Some (h m s')) ->
            is_Some (try_except b h s)).
  { intros A b h s [[[a|[m|m]] s1] Hb] Hh; unfold try_except; rewrite Hb;
      eauto. }
  assert (Hfin : forall A (b : M A) (f : outcome A -> M unit) s,
            is_Some (b s) -> (forall o s', is_Some (f o s')) ->
            is_Some (try_finally b f s)).
  { intros A b f s [[o1 s1] Hb] Hk. unfold try_finally. rewrite Hb.
    destruct (Hk o1 s1) as [[[u|e] s2] ->]; eauto. }
  assert (Hreq : forall b m s, is_Some (require b m s)).
  { intros [] m s; unfold require, mret, M_ret, raise; eauto. }
  assert (Herr : forall p m s,
            is_Some (on_test_error update_status p m s)).
  { intros p m s. unfold on_test_error. apply Hbind; [unfold modify_tm; eauto|].
    intros _ s'. apply Hlift. apply Hu. }
  unfold _run_test. apply Hfin.
  - apply Htry; [|intros; apply Herr].
    apply Hbind; [apply Hlift; exact Hsm|]. intros _ s1.
    apply Hbind; [|intros; unfold mret, M_ret; eauto].
    apply Hfin.
    + apply Htry.
      * unfold run_phases.
        repeat (apply Hbind; [first [apply Hcall; assumption | apply Hreq]|];
                intros ? ?).
        unfold mret, M_ret. eauto.
      * intros m s'. apply Hbind; [apply Herr|].
        intros; unfold mret, M_ret; eauto.
    + intros o s'. unfold cleanup. cbv zeta.
      apply Hbind; [apply Hcall; exact He|]. intros _ s2.
      apply Hbind; [apply Hlift; apply Hp|]. intros _ s3.
      apply Hlift. exact Hst.
  - intros _ s'. unfold mark_not_running.
    apply Hbind; [unfold modify_tm; eauto|]. intros _ s1.
    apply Hbind; [unfold get_tm; eauto|]. intros t s2.
    destruct (terminal_state (test_state t)).
    + unfold mret, M_ret. eauto.
    + apply Hbind; [unfold modify_tm; eauto|]. intros _ s3.
      apply Hlift. apply Hu.
Qed.

End RunTestCalls.


Section RunTestWitness.
Import TestManager RunSpec.

Lemma start_monitoring_never_raises : never_raises _start_monitoring.
Proof.
  intros env w o w' env' H. unfold _start_monitoring in H.
  inversion H. eauto.
Qed.

(** The run over the stop scenario: the operator stops the test during
    the regulation; the emptying still runs, once and last. *)
Lemma emptying_runs_exactly_once_witness :
  exists o st',
    test_thread {| calls := [];
                   world := (start_test true Scenario.bench).2;
                   pending := Scenario.stopped_early |}
    = Some (o, st')
    /\ calls st' = [FILLING; REGULATING; EMPTYING]
    /\ exists earlier,
         calls st' = [] ++ earlier ++ [EMPTYING]
         /\ (earlier `prefix_of` earlier_phases)
         /\ (EMPTYING ∉ earlier)
         /\ length (List.filter (fun p => bool_decide (p = EMPTYING))
                                (earlier ++ [EMPTYING])) = 1%nat.
Proof.
  match goal with
  | |- exists o st', ?run = _ /\ _ =>
      let v := eval vm_compute in run in
      assert (E : run = v) by (vm_compute; reflexivity)
  end.
  eexists _, _. split; [exact E|]. split; [reflexivity|].
  exact (emptying_runs_exactly_once _ _ _ _ _ _ _ _ _ _ _ _
           start_monitoring_never_raises E).
Defined.

End RunTestWitness.

(** ** Properties of the world that a run keeps *)

Section KeptByCombinators.
Import TestManager RunSpec.

Variable I : World -> Prop.

Lemma keeps_ret {A} (a : A) : keeps I (mret a).
Proof. intros st o st' H. inversion H; subst. auto. Qed.

Lemma keeps_raise {A} (e : exn) : keeps I (@raise A e).
Proof. intros st o st' H. inversion H; subst. auto. Qed.

Lemma keeps_lift {A} (a : action A) : preserves I a -> keeps I (lift a).
Proof.
  intros Ha st o st' H. unfold lift in H.
  destruct (a (pending st) (world st)) as [[[o1 w1] env1]|] eqn:E;
    [|discriminate].
  inversion H; subst. simpl. eapply Ha. exact E.
Qed.

Lemma keeps_call {A} (p : phase_name) (a : action A) :
  preserves I a -> keeps I (call p a).
Proof.
  intros Ha st o st' H. unfold call in H.
  apply (keeps_lift a Ha) in H. exact H.
Qed.

Lemma keeps_bind {A B} (c : M A) (f : A -> M B) :
  keeps I c -> (forall a, keeps I (f a)) -> keeps I (c ≫= f).
Proof.
  intros Hc Hf st o st' H Hi. unfold mbind, M_bind in H.
  destruct (c st) as [[[a|e] st1]|] eqn:E; [| |discriminate].
  - eapply Hf; [exact H|]. eapply Hc; eauto.
  - inversion H; subst. eapply Hc; eauto.
Qed.

Lemma keeps_try_except {A} (body : M A) (handler : string -> M A) :
  keeps I body -> (forall m, keeps I (handler m)) ->
  keeps I (try_except body handler).
Proof.
  intros Hb Hh st o st' H Hi. unfold try_except in H.
  destruct (body st) as [[[a|[m|m]] st1]|] eqn:E; try discriminate.
  - inversion H; subst. eapply Hb; eauto.
  - eapply Hh; [exact H|]. eapply Hb; eauto.
  - inversion H; subst. eapply Hb; eauto.
Qed.

Lemma keeps_try_finally {A} (body : M A) (final : outcome A -> M unit) :
  keeps I body -> (forall o, keeps I (final o)) ->
  keeps I (try_finally body final).
Proof.
  intros Hb Hf st o st' H Hi. unfold try_finally in H.
  destruct (body st) as [[o1 st1]|] eqn:E; [|discriminate].
  destruct (final o1 st1) as [[o2 st2]|] eqn:E2; [|discriminate].
  assert (Hst : st' = st2) by (destruct o2; inversion H; reflexivity).
  subst st'. eapply Hf; [exact E2|]. eapply Hb; eauto.
Qed.

Lemma keeps_require (b : bool) (message : string) :
  keeps I (require b message).
Proof.
  unfold require. destruct b; [apply keeps_ret|apply keeps_raise].
Qed.

Lemma keeps_modify_tm (f : TestManager -> TestManager) :
  (forall w, I w -> I (on_tm f w)) -> keeps I (modify_tm f).
Proof. intros Hf st o st' H Hi. inversion H; subst. simpl. auto. Qed.

Lemma keeps_get_tm : keeps I get_tm.
Proof. intros st o st' H. inversion H; subst. auto. Qed.

(** A property kept by every method that [_run_test] calls, and by the
    assignments to the test state and the running flag, is kept by
    [_run_test]. *)
Lemma run_test_keeps
  (filling regulation stabilization testing emptying : action bool)
  (process_results : bool -> action unit)
  (start_monitoring stop_monitoring : action unit)
  (update_status : string -> action unit) :
  preserves I filling -> preserves I regulation ->
  preserves I stabilization -> preserves I testing ->
  preserves I emptying -> (forall b, preserves I (process_results b)) ->
  preserves I start_monitoring -> preserves I stop_monitoring ->
  (forall m, preserves I (update_status m)) ->
  (forall s w, I w -> I (on_tm (set_test_state s) w)) ->
  (forall b w, I w -> I (on_tm (set_running_test b) w)) ->
  keeps I (_run_test filling regulation stabilization testing emptying
                     process_results start_monitoring stop_monitoring
                     update_status).
Proof.
  intros Hf Hr Hs Ht He Hp Hsm Hst Hu Hstate Hrunning.
  assert (Herr : forall p m, keeps I (on_test_error update_status p m)).
  { intros p m. unfold on_test_error.
    apply keeps_bind; [apply keeps_modify_tm; apply Hstate|].
    intros _. apply keeps_lift. apply Hu. }
  unfold _run_test. apply keeps_try_finally.
  - apply keeps_try_except; [|intros m; apply Herr].
    apply keeps_bind; [apply keeps_lift; exact Hsm|]. intros _.
    apply keeps_bind; [|intros _; apply keeps_ret].
    apply keeps_try_finally.
    + apply keeps_try_except.
      * unfold run_phases.
        repeat (apply keeps_bind;
                [first [apply keeps_call; assumption | apply keeps_require]|];
                intros ?).
        apply keeps_ret.
      * intros m. apply keeps_bind; [apply Herr|].
        intros _. apply keeps_ret.
    + intros o. unfold cleanup. cbv zeta.
      apply keeps_bind; [apply keeps_call; exact He|]. intros _.
      apply keeps_bind; [apply keeps_lift; apply Hp|]. intros _.
      apply keeps_lift. exact Hst.
  - intros _. unfold mark_not_running.
    apply keeps_bind; [apply keeps_modify_tm; apply Hrunning|]. intros _.
    apply keeps_bind; [apply keeps_get_tm|]. intros t.
    destruct (terminal_state (test_state t)); [apply keeps_ret|].
    apply keeps_bind; [apply keeps_modify_tm; apply Hstate|]. intros _.
    apply keeps_lift. apply Hu.
Qed.

End KeptByCombinators.

(** ** The latch on a failed result *)

Section Latch.
Import TestManager RunSpec.

Lemma latched_refl (ch : ChamberTestState) : latched ch ch [].
Proof.
  split.
  - reflexivity.
  - reflexivity.
  - auto.
  - rewrite app_nil_r. reflexivity.
  - intros H. exfalso. apply H. reflexivity.
  - auto.
  - intros H. inversion H.
Qed.

Lemma latched_quiet (f : ChamberTestState -> ChamberTestState)
  (ch0 ch : ChamberTestState) (s : list Q) :
  quiet f -> latched ch0 ch s -> latched ch0 (f ch) s.
Proof.
  intros Hq [Ht He Hs Hr Ha Hk Hd].
  destruct (Hq ch) as (Qt & Qe & Qs & Qr & Qres).
  split.
  - congruence.
  - congruence.
  - auto.
  - congruence.
  - intros Hne. destruct (Ha Hne) as [H1 H2]. split; [congruence|auto].
  - intros H. rewrite Qres. auto.
  - intros H. rewrite Qres. auto.
Qed.

Lemma quiet_set_current_pressure (q : Q) : quiet (set_current_pressure q).
Proof. intros ch. simpl. auto. Qed.

Lemma quiet_set_filled : quiet set_filled.
Proof. intros ch. simpl. auto. Qed.

Lemma quiet_set_regulated : quiet set_regulated.
Proof. intros ch. simpl. auto. Qed.

Lemma quiet_stabilization_conclude : quiet stabilization_conclude.
Proof.
  intros ch. unfold stabilization_conclude.
  destruct (enabled ch && regulated ch); simpl; auto.
Qed.

(** One pass of the sampling loop over a chamber. *)
Lemma latched_sample (ch0 ch : ChamberTestState) (s : list Q) :
  latched ch0 ch s -> exists s', latched ch0 (testing_sample ch) s'.
Proof.
  intros H. pose proof H as [Ht He Hs Hr Ha Hk Hd]. unfold testing_sample.
  destruct (negb (enabled ch) || negb (stabilized ch)) eqn:E;
    [exists s; exact H|].
  apply orb_false_iff in E as [Een Est].
  apply negb_false_iff in Een. apply negb_false_iff in Est.
  exists (s ++ [current_pressure ch]). cbv zeta.
  change (current_pressure (append_reading (current_pressure ch) ch))
    with (current_pressure ch).
  change (pressure_threshold (append_reading (current_pressure ch) ch))
    with (pressure_threshold ch).
  destruct (Qltb (current_pressure ch) (pressure_threshold ch)) eqn:Elt.
  - split.
    + exact Ht.
    + simpl. congruence.
    + intros _. exact Est.
    + simpl. rewrite Hr, <- app_assoc. reflexivity.
    + intros _. split; [exact Een|exact Est].
    + intros _. reflexivity.
    + intros _. reflexivity.
  - split.
    + exact Ht.
    + simpl. congruence.
    + intros _. exact Est.
    + simpl. rewrite Hr, <- app_assoc. reflexivity.
    + intros _. split; [exact Een|exact Est].
    + exact Hk.
    + intros Hex. apply Exists_app in Hex as [Hex|Hex]; [exact (Hd Hex)|].
      apply Exists_cons in Hex as [Hex|Hex]; [|inversion Hex].
      unfold below_threshold in Hex. rewrite <- Ht in Hex.
      apply Qltb_true in Hex. congruence.
Qed.

(** The final pass: a missing result becomes a pass, any other stays. *)
Lemma latched_conclude (ch0 ch : ChamberTestState) (s : list Q) :
  latched ch0 ch s -> latched ch0 (testing_conclude ch) s.
Proof.
  intros [Ht He Hs Hr Ha Hk Hd]. unfold testing_conclude.
  destruct (enabled ch && stabilized ch) eqn:E; [|split; auto].
  cbv zeta.
  change (result (set_final_pressure (current_pressure ch) (set_tested ch)))
    with (result ch).
  destruct (result ch) as [b|] eqn:Er.
  - split.
    + exact Ht.
    + exact He.
    + intros _. apply andb_true_iff in E. tauto.
    + exact Hr.
    + intros _. apply andb_true_iff in E. exact E.
    + intros H. simpl. rewrite Er. exact (Hk H).
    + intros H. simpl. rewrite Er. exact (Hd H).
  - split.
    + exact Ht.
    + exact He.
    + intros _. apply andb_true_iff in E. tauto.
    + exact Hr.
    + intros _. apply andb_true_iff in E. exact E.
    + intros H. specialize (Hk H). congruence.
    + intros H. specialize (Hd H). congruence.
Qed.

(** A chamber whose result is false on entry leaves both passes with a
    result of false, whatever was sampled: the default to a pass is
    reached only from a result of [None]. *)
Lemma sample_keeps_false (ch : ChamberTestState) :
  result ch = Some false -> result (testing_sample ch) = Some false.
Proof.
  intros H. unfold testing_sample.
  destruct (negb (enabled ch) || negb (stabilized ch)); [exact H|].
  cbv zeta. destruct (Qltb _ _); simpl; auto.
Qed.

Lemma conclude_keeps_false (ch : ChamberTestState) :
  result ch = Some false -> result (testing_conclude ch) = Some false.
Proof.
  intros H. unfold testing_conclude.
  destruct (enabled ch && stabilized ch); [|exact H].
  cbv zeta.
  change (result (set_final_pressure (current_pressure ch) (set_tested ch)))
    with (result ch).
  rewrite H. simpl. exact H.
Qed.

(** *** The chambers of a world *)

Variable P : ChamberTestState -> ChamberTestState -> Prop.
Hypothesis P_quiet : respects_quiet P.
Variable chambers0 : list ChamberTestState.

Lemma all_related_same (w w' : World) :
  chamber_states (tm w') = chamber_states (tm w) ->
  all_related P chambers0 w -> all_related P chambers0 w'.
Proof. unfold all_related. intros ->. auto. Qed.

Lemma all_related_update (i : nat)
  (f : ChamberTestState -> ChamberTestState) (w : World) :
  quiet f -> all_related P chambers0 w ->
  all_related P chambers0 (on_tm (update_chamber i f) w).
Proof.
  intros Hq H. unfold all_related in *. simpl.
  apply Forall2_alter_r; [exact H|].
  intros x y _ _ Hxy. apply P_quiet; assumption.
Qed.

Lemma store_pressures_related (pressures : list (option Q)) (i : nat)
  (l : list ChamberTestState) :
  Forall2 P chambers0 l ->
  Forall2 P chambers0
          (store_pressures i pressures l).
Proof.
  revert i l. induction pressures as [|p rest IH]; intros i l H; simpl.
  - exact H.
  - apply IH. destruct p as [q|]; [|exact H].
    apply Forall2_alter_r; [exact H|].
    intros x y _ _ Hxy.
    apply P_quiet; [apply quiet_set_current_pressure|exact Hxy].
Qed.

Lemma stop_test_chambers (w : World) :
  chamber_states (tm (stop_test w)) = chamber_states (tm w).
Proof. unfold stop_test. destruct (negb _); reflexivity. Qed.

Lemma apply_env_related (e : env_step) (w : World) :
  all_related P chambers0 w -> all_related P chambers0 (apply_env e w).
Proof.
  intros H. unfold apply_env. cbv zeta. unfold all_related. simpl.
  assert (H1 : all_related P chambers0
                 (if ui_stop e then stop_test (set_clock (at_time e) w)
                  else set_clock (at_time e) w)).
  { destruct (ui_stop e); [|exact H].
    eapply all_related_same; [|exact H]. rewrite stop_test_chambers.
    reflexivity. }
  unfold _monitor_pressure.
  destruct (_monitoring_running _ && running_test _); [|exact H1].
  simpl. apply store_pressures_related. exact H1.
Qed.

Lemma check_stop_chambers (w : World) :
  chamber_states (tm (_check_stop_requested w).2) = chamber_states (tm w).
Proof.
  unfold _check_stop_requested.
  destruct (_stop_requested (tm w)); [|reflexivity].
  destruct (_ && _); reflexivity.
Qed.

Lemma check_stop_related (w : World) :
  all_related P chambers0 w ->
  all_related P chambers0 (_check_stop_requested w).2.
Proof.
  intros H. eapply all_related_same; [|exact H]. apply check_stop_chambers.
Qed.

Lemma for_enabled_tm (f : Z -> event) (w : World) :
  tm (for_enabled f w) = tm w.
Proof.
  unfold for_enabled.
  generalize (chamber_states (tm w)) as l. intros l. revert w.
  induction l as [|ch l IH]; intros w; simpl; [reflexivity|].
  rewrite IH. destruct (enabled ch); reflexivity.
Qed.

End Latch.

Section RelatedThroughPhases.
Import TestManager RunSpec.

Variable P : ChamberTestState -> ChamberTestState -> Prop.
Hypothesis P_quiet : respects_quiet P.
Hypothesis P_sample : forall ch0 ch, P ch0 ch -> P ch0 (testing_sample ch).
Hypothesis P_conclude :
  forall ch0 ch, P ch0 ch -> P ch0 (testing_conclude ch).
Variable chambers0 : list ChamberTestState.

Let I : World -> Prop := all_related P chambers0.

Lemma map_sample_related (w : World) :
  I w ->
  I (on_tm (fun t => set_chambers (map testing_sample (chamber_states t)) t)
           w).
Proof.
  unfold I, all_related. simpl. intros H.
  apply Forall2_fmap_r. eapply Forall2_impl; [exact H|].
  intros ch0 ch Hc. simpl. apply P_sample. exact Hc.
Qed.

Lemma map_conclude_related (w : World) :
  I w ->
  I (on_tm (fun t => set_chambers (map testing_conclude (chamber_states t)) t)
           w).
Proof.
  unfold I, all_related. simpl. intros H.
  apply Forall2_fmap_r. eapply Forall2_impl; [exact H|].
  intros ch0 ch Hc. simpl. apply P_conclude. exact Hc.
Qed.

Lemma testing_loop_related (env : list env_step) (start duration : Q)
  (w w' : World) (env' : list env_step) :
  testing_loop env start duration w = Some (w', env') -> I w -> I w'.
Proof.
  revert w. induction env as [|e env IH]; intros w H Hi; [discriminate|].
  cbn [testing_loop] in H.
  pose proof (apply_env_related P P_quiet chambers0 e w Hi) as H0.
  destruct (Qltb (elapsed_time (tm (apply_env e w))) duration).
  - pose proof (check_stop_related P chambers0 _ H0) as H1.
    destruct (_check_stop_requested (apply_env e w)) as [stop w1].
    cbn [snd] in H1. destruct stop.
    + inversion H; subst. exact H1.
    + apply IH in H; [exact H|].
      eapply (all_related_same P chambers0); [|apply map_sample_related].
      * reflexivity.
      * eapply (all_related_same P chambers0); [|exact H1]. reflexivity.
  - inversion H; subst. exact H0.
Qed.

Lemma run_testing_phase_related : preserves I _run_testing_phase.
Proof.
  intros env w o w' env' H Hi. unfold _run_testing_phase in H.
  cbv zeta in H.
  destruct (testing_loop _ _ _ _) as [[w2 env2]|] eqn:E; [|discriminate].
  apply testing_loop_related in E.
  - apply map_conclude_related in E.
    pose proof (check_stop_related P chambers0 _ E) as H1.
    destruct (_check_stop_requested _) as [stop w4].
    inversion H; subst. exact H1.
  - eapply (all_related_same P chambers0); [|exact Hi]. reflexivity.
Qed.

Lemma emptying_loop_related (env : list env_step) (start timeout : Q)
  (w w' : World) (env' : list env_step) :
  emptying_loop env start timeout w = Some (w', env') -> I w -> I w'.
Proof.
  revert w. induction env as [|e env IH]; intros w H Hi; [discriminate|].
  cbn [emptying_loop] in H.
  pose proof (apply_env_related P P_quiet chambers0 e w Hi) as H0.
  destruct (Qltb _ timeout).
  - destruct (all_empty _).
    + inversion H; subst.
      eapply (all_related_same P chambers0); [|exact H0]. reflexivity.
    + apply IH in H; [exact H|].
      eapply (all_related_same P chambers0); [|exact H0]. reflexivity.
  - inversion H; subst. exact H0.
Qed.

Lemma run_emptying_phase_related : preserves I _run_emptying_phase.
Proof.
  intros env w o w' env' H Hi. unfold _run_emptying_phase in H.
  cbv zeta in H.
  destruct (emptying_loop _ _ _ _) as [[w5 env5]|] eqn:E; [|discriminate].
  inversion H; subst.
  apply emptying_loop_related in E.
  - eapply (all_related_same P chambers0); [|exact E].
    rewrite for_enabled_tm. reflexivity.
  - eapply (all_related_same P chambers0); [|exact Hi].
    simpl. rewrite for_enabled_tm. simpl. rewrite for_enabled_tm.
    reflexivity.
Qed.

Lemma process_results_related (b : bool) : preserves I (_process_results b).
Proof.
  intros env w o w' env' H Hi. unfold _process_results in H.
  destruct (negb b); inversion H; subst;
    (eapply (all_related_same P chambers0); [|exact Hi]); reflexivity.
Qed.

Lemma start_monitoring_related : preserves I _start_monitoring.
Proof.
  intros env w o w' env' H Hi. inversion H; subst.
  eapply (all_related_same P chambers0); [|exact Hi]. reflexivity.
Qed.

Lemma stop_monitoring_related : preserves I _stop_monitoring.
Proof.
  intros env w o w' env' H Hi. inversion H; subst.
  eapply (all_related_same P chambers0); [|exact Hi]. reflexivity.
Qed.

Lemma update_status_related (m : string) :
  preserves I (update_status_action m).
Proof.
  intros env w o w' env' H Hi. inversion H; subst.
  eapply (all_related_same P chambers0); [|exact Hi]. reflexivity.
Qed.

(** *** Filling *)

Lemma fill_one_related (w : World) (i : nat) : I w -> I (fill_one w i).
Proof.
  intros Hi. unfold fill_one.
  destruct (chamber_at (tm w) i) as [ch|]; [|exact Hi].
  destruct (Qleb _ _).
  - apply (all_related_update P P_quiet); [apply quiet_set_filled|].
    eapply (all_related_same P chambers0); [|exact Hi]. reflexivity.
  - eapply (all_related_same P chambers0); [|exact Hi]. reflexivity.
Qed.

Lemma fold_fill_related (l : list nat) (w : World) :
  I w -> I (fold_left fill_one l w).
Proof.
  revert w. induction l as [|i l IH]; intros w Hi; simpl; [exact Hi|].
  apply IH. apply fill_one_related. exact Hi.
Qed.

Lemma filling_loop_related (env : list env_step) (start : Q)
  (chambers : list nat) (w w' : World) (x : loop_exit)
  (env' : list env_step) :
  filling_loop env start chambers w = Some (x, w', env') -> I w -> I w'.
Proof.
  revert w chambers.
  induction env as [|e env IH]; intros w chambers H Hi; [discriminate|].
  cbn [filling_loop] in H.
  pose proof (apply_env_related P P_quiet chambers0 e w Hi) as H0.
  destruct chambers as [|c chambers]; [inversion H; subst; exact H0|].
  pose proof (check_stop_related P chambers0 _ H0) as H1.
  destruct (_check_stop_requested (apply_env e w)) as [stop w1].
  cbn [snd] in H1.
  destruct stop; [inversion H; subst; exact H1|].
  destruct (Qltb 60 _).
  - inversion H; subst.
    eapply (all_related_same P chambers0); [|exact H1]. reflexivity.
  - destruct (List.filter _ (c :: chambers)) as [|c' still].
    + inversion H; subst.
      eapply (all_related_same P chambers0); [|exact H1]. reflexivity.
    + apply IH in H; [exact H|].
      eapply (all_related_same P chambers0);
        [|apply (fold_fill_related (c' :: still))].
      * reflexivity.
      * eapply (all_related_same P chambers0); [|exact H1]. reflexivity.
Qed.

Lemma run_filling_phase_related : preserves I _run_filling_phase.
Proof.
  intros env w o w' env' H Hi. unfold _run_filling_phase in H.
  cbv zeta in H.
  destruct (filling_loop _ _ _ _) as [[[x w2] env2]|] eqn:E; [|discriminate].
  apply filling_loop_related in E.
  - destruct x as [|b].
    + pose proof (check_stop_related P chambers0 _ E) as H1.
      destruct (_check_stop_requested w2) as [stop w3].
      destruct stop; inversion H; subst; exact H1.
    + inversion H; subst. exact E.
  - eapply (all_related_same P chambers0); [|exact Hi]. reflexivity.
Qed.

(** *** Regulation *)

Lemma control_action_tm k error tolerance mode avg w loc :
  tm (control_action k error tolerance mode avg w loc).1 = tm w.
Proof.
  unfold control_action. cbv zeta.
  destruct (Qltb tolerance error); [reflexivity|].
  destruct (Qltb error (- tolerance)); reflexivity.
Qed.

Lemma regulate_one_related (st : World * regulation_locals) (i : nat) :
  I st.1 -> I (regulate_one st i).1.
Proof.
  destruct st as [w loc]. cbn [fst]. intros Hi. unfold regulate_one.
  destruct (chamber_at (tm w) i) as [ch|]; [|exact Hi].
  cbv zeta. destruct (_ && _).
  - cbn [fst]. apply (all_related_update P P_quiet); [apply quiet_set_regulated|].
    eapply (all_related_same P chambers0); [|exact Hi]. reflexivity.
  - eapply (all_related_same P chambers0); [|exact Hi].
    rewrite control_action_tm. reflexivity.
Qed.

Lemma fold_regulate_related (l : list nat) (st : World * regulation_locals) :
  I st.1 -> I (fold_left regulate_one l st).1.
Proof.
  revert st. induction l as [|i l IH]; intros st Hi; simpl; [exact Hi|].
  apply IH. apply regulate_one_related. exact Hi.
Qed.

Lemma regulation_loop_related (env : list env_step) (start : Q)
  (chambers : list nat) (loc : regulation_locals) (w w' : World)
  (x : loop_exit) (env' : list env_step) :
  regulation_loop env start chambers loc w = Some (x, w', env') ->
  I w -> I w'.
Proof.
  revert w chambers loc.
  induction env as [|e env IH]; intros w chambers loc H Hi; [discriminate|].
  cbn [regulation_loop] in H.
  pose proof (apply_env_related P P_quiet chambers0 e w Hi) as H0.
  destruct chambers as [|c chambers]; [inversion H; subst; exact H0|].
  pose proof (check_stop_related P chambers0 _ H0) as H1.
  destruct (_check_stop_requested (apply_env e w)) as [stop w1].
  cbn [snd] in H1.
  destruct stop; [inversion H; subst; exact H1|].
  destruct (Qltb 120 _).
  - inversion H; subst.
    eapply (all_related_same P chambers0); [|exact H1]. reflexivity.
  - destruct (List.filter _ (c :: chambers)) as [|c' still].
    + inversion H; subst.
      eapply (all_related_same P chambers0); [|exact H1]. reflexivity.
    + match type of H with
      | context [fold_left regulate_one ?l ?st] =>
          pose proof (fold_regulate_related l st) as Hfold;
          destruct (fold_left regulate_one l st) as [w3 loc']
      end.
      apply IH in H; [exact H|].
      eapply (all_related_same P chambers0); [|apply Hfold].
      * reflexivity.
      * eapply (all_related_same P chambers0); [|exact H1]. reflexivity.
Qed.

Lemma run_regulation_phase_related : preserves I _run_regulation_phase.
Proof.
  intros env w o w' env' H Hi. unfold _run_regulation_phase in H.
  cbv zeta in H.
  destruct (regulation_loop _ _ _ _ _) as [[[x w2] env2]|] eqn:E;
    [|discriminate].
  apply regulation_loop_related in E.
  - destruct x as [|b].
    + assert (H3 : I (for_enabled
                        (fun k => SetChamberValves k false false) w2)).
      { eapply (all_related_same P chambers0); [|exact E].
        rewrite for_enabled_tm. reflexivity. }
      pose proof (check_stop_related P chambers0 _ H3) as H1.
      destruct (_check_stop_requested _) as [stop w4].
      destruct stop; inversion H; subst; exact H1.
    + inversion H; subst. exact E.
  - eapply (all_related_same P chambers0); [|exact Hi]. reflexivity.
Qed.

(** *** Stabilisation *)

Lemma stabilization_loop_related (env : list env_step) (start duration : Q)
  (readings : gmap Z (list Q)) (stable : bool) (w w' : World)
  (b : bool) (env' : list env_step) :
  stabilization_loop env start duration readings stable w
  = Some (b, w', env') ->
  I w -> I w'.
Proof.
  revert w readings stable.
  induction env as [|e env IH]; intros w readings stable H Hi;
    [discriminate|].
  cbn [stabilization_loop] in H.
  pose proof (apply_env_related P P_quiet chambers0 e w Hi) as H0.
  destruct stable; [inversion H; subst; exact H0|].
  pose proof (check_stop_related P chambers0 _ H0) as H1.
  destruct (_check_stop_requested (apply_env e w)) as [stop w1].
  cbn [snd] in H1.
  destruct stop; [inversion H; subst; exact H1|].
  destruct (Qltb duration _); [inversion H; subst; exact H1|].
  destruct (fold_left stabilize_one _ _) as [readings' stable'].
  apply IH in H; [exact H|].
  eapply (all_related_same P chambers0); [|exact H1]. reflexivity.
Qed.

Lemma run_stabilization_phase_related :
  preserves I _run_stabilization_phase.
Proof.
  intros env w o w' env' H Hi. unfold _run_stabilization_phase in H.
  cbv zeta in H.
  destruct (stabilization_loop _ _ _ _ _ _) as [[[b w2] env2]|] eqn:E;
    [|discriminate].
  inversion H; subst.
  apply stabilization_loop_related in E.
  - unfold I, all_related in *. simpl.
    apply Forall2_fmap_r. eapply Forall2_impl; [exact E|].
    intros ch0 ch Hc. simpl.
    apply P_quiet; [apply quiet_stabilization_conclude|exact Hc].
  - eapply (all_related_same P chambers0); [|exact Hi]. reflexivity.
Qed.

(** The whole test thread keeps such a relation. *)
Lemma test_thread_related : keeps I test_thread.
Proof.
  apply run_test_keeps.
  - apply run_filling_phase_related.
  - apply run_regulation_phase_related.
  - apply run_stabilization_phase_related.
  - apply run_testing_phase_related.
  - apply run_emptying_phase_related.
  - apply process_results_related.
  - apply start_monitoring_related.
  - apply stop_monitoring_related.
  - apply update_status_related.
  - intros s w Hi. eapply (all_related_same P chambers0); [|exact Hi].
    reflexivity.
  - intros b w Hi. eapply (all_related_same P chambers0); [|exact Hi].
    reflexivity.
Qed.

End RelatedThroughPhases.

(** ** The verdict of the testing phase *)

Section Verdict.
Import TestManager RunSpec.

Lemma latched_respects_quiet : respects_quiet latched_by_some.
Proof.
  intros f ch0 ch Hq [s Hs]. exists s. apply latched_quiet; assumption.
Qed.

Lemma unsampled_respects_quiet : respects_quiet unsampled.
Proof.
  intros f ch0 ch Hq [Hr Hres].
  destruct (Hq ch) as (_ & _ & _ & Qr & Qres).
  split; congruence.
Qed.

Lemma all_related_refl (P : ChamberTestState -> ChamberTestState -> Prop)
  (w : World) :
  (forall ch, P ch ch) -> all_related P (chamber_states (tm w)) w.
Proof.
  intros HP. unfold all_related.
  induction (chamber_states (tm w)); constructor; auto.
Qed.

(** Filling, regulation, stabilisation and emptying neither sample a
    pressure into the readings nor touch a result: the samples of a run
    are those of its testing phase. *)
Lemma only_testing_samples (chambers0 : list ChamberTestState) :
  preserves (all_related unsampled chambers0) _run_filling_phase
  /\ preserves (all_related unsampled chambers0) _run_regulation_phase
  /\ preserves (all_related unsampled chambers0) _run_stabilization_phase
  /\ preserves (all_related unsampled chambers0) _run_emptying_phase.
Proof.
  repeat split.
  - apply run_filling_phase_related. apply unsampled_respects_quiet.
  - apply run_regulation_phase_related. apply unsampled_respects_quiet.
  - apply run_stabilization_phase_related. apply unsampled_respects_quiet.
  - apply run_emptying_phase_related. apply unsampled_respects_quiet.
Qed.

(** C3.  Over a run of the test thread that ends, from any state: the
    pressures sampled for a chamber are those appended to its readings,
    they are sampled only while the chamber is enabled and stabilised,
    and if any one of them is strictly below the chamber's threshold
    then the chamber's result at the end of the run is false, whatever
    the samples after it are. *)
Theorem dip_during_testing_fails_chamber
  (st st' : run_state) (o : outcome unit) (i : nat)
  (ch0 : ChamberTestState) :
  test_thread st = Some (o, st') ->
  chamber_of st i = Some ch0 ->
  exists ch samples,
    chamber_of st' i = Some ch
    /\ pressure_threshold ch = pressure_threshold ch0
    /\ pressure_readings ch = pressure_readings ch0 ++ samples
    /\ (samples <> [] -> enabled ch = true /\ stabilized ch = true)
    /\ (Exists (below_threshold ch) samples -> result ch = Some false).
Proof.
  intros Hrun Hch0.
  pose proof (test_thread_related latched_by_some latched_respects_quiet
                (fun ch0 ch H => match H with
                                 | ex_intro _ s Hs => latched_sample ch0 ch s Hs
                                 end)
                (fun ch0 ch H => match H with
                                 | ex_intro _ s Hs =>
                                     ex_intro _ s (latched_conclude ch0 ch s Hs)
                                 end)
                (chamber_states (tm (world st))) st o st' Hrun) as Hall.
  assert (H0 : all_related latched_by_some (chamber_states (tm (world st)))
                           (world st)).
  { apply all_related_refl. intros ch. exists []. apply latched_refl. }
  specialize (Hall H0). unfold all_related in Hall.
  destruct (Forall2_lookup_l _ _ _ i ch0 Hall Hch0) as (ch & Hch & s & Hs).
  exists ch, s. destruct Hs as [Ht He Hst Hr Ha Hk Hd].
  split; [exact Hch|]. split; [exact Ht|]. split; [exact Hr|].
  split; [exact Ha|].
  intros Hex. apply Hd. unfold below_threshold in *.
  rewrite <- Ht. exact Hex.
Qed.

(** No run that [start_test] starts lets a chamber pass: [reset] has
    set every result to false, and the testing phase turns only a
    result of [None] into a pass. *)
Lemma started_run_never_passes (has_permission : bool)
  (env : list env_step) (w : World) (o : outcome unit) (st' : run_state) :
  (start_test has_permission w).1 = true ->
  run has_permission env w = Some (o, st') ->
  Forall (fun ch => result ch = Some false)
         (chamber_states (tm (world st'))).
Proof.
  intros Hstart Hrun. unfold run in Hrun.
  destruct (start_test has_permission w) as [started w1] eqn:Es.
  cbn [fst] in Hstart. subst started. cbv zeta in Hrun.
  assert (Hreset : Forall (fun ch => result ch = Some false)
                          (chamber_states (tm w1))).
  { unfold start_test in Es.
    repeat match type of Es with
           | (if ?c then _ else _) = _ => destruct c; [discriminate|]
           end.
    inversion Es; subst. simpl.
    apply Forall_map. apply Forall_forall. intros ch _. reflexivity. }
  pose proof (test_thread_related latched_by_some latched_respects_quiet
                (fun ch0 ch H => match H with
                                 | ex_intro _ s Hs => latched_sample ch0 ch s Hs
                                 end)
                (fun ch0 ch H => match H with
                                 | ex_intro _ s Hs =>
                                     ex_intro _ s (latched_conclude ch0 ch s Hs)
                                 end)
                (chamber_states (tm w1)) _ o st' Hrun) as Hall.
  cbn [world] in Hall.
  specialize (Hall (all_related_refl latched_by_some w1
                      (fun ch => ex_intro _ [] (latched_refl ch)))).
  unfold all_related in Hall.
  revert Hreset. generalize dependent (chamber_states (tm w1)).
  intros initial Hall.
  induction Hall as [|c0 c k0 k [s Hs] _ IH]; intros Hreset.
  - constructor.
  - inversion Hreset; subst. constructor; [|apply IH; assumption].
    apply (latched_kept _ _ _ Hs). assumption.
Qed.

End Verdict.

Section VerdictOnScenarios.
Import TestManager RunSpec.

(** The run in which chamber 2 dips to 3 mbar once and recovers: its
    samples hold the dip, end at 150 mbar, and its result is false. *)
Lemma dip_during_testing_fails_chamber_witness :
  exists o st' ch samples,
    test_thread (Scenario.started Scenario.one_dip) = Some (o, st')
    /\ chamber_of st' 2 = Some ch
    /\ pressure_readings ch = [] ++ samples
    /\ In 3%Q samples
    /\ last samples = Some 150%Q
    /\ result ch = Some false.
Proof.
  match goal with
  | |- exists o st' ch samples, ?run = _ /\ _ =>
      let v := eval vm_compute in run in
      assert (E : run = v) by (vm_compute; reflexivity)
  end.
  assert (H0 : chamber_of (Scenario.started Scenario.one_dip) 2
               = Some (init_pid_controller (reset (new_chamber 2))))
    by (vm_compute; reflexivity).
  destruct (dip_during_testing_fails_chamber _ _ _ _ _ E H0)
    as (ch & samples & Hch & Ht & Hr & Ha & Hd).
  match type of Hch with
  | ?look = _ =>
      let v := eval vm_compute in look in
      assert (Hv : look = v) by (vm_compute; reflexivity)
  end.
  rewrite Hv in Hch. injection Hch as <-.
  simpl in Hr. subst samples.
  eexists _, _, _, _. split; [exact E|]. split; [exact Hv|].
  split; [reflexivity|].
  assert (Hin : In 3%Q [150; 150; 150; 150; 150; 150; 150; 150; 150; 150;
                        150; 3; 150]%Q) by (simpl; tauto).
  split; [exact Hin|]. split; [reflexivity|].
  apply Hd. apply Exists_exists. exists 3%Q. split.
  - apply list_elem_of_In. exact Hin.
  - reflexivity.
Defined.

(** C1, on the code.  The bench of three enabled chambers with every
    reading held at 150 mbar, far above the thresholds of 5 mbar: the
    run completes all five phases, every chamber is stabilised and
    tested with thirteen samples of which none is below its threshold
    and a final pressure of 150 mbar, and yet every result is false and
    the run reports an overall failure. *)
Theorem undipped_chambers_do_not_pass :
  exists o st',
    test_thread (Scenario.started Scenario.held_at_150) = Some (o, st')
    /\ test_state (tm (world st')) = "COMPLETE"
    /\ last (events (world st'))
       = Some (ReportResult false [(0%Z, false); (1%Z, false); (2%Z, false)])
    /\ Forall (fun ch =>
                 enabled ch = true /\ stabilized ch = true
                 /\ tested ch = true
                 /\ pressure_readings ch <> []
                 /\ Forall (fun p => ~ below_threshold ch p)
                           (pressure_readings ch)
                 /\ (final_pressure ch == 150)%Q
                 /\ result ch = Some false)
              (chamber_states (tm (world st'))).
Proof.
  match goal with
  | |- exists o st', ?run = _ /\ _ =>
      let v := eval vm_compute in run in
      assert (E : run = v) by (vm_compute; reflexivity)
  end.
  eexists _, _. split; [exact E|]. split; [reflexivity|].
  split.
  - vm_compute. reflexivity.
  - cbn [chamber_states tm world].
    repeat (apply Forall_cons; split;
            [split; [reflexivity|]; split; [reflexivity|];
             split; [reflexivity|]; split; [discriminate|];
             split; [|split; reflexivity];
             repeat (apply Forall_cons; split; [discriminate|]);
             constructor|]).
    constructor.
Qed.

End VerdictOnScenarios.

(** ** The calibration store *)

Section ActiveRecords.
Import NumPy CalibrationDb CalibrationSpec.

Lemma deactivate_header (c : Z) (r : record_row) :
  rec_id (deactivate c r) = rec_id r
  /\ rec_chamber_id (deactivate c r) = rec_chamber_id r
  /\ rec_multiplier (deactivate c r) = rec_multiplier r
  /\ rec_offset (deactivate c r) = rec_offset r
  /\ rec_r_squared (deactivate c r) = rec_r_squared r
  /\ rec_calibration_date (deactivate c r) = rec_calibration_date r.
Proof.
  unfold deactivate. destruct (_ && _); simpl; repeat split.
Qed.

(** After the UPDATE no row of the chamber is active. *)
Lemma deactivate_none_active (c : Z) (records : list record_row) :
  filter (fun r => rec_chamber_id r = c /\ rec_is_active r = true)
         (map (deactivate c) records) = [].
Proof.
  induction records as [|r records IH]; [reflexivity|].
  simpl. rewrite filter_cons_False; [exact IH|].
  unfold deactivate. intros [Hc Ha].
  destruct (rec_chamber_id r =? c)%Z eqn:E.
  - destruct (rec_is_active r) eqn:Ea; simpl in *; congruence.
  - simpl in Hc. apply Z.eqb_neq in E. contradiction.
Qed.

(** The rows of the other chambers are as they were. *)
Lemma deactivate_other_chamber (c c' : Z) (records : list record_row) :
  c' <> c ->
  filter (fun r => rec_chamber_id r = c' /\ rec_is_active r = true)
         (map (deactivate c) records)
  = filter (fun r => rec_chamber_id r = c' /\ rec_is_active r = true)
           records.
Proof.
  intros Hne. induction records as [|r records IH]; [reflexivity|].
  simpl. rewrite !filter_cons, IH.
  assert (Hd : rec_chamber_id r = c' -> deactivate c r = r).
  { intros Hc. unfold deactivate.
    destruct (rec_chamber_id r =? c)%Z eqn:E; [|reflexivity].
    apply Z.eqb_eq in E. congruence. }
  destruct (decide (rec_chamber_id r = c')) as [Hc|Hc].
  - rewrite (Hd Hc). reflexivity.
  - destruct (deactivate_header c r) as (_ & Hch & _).
    rewrite !decide_False; [reflexivity| |]; intros [H _]; congruence.
Qed.

(** One successful save: the rows are the earlier ones with the active
    row of the chamber switched off, followed by the new row, which is
    then the only active row of its chamber. *)
Lemma save_calibration_rows (db db' : database) (cal : CalibrationResult) :
  save_calibration db cal = Some db' ->
  exists row,
    calibration_records db'
    = map (deactivate (chamber_id cal)) (calibration_records db) ++ [row]
    /\ same_header row cal
    /\ rec_is_active row = true
    /\ rec_id row = next_rowid (map rec_id (calibration_records db))
    /\ calibration_points db'
       = insert_points (rec_id row) (points cal) (calibration_points db)
    /\ active_rows db' (chamber_id cal) = [row]
    /\ (forall c', c' <> chamber_id cal ->
                   active_rows db' c' = active_rows db c').
Proof.
  unfold save_calibration. destruct (storable cal); [|discriminate].
  intros H. inversion H; subst. clear H. eexists. cbn [calibration_records].
  split; [reflexivity|]. cbn [rec_is_active rec_id calibration_points].
  assert (Hids : map rec_id (map (deactivate (chamber_id cal))
                                 (calibration_records db))
                 = map rec_id (calibration_records db)).
  { rewrite map_map. apply map_ext. intros r.
    apply (deactivate_header (chamber_id cal) r). }
  rewrite Hids.
  split; [repeat split|]. split; [reflexivity|]. split; [reflexivity|].
  split; [reflexivity|]. unfold active_rows. cbn [calibration_records].
  split.
  - rewrite filter_app, deactivate_none_active. simpl.
    rewrite filter_cons_True by (simpl; auto). reflexivity.
  - intros c' Hne. rewrite filter_app, deactivate_other_chamber by exact Hne.
    rewrite filter_cons_False by (simpl; intros [Hc _]; congruence).
    rewrite filter_nil. apply app_nil_r.
Qed.

Lemma save_calibration_one_active (db db' : database)
  (cal : CalibrationResult) :
  save_calibration db cal = Some db' ->
  (forall c, (length (active_rows db c) <= 1)%nat) ->
  forall c, (length (active_rows db' c) <= 1)%nat.
Proof.
  intros Hsave Hinv c.
  destruct (save_calibration_rows db db' cal Hsave)
    as (row & _ & _ & _ & _ & _ & Hsame & Hother).
  destruct (decide (c = chamber_id cal)) as [->|Hne].
  - rewrite Hsame. simpl. lia.
  - rewrite (Hother c Hne). apply Hinv.
Qed.

End ActiveRecords.

Section StoredRecords.
Import NumPy CalibrationDb CalibrationSpec.

Lemma max_snoc (l : list Z) (x : Z) :
  fold_right Z.max 0%Z (l ++ [x])
  = Z.max (fold_right Z.max 0%Z l) (Z.max x 0).
Proof.
  induction l as [|y l IH]; simpl; [lia|]. rewrite IH. lia.
Qed.

Lemma Forall2_with_left {A B} (P : A -> Prop) (R : A -> B -> Prop)
  (l : list A) (k : list B) :
  Forall P l -> Forall2 R l k -> Forall2 (fun a b => P a /\ R a b) l k.
Proof.
  intros HP HR. induction HR; constructor; inversion HP; subst; auto.
Qed.

(** The points stored under an id after the insertion of the points of
    one calibration. *)
Lemma insert_points_filter (k id : Z) (pts : list CalibrationPoint)
  (table : list point_row) :
  map point_of_row
      (filter (fun p => pt_calibration_id p = k)
              (insert_points id pts table))
  = map point_of_row (filter (fun p => pt_calibration_id p = k) table)
    ++ (if decide (id = k) then pts else []).
Proof.
  revert table. induction pts as [|p pts IH]; intros table.
  - simpl. destruct (decide (id = k)); rewrite app_nil_r; reflexivity.
  - cbn [insert_points]. rewrite IH, filter_app, map_app, <- app_assoc.
    f_equal. rewrite filter_cons, filter_nil. cbn [pt_calibration_id].
    destruct (decide (id = k)); [|reflexivity].
    simpl. destruct p; reflexivity.
Qed.

Lemma insert_points_ids (Q : point_row -> Prop) (id : Z)
  (pts : list CalibrationPoint) (table : list point_row) :
  (forall p, pt_calibration_id p = id -> Q p) ->
  Forall Q table -> Forall Q (insert_points id pts table).
Proof.
  intros Hnew. revert table.
  induction pts as [|p pts IH]; intros table Ht; [exact Ht|].
  cbn [insert_points]. apply IH. apply Forall_app. split; [exact Ht|].
  constructor; [|constructor]. apply Hnew. reflexivity.
Qed.

(** One successful save on a store whose ids are in order: every row
    keeps the calibration it held, points included, and the new row
    holds the new calibration. *)
Lemma save_calibration_stored (db db' : database) (cal : CalibrationResult)
  (saved : list CalibrationResult) :
  save_calibration db cal = Some db' ->
  ids_in_order db ->
  Forall2 (stored_as db) (calibration_records db) saved ->
  ids_in_order db'
  /\ Forall2 (stored_as db') (calibration_records db') (saved ++ [cal]).
Proof.
  intros Hsave (Hids & Hmax & Hpts) Hstored.
  destruct (save_calibration_rows db db' cal Hsave)
    as (row & Hrec & Hhead & _ & Hid & Hpoints & _ & _).
  set (n := Z.of_nat (length (calibration_records db))) in *.
  assert (Hrow : rec_id row = (n + 1)%Z).
  { rewrite Hid. unfold next_rowid. rewrite Hmax. lia. }
  assert (Hlen : Z.of_nat (length (calibration_records db')) = (n + 1)%Z).
  { rewrite Hrec, length_app, length_map. simpl. lia. }
  split.
  - unfold ids_in_order. cbv zeta. rewrite Hlen. split; [|split].
    + rewrite Hrec. apply Forall_app. split.
      * apply Forall_map. eapply Forall_impl; [exact Hids|].
        intros r Hr. cbv beta in *.
        rewrite (proj1 (deactivate_header (chamber_id cal) r)). lia.
      * constructor; [lia|constructor].
    + rewrite Hrec, map_app.
      change (map rec_id [row]) with [rec_id row]. rewrite max_snoc.
      assert (Hm : map rec_id (map (deactivate (chamber_id cal))
                                   (calibration_records db))
                   = map rec_id (calibration_records db)).
      { rewrite map_map. apply map_ext. intros r.
        apply (deactivate_header (chamber_id cal) r). }
      rewrite Hm, Hmax. fold n. lia.
    + rewrite Hpoints. apply insert_points_ids.
      * intros p Hp. lia.
      * eapply Forall_impl; [exact Hpts|]. intros p Hp. cbv beta in *. lia.
  - rewrite Hrec. apply Forall2_app.
    + apply Forall2_fmap_l.
      assert (Hboth : Forall2 (fun r c => (1 <= rec_id r <= n)%Z
                                          /\ stored_as db r c)
                              (calibration_records db) saved).
      { apply Forall2_with_left; assumption. }
      eapply Forall2_impl; [exact Hboth|].
      intros r c [Hr [Hh Hp]]. simpl.
      destruct (deactivate_header (chamber_id cal) r)
        as (Hi & Hc & Hm & Ho & Hr2 & Hd).
      split.
      * unfold same_header in *. rewrite Hc, Hm, Ho, Hr2, Hd. exact Hh.
      * unfold points_of in *. rewrite Hi, Hpoints, insert_points_filter.
        rewrite decide_False by lia. rewrite app_nil_r. exact Hp.
    + constructor; [|constructor]. split; [exact Hhead|].
      unfold points_of. rewrite Hpoints, insert_points_filter.
      rewrite decide_True by reflexivity.
      assert (Hnone : filter (fun p => pt_calibration_id p = rec_id row)
                             (calibration_points db) = []).
      { clear -Hpts Hrow. clearbody n.
        induction (calibration_points db) as [|p l IH]; [reflexivity|].
        inversion Hpts; subst.
        rewrite filter_cons_False by lia. apply IH. assumption. }
      rewrite Hnone. reflexivity.
Qed.

Lemma save_calibration_refused (db : database) (cal : CalibrationResult) :
  save_calibration db cal = None <-> storable cal = false.
Proof.
  unfold save_calibration. destruct (storable cal); split; congruence.
Qed.

(** Any sequence of saves, from a store in order. *)
Lemma save_all_stored (cals saved : list CalibrationResult) (db : database) :
  ids_in_order db ->
  Forall2 (stored_as db) (calibration_records db) saved ->
  (forall c, (length (active_rows db c) <= 1)%nat) ->
  let db' := save_all db cals in
  ids_in_order db'
  /\ Forall2 (stored_as db') (calibration_records db')
             (saved ++ List.filter storable cals)
  /\ (forall c, (length (active_rows db' c) <= 1)%nat).
Proof.
  revert saved db. induction cals as [|cal cals IH]; intros saved db Hi Hs Ha.
  - simpl. rewrite app_nil_r. auto.
  - cbn [save_all fold_left List.filter].
    destruct (save_calibration db cal) as [db1|] eqn:E.
    + assert (Hst : storable cal = true).
      { unfold save_calibration in E. destruct (storable cal);
          [reflexivity|discriminate]. }
      rewrite Hst. cbn [default].
      destruct (save_calibration_stored db db1 cal saved E Hi Hs) as [Hi1 Hs1].
      pose proof (save_calibration_one_active db db1 cal E Ha) as Ha1.
      specialize (IH (saved ++ [cal]) db1 Hi1 Hs1 Ha1).
      rewrite <- app_assoc in IH. exact IH.
    + apply save_calibration_refused in E. rewrite E. cbn [default].
      apply IH; assumption.
Qed.

Lemma init_database_in_order :
  ids_in_order _init_database
  /\ Forall2 (stored_as _init_database)
             (calibration_records _init_database) []
  /\ (forall c, (length (active_rows _init_database c) <= 1)%nat).
Proof.
  split; [|split].
  - unfold ids_in_order. simpl. repeat split; constructor.
  - constructor.
  - intros c. simpl. lia.
Qed.

End StoredRecords.

Section History.
Import NumPy CalibrationDb CalibrationSpec.

#[local] Instance date_desc_transitive : Transitive date_desc.
Proof. intros x y z. unfold date_desc. lia. Qed.

#[local] Instance date_desc_total : Total date_desc.
Proof. intros x y. unfold date_desc. lia. Qed.

Lemma StronglySorted_take {A} (R : relation A) (n : nat) (l : list A) :
  StronglySorted R l -> StronglySorted R (take n l).
Proof.
  intros H. rewrite <- (take_drop n l) in H.
  eapply StronglySorted_app_1_l. exact H.
Qed.

Lemma StronglySorted_sql_limit {A} (R : relation A) (limit : Z)
  (l : list A) :
  StronglySorted R l -> StronglySorted R (sql_limit limit l).
Proof.
  intros H. unfold sql_limit. destruct (limit <? 0)%Z; [exact H|].
  apply StronglySorted_take. exact H.
Qed.

Lemma Forall2_sql_limit {A B} (P : A -> B -> Prop) (limit : Z)
  (l : list A) (k : list B) :
  Forall2 P l k -> Forall2 P (sql_limit limit l) (sql_limit limit k).
Proof.
  intros H. unfold sql_limit. destruct (limit <? 0)%Z; [exact H|].
  apply Forall2_take. exact H.
Qed.

(** The rows selected for a chamber come out most recent first. *)
Lemma select_history_sorted (db : database) (c limit : Z) :
  StronglySorted date_desc (select_history db c limit).
Proof.
  unfold select_history. apply StronglySorted_sql_limit.
  apply StronglySorted_merge_sort; apply _.
Qed.

(** A selected row, turned into a result, is the calibration it holds. *)
Lemma result_of_row_returned (db : database) (c : Z) (r : record_row)
  (cal : CalibrationResult) :
  rec_chamber_id r = c -> stored_as db r cal ->
  returned_as (result_of_row db c r) cal.
Proof.
  intros Hc [(Hch & Hm & Ho & Hr2 & Hd) Hp].
  unfold returned_as, result_of_row. simpl.
  repeat split; try congruence.
  rewrite <- Hp. unfold select_points, points_of.
  apply Permutation_map. apply merge_sort_Permutation.
Qed.

(** Calibrations held by rows that are sorted by date are sorted by
    date. *)
Lemma most_recent_first_of_rows (rows : list record_row)
  (cals : list CalibrationResult) :
  Forall2 (fun r cal => rec_calibration_date r = calibration_date cal)
          rows cals ->
  StronglySorted date_desc rows -> most_recent_first cals.
Proof.
  unfold most_recent_first.
  induction 1 as [|r cal rows cals Hd Hrest IH]; intros Hs.
  - constructor.
  - apply StronglySorted_inv in Hs as [Hs Hall]. constructor.
    + apply IH. exact Hs.
    + clear IH Hs. induction Hrest as [|r' cal' rows cals Hd' Hrest IH].
      * constructor.
      * apply Forall_cons in Hall as [Hr Hall]. constructor.
        -- unfold date_desc in Hr. rewrite <- Hd, <- Hd'. exact Hr.
        -- apply IH. exact Hall.
Qed.

(** The history of a chamber, against the calibrations that the rows of
    the store hold: it is the first [limit] of the saved calibrations of
    the chamber as ordered by date, most recent first. *)
Lemma get_calibration_history_returns (db : database) (c limit : Z)
  (saved : list CalibrationResult) :
  Forall2 (stored_as db) (calibration_records db) saved ->
  most_recent_first (get_calibration_history db c limit)
  /\ exists by_date,
       by_date ≡ₚ filter (fun cal => chamber_id cal = c) saved
       /\ most_recent_first by_date
       /\ Forall2 returned_as (get_calibration_history db c limit)
                  (sql_limit limit by_date).
Proof.
  intros Hstored. split.
  - unfold most_recent_first, get_calibration_history.
    apply (StronglySorted_fmap _ date_desc).
    + intros x y Hxy. exact Hxy.
    + apply select_history_sorted.
  - set (rows := filter (fun r => rec_chamber_id r = c)
                        (calibration_records db)).
    assert (Hrows : Forall2 (fun r cal => rec_chamber_id r = c
                                          /\ stored_as db r cal)
                            rows
                            (filter (fun cal => chamber_id cal = c) saved)).
    { apply Forall2_with_left.
      - apply Forall_forall. intros r Hr.
        unfold rows in Hr.
        apply list_elem_of_filter in Hr. tauto.
      - apply Forall2_filter; [|exact Hstored].
        intros r cal [(Hch & _) _]. rewrite Hch. tauto. }
    destruct (Permutation_Forall2
                (Permutation_sym (merge_sort_Permutation date_desc rows))
                Hrows)
      as (by_date & Hperm & Hsorted).
    exists by_date. split; [symmetry; exact Hperm|]. split.
    + apply (most_recent_first_of_rows (merge_sort date_desc rows)).
      * eapply Forall2_impl; [exact Hsorted|].
        intros r cal [_ [(_ & _ & _ & _ & Hd) _]]. exact Hd.
      * apply StronglySorted_merge_sort; apply _.
    + unfold get_calibration_history, select_history. fold rows.
      apply Forall2_fmap_l. apply Forall2_sql_limit.
      eapply Forall2_impl; [exact Hsorted|].
      intros r cal [Hc Hs]. apply result_of_row_returned; assumption.
Qed.

End History.

Section CalibrationStoreClaim.
Import NumPy CalibrationDb CalibrationSpec.

(** C4.  After any sequence of [save_calibration] calls on a fresh
    store, at most one row per chamber is marked active.  Each save that
    the store accepts turns the rows into the earlier ones, the active
    row of the chamber switched off, followed by the new row, which is
    then the only active row of its chamber; every calibration saved so
    far is still held by its row, points included.  And
    [get_calibration_history] returns the most recent saved calibrations
    of the chamber, most recent first: with all the saved calibrations
    of the chamber put in the order of their dates, latest first, it
    returns the first [limit] of them (all of them for a negative
    limit), so that none it leaves out is dated later than one it
    returns. *)
Theorem save_calibration_one_active_history_retained
  (cals : list CalibrationResult) (c limit : Z) :
  let db := save_all _init_database cals in
  let saved := List.filter storable cals in
  (length (active_rows db c) <= 1)%nat
  /\ (forall db0 cal db1,
        save_calibration db0 cal = Some db1 ->
        exists row,
          calibration_records db1
          = map (deactivate (chamber_id cal)) (calibration_records db0)
            ++ [row]
          /\ same_header row cal
          /\ active_rows db1 (chamber_id cal) = [row])
  /\ Forall2 (stored_as db) (calibration_records db) saved
  /\ most_recent_first (get_calibration_history db c limit)
  /\ exists by_date,
       by_date ≡ₚ filter (fun cal => chamber_id cal = c) saved
       /\ most_recent_first by_date
       /\ Forall2 returned_as (get_calibration_history db c limit)
                  (sql_limit limit by_date).
Proof.
  intros db saved.
  destruct init_database_in_order as (Hi & Hs & Ha).
  destruct (save_all_stored cals [] _init_database Hi Hs Ha)
    as (Hi' & Hs' & Ha').
  fold db in Hi', Hs', Ha'. cbn [app] in Hs'. fold saved in Hs'.
  split; [apply Ha'|]. split.
  - intros db0 cal db1 Hsave.
    destruct (save_calibration_rows db0 db1 cal Hsave)
      as (row & Hrec & Hh & _ & _ & _ & Hact & _).
    exists row. auto.
  - split; [exact Hs'|].
    apply get_calibration_history_returns. exact Hs'.
Qed.

(** The two saves of the specification's example: one active row, and
    [get_calibration_history(0, 10)] returns both calibrations, the
    later one first. *)
Lemma two_saves_one_active_both_in_history :
  let db := save_all _init_database
                     [Scenario.first_calibration;
                      Scenario.second_calibration] in
  map rec_is_active (calibration_records db) = [false; true]
  /\ length (active_rows db 0) = 1%nat
  /\ get_calibration_history db 0 10
     = [Scenario.second_calibration; Scenario.first_calibration]
  /\ get_active_calibration db 0 = Some Scenario.second_calibration.
Proof. vm_compute. repeat split. Qed.

(** Three saves for chamber 0, dated 100, 200 and 150 in the order of
    saving, through the theorem: one row is active, and a history of two
    holds the calibrations dated 200 and 150, in this order, not the two
    saved first. *)
Lemma save_calibration_one_active_history_retained_witness :
  let db := save_all _init_database
                     [Scenario.first_calibration;
                      Scenario.second_calibration;
                      Scenario.third_calibration] in
  (length (active_rows db 0) <= 1)%nat
  /\ map calibration_date (get_calibration_history db 0 2) = [200; 150]%Z.
Proof.
  intros db.
  destruct (save_calibration_one_active_history_retained
              [Scenario.first_calibration; Scenario.second_calibration;
               Scenario.third_calibration] 0 2)
    as (Hact & _ & _ & _ & by_date & Hperm & Hsorted & Hret).
  split; [exact Hact|]. fold db in Hret.
  assert (Hdates : map calibration_date by_date
                   ≡ₚ [100; 200; 150]%Z).
  { rewrite Hperm. reflexivity. }
  assert (Hlen : length by_date = 3%nat).
  { rewrite <- (length_map calibration_date), Hdates. reflexivity. }
  destruct by_date as [|a [|b [|d [|]]]]; try discriminate Hlen.
  assert (Hord : (calibration_date b <= calibration_date a)%Z
                 /\ (calibration_date d <= calibration_date a)%Z
                 /\ (calibration_date d <= calibration_date b)%Z).
  { unfold most_recent_first in Hsorted.
    apply StronglySorted_inv in Hsorted as [Hrest Ha].
    apply StronglySorted_inv in Hrest as [_ Hb].
    apply Forall_cons in Ha as [Hab Ha]. apply Forall_cons in Ha as [Had _].
    apply Forall_cons in Hb as [Hbd _]. auto. }
  cbn [map] in Hdates.
  assert (Hin : forall x, In x [100; 200; 150]%Z ->
                          In x [calibration_date a; calibration_date b;
                                calibration_date d]).
  { intros x. apply Permutation_in. symmetry. exact Hdates. }
  assert (H200 := Hin 200%Z ltac:(simpl; auto)).
  assert (H150 := Hin 150%Z ltac:(simpl; auto)).
  assert (H100 := Hin 100%Z ltac:(simpl; auto)).
  assert (Hab : calibration_date a = 200%Z /\ calibration_date b = 150%Z).
  { simpl in H200, H150, H100. lia. }
  change (sql_limit 2 [a; b; d]) with [a; b] in Hret.
  destruct (get_calibration_history db 0 2) as [|h1 [|h2 [|]]];
    inversion Hret as [|? ? ? ? H1 Hret1]; subst;
    inversion Hret1 as [|? ? ? ? H2 Hret2]; subst;
    inversion Hret2; subst.
  destruct H1 as (_ & _ & _ & _ & Hd1 & _).
  destruct H2 as (_ & _ & _ & _ & Hd2 & _).
  cbn [map]. destruct Hab as [Ea Eb]. congruence.
Defined.

(** A calibration with a NaN is refused by the store, which stays as
    it was. *)
Lemma save_calibration_nan_refused (db : database)
  (cal : CalibrationResult) :
  r_squared cal = NaN ->
  save_calibration db cal = None /\ save_all db [cal] = db.
Proof.
  intros H. assert (Hs : storable cal = false).
  { unfold storable. rewrite H. simpl. rewrite !andb_false_r. reflexivity. }
  unfold save_all, save_calibration. simpl. rewrite Hs. auto.
Qed.

End CalibrationStoreClaim.

(* --------------------------------------------------------------------- *)
(** ** The pressure window of the adaptive pulse *)

Section PulseWindow.
Import PidController.

Lemma Qsum_snoc (l : list Q) (q : Q) : (Qsum (l ++ [q]) == Qsum l + q)%Q.
Proof. unfold Qsum. rewrite fold_left_app. simpl. reflexivity. Qed.

(** The differences of neighbours add up to the difference of the ends. *)
Lemma differences_telescope (h : list Q) (k : nat) :
  (Qsum (map (fun i => nth i h 0 - nth (i - 1) h 0)%Q (seq 1 k))
   == nth k h 0%Q - nth 0 h 0%Q)%Q.
Proof.
  induction k as [|k IH].
  - simpl. unfold Qsum. simpl. ring.
  - rewrite seq_S, map_app. cbn [map]. rewrite Qsum_snoc, IH.
    replace (1 + k - 1)%nat with k by lia. simpl. ring.
Qed.

(** X1.  The average rate that [compute_adaptive_pulse] takes over
    its pressure history depends on the oldest and the newest sample
    alone: the differences of neighbours add up to newest - oldest, which
    is divided by the number of steps between them. *)
Theorem avg_rate_of_oldest_and_newest (oldest newest : Q) (between : list Q) :
  (avg_rate_of (oldest :: between ++ [newest])
   == (newest - oldest) / inject_Z (Z.of_nat (S (length between))))%Q.
Proof.
  unfold avg_rate_of.
  assert (Hlen : (length (oldest :: between ++ [newest]) - 1
                  = S (length between))%nat).
  { simpl. rewrite length_app. simpl. lia. }
  rewrite Hlen, differences_telescope.
  replace (Nat.max 1 (S (length between))) with (S (length between)) by lia.
  assert (Hn : nth (S (length between)) (oldest :: between ++ [newest]) 0%Q
               = newest).
  { simpl. rewrite app_nth2 by lia.
    replace (length between - length between)%nat with 0%nat by lia.
    reflexivity. }
  rewrite Hn. simpl nth. reflexivity.
Qed.

Lemma push_history_window (l : list Q) (p : Q) :
  push_history (RegulatorSpec.bounded_history l) p
  = RegulatorSpec.bounded_history (l ++ [p]).
Proof.
  unfold push_history, RegulatorSpec.bounded_history. cbv zeta.
  rewrite !length_app, length_drop. simpl length.
  destruct (Nat.le_gt_cases (length l) 9) as [Hs|Hl].
  - replace (length l - 10)%nat with 0%nat by lia.
    replace (length l + 1 - 10)%nat with 0%nat by lia.
    rewrite !drop_0.
    destruct (10 <? length l - 0 + 1)%nat eqn:E; [|reflexivity].
    apply Nat.ltb_lt in E. lia.
  - destruct (10 <? length l - (length l - 10) + 1)%nat eqn:E.
    2:{ apply Nat.ltb_ge in E. lia. }
    rewrite <- drop_app_le by lia.
    change (tail ?x) with (drop 1 x).
    rewrite drop_drop. f_equal. lia.
Qed.

(** The sample time is never assigned. *)
Lemma feed_sample_time (c : PIDControllerWrapper) (samples : list Q) :
  sample_time (feed c samples).2 = sample_time c.
Proof.
  revert c. induction samples as [|p rest IH]; intros c; [reflexivity|].
  simpl feed.
  destruct (compute_adaptive_pulse c p) as [[out c']|] eqn:E.
  - destruct (compute_adaptive_pulse_returned c c' p out E)
      as (_ & _ & _ & Hc').
    destruct rest as [|q rest']; [rewrite Hc'; reflexivity|].
    rewrite IH, Hc'. reflexivity.
  - destruct rest as [|q rest']; [reflexivity|]. apply IH.
Qed.

Lemma feed_window (c : PIDControllerWrapper) (earlier samples : list Q) :
  ~ (sample_time c == 0)%Q ->
  pressure_history c = RegulatorSpec.bounded_history earlier ->
  pressure_history (feed c samples).2
  = RegulatorSpec.bounded_history (earlier ++ samples).
Proof.
  revert c earlier.
  induction samples as [|p rest IH]; intros c earlier Hs Hc.
  - simpl. rewrite app_nil_r. exact Hc.
  - destruct (compute_adaptive_pulse_returns c p (or_intror Hs))
      as (out & c' & E).
    destruct (compute_adaptive_pulse_returned c c' p out E)
      as (_ & _ & _ & Hc').
    assert (Hstep : pressure_history c'
                    = RegulatorSpec.bounded_history (earlier ++ [p])).
    { rewrite Hc'. simpl. rewrite Hc. apply push_history_window. }
    simpl feed. rewrite E. destruct rest as [|q rest'].
    + exact Hstep.
    + replace (earlier ++ p :: q :: rest')
        with ((earlier ++ [p]) ++ q :: rest')
        by (rewrite <- app_assoc; reflexivity).
      apply IH; [|exact Hstep]. rewrite Hc'. exact Hs.
Qed.

(** With a sample time of 0, every call after the first raises and
    leaves the wrapper as it is. *)
Lemma feed_stuck (c : PIDControllerWrapper) (lp : Q) (samples : list Q) :
  (sample_time c == 0)%Q -> last_pressure c = Some lp ->
  (feed c samples).2 = c.
Proof.
  intros Hs Hl. induction samples as [|p rest IH]; [reflexivity|].
  simpl feed.
  assert (E : compute_adaptive_pulse c p = None).
  { apply compute_adaptive_pulse_raises. eauto. }
  rewrite E. destruct rest as [|q rest']; [reflexivity|exact IH].
Qed.

(** X2.  After [reset], as long as the sample time is not 0, the
    history holds the last ten pressures that [compute_adaptive_pulse]
    was called with, all of them while there are at most ten; what it
    held before the reset is gone.  With a sample time of 0 only the
    first call returns: every later one raises [ZeroDivisionError]
    before it appends, and the history stays at the first pressure. *)
Theorem history_is_last_ten_samples (c : PIDControllerWrapper)
  (samples : list Q) :
  let c' := (feed (reset c) samples).2 in
  (~ (sample_time c == 0)%Q ->
   pressure_history c' = drop (length samples - 10) samples)
  /\ ((sample_time c == 0)%Q -> pressure_history c' = take 1 samples)
  /\ (length (pressure_history c') <= 10)%nat.
Proof.
  cbv zeta.
  assert (Hgood : ~ (sample_time c == 0)%Q ->
                  pressure_history (feed (reset c) samples).2
                  = drop (length samples - 10) samples).
  { intros Hs.
    assert (H := feed_window (reset c) [] samples Hs eq_refl).
    rewrite app_nil_l in H. exact H. }
  assert (Hzero : (sample_time c == 0)%Q ->
                  pressure_history (feed (reset c) samples).2
                  = take 1 samples).
  { intros Hs. destruct samples as [|p rest]; [reflexivity|].
    cbn [feed].
    destruct (compute_adaptive_pulse_returns (reset c) p
                (or_introl eq_refl)) as (out & c1 & E).
    destruct (compute_adaptive_pulse_returned _ _ _ _ E)
      as (_ & _ & _ & Hc1).
    rewrite E.
    assert (Hh : pressure_history c1 = [p]) by (rewrite Hc1; reflexivity).
    destruct rest as [|q rest']; [exact Hh|].
    rewrite (feed_stuck c1 p (q :: rest')).
    - exact Hh.
    - rewrite Hc1. exact Hs.
    - rewrite Hc1. reflexivity. }
  split; [exact Hgood|]. split; [exact Hzero|].
  destruct (Qeq_dec (sample_time c) 0) as [Hs|Hs].
  - rewrite (Hzero Hs). rewrite length_take. lia.
  - rewrite (Hgood Hs), length_drop. lia.
Qed.

Lemma rate_factor_of_range (a : Q) :
  (0 <= rate_factor_of a)%Q /\ (rate_factor_of a <= 1)%Q.
Proof.
  unfold rate_factor_of. split.
  - apply Q.min_glb; [discriminate|].
    apply Qle_shift_div_l; [reflexivity|].
    rewrite Qmult_0_l. apply Qabs_nonneg.
  - apply Q.le_min_l.
Qed.

(** X3.  [compute_adaptive_pulse] raises [ZeroDivisionError] exactly
    when there is an earlier pressure and the sample time is 0.  In
    every other case, whatever the pressure and the history, it answers
    a pulse_on between 0.05 s and the pulse_on of the mode it chose,
    which is at most 0.3 s, and a pulse_off between the pulse_off of
    that mode and twice that, which is at most 0.6 s. *)
Theorem compute_adaptive_pulse_within_limits (c : PIDControllerWrapper)
  (p : Q) :
  match compute_adaptive_pulse c p with
  | Some (out, _) =>
      let base := modes (out_mode out) in
      (last_pressure c = None \/ ~ (sample_time c == 0)%Q)
      /\ (0.05 <= out_pulse_on out)%Q
      /\ (out_pulse_on out <= pulse_on base)%Q
      /\ (pulse_on base <= 0.3)%Q
      /\ (pulse_off base <= out_pulse_off out)%Q
      /\ (out_pulse_off out <= 2 * pulse_off base)%Q
      /\ (2 * pulse_off base <= 0.6)%Q
  | None =>
      (exists lp, last_pressure c = Some lp) /\ (sample_time c == 0)%Q
  end.
Proof.
  destruct (compute_adaptive_pulse c p) as [[out c']|] eqn:E.
  2:{ apply compute_adaptive_pulse_raises in E. exact E. }
  cbv zeta.
  destruct (compute_adaptive_pulse_returned c c' p out E)
    as (_ & Hon & Hoff & _).
  cbv zeta in Hon, Hoff. rewrite Hon, Hoff.
  set (m := out_mode out).
  set (rf := rate_factor_of _).
  destruct (rate_factor_of_range
              (avg_rate_of (push_history (pressure_history c) p)))
    as [H0 H1].
  fold rf in H0, H1.
  assert (Hon5 : (0.05 <= pulse_on (modes m))%Q) by (destruct m; discriminate).
  assert (Hoff5 : (0.05 <= pulse_off (modes m))%Q)
    by (destruct m; discriminate).
  split.
  { destruct (last_pressure c) as [lp|] eqn:El; [|left; reflexivity].
    right. intros Hs.
    assert (En : compute_adaptive_pulse c p = None)
      by (apply compute_adaptive_pulse_raises; eauto).
    congruence. }
  repeat split.
  - apply Q.le_max_l.
  - apply Q.max_lub; [exact Hon5|]. destruct m; simpl; lra.
  - destruct m; discriminate.
  - eapply Qle_trans; [|apply Q.le_max_r]. destruct m; simpl; lra.
  - apply Q.max_lub; [|destruct m; simpl; lra]. destruct m; discriminate.
  - destruct m; discriminate.
Qed.

End PulseWindow.

(* --------------------------------------------------------------------- *)
(** ** The end of a run *)

Section EndOfRun.
Import TestManager RunSpec ValveSpec.

Lemma run_phases_true (filling regulation stabilization testing : action bool)
  (st st' : run_state) (b : bool) :
  run_phases filling regulation stabilization testing st = Some (Val b, st') ->
  b = true /\ calls st' = calls st ++ earlier_phases.
Proof.
  intros H.
  unfold run_phases, mbind, M_bind, call, lift, require, mret, M_ret, raise
    in H.
  simpl in H.
  repeat match type of H with
         | context [match ?a ?env ?w with _ => _ end] =>
             destruct (a env w) as [[[[[|]|?] ?] ?]|]; simpl in H
         end;
    try discriminate; inversion H; subst; simpl;
    rewrite <- ?app_assoc; simpl; split; reflexivity.
Qed.

Lemma fold_emit_enabled (f : Z -> event) (l : list ChamberTestState)
  (w : World) :
  let w' :=
    fold_left (fun acc ch => if enabled ch then emit (f (chamber_index ch)) acc
                             else acc) l w in
  events w' = events w ++ map f (map chamber_index (List.filter enabled l))
  /\ tm w' = tm w.
Proof.
  revert w. induction l as [|ch l IH]; intros w; cbv zeta.
  - simpl. rewrite app_nil_r. auto.
  - simpl. destruct (enabled ch) eqn:E.
    + destruct (IH (emit (f (chamber_index ch)) w)) as [He Ht].
      cbv zeta in He, Ht. rewrite He, Ht. simpl. rewrite <- app_assoc. auto.
    + apply IH.
Qed.

Lemma for_enabled_events (f : Z -> event) (w : World) :
  events (for_enabled f w) = events w ++ map f (enabled_indices (tm w))
  /\ tm (for_enabled f w) = tm w.
Proof. apply fold_emit_enabled. Qed.

Lemma filling_never_raises : never_raises _run_filling_phase.
Proof.
  intros env w o w' env' H. unfold _run_filling_phase in H. cbv zeta in H.
  destruct (filling_loop _ _ _ _) as [[[[|b] w2] env2]|]; [| |discriminate].
  - destruct (_check_stop_requested w2) as [[] w3]; inversion H; eauto.
  - inversion H; eauto.
Qed.

Lemma regulation_never_raises : never_raises _run_regulation_phase.
Proof.
  intros env w o w' env' H. unfold _run_regulation_phase in H. cbv zeta in H.
  destruct (regulation_loop _ _ _ _ _) as [[[[|b] w2] env2]|];
    [| |discriminate].
  - destruct (_check_stop_requested _) as [[] w3]; inversion H; eauto.
  - inversion H; eauto.
Qed.

Lemma stabilization_never_raises : never_raises _run_stabilization_phase.
Proof.
  intros env w o w' env' H. unfold _run_stabilization_phase in H.
  cbv zeta in H.
  destruct (stabilization_loop _ _ _ _ _ _) as [[[b w2] env2]|];
    [|discriminate].
  inversion H; eauto.
Qed.

Lemma testing_never_raises : never_raises _run_testing_phase.
Proof.
  intros env w o w' env' H. unfold _run_testing_phase in H. cbv zeta in H.
  destruct (testing_loop _ _ _ _) as [[w2 env2]|]; [|discriminate].
  destruct (_check_stop_requested _) as [b w3]. inversion H; eauto.
Qed.

(** Whatever the phases did, the guarded [try] block ends with a value,
    [True] only after the four phases, or with an exception that
    [except Exception] does not catch. *)
Lemma guarded_phases_outcome
  (filling regulation stabilization testing : action bool)
  (update_status : string -> action unit)
  (st st1 : run_state) (o1 : outcome bool) :
  (forall m, never_raises (update_status m)) ->
  try_except (run_phases filling regulation stabilization testing)
    (fun message => on_test_error update_status "Error: " message;; mret false)
    st = Some (o1, st1) ->
  (exists b, o1 = Val b
             /\ (b = true -> calls st1 = calls st ++ earlier_phases))
  \/ (exists m, o1 = Exc (PyBaseException m)).
Proof.
  intros Hu H. unfold try_except in H.
  destruct (run_phases filling regulation stabilization testing st)
    as [[[b|[m|m]] s]|] eqn:E; try discriminate.
  - inversion H; subst. left. exists b. split; [reflexivity|]. intros _.
    apply (run_phases_true _ _ _ _ _ _ _ E).
  - unfold on_test_error, mbind, M_bind, modify_tm, lift, mret, M_ret in H.
    simpl in H.
    destruct (update_status _ _ _) as [[[o2 w2] env2]|] eqn:E2;
      [|discriminate].
    destruct (Hu _ _ _ _ _ _ E2) as [v ->]. inversion H; subst.
    left. exists false. split; [reflexivity|discriminate].
  - inversion H; subst. right. eauto.
Qed.

Lemma update_status_with_returning (cb : callbacks) (m : string)
  (env : list env_step) (w : World) :
  callbacks_return cb ->
  update_status_with cb m env w = Some (Val tt, _update_status m w, env).
Proof.
  intros Hcb. unfold update_status_with. cbv zeta.
  destruct (Hcb (_update_status m w)) as (-> & _). reflexivity.
Qed.

Lemma emptying_loop_with_returning (cb : callbacks) (env env' : list env_step)
  (start timeout : Q) (w w' : World) (o : outcome unit) :
  callbacks_return cb ->
  emptying_loop_with cb env start timeout w = Some (o, w', env') ->
  o = Val tt /\ emptying_loop env start timeout w = Some (w', env').
Proof.
  intros Hcb. revert w. induction env as [|e env IH]; intros w H;
    [discriminate|].
  cbn [emptying_loop_with emptying_loop] in H |- *. cbv zeta in H |- *.
  destruct (Qltb _ _).
  - match type of H with
    | after_callback (progress_callback cb ?x) _ _ _ = _ =>
        destruct (Hcb x) as (_ & Hp & _); rewrite Hp in H
    end.
    cbn [after_callback] in H.
    destruct (all_empty _).
    + inversion H; subst. auto.
    + apply IH. exact H.
  - inversion H; subst. auto.
Qed.

(** With callbacks that return, the emptying phase is the one of the
    model above: it returns [True], the chambers stopped last. *)
Lemma run_emptying_phase_with_returning (cb : callbacks)
  (env env' : list env_step) (w w' : World) (o : outcome bool) :
  callbacks_return cb ->
  _run_emptying_phase_with cb env w = Some (o, w', env') ->
  _run_emptying_phase env w = Some (o, w', env').
Proof.
  intros Hcb H. unfold _run_emptying_phase_with in H.
  unfold _run_emptying_phase. cbv zeta in H |- *.
  destruct (Hcb (enter_phase "emptying" "EMPTYING" "Emptying chambers..." w))
    as (Hs & _).
  rewrite Hs in H. cbn [after_callback] in H.
  destruct (emptying_loop_with _ _ _ _ _) as [[[ol w5] env5]|] eqn:El;
    [|discriminate].
  destruct (emptying_loop_with_returning _ _ _ _ _ _ _ _ Hcb El) as [-> El'].
  rewrite El'. exact H.
Qed.

Lemma process_results_with_returning (cb : callbacks) (b : bool)
  (env : list env_step) (w : World) :
  callbacks_return cb ->
  _process_results_with cb b env w = _process_results b env w.
Proof.
  intros Hcb. unfold _process_results_with, _process_results. cbv zeta.
  destruct (negb b).
  - match goal with
    | |- after_callback (status_callback cb ?x) _ _ _ = _ =>
        destruct (Hcb x) as (-> & _)
    end. reflexivity.
  - match goal with
    | |- after_callback (status_callback cb ?x) _ _ _ = _ =>
        destruct (Hcb x) as (-> & _)
    end. cbn [after_callback].
    match goal with
    | |- after_callback (result_callback cb ?x) _ _ _ = _ =>
        destruct (Hcb x) as (_ & _ & ->)
    end. reflexivity.
Qed.

Lemma update_status_with_never_raises (cb : callbacks) (m : string) :
  callbacks_return cb -> never_raises (update_status_with cb m).
Proof.
  intros Hcb env w o w' env' H.
  rewrite (update_status_with_returning cb m env w Hcb) in H.
  inversion H. eauto.
Qed.


(** How a run ends when the callbacks return: after the phases (ended
    in [st1] with [o1]), the emptying phase returns, the results are
    processed, the monitor is stopped and the running flag cleared. *)
Lemma test_thread_with_ending (cb : callbacks)
  (filling regulation stabilization testing : action bool)
  (start_monitoring : action unit) (st st' : run_state) (o : outcome unit) :
  never_raises start_monitoring -> callbacks_return cb ->
  test_thread_with cb filling regulation stabilization testing
                   start_monitoring st = Some (o, st') ->
  exists (o1 : outcome bool) (st0 st1 : run_state) (w2 w3 : World)
         (env2 : list env_step),
    calls st0 = calls st
    /\ try_except
         (run_phases filling regulation stabilization testing)
         (fun message =>
            on_test_error (update_status_with cb) "Error: " message;;
            mret false)
         st0
       = Some (o1, st1)
    /\ _run_emptying_phase (pending st1) (world st1)
       = Some (Val true, w2, env2)
    /\ _process_results (phases_succeeded o1) env2 w2
       = Some (Val tt, w3, env2)
    /\ o = match o1 with Val _ => Val tt | Exc e => Exc e end
    /\ calls st' = calls st1 ++ [EMPTYING]
    /\ world st'
       = on_tm (set_running_test false)
               (on_tm (set_monitoring_running false) w3).
Proof.
  intros Hsm Hcb H.
  unfold test_thread_with, _run_test in H.
  unfold try_finally at 1 in H.
  match type of H with
  | context [match ?c with _ => _ end] => destruct c as [[o0 s0]|] eqn:E0
  end; [|discriminate].
  unfold try_except at 1 in E0.
  unfold mbind at 1, M_bind at 1 in E0.
  unfold lift at 1 in E0.
  destruct (start_monitoring (pending st) (world st))
    as [[[os ws] envs]|] eqn:Es; [|discriminate].
  destruct (Hsm _ _ _ _ _ Es) as [v ->].
  set (st0 := {| calls := calls st; world := ws; pending := envs |}) in *.
  unfold mbind at 1, M_bind at 1 in E0.
  unfold try_finally at 1 in E0.
  match type of E0 with
  | context [try_except ?b ?h ?s] =>
      destruct (try_except b h s) as [[o1 st1]|] eqn:E1
  end.
  2:{ discriminate. }
  exists o1, st0, st1.
  unfold cleanup in E0. cbv zeta in E0.
  unfold mbind, M_bind, call, lift in E0. simpl in E0.
  destruct (_run_emptying_phase_with cb (pending st1) (world st1))
    as [[[oe w2] env2]|] eqn:Ee; [|discriminate].
  apply (run_emptying_phase_with_returning cb _ _ _ _ _ Hcb) in Ee.
  assert (Hoe : oe = Val true).
  { unfold _run_emptying_phase in Ee. cbv zeta in Ee.
    destruct (emptying_loop _ _ _ _) as [[w5 env5]|]; [|discriminate].
    inversion Ee. reflexivity. }
  subst oe. simpl in E0.
  rewrite (process_results_with_returning cb _ _ _ Hcb) in E0.
  fold (phases_succeeded o1) in E0.
  destruct (_process_results (phases_succeeded o1) env2 w2)
    as [[[op w3] env3]|] eqn:Ep; [|discriminate].
  assert (Hp : op = Val tt /\ env3 = env2
               /\ terminal_state (test_state (tm w3)) = true).
  { unfold _process_results in Ep.
    destruct (negb _); [destruct (_stop_requested (tm w2))|];
      inversion Ep; subst; auto. }
  destruct Hp as (-> & -> & Hterm). simpl in E0.
  exists w2, w3, env2.
  destruct (guarded_phases_outcome _ _ _ _ _ _ _ _
              (fun m => update_status_with_never_raises cb m Hcb) E1)
    as [(b & -> & _)|(m & ->)].
  - unfold mret, M_ret in E0. inversion E0; subst o0 s0. clear E0.
    unfold mark_not_running, mbind, M_bind, modify_tm, get_tm in H.
    simpl in H. rewrite Hterm in H. unfold mret, M_ret in H.
    inversion H; subst. simpl. auto 10.
  - inversion E0; subst o0 s0. clear E0.
    unfold mark_not_running, mbind, M_bind, modify_tm, get_tm in H.
    simpl in H. rewrite Hterm in H. unfold mret, M_ret in H.
    inversion H; subst. simpl. auto 10.
Qed.


Lemma process_results_events (b : bool) (env env' : list env_step)
  (w w' : World) (o : outcome unit) :
  _process_results b env w = Some (o, w', env') ->
  chamber_states (tm w') = chamber_states (tm w)
  /\ exists after, events w' = events w ++ after
                   /\ Forall (fun e => is_valve_command e = false) after.
Proof.
  unfold _process_results. intros H.
  destruct (negb b).
  - inversion H; subst. simpl. split; [reflexivity|].
    eexists. split; [reflexivity|]. repeat constructor.
  - inversion H; subst. simpl. split; [reflexivity|].
    rewrite <- app_assoc. eexists. split; [reflexivity|]. repeat constructor.
Qed.

(** X5.  When [_start_monitoring] and the callbacks return, every run
    of the test thread that ends, whatever the four phases did, has
    called [stop_chamber] for each enabled chamber, in the order of the
    chambers, and has sent no command to the valves after that. *)
Theorem test_thread_ends_with_chambers_stopped
  (cb : callbacks)
  (filling regulation stabilization testing : action bool)
  (start_monitoring : action unit)
  (st st' : run_state) (o : outcome unit) :
  never_raises start_monitoring -> callbacks_return cb ->
  test_thread_with cb filling regulation stabilization testing
                   start_monitoring st = Some (o, st') ->
  exists before after,
    events (world st')
    = before ++ map StopChamber (enabled_indices (tm (world st'))) ++ after
    /\ Forall (fun e => is_valve_command e = false) after.
Proof.
  intros Hsm Hcb H.
  destruct (test_thread_with_ending _ _ _ _ _ _ _ _ _ Hsm Hcb H)
    as (o1 & st0 & st1 & w2 & w3 & env2 & _ & _ & Ee & Ep & _ & _ & ->).
  unfold _run_emptying_phase in Ee. cbv zeta in Ee.
  destruct (emptying_loop _ _ _ _) as [[w5 env5]|]; [|discriminate].
  inversion Ee; subst w2 env5. clear Ee.
  destruct (process_results_events _ _ _ _ _ _ Ep)
    as (Hch & after & He & Hafter).
  destruct (for_enabled_events StopChamber w5) as [Hs Ht].
  exists (events w5), after. split; [|exact Hafter].
  simpl. rewrite He, Hs, <- app_assoc.
  unfold enabled_indices. simpl. rewrite Hch, Ht. reflexivity.
Qed.

End EndOfRun.

Section HarmlessCommands.
Import TestManager RunSpec ValveSpec.

Variable log : list event.

Let I : World -> Prop := emitted_since harmless log.

Lemma harmless_emit (e : event) (w : World) :
  harmless e -> I w -> I (emit e w).
Proof.
  intros He (new & Hn & Hf). exists (new ++ [e]). split.
  - simpl. rewrite Hn, app_assoc. reflexivity.
  - apply Forall_app. split; [exact Hf|]. constructor; [exact He|constructor].
Qed.

Lemma harmless_same_events (w w' : World) :
  events w' = events w -> I w -> I w'.
Proof. intros He (new & Hn & Hf). exists new. rewrite He. auto. Qed.

Lemma harmless_on_tm (f : TestManager -> TestManager) (w : World) :
  I w -> I (on_tm f w).
Proof. apply harmless_same_events. reflexivity. Qed.

Lemma harmless_update_status (m : string) (w : World) :
  I w -> I (_update_status m w).
Proof. intros H. apply harmless_emit; [exact Logic.I|exact H]. Qed.

Lemma harmless_update_progress (p : string) (q : Q) (w : World) :
  I w -> I (_update_progress p q w).
Proof. intros H. apply harmless_emit; [exact Logic.I|exact H]. Qed.

Lemma harmless_apply_env (e : env_step) (w : World) :
  I w -> I (apply_env e w).
Proof.
  intros H. unfold apply_env. apply harmless_on_tm.
  destruct (ui_stop e).
  - unfold stop_test. destruct (negb _).
    + apply (harmless_same_events w); [reflexivity|exact H].
    + apply harmless_update_status, harmless_on_tm.
      apply (harmless_same_events w); [reflexivity|exact H].
  - apply (harmless_same_events w); [reflexivity|exact H].
Qed.

Lemma harmless_check_stop (w : World) :
  I w -> I (_check_stop_requested w).2.
Proof.
  intros H. unfold _check_stop_requested.
  destruct (_stop_requested (tm w)); [|exact H].
  destruct (_ && _); [|exact H].
  simpl. apply harmless_update_status, harmless_on_tm, H.
Qed.

Lemma harmless_enter_phase (p s m : string) (w : World) :
  I w -> I (enter_phase p s m w).
Proof.
  intros H. unfold enter_phase. apply harmless_update_status, harmless_on_tm, H.
Qed.

Lemma harmless_for_enabled (f : Z -> event) (w : World) :
  (forall k, harmless (f k)) -> I w -> I (for_enabled f w).
Proof.
  intros Hf. unfold for_enabled.
  generalize (chamber_states (tm w)) as l. intros l. revert w.
  induction l as [|ch l IH]; intros w H; simpl; [exact H|].
  apply IH. destruct (enabled ch); [|exact H].
  apply harmless_emit; [apply Hf|exact H].
Qed.

Lemma harmless_sleep (q : Q) (w : World) :
  (0 <= q)%Q -> I w -> I (emit (TimeSleep q) w).
Proof. intros Hq. apply harmless_emit. exact Hq. Qed.

Lemma harmless_testing_loop (env : list env_step) (start duration : Q)
  (w w' : World) (env' : list env_step) :
  testing_loop env start duration w = Some (w', env') -> I w -> I w'.
Proof.
  revert w. induction env as [|e env IH]; intros w H Hi; [discriminate|].
  cbn [testing_loop] in H. cbv zeta in H.
  assert (H0 := harmless_apply_env e w Hi).
  destruct (Qltb _ duration).
  - assert (Hc := harmless_check_stop _ H0).
    destruct (_check_stop_requested (apply_env e w)) as [[] w1]; simpl in Hc.
    + inversion H; subst. exact Hc.
    + eapply IH; [exact H|].
      apply harmless_sleep; [discriminate|].
      apply harmless_on_tm, harmless_update_progress, harmless_on_tm, Hc.
  - inversion H; subst. exact H0.
Qed.

Lemma harmless_testing : preserves I _run_testing_phase.
Proof.
  intros env w o w' env' H Hi. unfold _run_testing_phase in H. cbv zeta in H.
  destruct (testing_loop _ _ _ _) as [[w2 env2]|] eqn:E; [|discriminate].
  apply harmless_testing_loop in E; [|apply harmless_enter_phase, Hi].
  assert (Hc := harmless_check_stop _ (harmless_on_tm
     (fun t => set_chambers (map testing_conclude (chamber_states t)) t)
     _ E)).
  destruct (_check_stop_requested _) as [b w3]. inversion H; subst. exact Hc.
Qed.

Lemma harmless_emptying_loop (env : list env_step) (start timeout : Q)
  (w w' : World) (env' : list env_step) :
  emptying_loop env start timeout w = Some (w', env') -> I w -> I w'.
Proof.
  revert w. induction env as [|e env IH]; intros w H Hi; [discriminate|].
  cbn [emptying_loop] in H. cbv zeta in H.
  assert (H0 := harmless_apply_env e w Hi).
  destruct (Qltb _ timeout).
  - destruct (all_empty _).
    + inversion H; subst. apply harmless_update_progress, H0.
    + eapply IH; [exact H|].
      apply harmless_sleep; [discriminate|].
      apply harmless_update_progress, H0.
  - inversion H; subst. exact H0.
Qed.

Lemma harmless_emptying : preserves I _run_emptying_phase.
Proof.
  intros env w o w' env' H Hi. unfold _run_emptying_phase in H. cbv zeta in H.
  destruct (emptying_loop _ _ _ _) as [[w5 env5]|] eqn:E; [|discriminate].
  inversion H; subst.
  apply harmless_for_enabled; [intros; exact Logic.I|].
  eapply harmless_emptying_loop; [exact E|].
  apply harmless_for_enabled; [intros; exact Logic.I|].
  apply harmless_sleep; [discriminate|].
  apply harmless_for_enabled; [intros; exact Logic.I|].
  apply harmless_enter_phase, Hi.
Qed.

Lemma harmless_process_results (b : bool) : preserves I (_process_results b).
Proof.
  intros env w o w' env' H Hi. unfold _process_results in H.
  destruct (negb b); inversion H; subst.
  - apply harmless_update_status, harmless_on_tm, Hi.
  - apply harmless_emit; [exact Logic.I|].
    apply harmless_update_status, harmless_on_tm, Hi.
Qed.

Lemma harmless_fill_one (w : World) (i : nat) : I w -> I (fill_one w i).
Proof.
  intros Hi. unfold fill_one. destruct (chamber_at _ _) as [ch|]; [|exact Hi].
  destruct (Qleb _ _).
  - apply harmless_on_tm, harmless_emit; [reflexivity|exact Hi].
  - apply harmless_emit; [reflexivity|exact Hi].
Qed.

Lemma harmless_fold_fill (l : list nat) (w : World) :
  I w -> I (fold_left fill_one l w).
Proof.
  revert w. induction l as [|i l IH]; intros w Hi; simpl; [exact Hi|].
  apply IH, harmless_fill_one, Hi.
Qed.

Lemma harmless_filling_loop (env : list env_step) (start : Q)
  (chambers : list nat) (w w' : World) (x : loop_exit)
  (env' : list env_step) :
  filling_loop env start chambers w = Some (x, w', env') -> I w -> I w'.
Proof.
  revert w chambers. induction env as [|e env IH]; intros w chambers H Hi;
    [discriminate|].
  cbn [filling_loop] in H. cbv zeta in H.
  assert (H0 := harmless_apply_env e w Hi).
  destruct chambers as [|c chambers]; [inversion H; subst; exact H0|].
  assert (Hc := harmless_check_stop _ H0).
  destruct (_check_stop_requested (apply_env e w)) as [[] w1]; simpl in Hc.
  - inversion H; subst. exact Hc.
  - destruct (Qltb 60 _).
    + inversion H; subst. apply harmless_emit; [exact Logic.I|exact Hc].
    + destruct (List.filter _ _) as [|c' still] eqn:Es.
      * inversion H; subst. apply harmless_update_progress, Hc.
      * eapply IH; [exact H|].
        apply harmless_sleep; [discriminate|].
        apply harmless_fold_fill, harmless_update_progress, Hc.
Qed.

Lemma harmless_filling : preserves I _run_filling_phase.
Proof.
  intros env w o w' env' H Hi. unfold _run_filling_phase in H. cbv zeta in H.
  destruct (filling_loop _ _ _ _) as [[[[|b] w2] env2]|] eqn:E;
    [| |discriminate];
    apply harmless_filling_loop in E; try (apply harmless_enter_phase, Hi).
  - assert (Hc := harmless_check_stop _ E).
    destruct (_check_stop_requested w2) as [[] w3]; inversion H; subst;
      exact Hc.
  - inversion H; subst. exact E.
Qed.

(** The two sleeps of a pulse are never negative: the rate factor lies
    between 0 and 1. *)
Lemma control_pulses_nonnegative (mode : control_mode) (avg_rate : Q) :
  let rate_factor := Qmin 1 (Qabs avg_rate / 10) in
  (0 <= mode_pulse_on mode * (1 - rate_factor))%Q
  /\ (0 <= mode_pulse_on mode * (1 - rate_factor) * 1.5)%Q
  /\ (0 <= mode_pulse_off mode * (1 + rate_factor))%Q.
Proof.
  cbv zeta. set (rf := Qmin 1 (Qabs avg_rate / 10)).
  assert (H0 : (0 <= rf)%Q).
  { apply Q.min_glb; [discriminate|].
    apply Qle_shift_div_l; [reflexivity|].
    rewrite Qmult_0_l. apply Qabs_nonneg. }
  assert (H1 : (rf <= 1)%Q) by apply Q.le_min_l.
  destruct mode; simpl; repeat split; lra.
Qed.

Lemma harmless_control_action k error tolerance mode avg w loc :
  I w -> I (control_action k error tolerance mode avg w loc).1.
Proof.
  intros Hi. unfold control_action. cbv zeta.
  destruct (control_pulses_nonnegative mode avg) as (Hon & Hvent & Hoff).
  cbv zeta in Hon, Hvent, Hoff.
  destruct (Qltb tolerance error); [|destruct (Qltb error _)]; simpl.
  - apply harmless_sleep; [exact Hoff|].
    apply harmless_emit; [reflexivity|].
    apply harmless_sleep; [exact Hon|].
    apply harmless_emit; [reflexivity|exact Hi].
  - apply harmless_sleep; [exact Hoff|].
    apply harmless_emit; [reflexivity|].
    apply harmless_sleep; [exact Hvent|].
    apply harmless_emit; [reflexivity|exact Hi].
  - apply harmless_emit; [reflexivity|exact Hi].
Qed.

Lemma harmless_regulate_one (st : World * regulation_locals) (i : nat) :
  I st.1 -> I (regulate_one st i).1.
Proof.
  destruct st as [w loc]. simpl. intros Hi. unfold regulate_one.
  destruct (chamber_at _ _) as [ch|]; [|exact Hi]. cbv zeta.
  destruct (_ && _).
  - simpl. apply harmless_on_tm, harmless_emit; [reflexivity|exact Hi].
  - apply harmless_control_action, Hi.
Qed.

Lemma harmless_fold_regulate (l : list nat) (st : World * regulation_locals) :
  I st.1 -> I (fold_left regulate_one l st).1.
Proof.
  revert st. induction l as [|i l IH]; intros st Hi; simpl; [exact Hi|].
  apply IH, harmless_regulate_one, Hi.
Qed.

Lemma harmless_regulation_loop (env : list env_step) (start : Q)
  (chambers : list nat) (loc : regulation_locals) (w w' : World)
  (x : loop_exit) (env' : list env_step) :
  regulation_loop env start chambers loc w = Some (x, w', env') ->
  I w -> I w'.
Proof.
  revert w chambers loc.
  induction env as [|e env IH]; intros w chambers loc H Hi; [discriminate|].
  cbn [regulation_loop] in H. cbv zeta in H.
  assert (H0 := harmless_apply_env e w Hi).
  destruct chambers as [|c chambers]; [inversion H; subst; exact H0|].
  assert (Hc := harmless_check_stop _ H0).
  destruct (_check_stop_requested (apply_env e w)) as [[] w1]; simpl in Hc.
  - inversion H; subst. exact Hc.
  - destruct (Qltb 120 _).
    + inversion H; subst. apply harmless_emit; [exact Logic.I|exact Hc].
    + destruct (List.filter _ _) as [|c' still] eqn:Es.
      * inversion H; subst. apply harmless_update_progress, Hc.
      * assert (Hr := harmless_fold_regulate (c' :: still)
                        (_update_progress "regulating"
                           (0.1 + 0.2 * ((clock w1 - start) / 120)) w1, loc)
                        (harmless_update_progress _ _ _ Hc)).
        destruct (fold_left regulate_one (c' :: still) _) as [w3 loc'].
        eapply IH; [exact H|].
        apply harmless_sleep; [discriminate|exact Hr].
Qed.

Lemma harmless_regulation : preserves I _run_regulation_phase.
Proof.
  intros env w o w' env' H Hi. unfold _run_regulation_phase in H.
  cbv zeta in H.
  destruct (regulation_loop _ _ _ _ _) as [[[[|b] w2] env2]|] eqn:E;
    [| |discriminate];
    apply harmless_regulation_loop in E;
    try (apply harmless_enter_phase, Hi).
  - assert (Hc := harmless_check_stop _
                    (harmless_for_enabled
                       (fun k => SetChamberValves k false false) w2
                       (fun _ => eq_refl) E)).
    destruct (_check_stop_requested _) as [[] w3]; inversion H; subst;
      exact Hc.
  - inversion H; subst. exact E.
Qed.

Lemma harmless_stabilization_loop (env : list env_step) (start duration : Q)
  (readings : gmap Z (list Q)) (stable b : bool) (w w' : World)
  (env' : list env_step) :
  stabilization_loop env start duration readings stable w
  = Some (b, w', env') ->
  I w -> I w'.
Proof.
  revert w readings stable.
  induction env as [|e env IH]; intros w readings stable H Hi; [discriminate|].
  cbn [stabilization_loop] in H. cbv zeta in H.
  assert (H0 := harmless_apply_env e w Hi).
  destruct stable; [inversion H; subst; exact H0|].
  assert (Hc := harmless_check_stop _ H0).
  destruct (_check_stop_requested (apply_env e w)) as [[] w1]; simpl in Hc.
  - inversion H; subst. exact Hc.
  - destruct (Qltb duration _).
    + inversion H; subst. exact Hc.
    + destruct (fold_left stabilize_one _ _) as [readings' stable'].
      eapply IH; [exact H|].
      apply harmless_sleep; [discriminate|].
      apply harmless_update_progress, Hc.
Qed.

Lemma harmless_stabilization : preserves I _run_stabilization_phase.
Proof.
  intros env w o w' env' H Hi. unfold _run_stabilization_phase in H.
  cbv zeta in H.
  destruct (stabilization_loop _ _ _ _ _ _) as [[[b w2] env2]|] eqn:E;
    [|discriminate].
  inversion H; subst. apply harmless_on_tm.
  eapply harmless_stabilization_loop; [exact E|].
  apply harmless_enter_phase, Hi.
Qed.

Lemma harmless_test_thread : keeps I test_thread.
Proof.
  apply run_test_keeps.
  - exact harmless_filling.
  - exact harmless_regulation.
  - exact harmless_stabilization.
  - exact harmless_testing.
  - exact harmless_emptying.
  - exact harmless_process_results.
  - intros env w o w' env' H Hi. inversion H; subst.
    apply harmless_on_tm, Hi.
  - intros env w o w' env' H Hi. inversion H; subst.
    apply harmless_on_tm, Hi.
  - intros m env w o w' env' H Hi. inversion H; subst.
    apply harmless_update_status, Hi.
  - intros s w Hi. apply harmless_on_tm, Hi.
  - intros b w Hi. apply harmless_on_tm, Hi.
Qed.

End HarmlessCommands.

Section HarmlessRun.
Import TestManager RunSpec ValveSpec.

(** X6.  No command of a run opens the inlet and the outlet of a
    chamber together, and no [time.sleep] of a run is given a negative
    duration, whatever the parameters of the chambers and the pressures
    read. *)
Theorem test_thread_commands_are_harmless
  (st st' : run_state) (o : outcome unit) :
  test_thread st = Some (o, st') ->
  exists new,
    events (world st') = events (world st) ++ new
    /\ Forall harmless new.
Proof.
  intros H.
  apply (harmless_test_thread (events (world st)) st o st' H).
  exists []. rewrite app_nil_r. split; [reflexivity|constructor].
Qed.

End HarmlessRun.

Section EndOfRunWitnesses.
Import TestManager RunSpec ValveSpec.

Ltac pin_run :=
  match goal with
  | |- exists o st', ?run = _ /\ _ =>
      let v := eval vm_compute in run in
      assert (E : run = v) by (vm_compute; reflexivity)
  end.

Lemma returning_callbacks_return : callbacks_return returning.
Proof. intros w. repeat split. Qed.


Lemma test_thread_ends_with_chambers_stopped_witness :
  exists o st',
    test_thread_with returning _run_filling_phase _run_regulation_phase
                     _run_stabilization_phase _run_testing_phase
                     _start_monitoring
                     (Scenario.started Scenario.stopped_early)
    = Some (o, st')
    /\ exists before after,
         events (world st')
         = before ++ map StopChamber (enabled_indices (tm (world st')))
                  ++ after
         /\ Forall (fun e => is_valve_command e = false) after.
Proof.
  pin_run.
  eexists _, _. split; [exact E|].
  exact (test_thread_ends_with_chambers_stopped _ _ _ _ _ _ _ _ _
           start_monitoring_never_raises returning_callbacks_return E).
Defined.

(** Why the callbacks have to return.  The same run with a status
    callback that raises when it is told of the emptying: the emptying
    phase is left before its first valve command, the results are not
    processed and the monitor is not stopped.  [_run_test] catches the
    exception and returns, with the running flag cleared, but in state
    ERROR although a stop was requested, with the monitoring flag still
    set and without one [empty_chamber] or [stop_chamber]. *)
Lemma raising_status_callback_leaves_the_monitor_running :
  exists st',
    test_thread_with Scenario.raises_when_emptying
                     _run_filling_phase _run_regulation_phase
                     _run_stabilization_phase _run_testing_phase
                     _start_monitoring
                     (Scenario.started Scenario.stopped_early)
    = Some (Val tt, st')
    /\ calls st' = [FILLING; REGULATING; EMPTYING]
    /\ test_state (tm (world st')) = "ERROR"
    /\ _stop_requested (tm (world st')) = true
    /\ running_test (tm (world st')) = false
    /\ _monitoring_running (tm (world st')) = true
    /\ Forall (fun e => match e with
                        | EmptyChamber _ | StopChamber _ => False
                        | _ => True
                        end)
              (events (world st')).
Proof.
  eexists. split; [vm_compute; reflexivity|].
  repeat split; try reflexivity.
  repeat constructor.
Qed.

Lemma test_thread_commands_are_harmless_witness :
  exists o st',
    test_thread (Scenario.started Scenario.held_at_150) = Some (o, st')
    /\ exists new,
         events (world st')
         = events (world (Scenario.started Scenario.held_at_150)) ++ new
         /\ Forall harmless new.
Proof.
  pin_run.
  eexists _, _. split; [exact E|].
  exact (test_thread_commands_are_harmless _ _ _ E).
Defined.

End EndOfRunWitnesses.

(* --------------------------------------------------------------------- *)
(** ** The pressure sensor *)

Section SensorInvariant.
Import PressureSensor SensorSpec.

Lemma well_formed_init : well_formed init.
Proof.
  split; simpl; try reflexivity; try lia.
  - split; discriminate.
  - repeat constructor; discriminate.
  - repeat constructor; discriminate.
Qed.

(** A change that leaves the lists, the filter factor and the
    threshold as they are. *)
Lemma well_formed_same (s s' : PressureSensor) :
  chamber_offsets s' = chamber_offsets s ->
  filtered_values s' = filtered_values s ->
  consecutive_errors s' = consecutive_errors s ->
  alpha s' = alpha s ->
  max_consecutive_errors s' = max_consecutive_errors s ->
  well_formed s -> well_formed s'.
Proof.
  intros H1 H2 H3 H4 H5 [].
  split; rewrite ?H1, ?H2, ?H3, ?H4, ?H5; assumption.
Qed.

Lemma well_formed_with_effect (s : PressureSensor) (e : effect) :
  well_formed s -> well_formed (with_effect s e).
Proof. apply well_formed_same; reflexivity. Qed.

Lemma well_formed_with_adc (s : PressureSensor) (a b : bool) :
  well_formed s -> well_formed (with_adc s a b).
Proof. apply well_formed_same; reflexivity. Qed.

Lemma well_formed_with_attempt (s : PressureSensor) (t : Q) :
  well_formed s -> well_formed (with_attempt s t).
Proof. apply well_formed_same; reflexivity. Qed.

Lemma well_formed_with_errors (s : PressureSensor) (ce : list Z) :
  length ce = 4%nat -> Forall (fun n => (0 <= n)%Z) ce ->
  well_formed s -> well_formed (with_errors s ce).
Proof. intros Hl Hf []. split; simpl; assumption. Qed.

Lemma well_formed_with_filtered (s : PressureSensor) (fv : list Q) :
  length fv = 4%nat -> Forall (fun v => (0 <= v)%Q) fv ->
  well_formed s -> well_formed (with_filtered s fv).
Proof. intros Hl Hf []. split; simpl; assumption. Qed.

Lemma Forall_insert_Z (P : Z -> Prop) (l : list Z) (i : nat) (x : Z) :
  P x -> Forall P l -> Forall P (<[i := x]> l).
Proof. intros Hx Hl. apply Forall_insert; assumption. Qed.

Lemma errors_of_nonneg (s : PressureSensor) (channel : Z) :
  well_formed s -> (0 <= errors_of s channel)%Z.
Proof.
  intros []. unfold errors_of.
  destruct (consecutive_errors s !! Z.to_nat channel) as [n|] eqn:E;
    simpl; [|lia].
  rewrite Forall_lookup in wf_counts0. eapply wf_counts0. exact E.
Qed.

Lemma well_formed_bump (s : PressureSensor) (channel : Z) :
  well_formed s -> well_formed (bump_errors s channel).
Proof.
  intros Hw. unfold bump_errors. apply well_formed_with_errors; [| |exact Hw].
  - rewrite length_insert. apply Hw.
  - apply Forall_insert; [apply Hw|].
    assert (H := errors_of_nonneg s channel Hw). lia.
Qed.

Lemma well_formed_clear (s : PressureSensor) (channel : Z) :
  well_formed s ->
  well_formed (with_errors s (<[Z.to_nat channel := 0%Z]>
                                (consecutive_errors s))).
Proof.
  intros Hw. apply well_formed_with_errors; [| |exact Hw].
  - rewrite length_insert. apply Hw.
  - apply Forall_insert; [apply Hw|lia].
Qed.

Lemma well_formed_ensure_initialized (e : env) (s : PressureSensor) :
  well_formed s -> well_formed (ensure_initialized e s).2.
Proof.
  intros Hw. unfold ensure_initialized.
  destruct (initialized s && adc_present s); [exact Hw|].
  destruct (Qltb _ _ && _); [exact Hw|].
  destruct (open_ok e); simpl.
  - apply well_formed_with_errors;
      [reflexivity|repeat constructor; lia|].
    apply well_formed_with_adc, well_formed_with_effect,
      well_formed_with_attempt, Hw.
  - apply well_formed_with_adc, well_formed_with_effect,
      well_formed_with_attempt, Hw.
Qed.

Lemma well_formed_open_if_needed (e : env) (s : PressureSensor) :
  well_formed s -> well_formed (open_if_needed e s).2.
Proof.
  intros Hw. unfold open_if_needed.
  destruct (negb _ || negb _); [|exact Hw].
  apply well_formed_ensure_initialized, Hw.
Qed.

Lemma well_formed_read_voltage (e : env) (channel : Z) (s : PressureSensor) :
  well_formed s -> well_formed (read_voltage e channel s).2.
Proof.
  intros Hw. unfold read_voltage.
  destruct (negb (valid_channel channel)); [exact Hw|].
  destruct (_ <=? _)%Z.
  - destruct (_ =? _)%Z; [|exact Hw].
    apply well_formed_bump, well_formed_with_effect, Hw.
  - assert (H1 : well_formed
                   (if negb (initialized s) || negb (adc_present s)
                    then ensure_initialized e s else (true, s)).2).
    { destruct (negb _ || negb _); [|exact Hw].
      apply well_formed_ensure_initialized, Hw. }
    destruct (if negb (initialized s) || negb (adc_present s)
              then ensure_initialized e s else (true, s)) as [ready s1].
    simpl in H1. destruct ready; simpl.
    + destruct (adc_answer e) as [raw|lost]; simpl.
      * apply (well_formed_clear (with_effect s1 (AdcRead channel))).
        apply well_formed_with_effect, H1.
      * destruct lost; [apply well_formed_with_adc|];
          apply well_formed_bump, well_formed_with_effect, H1.
    + apply well_formed_bump, H1.
Qed.

(** The pressure [read_pressure] hands out without filtering. *)
Lemma read_pressure_value (e : env) (channel : Z) (filtered : bool)
  (s : PressureSensor) (p : Q) :
  well_formed s ->
  (read_pressure e channel filtered s).1 = Some p ->
  (0 <= p)%Q /\ well_formed (read_pressure e channel filtered s).2.
Proof.
  intros Hw. unfold read_pressure.
  destruct (negb (valid_channel channel)); [discriminate|].
  destruct (_ <=? _)%Z; [destruct (_ =? _)%Z; discriminate|].
  assert (H1 := well_formed_read_voltage e channel s Hw).
  destruct (read_voltage e channel s) as [[voltage|] s1]; [|discriminate].
  simpl in H1. cbv zeta.
  set (adj := if (channel <=? 2)%Z then _ else _).
  assert (Hadj : (0 <= adj)%Q).
  { unfold adj. destruct (channel <=? 2)%Z; apply Q.le_max_l. }
  destruct filtered; simpl; intros Hp; inversion Hp; subst p; clear Hp.
  - set (prev := default 0%Q (filtered_values s1 !! Z.to_nat channel)).
    assert (Hprev : (0 <= prev)%Q).
    { unfold prev.
      destruct (filtered_values s1 !! Z.to_nat channel) as [v|] eqn:E;
        simpl; [|discriminate].
      destruct H1. rewrite Forall_lookup in wf_nonneg0.
      eapply wf_nonneg0. exact E. }
    destruct H1 as [? ? ? [Ha0 Ha1] ? ? ?].
    assert (Hf : (0 <= alpha s1 * adj + (1 - alpha s1) * prev)%Q) by nra.
    split; [exact Hf|].
    split; simpl; try assumption; [|auto|].
    + rewrite length_insert. assumption.
    + apply Forall_insert; assumption.
  - split; [exact Hadj|exact H1].
Qed.

Lemma well_formed_read_pressure (e : env) (channel : Z) (filtered : bool)
  (s : PressureSensor) :
  well_formed s -> well_formed (read_pressure e channel filtered s).2.
Proof.
  intros Hw.
  destruct (read_pressure e channel filtered s).1 as [p|] eqn:E.
  - apply (read_pressure_value e channel filtered s p Hw E).
  - revert E. unfold read_pressure.
    destruct (negb (valid_channel channel)); [intros; exact Hw|].
    destruct (_ <=? _)%Z.
    + destruct (_ =? _)%Z; intros _; [|exact Hw].
      apply well_formed_with_effect, Hw.
    + assert (H1 := well_formed_read_voltage e channel s Hw).
      destruct (read_voltage e channel s) as [[voltage|] s1].
      * cbv zeta. destruct filtered; discriminate.
      * intros _. exact H1.
Qed.

End SensorInvariant.

Section SensorSampling.
Import PressureSensor SensorSpec.

Lemma read_pressure_some_valid (e : env) (channel : Z) (filtered : bool)
  (s : PressureSensor) (p : Q) :
  (read_pressure e channel filtered s).1 = Some p ->
  valid_channel channel = true.
Proof.
  unfold read_pressure. destruct (valid_channel channel); [reflexivity|].
  discriminate.
Qed.

Lemma sampling_loop_sound (fuel : nat) (es : nat -> env) (k : nat)
  (channel num_samples : Z) (delay : Q) (readings : list Q) (errors : Z)
  (s : PressureSensor) :
  well_formed s -> Forall (fun v => (0 <= v)%Q) readings ->
  let r := sampling_loop fuel es k channel num_samples delay readings errors
                         s in
  well_formed r.2
  /\ forall rs,
       r.1 = Sampled rs ->
       Forall (fun v => (0 <= v)%Q) rs
       /\ ((length readings < length rs)%nat -> valid_channel channel = true)
       /\ ((Z.of_nat (length readings) <= num_samples)%Z ->
           (Z.of_nat (length rs) <= num_samples)%Z)
       /\ (length readings <= length rs)%nat.
Proof.
  revert k readings errors s.
  induction fuel as [|fuel IH]; intros k readings errors s Hw Hr; cbv zeta.
  - simpl. destruct (_ && _); simpl; (split; [exact Hw|]);
      intros rs Hrs; inversion Hrs; subst; repeat split; auto; lia.
  - cbn [sampling_loop].
    destruct ((Z.of_nat (length readings) <? num_samples)%Z
              && (errors <? num_samples)%Z) eqn:Ec.
    2:{ simpl. split; [exact Hw|].
        intros rs Hrs; inversion Hrs; subst; repeat split; auto; lia. }
    apply andb_true_iff in Ec as [Ec1 Ec2]. apply Z.ltb_lt in Ec1.
    assert (Hw1 := well_formed_read_pressure (es k) channel false s Hw).
    assert (Hv := read_pressure_value (es k) channel false s).
    assert (Hval := read_pressure_some_valid (es k) channel false s).
    destruct (read_pressure (es k) channel false s) as [pressure s1].
    simpl in Hw1, Hv, Hval.
    destruct (Qltb delay 0).
    { simpl. split; [exact Hw1|]. discriminate. }
    match goal with
    | |- context [sampling_loop fuel es (S k) channel num_samples delay
                                ?rd ?er ?st] =>
        specialize (IH (S k) rd er st)
    end.
    cbv zeta in IH.
    destruct IH as [IHw IHr].
    + apply well_formed_with_effect, Hw1.
    + destruct pressure as [p|]; [|exact Hr].
      apply Forall_app. split; [exact Hr|].
      constructor; [|constructor]. apply (Hv p Hw eq_refl).
    + split; [exact IHw|]. intros rs Hrs.
      destruct (IHr rs Hrs) as (H1 & H2 & H3 & H4).
      destruct pressure as [p|].
      * rewrite length_app in H2, H3, H4. simpl in H2, H3, H4.
        repeat split; [exact H1| |lia|lia].
        intros _. apply (Hval p eq_refl).
      * repeat split; assumption.
Qed.

(** The fuel does not matter once it covers the samples and failures
    still allowed. *)
Lemma sampling_loop_fuel (fuel extra : nat) (es : nat -> env) (k : nat)
  (channel num_samples : Z) (delay : Q) (readings : list Q) (errors : Z)
  (s : PressureSensor) :
  (2 * num_samples - Z.of_nat (length readings) - errors
   <= Z.of_nat fuel + 1)%Z ->
  sampling_loop (fuel + extra) es k channel num_samples delay readings
                errors s
  = sampling_loop fuel es k channel num_samples delay readings errors s.
Proof.
  revert k readings errors s.
  induction fuel as [|fuel IH]; intros k readings errors s Hm.
  - destruct extra as [|extra]; [reflexivity|].
    cbn [sampling_loop Nat.add].
    destruct ((Z.of_nat (length readings) <? num_samples)%Z
              && (errors <? num_samples)%Z) eqn:Ec; [|reflexivity].
    apply andb_true_iff in Ec as [Ec1 Ec2].
    apply Z.ltb_lt in Ec1. apply Z.ltb_lt in Ec2. lia.
  - cbn [sampling_loop Nat.add].
    destruct ((Z.of_nat (length readings) <? num_samples)%Z
              && (errors <? num_samples)%Z) eqn:Ec; [|reflexivity].
    apply andb_true_iff in Ec as [Ec1 Ec2].
    apply Z.ltb_lt in Ec1. apply Z.ltb_lt in Ec2.
    destruct (read_pressure (es k) channel false s) as [pressure s1].
    destruct (Qltb delay 0); [reflexivity|].
    apply IH. destruct pressure; rewrite ?length_app; simpl; lia.
Qed.

(** The loop reads the environments [es k], ..., and no more of them
    than the samples and failures still allowed, less one. *)
Lemma sampling_loop_reads (fuel : nat) (es es' : nat -> env) (k : nat)
  (channel num_samples : Z) (delay : Q) (readings : list Q) (errors : Z)
  (s : PressureSensor) :
  (forall j, (k <= j)%nat ->
             (Z.of_nat j < Z.of_nat k + 2 * num_samples
                           - Z.of_nat (length readings) - errors - 1)%Z ->
             es' j = es j) ->
  sampling_loop fuel es' k channel num_samples delay readings errors s
  = sampling_loop fuel es k channel num_samples delay readings errors s.
Proof.
  revert k readings errors s.
  induction fuel as [|fuel IH]; intros k readings errors s He;
    [reflexivity|].
  cbn [sampling_loop].
  destruct ((Z.of_nat (length readings) <? num_samples)%Z
            && (errors <? num_samples)%Z) eqn:Ec; [|reflexivity].
  apply andb_true_iff in Ec as [Ec1 Ec2].
  apply Z.ltb_lt in Ec1. apply Z.ltb_lt in Ec2.
  rewrite (He k) by lia.
  destruct (read_pressure (es k) channel false s) as [pressure s1].
  destruct (Qltb delay 0); [reflexivity|].
  apply IH. intros j Hj Hlt. apply He; [lia|].
  destruct pressure; rewrite ?length_app in Hlt; simpl in Hlt; lia.
Qed.

Lemma Qsum_nonneg_from (l : list Q) (a : Q) :
  (0 <= a)%Q -> Forall (fun v => (0 <= v)%Q) l ->
  (0 <= fold_left Qplus l a)%Q.
Proof.
  revert a. induction l as [|x l IH]; intros a Ha Hl; simpl; [exact Ha|].
  inversion Hl; subst. apply IH; [|assumption]. lra.
Qed.

Lemma average_nonneg (l : list Q) :
  l <> [] -> Forall (fun v => (0 <= v)%Q) l ->
  (0 <= Qsum l / inject_Z (Z.of_nat (length l)))%Q.
Proof.
  intros Hne Hl. apply Qle_shift_div_l.
  - destruct l; [congruence|]. unfold Qlt. simpl. lia.
  - rewrite Qmult_0_l. apply Qsum_nonneg_from; [discriminate|exact Hl].
Qed.

Lemma well_formed_take_averaged_reading (e0 : env) (es : nat -> env)
  (channel num_samples : Z) (delay : Q) (s : PressureSensor) :
  well_formed s ->
  well_formed (take_averaged_reading e0 es channel num_samples delay s).2.
Proof.
  intros Hw. unfold take_averaged_reading.
  assert (H0 := well_formed_open_if_needed e0 s Hw).
  destruct (open_if_needed e0 s) as [ready s0]. simpl in H0.
  destruct ready; simpl; [|exact H0].
  destruct (sampling_loop_sound (Z.to_nat (2 * num_samples)) es 0 channel
              num_samples delay [] 0 s0 H0 (Forall_nil_2 _)) as [H1 H2].
  destruct (sampling_loop _ _ _ _ _ _ _ _ _) as [[rs|] s1]; simpl in *;
    [|exact H1].
  destruct rs as [|r rs]; [exact H1|].
  destruct (H2 _ eq_refl) as (Hnn & _ & _ & _).
  cbv zeta. simpl snd.
  apply (well_formed_clear (with_filtered s1 _)).
  apply well_formed_with_filtered; [| |exact H1].
  - rewrite length_insert. apply H1.
  - apply Forall_insert; [apply H1|].
    apply average_nonneg; [discriminate|exact Hnn].
Qed.

Lemma well_formed_read_all_pressures (e0 : env) (es : Z -> env)
  (filtered : bool) (s : PressureSensor) :
  well_formed s -> well_formed (read_all_pressures e0 es filtered s).2.
Proof.
  intros Hw. unfold read_all_pressures. cbv zeta.
  set (s0 := (open_if_needed e0 s).2).
  assert (H0 : well_formed s0) by apply well_formed_open_if_needed, Hw.
  assert (H1 := well_formed_read_pressure (es 0%Z) 0 filtered s0 H0).
  destruct (read_pressure (es 0%Z) 0 filtered s0) as [p0 s1]. simpl in H1.
  assert (H2 := well_formed_read_pressure (es 1%Z) 1 filtered s1 H1).
  destruct (read_pressure (es 1%Z) 1 filtered s1) as [p1 s2]. simpl in H2.
  assert (H3 := well_formed_read_pressure (es 2%Z) 2 filtered s2 H2).
  destruct (read_pressure (es 2%Z) 2 filtered s2) as [p2 s3]. exact H3.
Qed.

Lemma well_formed_validate_channel (es : Z -> env)
  (acc : gmap Z bool * PressureSensor) (channel : Z) :
  well_formed acc.2 -> well_formed (validate_channel es acc channel).2.
Proof.
  destruct acc as [results s]. simpl. intros Hw. unfold validate_channel.
  assert (H1 := well_formed_read_pressure (es channel) channel false s Hw).
  destruct (read_pressure (es channel) channel false s) as [p s1].
  exact H1.
Qed.

Lemma well_formed_validate_sensors (e0 : env) (es : Z -> env)
  (s : PressureSensor) :
  well_formed s -> well_formed (validate_sensors e0 es s).2.
Proof.
  intros Hw. unfold validate_sensors. cbn [fold_left].
  do 3 apply well_formed_validate_channel. cbn [snd].
  apply well_formed_open_if_needed, Hw.
Qed.

Lemma well_formed_perform (s : PressureSensor) (c : method_call) :
  well_formed s -> well_formed (perform s c).
Proof.
  intros Hw. destruct c; simpl.
  - apply well_formed_ensure_initialized, Hw.
  - revert Hw. apply well_formed_same; reflexivity.
  - unfold set_chamber_offset. destruct (negb _); [exact Hw|].
    destruct Hw. split; simpl; try assumption.
    rewrite length_insert. assumption.
  - apply well_formed_read_voltage, Hw.
  - apply well_formed_read_pressure, Hw.
  - apply well_formed_read_all_pressures, Hw.
  - apply well_formed_take_averaged_reading, Hw.
  - apply well_formed_validate_sensors, Hw.
  - unfold set_filter_parameters.
    destruct (Qleb 0 a && Qleb a 1) eqn:E; simpl; [|exact Hw].
    apply andb_true_iff in E as [E0 E1].
    apply Qleb_true in E0. apply Qleb_true in E1.
    destruct Hw. split; simpl; auto.
  - apply well_formed_with_filtered;
      [reflexivity|repeat constructor; discriminate|exact Hw].
  - apply well_formed_with_errors;
      [reflexivity|repeat constructor; lia|exact Hw].
  - unfold set_error_threshold.
    destruct (max_errors <? 1)%Z eqn:E; [exact Hw|].
    apply Z.ltb_ge in E. destruct Hw. split; simpl; auto.
Qed.

Lemma well_formed_after (calls : list method_call) : well_formed (after calls).
Proof.
  unfold after. generalize well_formed_init. generalize init as s.
  induction calls as [|c calls IH]; intros s Hw; simpl; [exact Hw|].
  apply IH, well_formed_perform, Hw.
Qed.

(** X7.  After [__init__] and any sequence of calls of the
    methods of the sensor, with any arguments and any behaviour of the
    ADC and of the clock, the three lists have their lengths, the filter
    factor lies in [0, 1], no filtered value and no error counter is
    negative, and the error threshold is at least 1. *)
Theorem sensor_state_stays_well_formed (calls : list method_call) :
  let s := after calls in
  length (chamber_offsets s) = 3%nat
  /\ length (filtered_values s) = 4%nat
  /\ length (consecutive_errors s) = 4%nat
  /\ (0 <= alpha s)%Q /\ (alpha s <= 1)%Q
  /\ Forall (fun v => (0 <= v)%Q) (filtered_values s)
  /\ Forall (fun n => (0 <= n)%Z) (consecutive_errors s)
  /\ (1 <= max_consecutive_errors s)%Z.
Proof.
  cbv zeta. destruct (well_formed_after calls) as [? ? ? [? ?] ? ? ?].
  auto 10.
Qed.

(** X8.  In every state that the sensor reaches so,
    [read_pressure] and [read_all_pressures] answer [None] or a pressure
    that is not negative, filtered or not. *)
Theorem pressures_read_are_never_negative (calls : list method_call)
  (e : env) (es : Z -> env) (channel : Z) (filtered : bool) :
  let s := after calls in
  (forall p, (read_pressure e channel filtered s).1 = Some p -> (0 <= p)%Q)
  /\ Forall (fun r => forall p, r = Some p -> (0 <= p)%Q)
            (read_all_pressures e es filtered s).1.
Proof.
  cbv zeta. assert (Hw := well_formed_after calls). split.
  - intros p Hp. apply (read_pressure_value e channel filtered _ p Hw Hp).
  - unfold read_all_pressures. cbv zeta.
    set (s0 := (open_if_needed e (after calls)).2).
    assert (H0 : well_formed s0) by apply well_formed_open_if_needed, Hw.
    assert (V0 := read_pressure_value (es 0%Z) 0 filtered s0).
    assert (H1 := well_formed_read_pressure (es 0%Z) 0 filtered s0 H0).
    destruct (read_pressure (es 0%Z) 0 filtered s0) as [p0 s1].
    simpl in H1, V0.
    assert (V1 := read_pressure_value (es 1%Z) 1 filtered s1).
    assert (H2 := well_formed_read_pressure (es 1%Z) 1 filtered s1 H1).
    destruct (read_pressure (es 1%Z) 1 filtered s1) as [p1 s2].
    simpl in H2, V1.
    assert (V2 := read_pressure_value (es 2%Z) 2 filtered s2).
    destruct (read_pressure (es 2%Z) 2 filtered s2) as [p2 s3].
    simpl in V2. simpl.
    repeat constructor; intros p ->.
    + apply (V0 p H0 eq_refl).
    + apply (V1 p H1 eq_refl).
    + apply (V2 p H2 eq_refl).
Qed.

End SensorSampling.

Section SensorAveraging.
Import PressureSensor SensorSpec.

(** X9.  When [take_averaged_reading] answers a pressure, the
    channel is valid, the pressure is not negative, the error counter of
    the channel is 0 and its filtered value is the pressure answered;
    the answer and the sensor depend on the first 2 * num_samples - 1
    reads alone, more than which the loop never makes. *)
Theorem take_averaged_reading_clears_errors (calls : list method_call)
  (e0 : env) (es : nat -> env) (channel num_samples : Z) (delay avg : Q) :
  let s := after calls in
  let r := take_averaged_reading e0 es channel num_samples delay s in
  r.1 = Some avg ->
  valid_channel channel = true
  /\ (0 <= avg)%Q
  /\ errors_of r.2 channel = 0%Z
  /\ filtered_values r.2 !! Z.to_nat channel = Some avg
  /\ forall es' : nat -> env,
       (forall k, (Z.of_nat k < 2 * num_samples - 1)%Z -> es' k = es k) ->
       take_averaged_reading e0 es' channel num_samples delay s = r.
Proof.
  cbv zeta. assert (Hw := well_formed_after calls).
  generalize dependent (after calls). intros s Hw.
  unfold take_averaged_reading.
  assert (H0 := well_formed_open_if_needed e0 s Hw).
  destruct (open_if_needed e0 s) as [ready s0]. simpl in H0.
  destruct ready; simpl; [|discriminate].
  assert (Hreads : forall es' : nat -> env,
    (forall k, (Z.of_nat k < 2 * num_samples - 1)%Z -> es' k = es k) ->
    sampling_loop (Z.to_nat (2 * num_samples)) es' 0 channel num_samples
                  delay [] 0 s0
    = sampling_loop (Z.to_nat (2 * num_samples)) es 0 channel num_samples
                    delay [] 0 s0).
  { intros es' He. apply sampling_loop_reads. intros j _ Hj. apply He.
    simpl in Hj. lia. }
  destruct (sampling_loop_sound (Z.to_nat (2 * num_samples)) es 0 channel
              num_samples delay [] 0 s0 H0 (Forall_nil_2 _)) as [H1 H2].
  destruct (sampling_loop (Z.to_nat (2 * num_samples)) es 0 channel
              num_samples delay [] 0 s0) as [[rs|] s1] eqn:El;
    simpl in *; [|discriminate].
  destruct rs as [|r rs]; [discriminate|].
  destruct (H2 _ eq_refl) as (Hnn & Hv & _ & _).
  specialize (Hv ltac:(simpl; lia)).
  assert (Hlt : (Z.to_nat channel < 4)%nat).
  { unfold valid_channel in Hv. apply andb_true_iff in Hv as [Ha Hb].
    apply Z.leb_le in Ha. apply Z.leb_le in Hb. lia. }
  cbv zeta. simpl. intros Havg. inversion Havg; subst avg. clear Havg.
  split; [exact Hv|]. split.
  { apply average_nonneg; [discriminate|exact Hnn]. }
  split.
  { unfold errors_of. simpl. rewrite list_lookup_insert_eq; [reflexivity|].
    destruct H1. lia. }
  split.
  { rewrite list_lookup_insert_eq; [reflexivity|]. destruct H1. lia. }
  intros es' He. rewrite (Hreads es' He). reflexivity.
Qed.

(** A read while the ADC is closed and the retry interval has not
    passed: no attempt on the device, one more error. *)
Lemma read_pressure_while_waiting (e : env) (channel : Z) (filtered : bool)
  (s : PressureSensor) :
  valid_channel channel = true ->
  initialized s = false ->
  (0 < initialization_attempts s)%Z ->
  (now e - last_init_attempt s < init_retry_interval s)%Q ->
  (errors_of s channel < max_consecutive_errors s)%Z ->
  read_pressure e channel filtered s = (None, bump_errors s channel).
Proof.
  intros Hv Hi Ha Ht He. unfold read_pressure, read_voltage.
  rewrite Hv. cbn [negb].
  assert (Hle : (max_consecutive_errors s <=? errors_of s channel)%Z = false)
    by (apply Z.leb_gt; exact He).
  rewrite Hle, Hi. cbn [negb orb].
  unfold ensure_initialized. rewrite Hi. cbn [andb].
  assert (Hq : Qltb (now e - last_init_attempt s) (init_retry_interval s)
               = true) by (apply Qltb_true; exact Ht).
  assert (Hz : (0 <? initialization_attempts s)%Z = true)
    by (apply Z.ltb_lt; exact Ha).
  rewrite Hq, Hz. reflexivity.
Qed.

(** X10.  While the ADC is closed and the retry interval since
    the last attempt to open it has not passed, every [read_pressure]
    answers [None] without touching the device, and still counts as an
    error of the channel: up to the threshold the counter grows by one
    with each call. *)
Theorem reads_during_retry_interval_count_as_errors
  (es : list env) (channel : Z) (s : PressureSensor) :
  valid_channel channel = true ->
  length (consecutive_errors s) = 4%nat ->
  initialized s = false ->
  (0 < initialization_attempts s)%Z ->
  Forall (fun e => (now e - last_init_attempt s < init_retry_interval s)%Q)
         es ->
  (errors_of s channel + Z.of_nat (length es) <= max_consecutive_errors s)%Z ->
  let r := read_pressure_seq es channel s in
  r.1 = repeat None (length es)
  /\ errors_of r.2 channel = (errors_of s channel + Z.of_nat (length es))%Z
  /\ effects r.2 = effects s
  /\ initialized r.2 = false.
Proof.
  intros Hv. revert s.
  induction es as [|e es IH]; intros s Hlen Hi Ha Ht He; cbv zeta.
  - simpl. repeat split; auto. lia.
  - inversion Ht as [|? ? Hte Htes]; subst.
    cbn [read_pressure_seq].
    rewrite read_pressure_while_waiting; try assumption.
    2:{ simpl length in He. lia. }
    assert (Hb : errors_of (bump_errors s channel) channel
                 = (errors_of s channel + 1)%Z).
    { apply errors_of_bump. apply valid_channel_in_range; assumption. }
    specialize (IH (bump_errors s channel)).
    cbv zeta in IH.
    destruct (read_pressure_seq es channel (bump_errors s channel))
      as [rs s2].
    destruct IH as (H1 & H2 & H3 & H4).
    + simpl. rewrite length_insert. exact Hlen.
    + exact Hi.
    + exact Ha.
    + exact Htes.
    + rewrite Hb. simpl length in He. simpl. lia.
    + simpl in *. rewrite H1, H2, H3, Hb.
      repeat split; auto. lia.
Qed.

(** A sensor built while the ADC is absent: the five reads of channel 2
    within the next four seconds disable the channel, although the
    device answers again from the second read on; the device has been
    tried once, by [__init__]. *)
Lemma reads_during_retry_interval_count_as_errors_witness :
  let absent := {| now := 100; open_ok := false; adc_answer := Raw 0 |} in
  let back (t : Q) :=
    {| now := t; open_ok := true; adc_answer := Raw 16000 |} in
  let s := (ensure_initialized absent init).2 in
  let es := [absent; back 101%Q; back 102%Q; back 103%Q; back 104%Q] in
  let r := read_pressure_seq es 2 s in
  effects s = [AdcOpen]
  /\ r.1 = repeat None 5
  /\ errors_of r.2 2 = (errors_of s 2 + 5)%Z
  /\ effects r.2 = effects s
  /\ initialized r.2 = false.
Proof.
  cbv zeta. split; [reflexivity|].
  apply (reads_during_retry_interval_count_as_errors
           [ {| now := 100; open_ok := false; adc_answer := Raw 0 |};
             {| now := 101; open_ok := true; adc_answer := Raw 16000 |};
             {| now := 102; open_ok := true; adc_answer := Raw 16000 |};
             {| now := 103; open_ok := true; adc_answer := Raw 16000 |};
             {| now := 104; open_ok := true; adc_answer := Raw 16000 |} ]
           2
           (ensure_initialized
              {| now := 100; open_ok := false; adc_answer := Raw 0 |}
              init).2).
  - reflexivity.
  - reflexivity.
  - reflexivity.
  - reflexivity.
  - repeat constructor.
  - vm_compute. discriminate.
Defined.

Lemma take_averaged_reading_clears_errors_witness :
  let e := {| now := 0; open_ok := true; adc_answer := Raw 16000 |} in
  let failing := {| now := 0; open_ok := true;
                    adc_answer := ReadError false |} in
  let es (k : nat) := if (k <? 2)%nat then failing else e in
  let calls := [EnsureInitialized e; ReadPressure failing 1 true] in
  let r := take_averaged_reading e es 1 3 0.01 (after calls) in
  errors_of (after calls) 1 = 1%Z
  /\ exists avg,
       r.1 = Some avg
       /\ valid_channel 1 = true
       /\ (0 <= avg)%Q
       /\ errors_of r.2 1 = 0%Z
       /\ filtered_values r.2 !! Z.to_nat 1 = Some avg
       /\ forall es' : nat -> env,
            (forall k, (Z.of_nat k < 2 * 3 - 1)%Z -> es' k = es k) ->
            take_averaged_reading e es' 1 3 0.01 (after calls) = r.
Proof.
  cbv zeta. split; [reflexivity|].
  match goal with
  | |- exists avg, fst ?run = _ /\ _ =>
      let v := eval vm_compute in (fst run) in
      match v with
      | Some ?a =>
          exists a;
          assert (E : fst run = Some a) by (vm_compute; reflexivity)
      end
  end.
  split; [exact E|].
  exact (take_averaged_reading_clears_errors _ _ _ _ _ _ _ E).
Defined.

End SensorAveraging.

Section SensorLockout.
Import PressureSensor SensorSpec.

Variables (channel limit : Z) (n : nat).
Hypothesis channel_valid : valid_channel channel = true.

Let locked := locked_out channel limit n.

Lemma locked_same (s s' : PressureSensor) :
  initialized s' = initialized s -> adc_present s' = adc_present s ->
  consecutive_errors s' = consecutive_errors s ->
  max_consecutive_errors s' = max_consecutive_errors s ->
  reads_of channel (effects s') = reads_of channel (effects s) ->
  locked s -> locked s'.
Proof.
  intros H1 H2 H3 H4 H5 []. split; unfold errors_of in *;
    rewrite ?H1, ?H2, ?H3, ?H4, ?H5; assumption.
Qed.

Lemma reads_of_snoc (e : effect) (l : list effect) :
  reads_of channel (l ++ [e])
  = (reads_of channel l + if reads_channel channel e then 1 else 0)%nat.
Proof.
  unfold reads_of. rewrite List.filter_app, length_app. simpl.
  destruct (reads_channel channel e); reflexivity.
Qed.

Lemma locked_with_effect (s : PressureSensor) (e : effect) :
  reads_channel channel e = false ->
  locked s -> locked (with_effect s e).
Proof.
  intros He. apply locked_same; try reflexivity.
  simpl. rewrite reads_of_snoc, He. lia.
Qed.

Lemma locked_with_filtered (s : PressureSensor) (fv : list Q) :
  locked s -> locked (with_filtered s fv).
Proof. apply locked_same; reflexivity. Qed.

(** Writing the counter of a channel that is not disabled leaves the
    disabled one as it is. *)
Lemma locked_other_counter (s : PressureSensor) (c v : Z) :
  Z.to_nat c <> Z.to_nat channel ->
  locked s ->
  locked (with_errors s (<[Z.to_nat c := v]> (consecutive_errors s))).
Proof.
  intros Hne []. split; simpl; try assumption.
  - rewrite length_insert. assumption.
  - unfold errors_of in *. simpl.
    rewrite list_lookup_insert_ne by exact Hne. assumption.
Qed.

Lemma locked_bump (s : PressureSensor) (c : Z) :
  locked s -> locked (bump_errors s c).
Proof.
  intros Hl. destruct (decide (Z.to_nat c = Z.to_nat channel)) as [E|E].
  - destruct Hl. split; simpl; try assumption.
    + rewrite length_insert. assumption.
    + unfold errors_of in *. simpl. rewrite E.
      rewrite list_lookup_insert_eq.
      * simpl. unfold errors_of. rewrite E. lia.
      * apply valid_channel_in_range with (s := s); assumption.
  - apply locked_other_counter; assumption.
Qed.

(** A channel whose counter is below the threshold is another one. *)
Lemma enabled_is_other (s : PressureSensor) (c : Z) :
  locked s -> valid_channel c = true ->
  (errors_of s c < max_consecutive_errors s)%Z ->
  Z.to_nat c <> Z.to_nat channel /\ (c =? channel)%Z = false.
Proof.
  intros [] Hv Hlt. split.
  - intros E. unfold errors_of in *. rewrite E in Hlt. lia.
  - apply Z.eqb_neq. intros ->. lia.
Qed.

Lemma locked_read_voltage (e : env) (c : Z) (s : PressureSensor) :
  connection_lost e = false ->
  locked s -> locked (read_voltage e c s).2.
Proof.
  intros He Hl. unfold read_voltage.
  destruct (valid_channel c) eqn:Hv; [|exact Hl]. cbn [negb].
  destruct (max_consecutive_errors s <=? errors_of s c)%Z eqn:Hd.
  - destruct (_ =? _)%Z; [|exact Hl].
    apply locked_bump, locked_with_effect; [reflexivity|exact Hl].
  - apply Z.leb_gt in Hd.
    destruct (enabled_is_other s c Hl Hv Hd) as [Hne Hneb].
    destruct Hl as [Hi Hp Hlen Hlim Herr Hr].
    rewrite Hi, Hp. cbn [negb orb].
    assert (Hl2 : locked (with_effect s (AdcRead c))).
    { apply locked_with_effect; [exact Hneb|]. split; assumption. }
    unfold connection_lost in He.
    destruct (adc_answer e) as [raw|[]]; [| discriminate |]; cbn [snd].
    + apply (locked_other_counter (with_effect s (AdcRead c)));
        assumption.
    + apply locked_bump, Hl2.
Qed.

Lemma locked_read_pressure (e : env) (c : Z) (filtered : bool)
  (s : PressureSensor) :
  connection_lost e = false ->
  locked s -> locked (read_pressure e c filtered s).2.
Proof.
  intros He Hl. unfold read_pressure.
  destruct (negb (valid_channel c)); [exact Hl|].
  destruct (_ <=? _)%Z.
  - destruct (_ =? _)%Z; [|exact Hl].
    apply locked_with_effect; [reflexivity|exact Hl].
  - assert (H1 := locked_read_voltage e c s He Hl).
    destruct (read_voltage e c s) as [[voltage|] s1]; [|exact H1].
    cbv zeta. destruct filtered; [|exact H1].
    apply locked_with_filtered, H1.
Qed.

(** On the disabled channel itself, a read returns nothing. *)
Lemma locked_read_returns_nothing (e : env) (filtered : bool)
  (s : PressureSensor) :
  locked s -> (read_pressure e channel filtered s).1 = None.
Proof.
  intros []. unfold read_pressure. rewrite channel_valid. cbn [negb].
  assert (Hle : (max_consecutive_errors s <=? errors_of s channel)%Z = true)
    by (apply Z.leb_le; lia).
  rewrite Hle. destruct (_ =? _)%Z; reflexivity.
Qed.

Lemma locked_sampling_loop (fuel : nat) (es : nat -> env) (k : nat)
  (c num_samples : Z) (delay : Q) (readings : list Q) (errors : Z)
  (s : PressureSensor) :
  (forall j, connection_lost (es j) = false) ->
  locked s ->
  let r := sampling_loop fuel es k c num_samples delay readings errors s in
  locked r.2
  /\ (Z.to_nat c = Z.to_nat channel ->
      forall rs, r.1 = Sampled rs -> rs = readings).
Proof.
  intros He. revert k readings errors s.
  induction fuel as [|fuel IH]; intros k readings errors s Hl; cbv zeta.
  - simpl. destruct (_ && _); simpl; (split; [exact Hl|]);
      intros _ rs Hrs; inversion Hrs; reflexivity.
  - cbn [sampling_loop]. destruct (_ && _).
    2:{ simpl. split; [exact Hl|]. intros _ rs Hrs.
        inversion Hrs; reflexivity. }
    assert (H1 := locked_read_pressure (es k) c false s (He k) Hl).
    assert (Hnone : Z.to_nat c = Z.to_nat channel ->
                    (read_pressure (es k) c false s).1 = None).
    { intros E. destruct (valid_channel c) eqn:Hv.
      - assert (c = channel).
        { unfold valid_channel in Hv, channel_valid.
          apply andb_true_iff in Hv as [? ?].
          apply andb_true_iff in channel_valid as [? ?].
          apply Z.leb_le in H, H0, H2, H3. lia. }
        subst c. apply locked_read_returns_nothing, Hl.
      - unfold read_pressure. rewrite Hv. reflexivity. }
    destruct (read_pressure (es k) c false s) as [pressure s1].
    simpl in H1, Hnone.
    destruct (Qltb delay 0).
    { simpl. split; [exact H1|]. discriminate. }
    match goal with
    | |- context [sampling_loop fuel es (S k) c num_samples delay
                                ?rd ?er ?st] =>
        specialize (IH (S k) rd er st)
    end.
    cbv zeta in IH. destruct IH as [IHl IHr].
    { apply locked_with_effect; [reflexivity|exact H1]. }
    split; [exact IHl|]. intros E rs Hrs.
    rewrite (Hnone E) in *. apply (IHr E rs Hrs).
Qed.

Lemma locked_open_if_needed (e : env) (s : PressureSensor) :
  locked s -> open_if_needed e s = (true, s).
Proof.
  intros []. unfold open_if_needed.
  rewrite lo_initialized0, lo_present0. reflexivity.
Qed.

Lemma locked_perform (s : PressureSensor) (c : method_call) :
  keeps_connection c -> locked s -> locked (perform s c).
Proof.
  intros Hc Hl. destruct c; simpl in *.
  - unfold ensure_initialized. destruct Hl as [Hi Hp ? ? ? ?].
    rewrite Hi, Hp. simpl. split; assumption.
  - revert Hl. apply locked_same; reflexivity.
  - unfold set_chamber_offset. destruct (negb _); [exact Hl|].
    revert Hl. apply locked_same; reflexivity.
  - apply locked_read_voltage; assumption.
  - apply locked_read_pressure; assumption.
  - unfold read_all_pressures. cbv zeta.
    rewrite (locked_open_if_needed e0 s Hl). cbn [snd].
    assert (H1 := locked_read_pressure (es 0%Z) 0 apply_filter s (Hc _) Hl).
    destruct (read_pressure (es 0%Z) 0 apply_filter s) as [p0 s1].
    simpl in H1.
    assert (H2 := locked_read_pressure (es 1%Z) 1 apply_filter s1 (Hc _) H1).
    destruct (read_pressure (es 1%Z) 1 apply_filter s1) as [p1 s2].
    simpl in H2.
    assert (H3 := locked_read_pressure (es 2%Z) 2 apply_filter s2 (Hc _) H2).
    destruct (read_pressure (es 2%Z) 2 apply_filter s2) as [p2 s3].
    exact H3.
  - unfold take_averaged_reading.
    rewrite (locked_open_if_needed e0 s Hl). cbn [negb].
    destruct (locked_sampling_loop (Z.to_nat (2 * num_samples)) es 0 channel0
                num_samples delay [] 0 s Hc Hl) as [H1 H2].
    destruct (sampling_loop _ _ _ _ _ _ _ _ _) as [[rs|] s1];
      simpl in H1, H2; [|exact H1].
    destruct rs as [|r rs]; [exact H1|].
    cbv zeta. cbn [snd].
    assert (Hne : Z.to_nat channel0 <> Z.to_nat channel).
    { intros E. specialize (H2 E _ eq_refl). discriminate. }
    apply (locked_other_counter (with_filtered s1 _)); [exact Hne|].
    apply locked_with_filtered, H1.
  - unfold validate_sensors. cbn [fold_left].
    rewrite (locked_open_if_needed e0 s Hl). cbn [snd].
    unfold validate_channel.
    assert (H1 := locked_read_pressure (es 0%Z) 0 false s (Hc _) Hl).
    destruct (read_pressure (es 0%Z) 0 false s) as [p0 s1]. simpl in H1.
    assert (H2 := locked_read_pressure (es 1%Z) 1 false s1 (Hc _) H1).
    destruct (read_pressure (es 1%Z) 1 false s1) as [p1 s2]. simpl in H2.
    assert (H3 := locked_read_pressure (es 2%Z) 2 false s2 (Hc _) H2).
    destruct (read_pressure (es 2%Z) 2 false s2) as [p2 s3]. exact H3.
  - unfold set_filter_parameters. destruct (negb _); [exact Hl|].
    revert Hl. apply locked_same; reflexivity.
  - apply locked_with_filtered, Hl.
  - contradiction.
  - contradiction.
Qed.

Lemma locked_fold_perform (calls : list method_call) (s : PressureSensor) :
  Forall keeps_connection calls -> locked s ->
  locked (fold_left perform calls s).
Proof.
  revert s. induction calls as [|c calls IH]; intros s Hc Hl; simpl;
    [exact Hl|].
  inversion Hc; subst. apply IH; [assumption|].
  apply locked_perform; assumption.
Qed.

End SensorLockout.

Section SensorLockoutClaim.
Import PressureSensor SensorSpec.

(** After [reset_error_counters], an open ADC that answers is read. *)
Lemma read_pressure_after_reset (e : env) (channel raw : Z)
  (filtered : bool) (s : PressureSensor) :
  valid_channel channel = true ->
  initialized s = true -> adc_present s = true ->
  (1 <= max_consecutive_errors s)%Z ->
  adc_answer e = Raw raw ->
  exists p, (read_pressure e channel filtered (reset_error_counters s)).1
            = Some p.
Proof.
  intros Hv Hi Hp Hm Ha. unfold read_pressure, read_voltage.
  rewrite Hv. cbn [negb].
  assert (H0 : errors_of (reset_error_counters s) channel = 0%Z).
  { unfold errors_of, reset_error_counters. simpl.
    unfold valid_channel in Hv. apply andb_true_iff in Hv as [H1 H2].
    apply Z.leb_le in H1, H2.
    assert (Hc : (channel = 0 \/ channel = 1 \/ channel = 2 \/ channel = 3)%Z)
      by lia.
    destruct Hc as [->|[->|[->| ->]]]; reflexivity. }
  rewrite H0.
  assert (Hle : (max_consecutive_errors (reset_error_counters s) <=? 0)%Z
                = false) by (apply Z.leb_gt; simpl; lia).
  rewrite Hle. simpl initialized. simpl adc_present. rewrite Hi, Hp.
  cbn [negb orb]. rewrite Ha. cbv zeta.
  destruct filtered; eexists; reflexivity.
Qed.

(** X11.  Once the error counter of a channel has reached the
    threshold on an open ADC, the channel stays disabled through every
    sequence of calls that holds no [reset_error_counters] and no
    [set_error_threshold] and loses no connection: the counter stays at
    or above the threshold, the device is not read on the channel, and
    [read_pressure] answers [None].  After [reset_error_counters] a read
    that the ADC answers gives a pressure again. *)
Theorem disabled_channel_is_never_read_again
  (calls : list method_call) (channel : Z) (s : PressureSensor) :
  valid_channel channel = true ->
  length (consecutive_errors s) = 4%nat ->
  initialized s = true -> adc_present s = true ->
  (1 <= max_consecutive_errors s)%Z ->
  (max_consecutive_errors s <= errors_of s channel)%Z ->
  Forall keeps_connection calls ->
  let s' := fold_left perform calls s in
  (max_consecutive_errors s' <= errors_of s' channel)%Z
  /\ reads_of channel (effects s') = reads_of channel (effects s)
  /\ (forall e filtered, (read_pressure e channel filtered s').1 = None)
  /\ (forall e raw filtered,
        adc_answer e = Raw raw ->
        exists p,
          (read_pressure e channel filtered (reset_error_counters s')).1
          = Some p).
Proof.
  intros Hv Hlen Hi Hp Hm He Hc. cbv zeta.
  assert (Hl : locked_out channel (max_consecutive_errors s)
                          (reads_of channel (effects s)) s)
    by (split; auto).
  assert (Hl' := locked_fold_perform channel _ _ Hv calls s Hc Hl).
  split; [destruct Hl'; lia|].
  split; [apply Hl'|].
  split.
  - intros e filtered.
    apply (locked_read_returns_nothing channel _ _ Hv e filtered _ Hl').
  - intros e raw filtered Ha.
    destruct Hl'. apply (read_pressure_after_reset e channel raw); auto. lia.
Qed.

End SensorLockoutClaim.

Section SensorFilter.
Import PressureSensor SensorSpec.

Lemma read_pressure_healthy (e : env) (channel raw : Z) (filtered : bool)
  (s : PressureSensor) :
  healthy channel s -> adc_answer e = Raw raw ->
  read_pressure e channel filtered s
  = if filtered then
      let f := (alpha s * converted s channel raw
                + (1 - alpha s) * filtered_of s channel)%Q in
      (Some f,
       with_filtered (read_done s channel)
                     (<[Z.to_nat channel := f]> (filtered_values s)))
    else (Some (converted s channel raw), read_done s channel).
Proof.
  intros [Hv Hi Hp Hle Hlf Hm Hb] Ha.
  assert (Hd : (max_consecutive_errors s <=? errors_of s channel)%Z = false)
    by (apply Z.leb_gt; exact Hb).
  unfold read_pressure, read_voltage. rewrite Hv. cbn [negb].
  rewrite Hd, Hi, Hp. cbn [negb orb]. rewrite Ha. cbv zeta.
  destruct filtered; reflexivity.
Qed.

Lemma healthy_after_read (channel : Z) (s : PressureSensor) (fv : list Q) :
  healthy channel s -> length fv = 4%nat ->
  healthy channel (read_done s channel)
  /\ healthy channel (with_filtered (read_done s channel) fv).
Proof.
  intros [Hv Hi Hp Hle Hlf Hm Hb] Hfv.
  assert (Hlt : (Z.to_nat channel < 4)%nat).
  { unfold valid_channel in Hv. apply andb_true_iff in Hv as [H1 H2].
    apply Z.leb_le in H1, H2. lia. }
  assert (H0 : default 0%Z (<[Z.to_nat channel := 0%Z]> (consecutive_errors s)
                            !! Z.to_nat channel) = 0%Z).
  { rewrite list_lookup_insert_eq; [reflexivity|lia]. }
  split; split; simpl; auto; unfold errors_of; simpl;
    rewrite ?length_insert, ?H0; auto; lia.
Qed.

(** X12.  On a healthy channel on which the ADC keeps answering
    the same count, every filtered [read_pressure] multiplies the
    distance of the filtered value to the unfiltered pressure by
    1 - alpha: after n reads it is (1 - alpha) ** n times what it was. *)
Theorem filtered_pressure_converges_geometrically
  (es : list env) (e0 : env) (channel raw : Z) (s : PressureSensor) (a : Q) :
  healthy channel s ->
  adc_answer e0 = Raw raw ->
  Forall (fun e => adc_answer e = Raw raw) es ->
  (read_pressure e0 channel false s).1 = Some a ->
  let r := read_pressure_seq es channel s in
  (filtered_of r.2 channel - a
   == Qpow (1 - alpha s) (length es) * (filtered_of s channel - a))%Q
  /\ Forall (fun p => p <> None) r.1.
Proof.
  intros Hh Ha0 Hes Hu.
  rewrite (read_pressure_healthy e0 channel raw false s Hh Ha0) in Hu.
  simpl in Hu. injection Hu as Hu.
  assert (Hgen : forall s',
            healthy channel s' -> alpha s' = alpha s ->
            converted s' channel raw = a ->
            let r := read_pressure_seq es channel s' in
            (filtered_of r.2 channel - a
             == Qpow (1 - alpha s) (length es) * (filtered_of s' channel - a))%Q
            /\ Forall (fun p => p <> None) r.1).
  { clear Hh Hu. induction es as [|e es IH]; intros s' Hh Hal Hc; cbv zeta.
    - simpl. split; [ring|constructor].
    - inversion Hes as [|? ? Hae Haes]; subst.
      cbn [read_pressure_seq].
      pose (f := (alpha s' * converted s' channel raw
                  + (1 - alpha s') * filtered_of s' channel)%Q).
      pose (s1 := with_filtered (read_done s' channel)
                    (<[Z.to_nat channel := f]> (filtered_values s'))).
      assert (E : read_pressure e channel true s' = (Some f, s1))
        by (rewrite (read_pressure_healthy e channel raw true s' Hh Hae);
            reflexivity).
      rewrite E.
      assert (Hlt : (Z.to_nat channel < 4)%nat).
      { destruct Hh as [Hv ? ? ? ? ? ?]. unfold valid_channel in Hv.
        apply andb_true_iff in Hv as [H1 H2].
        apply Z.leb_le in H1, H2. lia. }
      assert (Hf4 : length (filtered_values s') = 4%nat) by apply Hh.
      assert (Hh1 : healthy channel s1).
      { apply healthy_after_read; [exact Hh|].
        rewrite length_insert. exact Hf4. }
      assert (Hfo : filtered_of s1 channel = f).
      { unfold filtered_of, s1. simpl.
        rewrite list_lookup_insert_eq; [reflexivity|lia]. }
      specialize (IH Haes s1 Hh1 Hal eq_refl). cbv zeta in IH.
      destruct (read_pressure_seq es channel s1) as [rs s2].
      cbn beta iota zeta delta [fst snd] in IH |- *.
      destruct IH as [IH1 IH2].
      split.
      + rewrite IH1, Hfo. unfold f. rewrite Hal. cbn [length Qpow]. ring.
      + constructor; [discriminate|exact IH2]. }
  apply Hgen; [exact Hh|reflexivity|exact Hu].
Qed.

End SensorFilter.

Section SensorWitnesses.
Import PressureSensor SensorSpec.

(** Channel 0 disabled by five failed reads; the device then answers
    every read, and all the reading methods are called. *)
Lemma disabled_channel_is_never_read_again_witness :
  let e := {| now := 1; open_ok := true; adc_answer := Raw 16000 |} in
  let s := (read_pressure_seq (repeat Scenario.failing_device 5) 0 init).2 in
  let calls := [ReadAllPressures e (fun _ => e) true;
                TakeAveragedReading e (fun _ => e) 0 3 0.01;
                ValidateSensors e (fun _ => e);
                ReadVoltage e 0] in
  let s' := fold_left perform calls s in
  reads_of 0 (effects s) = 5%nat
  /\ reads_of 1 (effects s') = 2%nat
  /\ (max_consecutive_errors s' <= errors_of s' 0)%Z
  /\ reads_of 0 (effects s') = reads_of 0 (effects s)
  /\ (forall e' filtered, (read_pressure e' 0 filtered s').1 = None)
  /\ (forall e' raw filtered,
        adc_answer e' = Raw raw ->
        exists p,
          (read_pressure e' 0 filtered (reset_error_counters s')).1
          = Some p).
Proof.
  cbv zeta. split; [reflexivity|]. split; [reflexivity|].
  apply (disabled_channel_is_never_read_again
           [ReadAllPressures
              {| now := 1; open_ok := true; adc_answer := Raw 16000 |}
              (fun _ => {| now := 1; open_ok := true;
                           adc_answer := Raw 16000 |}) true;
            TakeAveragedReading
              {| now := 1; open_ok := true; adc_answer := Raw 16000 |}
              (fun _ => {| now := 1; open_ok := true;
                           adc_answer := Raw 16000 |}) 0 3 0.01;
            ValidateSensors
              {| now := 1; open_ok := true; adc_answer := Raw 16000 |}
              (fun _ => {| now := 1; open_ok := true;
                           adc_answer := Raw 16000 |});
            ReadVoltage
              {| now := 1; open_ok := true; adc_answer := Raw 16000 |} 0]
           0
           (read_pressure_seq (repeat Scenario.failing_device 5) 0 init).2).
  - reflexivity.
  - reflexivity.
  - reflexivity.
  - reflexivity.
  - vm_compute. discriminate.
  - vm_compute. discriminate.
  - repeat constructor; intros; reflexivity.
Defined.

(** Three filtered reads of the same raw count on a fresh sensor. *)
Lemma filtered_pressure_converges_geometrically_witness :
  let e := {| now := 0; open_ok := true; adc_answer := Raw 16000 |} in
  let s := after [EnsureInitialized e] in
  exists a,
    (read_pressure e 0 false s).1 = Some a
    /\ let r := read_pressure_seq [e; e; e] 0 s in
       (filtered_of r.2 0 - a
        == Qpow (1 - alpha s) 3 * (filtered_of s 0 - a))%Q
       /\ Forall (fun p => p <> None) r.1.
Proof.
  cbv zeta.
  match goal with
  | |- exists a, fst ?run = _ /\ _ =>
      let v := eval vm_compute in (fst run) in
      match v with
      | Some ?a =>
          exists a;
          assert (E : fst run = Some a) by (vm_compute; reflexivity)
      end
  end.
  split; [exact E|].
  refine (filtered_pressure_converges_geometrically
            [ {| now := 0; open_ok := true; adc_answer := Raw 16000 |};
              {| now := 0; open_ok := true; adc_answer := Raw 16000 |};
              {| now := 0; open_ok := true; adc_answer := Raw 16000 |} ]
            {| now := 0; open_ok := true; adc_answer := Raw 16000 |}
            0 16000 _ _ _ eq_refl _ E).
  - split; vm_compute; first [reflexivity | discriminate].
  - repeat constructor.
Defined.

End SensorWitnesses.

(* --------------------------------------------------------------------- *)
(** ** The calibration store, continued *)

Section ActiveCalibration.
Import NumPy CalibrationDb CalibrationSpec.

(** The last row of a chamber. *)
Let last_row (db : database) (c : Z) : option record_row :=
  last (filter (fun r => rec_chamber_id r = c) (calibration_records db)).

Lemma filter_chamber_deactivate (c c0 : Z) (records : list record_row) :
  c <> c0 ->
  filter (fun r => rec_chamber_id r = c) (map (deactivate c0) records)
  = filter (fun r => rec_chamber_id r = c) records.
Proof.
  intros Hne. induction records as [|r records IH]; [reflexivity|].
  cbn [map]. rewrite !filter_cons.
  destruct (deactivate_header c0 r) as (_ & Hc & _).
  rewrite Hc.
  destruct (decide (rec_chamber_id r = c)) as [E|E].
  - rewrite IH. f_equal. unfold deactivate.
    destruct (rec_chamber_id r =? c0)%Z eqn:E0; [|reflexivity].
    apply Z.eqb_eq in E0. congruence.
  - exact IH.
Qed.

(** The active row of a chamber is its last row. *)
Lemma active_row_is_last (cals : list CalibrationResult) (db : database) :
  (forall c, active_rows db c = option_list (last_row db c)) ->
  forall c, active_rows (save_all db cals) c
            = option_list (last_row (save_all db cals) c).
Proof.
  revert db. induction cals as [|cal cals IH]; intros db Hdb; [exact Hdb|].
  simpl. apply IH. intros c.
  destruct (save_calibration db cal) as [db'|] eqn:E; simpl; [|apply Hdb].
  destruct (save_calibration_rows db db' cal E)
    as (row & Hrec & Hh & _ & _ & _ & Hact & Hother).
  unfold last_row. rewrite Hrec, filter_app.
  destruct Hh as (Hc & _).
  destruct (decide (c = chamber_id cal)) as [->|Hne].
  - rewrite Hact. rewrite filter_cons_True by exact Hc.
    rewrite filter_nil, last_snoc. reflexivity.
  - rewrite (Hother c Hne), Hdb.
    rewrite filter_cons_False by congruence.
    rewrite filter_nil, app_nil_r.
    rewrite filter_chamber_deactivate by exact Hne. reflexivity.
Qed.

Lemma Forall2_filter_both {A B} (R : A -> B -> Prop) (P : A -> Prop)
  (Q : B -> Prop) `{!forall a, Decision (P a)} `{!forall b, Decision (Q b)}
  (l : list A) (k : list B) :
  (forall a b, R a b -> (P a <-> Q b)) ->
  Forall2 R l k -> Forall2 R (filter P l) (filter Q k).
Proof.
  intros HPQ HF. induction HF as [|a b l k Hab _ IH]; [constructor|].
  rewrite !filter_cons.
  destruct (decide (P a)) as [Ha|Ha], (decide (Q b)) as [Hb|Hb].
  - constructor; assumption.
  - exfalso. apply Hb, (HPQ a b Hab), Ha.
  - exfalso. apply Ha, (HPQ a b Hab), Hb.
  - exact IH.
Qed.

Lemma Forall2_last {A B} (R : A -> B -> Prop) (l : list A) (k : list B) :
  Forall2 R l k ->
  match last l, last k with
  | Some a, Some b => R a b
  | None, None => True
  | _, _ => False
  end.
Proof.
  intros HF. induction HF as [|a b l k Hab HF IH]; [exact Logic.I|].
  destruct HF as [|a' b' l' k' Hab' HF'].
  - exact Hab.
  - exact IH.
Qed.

(** X13.  After any sequence of calls of [save_calibration] on a
    new database, [get_active_calibration] answers for each chamber the
    calibration of that chamber that the database accepted last, with
    its values and its points, whatever the calibration dates say; it
    answers [None] when none was accepted. *)
Theorem active_calibration_is_the_last_saved
  (cals : list CalibrationResult) (c : Z) :
  let db := save_all _init_database cals in
  match last_saved c cals with
  | Some cal =>
      exists res, get_active_calibration db c = Some res
                  /\ returned_as res cal
  | None => get_active_calibration db c = None
  end.
Proof.
  cbv zeta.
  destruct init_database_in_order as (Hids & Hst & Hone).
  destruct (save_all_stored cals [] _init_database Hids Hst Hone)
    as (_ & Hstored & _).
  cbv zeta in Hstored. rewrite app_nil_l in Hstored.
  assert (Hact := active_row_is_last cals _init_database
                    (fun c => eq_refl) c).
  set (db := save_all _init_database cals) in *.
  assert (Hf : Forall2 (stored_as db)
                 (filter (fun r => rec_chamber_id r = c)
                         (calibration_records db))
                 (filter (fun cal => chamber_id cal = c)
                         (List.filter storable cals))).
  { apply Forall2_filter_both; [|exact Hstored].
    intros r cal [(Hc & _) _]. rewrite Hc. tauto. }
  assert (Hlast := Forall2_last _ _ _ Hf).
  unfold last_saved, get_active_calibration.
  change (filter (fun r => rec_chamber_id r = c ∧ rec_is_active r = true)
                 (calibration_records db))
    with (active_rows db c).
  rewrite Hact. unfold last_row.
  destruct (last (filter (fun r => rec_chamber_id r = c)
                         (calibration_records db))) as [row|] eqn:Er;
    destruct (last (filter (fun cal => chamber_id cal = c)
                           (List.filter storable cals))) as [cal|] eqn:Ec;
    try contradiction.
  - simpl. eexists. split; [reflexivity|].
    apply result_of_row_returned; [|exact Hlast].
    apply last_Some_elem_of in Er.
    apply list_elem_of_filter in Er. apply Er.
  - reflexivity.
Qed.

End ActiveCalibration.

Section VoltagesWithoutSpread.
Import NumPy CalibrationDb.

Lemma Forall_combine_fst (P : Q -> Prop) (xs ys : list Q) :
  Forall P xs -> Forall (fun p : Q * Q => P p.1) (combine xs ys).
Proof.
  intros H. revert ys. induction H as [|x xs Hx _ IH]; intros [|y ys];
    simpl; constructor; auto.
Qed.

Lemma sxy_const_voltage (xs ys : list Q) (x0 : Q) :
  (0 < length xs)%nat -> Forall (fun q => (q == x0)%Q) xs ->
  (OlsSpec.sxy xs ys == 0)%Q.
Proof.
  intros Hlen H. unfold OlsSpec.sxy. apply Qsum_zero. apply Forall_map.
  pose proof (mean_const xs x0 Hlen H) as Hm.
  eapply Forall_impl; [apply (Forall_combine_fst _ xs ys H)|].
  intros [x y] Hx. simpl in *. rewrite Hx, Hm. ring.
Qed.

(** Over exact arithmetic, points that all have the same voltage leave
    the regressions nothing to divide by. *)
Lemma regression_of_equal_voltages
  (now c : Z) (pts : list CalibrationPoint) (x0 : Q) (db : database) :
  (2 <= length pts)%nat ->
  Forall (fun q => (q == x0)%Q) (map voltage pts) ->
  (exists res,
     CalibrationDb.calculate_calibration now c pts = Some res
     /\ multiplier res = NaN
     /\ offset res = NaN
     /\ CalibrationDb.save_calibration db res = None)
  /\ CalibrationManager.calculate_calibration
       {| CalibrationManager.current_chamber := Some c;
          CalibrationManager.calibration_points := pts;
          CalibrationManager.current_point_index := length pts;
          CalibrationManager.calibration_db := db |} now
     = None.
Proof.
  intros Hlen Hconst.
  assert (Hx : (0 < length (map voltage pts))%nat)
    by (rewrite length_map; lia).
  assert (Hy : (0 < length (map pressure pts))%nat)
    by (rewrite length_map; lia).
  assert (Hlt : (length pts <? 2)%nat = false) by (apply Nat.ltb_ge; lia).
  assert (Hden : Qeqb (OlsSpec.sxx (map voltage pts)) 0 = true).
  { apply Qeqb_true. apply (ss_tot_const _ x0); assumption. }
  assert (Hnum : Qsign (OlsSpec.sxy (map voltage pts) (map pressure pts))
                 = Eq).
  { unfold Qsign. apply Qeq_alt.
    apply (sxy_const_voltage _ _ x0); assumption. }
  split.
  - unfold CalibrationDb.calculate_calibration. rewrite Hlt.
    eexists. split; [reflexivity|].
    cbn [multiplier offset].
    rewrite numerator_is_sxy, denominator_is_sxx by assumption.
    assert (Hm : fdiv (Fin (OlsSpec.sxy (map voltage pts) (map pressure pts)))
                      (Fin (OlsSpec.sxx (map voltage pts))) = NaN).
    { unfold fdiv. rewrite Hden, Hnum. reflexivity. }
    rewrite Hm. split; [reflexivity|]. split.
    + rewrite np_mean_fin by assumption. reflexivity.
    + unfold CalibrationDb.save_calibration, storable. reflexivity.
  - unfold CalibrationManager.calculate_calibration.
    cbn [CalibrationManager.current_chamber
         CalibrationManager.calibration_points].
    rewrite Hlt. rewrite denominator_is_sxx by assumption.
    cbn [feqb]. rewrite Hden. reflexivity.
Qed.

(** X14.  For two points read at the same voltage (the mean of two
    equal floats is that float, so the sums below are zero in floating
    point as they are here), the regression of the database divides zero
    by zero: multiplier and offset are NaN, and [save_calibration]
    refuses the result.  The regression of the manager answers [None]
    on the same points. *)
Theorem regression_without_voltage_spread
  (now c : Z) (p1 p2 : CalibrationPoint) (db : database) :
  (voltage p1 == voltage p2)%Q ->
  (exists res,
     CalibrationDb.calculate_calibration now c [p1; p2] = Some res
     /\ multiplier res = NaN
     /\ offset res = NaN
     /\ CalibrationDb.save_calibration db res = None)
  /\ CalibrationManager.calculate_calibration
       {| CalibrationManager.current_chamber := Some c;
          CalibrationManager.calibration_points := [p1; p2];
          CalibrationManager.current_point_index := 2;
          CalibrationManager.calibration_db := db |} now
     = None.
Proof.
  intros Hv.
  apply (regression_of_equal_voltages now c [p1; p2] (voltage p2) db).
  - simpl. lia.
  - cbn [map]. constructor; [exact Hv|]. constructor; [reflexivity|].
    constructor.
Qed.

(** The zero point and the 300 mbar point, both read at 1.2 V. *)
Lemma regression_without_voltage_spread_witness :
  let p1 := {| pressure := 0; voltage := 1.2; timestamp := 1 |} in
  let p2 := {| pressure := 300; voltage := 1.2; timestamp := 2 |} in
  (exists res,
     CalibrationDb.calculate_calibration 10 0 [p1; p2] = Some res
     /\ multiplier res = NaN
     /\ offset res = NaN
     /\ CalibrationDb.save_calibration _init_database res = None)
  /\ CalibrationManager.calculate_calibration
       {| CalibrationManager.current_chamber := Some 0%Z;
          CalibrationManager.calibration_points := [p1; p2];
          CalibrationManager.current_point_index := 2;
          CalibrationManager.calibration_db := _init_database |} 10
     = None.
Proof.
  cbv zeta.
  apply (regression_without_voltage_spread 10 0 _ _ _init_database).
  reflexivity.
Defined.

End VoltagesWithoutSpread.

(* --------------------------------------------------------------------- *)
(** ** The configuration of a test *)

Section PressureLog.
Import TestManager.

Lemma every_nth_from_lookup {A} (fuel step k : nat) (l : list A) :
  (length l <= fuel)%nat -> (1 <= step)%nat ->
  every_nth_from fuel step l !! k = l !! (k * step)%nat.
Proof.
  revert k l. induction fuel as [|fuel IH]; intros k l Hlen Hstep.
  - destruct l; [|simpl in Hlen; lia].
    simpl. rewrite !lookup_nil. reflexivity.
  - destruct l as [|x l]; [simpl; rewrite !lookup_nil; reflexivity|].
    cbn [every_nth_from]. destruct k as [|k]; [reflexivity|].
    cbn [lookup list_lookup].
    rewrite IH; [|rewrite length_drop; simpl in *; lia|exact Hstep].
    rewrite lookup_drop. reflexivity.
Qed.

Lemma every_nth_lookup {A} (step k : nat) (l : list A) :
  (1 <= step)%nat -> every_nth step l !! k = l !! (k * step)%nat.
Proof. intros H. apply every_nth_from_lookup; [lia|exact H]. Qed.

(** X15.  The pressure log that is handed to the logger has at
    most 100 entries.  Up to 100 readings are kept as they are; of more,
    every (n // 100)-th is kept, from the first on, and the list cut to
    100, so that of 101 to 199 readings the first 100 are kept and the
    later ones dropped. *)
Theorem pressure_log_keeps_at_most_hundred (readings : list Q) :
  let n := length readings in
  length (pressure_log readings) = Nat.min n 100
  /\ ((n <= 100)%nat -> pressure_log readings = readings)
  /\ ((100 < n)%nat ->
      forall k, (k < 100)%nat ->
                pressure_log readings !! k = readings !! (k * (n / 100))%nat)
  /\ ((100 < n < 200)%nat -> pressure_log readings = take 100 readings).
Proof.
  cbv zeta. unfold pressure_log.
  destruct (100 <? length readings)%nat eqn:E.
  - apply Nat.ltb_lt in E. cbv zeta.
    set (step := (length readings / 100)%nat).
    assert (Hstep : (1 <= step)%nat).
    { unfold step. apply Nat.div_le_lower_bound; lia. }
    assert (Hmul : (100 * step <= length readings)%nat).
    { unfold step. apply Nat.Div0.mul_div_le. }
    assert (Hlook : forall k, (k < 100)%nat ->
              take 100 (every_nth step readings) !! k
              = readings !! (k * step)%nat).
    { intros k Hk. rewrite lookup_take_lt by exact Hk.
      apply every_nth_lookup. exact Hstep. }
    assert (Hlen : length (take 100 (every_nth step readings)) = 100%nat).
    { rewrite length_take.
      assert (is_Some (every_nth step readings !! 99%nat)).
      { rewrite every_nth_lookup by exact Hstep.
        apply lookup_lt_is_Some. nia. }
      apply lookup_lt_is_Some in H. lia. }
    split; [rewrite Hlen; lia|].
    split; [lia|].
    split; [intros _; exact Hlook|].
    intros [_ H200].
    assert (step = 1%nat).
    { unfold step. symmetry.
      apply Nat.div_unique with (r := (length readings - 100)%nat); lia. }
    apply list_eq. intros k.
    destruct (Nat.lt_ge_cases k 100) as [Hk|Hk].
    + rewrite (Hlook k Hk), lookup_take_lt by exact Hk. f_equal. lia.
    + rewrite !lookup_ge_None_2; [reflexivity| |]; rewrite ?length_take; lia.
  - apply Nat.ltb_ge in E.
    split; [lia|]. split; [reflexivity|]. split; intros; lia.
Qed.

End PressureLog.

Section ReferenceMode.
Import TestManager.

(** X16.  [set_test_mode] assigns the mode before it looks at
    the reference.  When the switch to reference mode fails (no barcode,
    no database, or a barcode the database does not know) on a manager
    without a reference, the answer is [False] but the mode is
    "reference" with no reference loaded, and [start_test] refuses to
    start. *)
Theorem failed_switch_to_reference_mode_blocks_start
  (reference_db : option (string -> option reference_data))
  (reference : option string) (has_permission : bool) (w : World) :
  running_test (tm w) = false ->
  current_reference (tm w) = None ->
  match reference with
  | None | Some "" => True
  | Some barcode =>
      match reference_db with
      | None => True
      | Some load_reference => load_reference barcode = None
      end
  end ->
  let r := set_test_mode reference_db "reference" reference (tm w) in
  r.1 = false
  /\ test_mode r.2 = "reference"
  /\ current_reference r.2 = None
  /\ chamber_states r.2 = chamber_states (tm w)
  /\ start_test has_permission
       {| tm := r.2; clock := clock w; events := events w |}
     = (false, {| tm := r.2; clock := clock w; events := events w |}).
Proof.
  intros Hrun Href Hno. cbv zeta.
  assert (E : set_test_mode reference_db "reference" reference (tm w)
              = (false, with_test_mode "reference" (tm w))).
  { unfold set_test_mode. rewrite Hrun. cbn [String.eqb orb negb].
    change (String.eqb "reference" "manual") with false.
    change (String.eqb "reference" "reference") with true.
    cbn [orb negb].
    destruct reference as [[|a b]|]; try reflexivity.
    destruct reference_db as [load|]; [|reflexivity].
    rewrite Hno. reflexivity. }
  rewrite E. cbn [fst snd]. repeat split; try assumption.
  unfold start_test. simpl. rewrite Hrun, Href. reflexivity.
Qed.

(** The switch made for an empty barcode on the fresh bench. *)
Lemma failed_switch_to_reference_mode_blocks_start_witness :
  let r := set_test_mode None "reference" None (tm Scenario.bench) in
  r.1 = false
  /\ test_mode r.2 = "reference"
  /\ current_reference r.2 = None
  /\ chamber_states r.2 = chamber_states (tm Scenario.bench)
  /\ start_test true
       {| tm := r.2; clock := clock Scenario.bench;
          events := events Scenario.bench |}
     = (false, {| tm := r.2; clock := clock Scenario.bench;
                  events := events Scenario.bench |}).
Proof.
  apply (failed_switch_to_reference_mode_blocks_start
           None None true Scenario.bench); reflexivity || exact Logic.I.
Defined.

End ReferenceMode.

Section ParameterLimits.
Import TestManager TestConfigSpec.

Lemma Forall_update_chamber (P : ChamberTestState -> Prop) (i : nat)
  (ch : ChamberTestState) (tm : TestManager) :
  P ch -> Forall P (chamber_states tm) ->
  Forall P (chamber_states (update_chamber i (fun _ => ch) tm)).
Proof.
  intros Hch H. unfold update_chamber. simpl.
  apply Forall_alter; [exact H|]. intros; exact Hch.
Qed.

(** The field updates of the three setters, by what they keep. *)
Lemma update_enabled_keeps (P : ChamberTestState -> Prop)
  (params : gmap string pyval) (ch : ChamberTestState) :
  (forall b c, P c -> P (set_enabled b c)) ->
  P ch -> P (update_enabled params ch).2.
Proof.
  intros HP H. unfold update_enabled.
  destruct (params !! "enabled"); simpl; auto.
Qed.

Lemma and_then_keeps (P : ChamberTestState -> Prop) (f g : field_update)
  (ch : ChamberTestState) :
  (forall c, P c -> P (f c).2) -> (forall c, P c -> P (g c).2) ->
  P ch -> P (and_then f g ch).2.
Proof.
  intros Hf Hg H. unfold and_then. specialize (Hf ch H).
  destruct (f ch) as [[] c]; simpl in *; auto.
Qed.

Lemma set_chamber_fields_within (params : gmap string pyval)
  (ch : ChamberTestState) :
  within_limits ch ->
  within_limits
    (and_then (update_enabled params)
       (and_then (update_target params)
          (and_then (update_threshold params)
             (update_tolerance params))) ch).2.
Proof.
  repeat (apply (and_then_keeps within_limits); [|intros ?c]).
  - intros x. apply update_enabled_keeps. intros b y Hy. exact Hy.
  - intros x. unfold within_limits, update_target.
    destruct (params !! _); simpl; auto.
    destruct (Qleb 0 _ && Qleb _ _) eqn:E; simpl; auto.
    apply andb_true_iff in E as [E1 E2].
    apply Qleb_true in E1. apply Qleb_true in E2. tauto.
  - intros x. unfold within_limits, update_threshold.
    destruct (params !! _); simpl; auto.
    destruct (Qleb 0 _) eqn:E; simpl; auto.
    apply Qleb_true in E. tauto.
  - unfold within_limits, update_tolerance.
    destruct (params !! _); simpl; auto.
    destruct (Qleb 0 _) eqn:E; simpl; auto.
    apply Qleb_true in E. tauto.
Qed.

Lemma update_positive_keeps (P : ChamberTestState -> Prop) (key : string)
  (upper : option Q) (assign : Q -> ChamberTestState -> ChamberTestState)
  (params : gmap string pyval) (ch : ChamberTestState) :
  (forall v c, (0 < v)%Q ->
               match upper with Some b => (v <= b)%Q | None => True end ->
               P c -> P (assign v c)) ->
  P ch -> P (update_positive key upper assign params ch).2.
Proof.
  intros HP H. unfold update_positive.
  destruct (params !! key) as [v|]; simpl; [|exact H].
  destruct (Qltb 0 (py_float v) && _) eqn:E; simpl; [|exact H].
  apply andb_true_iff in E as [E1 E2]. apply Qltb_true in E1.
  apply HP; [exact E1| |exact H].
  destruct upper; [apply Qleb_true; exact E2|exact Logic.I].
Qed.

Lemma update_chamber_fields_within (params : gmap string pyval)
  (ch : ChamberTestState) :
  within_limits ch -> within_limits (update_chamber_fields params ch).2.
Proof.
  unfold update_chamber_fields.
  repeat (apply (and_then_keeps within_limits); [|intros ?c]).
  - intros x. apply update_enabled_keeps. intros b y Hy. exact Hy.
  - intros x. apply update_positive_keeps.
    intros v y Hv Hb. unfold within_limits. simpl.
    intuition auto using Qlt_le_weak.
  - intros x. apply update_positive_keeps.
    intros v y Hv Hb. unfold within_limits. simpl.
    intuition auto using Qlt_le_weak.
  - apply update_positive_keeps.
    intros v y Hv Hb. unfold within_limits. simpl.
    intuition auto using Qlt_le_weak.
Qed.

Lemma load_chamber_fields_nonnegative (params : gmap string pyval)
  (ch : ChamberTestState) :
  nonnegative ch -> nonnegative (load_chamber_fields params ch).2.
Proof.
  unfold load_chamber_fields.
  repeat (apply (and_then_keeps nonnegative); [|intros ?c]).
  - intros x. apply update_enabled_keeps. intros b y Hy. exact Hy.
  - intros x. apply update_positive_keeps.
    intros v y Hv Hb. unfold nonnegative. simpl.
    intuition auto using Qlt_le_weak.
  - intros x. apply update_positive_keeps.
    intros v y Hv Hb. unfold nonnegative. simpl.
    intuition auto using Qlt_le_weak.
  - apply update_positive_keeps.
    intros v y Hv Hb. unfold nonnegative. simpl.
    intuition auto using Qlt_le_weak.
Qed.

Lemma update_chambers_within (settings : list (option (gmap string pyval)))
  (i : nat) (tm : TestManager) :
  Forall within_limits (chamber_states tm) ->
  Forall within_limits (chamber_states (update_chambers i settings tm).2)
  /\ test_duration (update_chambers i settings tm).2 = test_duration tm.
Proof.
  revert i tm. induction settings as [|[params|] settings IH];
    intros i tm H; simpl; auto.
  destruct (chamber_states tm !! i) as [ch|] eqn:E; simpl; auto.
  assert (Hch : within_limits ch).
  { rewrite Forall_lookup in H. eapply H. exact E. }
  assert (H1 := update_chamber_fields_within params ch Hch).
  destruct (update_chamber_fields params ch) as [ok ch']. simpl in H1.
  assert (H2 := Forall_update_chamber within_limits i ch' tm H1 H).
  destruct ok; simpl; auto.
  destruct (IH (S i) _ H2) as [H3 H4]. split; [exact H3|].
  rewrite H4. reflexivity.
Qed.

Lemma load_chambers_nonnegative (configs : list chamber_config)
  (tm : TestManager) :
  Forall nonnegative (chamber_states tm) ->
  Forall nonnegative (chamber_states (load_chambers configs tm).2)
  /\ test_duration (load_chambers configs tm).2 = test_duration tm.
Proof.
  revert tm. induction configs as [|c configs IH]; intros tm H; simpl; auto.
  destruct (config_index c) as [index|]; simpl; auto.
  destruct (negb _); [apply IH; exact H|].
  destruct (chamber_states tm !! Z.to_nat index) as [ch|] eqn:E; simpl; auto.
  assert (Hch : nonnegative ch).
  { rewrite Forall_lookup in H. eapply H. exact E. }
  assert (H1 := load_chamber_fields_nonnegative (config_params c) ch Hch).
  destruct (load_chamber_fields (config_params c) ch) as [ok ch'].
  simpl in H1.
  assert (H2 := Forall_update_chamber nonnegative (Z.to_nat index) ch' tm
                  H1 H).
  destruct ok; simpl; auto.
  destruct (IH _ H2) as [H3 H4]. split; [exact H3|].
  rewrite H4. reflexivity.
Qed.

Lemma load_duration_positive (v : option pyval) (tm : TestManager) :
  (0 < test_duration tm)%Q ->
  (0 < test_duration (load_duration v tm).2)%Q
  /\ chamber_states (load_duration v tm).2 = chamber_states tm.
Proof.
  intros H. unfold load_duration. destruct v as [v|]; simpl; auto.
  destruct (0 <? py_int v)%Z eqn:E; simpl; auto.
  apply Z.ltb_lt in E. split; [|reflexivity].
  unfold Qlt. simpl. lia.
Qed.

(** X17.  [set_chamber_parameters] and [update_settings_from_dict]
    keep every target within 0 and the maximum pressure and every
    threshold and tolerance above or at 0; they, [set_test_duration] and
    [load_test_config] keep the test duration positive.
    [load_test_config] keeps the three values at or above 0, but it has
    no upper limit: it accepts every positive target. *)
Theorem chamber_parameters_stay_within_limits (tm : TestManager) :
  Forall within_limits (chamber_states tm) ->
  (0 < test_duration tm)%Q ->
  (forall i params,
     Forall within_limits
            (chamber_states (set_chamber_parameters tm i params).2))
  /\ (forall settings,
        Forall within_limits
               (chamber_states (update_settings_from_dict settings tm).2)
        /\ (0 < test_duration (update_settings_from_dict settings tm).2)%Q)
  /\ (forall config,
        Forall nonnegative (chamber_states (load_test_config config tm).2)
        /\ (0 < test_duration (load_test_config config tm).2)%Q)
  /\ (forall duration,
        (0 < test_duration (set_test_duration duration tm).2)%Q)
  /\ (forall (t : Q) (ch0 : ChamberTestState),
        (0 < t)%Q -> running_test tm = false ->
        chamber_states tm !! 0%nat = Some ch0 ->
        pressure_target
          <$> chamber_states (load_test_config (only_target t) tm).2 !! 0%nat
        = Some t).
Proof.
  intros H Hd. split; [|split; [|split; [|split]]].
  - intros i params. unfold set_chamber_parameters.
    destruct (negb _); [exact H|].
    destruct (running_test tm); [exact H|].
    destruct (chamber_states tm !! Z.to_nat i) as [ch|] eqn:E; [|exact H].
    assert (Hch : within_limits ch).
    { rewrite Forall_lookup in H. eapply H. exact E. }
    assert (H1 := set_chamber_fields_within params ch Hch).
    destruct (and_then _ _ ch) as [ok ch']. simpl in *.
    apply (Forall_update_chamber within_limits); assumption.
  - intros settings. unfold update_settings_from_dict.
    destruct (running_test tm); [split; assumption|].
    unfold and_then_tm.
    destruct (load_duration_positive (settings_test_duration settings) tm Hd)
      as [H1 H2].
    destruct (load_duration _ tm) as [ok tm1]. simpl in H1, H2.
    destruct ok; simpl; [|rewrite H2; split; assumption].
    rewrite <- H2 in H.
    destruct (update_chambers_within (take 3 (settings_chambers settings))
                0 tm1 H) as [H3 H4].
    split; [exact H3|]. rewrite H4. exact H1.
  - intros config. unfold load_test_config.
    assert (Hn : Forall nonnegative (chamber_states tm)).
    { eapply Forall_impl; [exact H|]. unfold within_limits, nonnegative.
      tauto. }
    destruct (running_test tm); [split; assumption|].
    unfold and_then_tm, load_mode, load_reference_key.
    destruct (config_test_mode config) as [m|];
      [destruct (String.eqb m "manual" || String.eqb m "reference")|];
      simpl; try (split; assumption);
      destruct (config_reference config) as [r|]; simpl;
      match goal with
      | |- context [load_duration ?v ?t] =>
          destruct (load_duration_positive v t Hd) as [H1 H2];
          destruct (load_duration v t) as [ok tm1]; simpl in H1, H2;
          destruct ok; simpl; [|rewrite H2; split; assumption];
          change (chamber_states t) with (chamber_states tm) in H2;
          rewrite <- H2 in Hn;
          destruct (config_chambers config) as [configs|];
            [|split; assumption];
          destruct (load_chambers_nonnegative configs tm1 Hn) as [H3 H4];
          split; [exact H3|rewrite H4; exact H1]
      end.
  - intros duration. unfold set_test_duration.
    destruct (running_test tm); [exact Hd|].
    destruct (duration <=? 0)%Z eqn:E; [exact Hd|].
    apply Z.leb_gt in E. simpl. unfold Qlt. simpl. lia.
  - intros t ch0 Ht Hrun H0.
    unfold load_test_config, only_target. rewrite Hrun.
    cbn [config_test_mode config_reference config_test_duration
         config_chambers].
    unfold and_then_tm, load_mode, load_reference_key, load_duration.
    cbn [load_chambers config_index config_params Z.leb Z.compare negb andb
         Z.to_nat].
    change (Z.to_nat 0) with 0%nat. rewrite H0.
    assert (E : load_chamber_fields {[ "pressure_target" := PyFloat t ]} ch0
                = (true, set_pressure_target t ch0)).
    { unfold load_chamber_fields, and_then, update_enabled, update_positive.
      change (({[ "pressure_target" := PyFloat t ]} : gmap string pyval)
                !! "enabled") with (@None pyval).
      change (({[ "pressure_target" := PyFloat t ]} : gmap string pyval)
                !! "pressure_target") with (Some (PyFloat t)).
      change (({[ "pressure_target" := PyFloat t ]} : gmap string pyval)
                !! "pressure_threshold") with (@None pyval).
      change (({[ "pressure_target" := PyFloat t ]} : gmap string pyval)
                !! "pressure_tolerance") with (@None pyval).
      cbn [py_float andb].
      assert (Hq : Qltb 0 t = true) by (apply Qltb_true; exact Ht).
      rewrite Hq. reflexivity. }
    rewrite E. cbn [fst snd]. unfold update_chamber. simpl.
    rewrite list_lookup_alter_eq, H0. reflexivity.
Qed.

(** The manager as [__init__] builds it, through a partly refused
    update of its first chamber. *)
Lemma chamber_parameters_stay_within_limits_witness :
  let tm := new_manager in
  let params : gmap string pyval :=
    {[ "pressure_target" := PyFloat 200;
       "pressure_tolerance" := PyFloat (-1) ]} in
  (set_chamber_parameters tm 0 params).1 = false
  /\ (forall i params,
        Forall within_limits
               (chamber_states (set_chamber_parameters tm i params).2))
  /\ (forall settings,
        Forall within_limits
               (chamber_states (update_settings_from_dict settings tm).2)
        /\ (0 < test_duration (update_settings_from_dict settings tm).2)%Q)
  /\ (forall config,
        Forall nonnegative (chamber_states (load_test_config config tm).2)
        /\ (0 < test_duration (load_test_config config tm).2)%Q)
  /\ (forall duration,
        (0 < test_duration (set_test_duration duration tm).2)%Q)
  /\ (forall (t : Q) (ch0 : ChamberTestState),
        (0 < t)%Q -> running_test tm = false ->
        chamber_states tm !! 0%nat = Some ch0 ->
        pressure_target
          <$> chamber_states (load_test_config (only_target t) tm).2 !! 0%nat
        = Some t).
Proof.
  cbv zeta. split; [vm_compute; reflexivity|].
  apply (chamber_parameters_stay_within_limits new_manager).
  - repeat constructor; discriminate.
  - reflexivity.
Defined.

End ParameterLimits.

Section ConfigurationRoundTrip.
Import TestManager TestConfigSpec.

Lemma serialize_chamber_lookup (ch : ChamberTestState) :
  let params := config_params (serialize_chamber ch) in
  params !! "enabled" = Some (PyBool (enabled ch))
  /\ params !! "pressure_target" = Some (PyFloat (pressure_target ch))
  /\ params !! "pressure_threshold" = Some (PyFloat (pressure_threshold ch))
  /\ params !! "pressure_tolerance" = Some (PyFloat (pressure_tolerance ch)).
Proof. cbv zeta. repeat split; reflexivity. Qed.

(** Loading the serialized form of a chamber into any chamber. *)
Lemma load_serialized_chamber (ch ch' : ChamberTestState) :
  let r := load_chamber_fields (config_params (serialize_chamber ch)) ch' in
  (r.1 = true <-> strictly_positive ch)
  /\ (r.1 = true -> same_parameters r.2 ch).
Proof.
  cbv zeta.
  destruct (serialize_chamber_lookup ch) as (He & Ht & Hh & Ho).
  unfold load_chamber_fields, and_then, update_enabled, update_positive.
  rewrite He, Ht, Hh, Ho. cbn [py_bool py_float andb].
  unfold strictly_positive, same_parameters.
  destruct (Qltb 0 (pressure_target ch)) eqn:E1; cbn [andb fst snd].
  2:{ apply Qltb_false in E1. split; [|discriminate].
      split; [discriminate|]. intros (H & _ & _).
      exfalso. apply (Qlt_not_le _ _ H E1). }
  destruct (Qltb 0 (pressure_threshold ch)) eqn:E2; cbn [andb fst snd].
  2:{ apply Qltb_false in E2. split; [|discriminate].
      split; [discriminate|]. intros (_ & H & _).
      exfalso. apply (Qlt_not_le _ _ H E2). }
  destruct (Qltb 0 (pressure_tolerance ch)) eqn:E3; cbn [andb fst snd].
  2:{ apply Qltb_false in E3. split; [|discriminate].
      split; [discriminate|]. intros (_ & _ & H).
      exfalso. apply (Qlt_not_le _ _ H E3). }
  apply Qltb_true in E1, E2, E3.
  split; [tauto|]. intros _. simpl. auto.
Qed.

(** The loop of [load_test_config] over the serialized chambers
    [src], which carry the indices [k], [k + 1], ... *)
Lemma load_serialized_chambers (src : list ChamberTestState) (k : nat)
  (tm : TestManager) :
  (forall j c, src !! j = Some c -> chamber_index c = Z.of_nat (k + j)) ->
  (k + length src <= 3)%nat ->
  (k + length src <= length (chamber_states tm))%nat ->
  let r := load_chambers (map serialize_chamber src) tm in
  (r.1 = true <-> Forall strictly_positive src)
  /\ (r.1 = true ->
      (forall j c, src !! j = Some c ->
                   exists c', chamber_states r.2 !! (k + j)%nat = Some c'
                              /\ same_parameters c' c)
      /\ (forall i, (i < k)%nat ->
                    chamber_states r.2 !! i = chamber_states tm !! i)
      /\ length (chamber_states r.2) = length (chamber_states tm)
      /\ test_mode r.2 = test_mode tm
      /\ current_reference r.2 = current_reference tm
      /\ test_duration r.2 = test_duration tm).
Proof.
  revert k tm. induction src as [|c src IH]; intros k tm Hidx H3 Hlen;
    cbv zeta.
  - simpl. split; [split; [constructor|reflexivity]|].
    intros _. repeat split; try reflexivity.
    intros j c Hj. rewrite lookup_nil in Hj. discriminate.
  - cbn [map load_chambers]. cbn [serialize_chamber config_index].
    rewrite (Hidx 0%nat c eq_refl). rewrite Nat.add_0_r.
    simpl length in H3, Hlen.
    assert (Hk : negb ((0 <=? Z.of_nat k)%Z && (Z.of_nat k <=? 2)%Z) = false).
    { apply negb_false_iff, andb_true_iff. split; apply Z.leb_le; lia. }
    rewrite Hk, Nat2Z.id.
    destruct (chamber_states tm !! k) as [a|] eqn:Ea.
    2:{ apply lookup_ge_None in Ea. lia. }
    destruct (load_serialized_chamber c a) as [Pc Sc]. cbv zeta in Pc, Sc.
    change (config_params
              {| config_index := Some (chamber_index c);
                 config_params :=
                   {[ "enabled" := PyBool (enabled c);
                      "pressure_target" := PyFloat (pressure_target c);
                      "pressure_threshold" := PyFloat (pressure_threshold c);
                      "pressure_tolerance" := PyFloat (pressure_tolerance c)
                   ]} |})
      with (config_params (serialize_chamber c)).
    destruct (load_chamber_fields (config_params (serialize_chamber c)) a)
      as [ok b]. cbn [fst snd] in Pc, Sc.
    destruct ok.
    2:{ cbn [fst snd]. split; [|discriminate]. split; [discriminate|].
        intros HF. inversion HF; subst. apply Pc. assumption. }
    set (tm1 := update_chamber k (fun _ => b) tm).
    assert (Hl1 : length (chamber_states tm1) = length (chamber_states tm)).
    { unfold tm1, update_chamber. simpl. apply length_alter. }
    specialize (IH (S k) tm1). cbv zeta in IH.
    destruct IH as [IHp IHs].
    { intros j c' Hj. rewrite (Hidx (S j) c' Hj). f_equal. lia. }
    { lia. }
    { rewrite Hl1. lia. }
    destruct (load_chambers (map serialize_chamber src) tm1) as [ok r2].
    cbn [fst snd] in IHp, IHs |- *. split.
    + rewrite IHp. split.
      * intros HF. constructor; [apply Pc; reflexivity|exact HF].
      * intros HF. inversion HF; subst. assumption.
    + intros Hok. destruct (IHs Hok) as (Hj & Hi & Hl & Hm & Hr & Hd).
      assert (Hb : chamber_states tm1 !! k = Some b).
      { unfold tm1, update_chamber. simpl.
        rewrite list_lookup_alter_eq, Ea. reflexivity. }
      split; [|split; [|split; [|auto]]].
      * intros [|j] c' Hc'.
        -- injection Hc' as <-. exists b. rewrite Nat.add_0_r.
           rewrite (Hi k) by lia. split; [exact Hb|apply Sc; reflexivity].
        -- destruct (Hj j c' Hc') as (c'' & H1 & H2).
           exists c''. split; [|exact H2].
           rewrite <- H1. f_equal. lia.
      * intros i Hik. rewrite (Hi i) by lia.
        unfold tm1, update_chamber. simpl.
        apply list_lookup_alter_ne. lia.
      * rewrite Hl. exact Hl1.
Qed.

(** X18.  On an idle manager with three chambers,
    [load_test_config] accepts what [serialize_test_config] wrote
    exactly when the duration and the target, threshold and tolerance of
    every chamber are positive, and then the manager has the
    configuration that was written: mode, reference, duration, and the
    parameters of each chamber. *)
Theorem load_of_serialized_configuration (tm tm' : TestManager) (d : Z) :
  running_test tm' = false ->
  length (chamber_states tm') = 3%nat ->
  map chamber_index (chamber_states tm) = [0; 1; 2]%Z ->
  test_mode tm = "manual" \/ test_mode tm = "reference" ->
  test_duration tm = inject_Z d ->
  let r := load_test_config (serialize_test_config tm) tm' in
  (r.1 = true <->
   (0 < d)%Z /\ Forall strictly_positive (chamber_states tm))
  /\ (r.1 = true -> same_configuration r.2 tm).
Proof.
  intros Hrun Hlen Hidx Hmode Hdur. cbv zeta.
  unfold load_test_config, serialize_test_config.
  rewrite Hrun.
  cbn [config_test_mode config_reference config_test_duration
       config_chambers].
  unfold and_then_tm, load_mode, load_reference_key, load_duration.
  assert (Hm : String.eqb (test_mode tm) "manual"
               || String.eqb (test_mode tm) "reference" = true).
  { destruct Hmode as [-> | ->]; reflexivity. }
  rewrite Hm, Hdur.
  assert (Hint : py_int (PyFloat (inject_Z d)) = d).
  { simpl. apply Z.quot_1_r. }
  rewrite Hint.
  destruct (0 <? d)%Z eqn:Ed.
  2:{ apply Z.ltb_ge in Ed. cbn [fst snd]. split; [|discriminate].
      split; [discriminate|]. intros [H _]. lia. }
  apply Z.ltb_lt in Ed.
  set (tm3 := with_test_duration _ _).
  assert (Hsrc : length (chamber_states tm) = 3%nat).
  { rewrite <- (length_map chamber_index), Hidx. reflexivity. }
  destruct (load_serialized_chambers (chamber_states tm) 0 tm3)
    as [Hp Hs].
  { intros j c Hj.
    assert (Hc : map chamber_index (chamber_states tm) !! j
                 = Some (chamber_index c))
      by (rewrite list_lookup_fmap, Hj; reflexivity).
    rewrite Hidx in Hc.
    destruct j as [|[|[|j]]]; simpl in Hc; try discriminate;
      injection Hc as <-; reflexivity. }
  { rewrite Hsrc. lia. }
  { rewrite Hsrc. unfold tm3. simpl. lia. }
  cbv zeta in Hp, Hs.
  destruct (load_chambers (map serialize_chamber (chamber_states tm)) tm3)
    as [ok r2]. cbn [fst snd] in *.
  split.
  - rewrite Hp. tauto.
  - intros Hok. destruct (Hs Hok) as (Hj & _ & Hl & Hmo & Hr & Hd).
    unfold same_configuration.
    rewrite Hmo, Hr, Hd. unfold tm3. simpl.
    repeat split; try reflexivity; try (symmetry; exact Hdur).
    apply Forall2_same_length_lookup. split.
    + rewrite Hl. unfold tm3. simpl. lia.
    + intros i x y Hx Hy. destruct (Hj i y Hy) as (c' & H1 & H2).
      simpl in H1. rewrite Hx in H1. injection H1 as <-. exact H2.
Qed.

(** The manager as [__init__] builds it, loaded into itself. *)
Lemma load_of_serialized_configuration_witness :
  let r := load_test_config (serialize_test_config new_manager) new_manager in
  r.1 = true
  /\ (r.1 = true <->
      (0 < 90)%Z /\ Forall strictly_positive (chamber_states new_manager))
  /\ (r.1 = true -> same_configuration r.2 new_manager).
Proof.
  cbv zeta. split; [vm_compute; reflexivity|].
  apply (load_of_serialized_configuration new_manager new_manager 90).
  - reflexivity.
  - reflexivity.
  - reflexivity.
  - left. reflexivity.
  - reflexivity.
Defined.

End ConfigurationRoundTrip.

(* --------------------------------------------------------------------- *)
(** ** The test log *)

Section TestRecords.
Import TestLogger.

Lemma keep_last_app {A} (m : nat) (l k : list A) :
  drop (length (drop (length l - m) l ++ k) - m) (drop (length l - m) l ++ k)
  = drop (length (l ++ k) - m) (l ++ k).
Proof.
  rewrite !length_app, length_drop.
  destruct (Nat.le_gt_cases (length l) m) as [H|H].
  - replace (length l - m)%nat with 0%nat by lia.
    rewrite drop_0, Nat.sub_0_r. reflexivity.
  - replace (length l - (length l - m) + length k - m)%nat
      with (length k) by lia.
    replace (length l + length k - m)%nat
      with ((length l - m) + length k)%nat by lia.
    rewrite <- drop_drop. f_equal.
    rewrite drop_app_le by lia. reflexivity.
Qed.

(** The records kept and the counters after a series of tests. *)
Lemma log_test_result_records (tests : list test_record) (m : Z)
  (self : TestLogger) :
  max_records self = m ->
  (Z.of_nat (length (test_records self)) <= Z.max m 0)%Z ->
  let self' := fold_left (fun l t => log_test_result t l) tests self in
  let all := test_records self ++ map record_of tests in
  test_records self' = drop (length all - Z.to_nat m) all
  /\ max_records self' = m
  /\ total_tests self' = (total_tests self + Z.of_nat (length tests))%Z
  /\ passed_tests self'
     = (passed_tests self
        + Z.of_nat (length (List.filter overall_result tests)))%Z
  /\ (passed_tests self' + failed_tests self'
      = passed_tests self + failed_tests self + Z.of_nat (length tests))%Z.
Proof.
  revert self. induction tests as [|t tests IH]; intros self Hm Hlen;
    cbv zeta.
  - simpl. rewrite app_nil_r.
    replace (length (test_records self) - Z.to_nat m)%nat with 0%nat by lia.
    rewrite drop_0. repeat split; lia.
  - cbn [fold_left].
    specialize (IH (log_test_result t self)). cbv zeta in IH.
    assert (Hrec : test_records (log_test_result t self)
                   = drop (length (test_records self ++ [record_of t])
                           - Z.to_nat m)
                          (test_records self ++ [record_of t])).
    { unfold log_test_result. cbn [test_records]. cbv zeta.
      rewrite Hm, length_app. simpl length.
      destruct (m <? Z.of_nat (length (test_records self) + 1))%Z eqn:E.
      - apply Z.ltb_lt in E.
        replace (length (test_records self) + 1 - Z.to_nat m)%nat
          with 1%nat by lia.
        reflexivity.
      - apply Z.ltb_ge in E.
        replace (length (test_records self) + 1 - Z.to_nat m)%nat
          with 0%nat by lia.
        reflexivity. }
    destruct IH as (H1 & H2 & H3 & H4 & H5).
    + exact Hm.
    + rewrite Hrec, length_drop, length_app. simpl length. lia.
    + assert (Ht : total_tests (log_test_result t self)
                   = (total_tests self + 1)%Z) by reflexivity.
      assert (Hp : passed_tests (log_test_result t self)
                   = (passed_tests self
                      + if overall_result t then 1 else 0)%Z).
      { unfold log_test_result. simpl. destruct (overall_result t); lia. }
      assert (Hf : (passed_tests (log_test_result t self)
                    + failed_tests (log_test_result t self)
                    = passed_tests self + failed_tests self + 1)%Z).
      { unfold log_test_result. simpl. destruct (overall_result t); lia. }
      split.
      { rewrite H1, Hrec, keep_last_app.
        cbn [map]. rewrite <- app_assoc. reflexivity. }
      split; [exact H2|].
      split; [rewrite H3, Ht; simpl length; lia|].
      split.
      { rewrite H4, Hp. cbn [List.filter].
        destruct (overall_result t); simpl length; lia. }
      rewrite H5, Hf. simpl length. lia.
Qed.

Lemma last_drop_lt {A} (n : nat) (l : list A) :
  (n < length l)%nat -> last (drop n l) = last l.
Proof.
  revert n. induction l as [|x l IH]; intros n H; [simpl in H; lia|].
  destruct n as [|n]; [reflexivity|].
  simpl drop. simpl in H. rewrite IH by lia.
  destruct l; [simpl in H; lia|reflexivity].
Qed.

Lemma head_of_most_recent {A} (l : list A) :
  head (reverse (drop (length l - 1) l)) = last l.
Proof.
  destruct l as [|x l] using rev_ind; [reflexivity|].
  rewrite last_snoc, length_app. simpl length.
  replace (length l + 1 - 1)%nat with (length l) by lia.
  rewrite drop_app_length. reflexivity.
Qed.

(** X19.  After any sequence of [log_test_result], the logger
    holds the records of the last [max_records] tests, none when
    [max_records] is below 1, in the order of logging; the counters
    count every test that was logged, held or not, and passed + failed
    = total.  With a capacity of 1 or more [get_last_test_result] is the
    test logged last. *)
Theorem logger_keeps_the_latest_records (tests : list test_record) (m : Z) :
  let self := fold_left (fun l t => log_test_result t l) tests (init m) in
  let logged := map record_of tests in
  test_records self = drop (length logged - Z.to_nat m) logged
  /\ record_count self = Nat.min (length tests) (Z.to_nat m)
  /\ total_tests self = Z.of_nat (length tests)
  /\ passed_tests self
     = Z.of_nat (length (List.filter overall_result tests))
  /\ (passed_tests self + failed_tests self = total_tests self)%Z
  /\ ((1 <= m)%Z -> get_last_test_result self = last logged).
Proof.
  cbv zeta.
  destruct (log_test_result_records tests m (init m) eq_refl)
    as (H1 & H2 & H3 & H4 & H5).
  { simpl. lia. }
  cbv zeta in H1. simpl in H1, H3, H4, H5.
  split; [exact H1|]. split.
  { unfold record_count. rewrite H1, length_drop, length_map. lia. }
  split; [lia|]. split; [lia|]. split; [lia|].
  intros Hm. unfold get_last_test_result, get_recent_tests, slice_from.
  change (- (1) <? 0)%Z with true. cbv iota.
  change (Z.to_nat (- -1)) with 1%nat.
  rewrite head_of_most_recent, H1.
  destruct (decide (map record_of tests = [])) as [E|E].
  - rewrite E. reflexivity.
  - apply last_drop_lt.
    destruct (map record_of tests); [congruence|]. simpl. lia.
Qed.

Lemma take_reverse_drop {A} (n : nat) (l : list A) :
  reverse (drop (length l - n) l) = take n (reverse l).
Proof.
  destruct (Nat.le_gt_cases (length l) n) as [H|H].
  - replace (length l - n)%nat with 0%nat by lia.
    rewrite drop_0, take_ge; [reflexivity|]. rewrite length_reverse. lia.
  - assert (E : reverse l = reverse (drop (length l - n) l)
                              ++ reverse (take (length l - n) l))
      by (rewrite <- reverse_app, take_drop; reflexivity).
    rewrite E. rewrite take_app_length'; [reflexivity|].
    rewrite length_reverse, length_drop. lia.
Qed.

(** X20.  [get_recent_tests] answers the last [count] records,
    newest first, for a count of 1 or more.  For a count of 0 it answers
    all records, not none, and for a negative count all but the oldest
    [-count]. *)
Theorem get_recent_tests_slices (count : Z) (self : TestLogger) :
  let records := test_records self in
  ((1 <= count)%Z ->
   get_recent_tests count self = take (Z.to_nat count) (reverse records))
  /\ (count = 0%Z -> get_recent_tests count self = reverse records)
  /\ ((count < 0)%Z ->
      get_recent_tests count self
      = reverse (drop (Z.to_nat (- count)) records)).
Proof.
  cbv zeta. unfold get_recent_tests, slice_from. repeat split.
  - intros H. assert (E : (- count <? 0)%Z = true) by (apply Z.ltb_lt; lia).
    rewrite E, Z.opp_involutive. apply take_reverse_drop.
  - intros ->. reflexivity.
  - intros H. assert (E : (- count <? 0)%Z = false) by (apply Z.ltb_ge; lia).
    rewrite E. reflexivity.
Qed.

End TestRecords.

(* --------------------------------------------------------------------- *)
(** ** The role manager *)

Section RoleChecks.
Import Roles AccessScenario.

Lemma nonempty_true (s : string) : nonempty s = true <-> s <> "".
Proof.
  unfold nonempty. destruct (String.eqb_spec s ""); simpl; split;
    congruence.
Qed.

(** The three keys of [USER_ROLES]. *)
Lemma USER_ROLES_get_Some (role : string) (d : role_definition) :
  USER_ROLES_get role = Some d ->
  (role = "OPERATOR" /\ level d = 1%Z /\ permissions d = ["run_test"])
  \/ (role = "MAINTENANCE" /\ level d = 2%Z
      /\ permissions d = ["run_test"; "view_history"; "edit_settings";
                          "calibrate"])
  \/ (role = "ADMIN" /\ level d = 3%Z
      /\ permissions d = ["run_test"; "view_history"; "edit_settings";
                          "calibrate"; "manage_users"]).
Proof.
  unfold USER_ROLES_get, USER_ROLES. cbn [find fst snd].
  destruct (String.eqb_spec "OPERATOR" role) as [<-|_].
  { intros [= <-]. left. auto. }
  destruct (String.eqb_spec "MAINTENANCE" role) as [<-|_].
  { intros [= <-]. right. left. auto. }
  destruct (String.eqb_spec "ADMIN" role) as [<-|_].
  { intros [= <-]. right. right. auto. }
  discriminate.
Qed.

Lemma level_of_nonneg (role : string) : (0 <= level_of role)%Z.
Proof.
  unfold level_of. destruct (String.eqb role "NONE"); [lia|].
  destruct (USER_ROLES_get role) as [d|] eqn:E; [|lia].
  apply USER_ROLES_get_Some in E.
  destruct E as [(_ & -> & _)|[(_ & -> & _)|(_ & -> & _)]]; lia.
Qed.

Lemma level_of_unknown (role : string) :
  in_USER_ROLES role = false -> level_of role = 0%Z.
Proof.
  unfold in_USER_ROLES, level_of. intros H.
  destruct (String.eqb role "NONE"); [reflexivity|].
  destruct (USER_ROLES_get role); [discriminate|reflexivity].
Qed.

(** A role of positive level is one of [USER_ROLES]. *)
Lemma level_of_positive (role : string) :
  (0 < level_of role)%Z ->
  exists d, USER_ROLES_get role = Some d /\ level_of role = level d
            /\ String.eqb role "NONE" = false.
Proof.
  unfold level_of. destruct (String.eqb role "NONE") eqn:E; [lia|].
  destruct (USER_ROLES_get role) as [d|]; [|lia]. eauto.
Qed.

Lemma get_role_level_current (now : Q) (rm : RoleManager) :
  get_role_level None now rm
  = (level_of (get_current_role now rm).1, (get_current_role now rm).2).
Proof.
  unfold get_role_level. destruct (get_current_role now rm). reflexivity.
Qed.

Lemma get_role_level_named (role : string) (now : Q) (rm : RoleManager) :
  nonempty role = true ->
  get_role_level (Some role) now rm = (level_of role, rm).
Proof. unfold get_role_level. intros ->. reflexivity. Qed.

Lemma has_access_named (min_role : string) (now later : Q)
    (rm : RoleManager) :
  nonempty min_role = true ->
  (has_access min_role now later rm).1
  = (level_of min_role <=? level_of (get_current_role now rm).1)%Z.
Proof.
  intros H. unfold has_access. rewrite get_role_level_current.
  rewrite (get_role_level_named _ _ _ H). reflexivity.
Qed.

Lemma has_permission_of_role (permission : string) (now : Q)
    (rm : RoleManager) :
  (has_permission permission now rm).1
  = (let role := (get_current_role now rm).1 in
     if String.eqb role "NONE" then false
     else match USER_ROLES_get role with
          | Some d => existsb (String.eqb permission) (permissions d)
          | None => false
          end).
Proof.
  unfold has_permission. destruct (get_current_role now rm) as [role rm'].
  cbn [fst]. destruct (String.eqb role "NONE"); [reflexivity|].
  destruct (USER_ROLES_get role); reflexivity.
Qed.

(** X21.  A role name that is not a key of [USER_ROLES] (a misspelt
    name, or "NONE") has level 0, so [has_access] grants it to everybody:
    to every logged-in user and to nobody at all, also when a login is
    required. *)
Theorem has_access_to_unknown_role_is_granted (min_role : string)
    (now later : Q) (rm : RoleManager) :
  min_role <> "" ->
  in_USER_ROLES min_role = false ->
  (has_access min_role now later rm).1 = true.
Proof.
  intros Hne Hu. rewrite has_access_named by (apply nonempty_true; exact Hne).
  rewrite (level_of_unknown _ Hu). apply Z.leb_le. apply level_of_nonneg.
Qed.

(** X22.  The permissions are nested along the levels: when [has_access]
    grants a role of [USER_ROLES], [has_permission] at the same moment
    grants every permission of that role. *)
Theorem has_access_gives_the_permissions (min_role permission : string)
    (d : role_definition) (now later : Q) (rm : RoleManager) :
  USER_ROLES_get min_role = Some d ->
  In permission (permissions d) ->
  (has_access min_role now later rm).1 = true ->
  (has_permission permission now rm).1 = true.
Proof.
  intros Hd Hp Ha.
  assert (Hne : nonempty min_role = true).
  { apply nonempty_true. intros ->. discriminate Hd. }
  rewrite has_access_named in Ha by exact Hne. apply Z.leb_le in Ha.
  rewrite has_permission_of_role. cbv zeta.
  set (role := (get_current_role now rm).1) in *.
  assert (Hl : level_of min_role = level d).
  { unfold level_of. rewrite Hd.
    destruct (String.eqb_spec min_role "NONE") as [->|]; [discriminate Hd|].
    reflexivity. }
  pose proof (USER_ROLES_get_Some _ _ Hd) as Hk.
  assert (Hpos : (0 < level_of role)%Z).
  { destruct Hk as [(_ & E & _)|[(_ & E & _)|(_ & E & _)]]; lia. }
  destruct (level_of_positive _ Hpos) as (d' & Hd' & Hl' & Hn).
  rewrite Hn, Hd'.
  pose proof (USER_ROLES_get_Some _ _ Hd') as Hk'.
  destruct Hk as [(_ & E & P)|[(_ & E & P)|(_ & E & P)]];
    destruct Hk' as [(_ & E' & P')|[(_ & E' & P')|(_ & E' & P')]];
    try lia; rewrite P in Hp; rewrite P'; cbn [In] in Hp;
    repeat (destruct Hp as [<-|Hp]; [reflexivity|]); contradiction.
Qed.

(** X23.  A session lasts [session_timeout] seconds from the login.  Once
    a check has seen it expired the user is logged out for good, but
    [refresh_session] does not look at the age of the session: called
    before any check, it revives a session however long ago it expired. *)
Theorem session_expiry_and_refresh
    (user_db : string -> string -> option string)
    (username password role : string) (t0 : Q) (rm : RoleManager) :
  user_db username password = Some role ->
  role <> "" ->
  let rm1 := (authenticate_user user_db username password t0 rm).2 in
  let timeout := inject_Z (session_timeout rm) in
  (forall t : Q, (t - t0 <= timeout)%Q ->
     get_current_role t rm1 = (role, rm1)
     /\ get_current_username t rm1 = (Some username, rm1))
  /\ (forall t : Q, (timeout < t - t0)%Q ->
        get_current_role t rm1
        = ((if require_login rm then "NONE" else default_role rm),
           logout rm1)
        /\ get_current_username t rm1 = (None, logout rm1)
        /\ forall t' t'' : Q,
             is_authenticated t'' (refresh_session t' (logout rm1))
             = (false, logout rm1))
  /\ (forall t t' : Q, (t' - t <= timeout)%Q ->
        get_current_role t' (refresh_session t rm1)
        = (role, refresh_session t rm1)).
Proof.
  intros Hdb Hne. cbv zeta. unfold authenticate_user. rewrite Hdb.
  apply nonempty_true in Hne. rewrite Hne. cbn [snd].
  split; [|split].
  - intros t Ht. apply Qltb_false in Ht.
    unfold get_current_role, get_current_username, is_authenticated.
    cbn. rewrite Ht. cbn. split; reflexivity.
  - intros t Ht. apply Qltb_true in Ht.
    unfold get_current_role, get_current_username, is_authenticated.
    cbn. rewrite Ht. cbn.
    split; [destruct (require_login rm); reflexivity|].
    split; reflexivity.
  - intros t t' Ht. apply Qltb_false in Ht.
    unfold get_current_role, is_authenticated, refresh_session.
    cbn. rewrite Ht. reflexivity.
Qed.

(** X24.  Every role of [USER_ROLES] may run tests and no other role
    may, so [start_test] refuses, without touching the manager, when a
    login is required and nobody is logged in with a valid session. *)
Theorem start_test_needs_a_known_role (now : Q) (rm : RoleManager)
    (w : TestManager.World) :
  (has_permission "run_test" now rm).1
  = in_USER_ROLES (get_current_role now rm).1
  /\ (require_login rm = true ->
      (is_authenticated now rm).1 = false ->
      let answer :=
        TestManager.start_test (has_permission "run_test" now rm).1 w in
      answer.1 = false /\ TestManager.tm answer.2 = TestManager.tm w).
Proof.
  split.
  - rewrite has_permission_of_role. cbv zeta. unfold in_USER_ROLES.
    destruct (String.eqb_spec (get_current_role now rm).1 "NONE") as [->|_];
      [reflexivity|].
    destruct (USER_ROLES_get (get_current_role now rm).1) as [d|] eqn:E;
      [|reflexivity].
    destruct (USER_ROLES_get_Some _ _ E)
      as [(_ & _ & ->)|[(_ & _ & ->)|(_ & _ & ->)]]; reflexivity.
  - intros Hreq Hauth. cbv zeta.
    assert (E : (has_permission "run_test" now rm).1 = false).
    { rewrite has_permission_of_role. cbv zeta. unfold get_current_role.
      destruct (is_authenticated now rm) as [valid rm'] eqn:Ei.
      cbn [fst] in Hauth. subst valid.
      assert (require_login rm' = true) as ->.
      { unfold is_authenticated in Ei.
        destruct (negb (authenticated rm)); [congruence|].
        destruct (Qltb _ _); [|discriminate].
        injection Ei as <-. exact Hreq. }
      reflexivity. }
    rewrite E. unfold TestManager.start_test.
    destruct (TestManager.running_test _); [split; reflexivity|].
    destruct (_ && _); [split; reflexivity|].
    destruct (negb _); split; reflexivity.
Qed.

End RoleChecks.

Section RoleWitnesses.
Import Roles AccessScenario.

Lemma has_access_to_unknown_role_is_granted_witness :
  (has_access "Admin" 0 0 (set_require_login true init)).1 = true.
Proof.
  apply has_access_to_unknown_role_is_granted; [discriminate|reflexivity].
Defined.

Lemma has_access_gives_the_permissions_witness :
  (has_permission "calibrate" 10
     (authenticate_user one_admin "admin" "9012" 0 init).2).1 = true.
Proof.
  refine (has_access_gives_the_permissions "MAINTENANCE" "calibrate"
            _ 10 10 _ eq_refl _ _).
  - cbn. auto.
  - vm_compute. reflexivity.
Defined.

Lemma session_expiry_and_refresh_witness :
  get_current_role 700 (authenticate_user one_admin "admin" "9012" 0 init).2
  = ("OPERATOR", logout (authenticate_user one_admin "admin" "9012" 0 init).2)
  /\ get_current_role 100000
       (refresh_session 100000
          (authenticate_user one_admin "admin" "9012" 0 init).2)
     = ("ADMIN",
        refresh_session 100000
          (authenticate_user one_admin "admin" "9012" 0 init).2).
Proof.
  destruct (session_expiry_and_refresh one_admin "admin" "9012" "ADMIN" 0
              init eq_refl ltac:(discriminate)) as (_ & Hexp & Hrev).
  split.
  - apply (Hexp 700%Q). vm_compute. reflexivity.
  - apply (Hrev 100000%Q 100000%Q). vm_compute. discriminate.
Defined.

Lemma start_test_needs_a_known_role_witness :
  (TestManager.start_test
     (has_permission "run_test" 0 (set_require_login true init)).1
     Scenario.bench).1 = false.
Proof.
  apply (start_test_needs_a_known_role 0 (set_require_login true init)
           Scenario.bench); reflexivity.
Defined.

End RoleWitnesses.

(* --------------------------------------------------------------------- *)
(** ** Completing a calibration *)

Section CalibrationApplied.
Import NumPy CalibrationDb CalibrationSpec CalibrationSession.
Import PressureSensor SensorSpec.

(** A result of finite values is accepted by the database. *)
Lemma finite_result_is_saved (self : CalibrationManager.CalibrationManager)
    (c now : Z) (m o r : Q) (pts : list CalibrationPoint) (zero : bool) :
  let cal := {| chamber_id := c; multiplier := Fin m; offset := Fin o;
                r_squared := if zero then Fin 0 else Fin r;
                calibration_date := now; points := pts |} in
  exists db' row,
    CalibrationDb.save_calibration
      (CalibrationManager.calibration_db self) cal = Some db'
    /\ CalibrationManager.save_calibration self cal
       = (true,
          {| CalibrationManager.current_chamber :=
               CalibrationManager.current_chamber self;
             CalibrationManager.calibration_points :=
               CalibrationManager.calibration_points self;
             CalibrationManager.current_point_index :=
               CalibrationManager.current_point_index self;
             CalibrationManager.calibration_db := db' |})
    /\ calibration_records db'
       = map (deactivate c)
             (calibration_records (CalibrationManager.calibration_db self))
         ++ [row]
    /\ rec_multiplier row = Fin m /\ rec_offset row = Fin o
    /\ get_active_calibration db' c = Some (result_of_row db' c row)
    /\ (forall c', c' <> c ->
          active_rows db' c'
          = active_rows (CalibrationManager.calibration_db self) c').
Proof.
  intros cal.
  destruct (CalibrationDb.save_calibration
              (CalibrationManager.calibration_db self) cal) as [db'|] eqn:Es.
  2:{ unfold CalibrationDb.save_calibration, storable in Es.
      destruct zero; discriminate Es. }
  destruct (save_calibration_rows _ _ _ Es)
    as (row & Hrows & (_ & Hm & Ho & _) & _ & _ & _ & Hact & Hother).
  exists db', row. split; [reflexivity|]. split.
  { unfold CalibrationManager.save_calibration. rewrite Es. reflexivity. }
  split; [exact Hrows|]. split; [exact Hm|]. split; [exact Ho|]. split.
  - unfold get_active_calibration.
    change (filter _ (calibration_records db')) with (active_rows db' c).
    change c with (chamber_id cal) at 1. rewrite Hact. reflexivity.
  - exact Hother.
Qed.

Lemma healthy_set_conversion_parameters (channel : Z) (o m : Q)
    (s : PressureSensor) :
  healthy channel s ->
  healthy channel (PressureSensor.set_conversion_parameters o m s).
Proof. intros [? ? ? ? ? ? ?]. split; assumption. Qed.

(** After [_load_active_calibrations] the sensor depends on the active
    calibration of chamber 0 alone. *)
Lemma load_active_calibrations_sensor (b : Bench) :
  _load_active_calibrations b
  = match get_active_calibration
            (CalibrationManager.calibration_db (manager b)) 0 with
    | Some cal_result =>
        match CalibrationSession.set_conversion_parameters
                (offset cal_result) (multiplier cal_result)
                (pressure_sensor b) with
        | Some s => Some {| manager := manager b; pressure_sensor := s |}
        | None => None
        end
    | None => Some {| manager := manager b;
                      pressure_sensor := pressure_sensor b |}
    end.
Proof.
  unfold _load_active_calibrations. cbn [fold_left].
  unfold load_active_calibration at 3.
  change (0 =? 0)%Z with true. cbv iota.
  destruct (get_active_calibration _ 0) as [cal|].
  - destruct (CalibrationSession.set_conversion_parameters _ _ _) as [s|];
      [|reflexivity].
    unfold load_active_calibration.
    change (1 =? 0)%Z with false. change (2 =? 0)%Z with false. cbv iota.
    destruct (get_active_calibration _ 1), (get_active_calibration _ 2);
      reflexivity.
  - unfold load_active_calibration.
    change (1 =? 0)%Z with false. change (2 =? 0)%Z with false. cbv iota.
    destruct (get_active_calibration _ 1), (get_active_calibration _ 2);
      reflexivity.
Qed.

(** X25.  Completing a calibration of chamber 0 hands the fitted line,
    pressure in mbar = m * voltage + c, to the sensor, and a restart
    loads the same two values from the database.  The sensor multiplies
    both by 1000, so an unfiltered reading is 1000 times the fitted
    pressure, plus the chamber offset. *)
Theorem chamber_zero_calibration_is_read_a_thousandfold
    (printer : printer_manager) (now : Z) (b : Bench) :
  let pts := CalibrationManager.calibration_points (manager b) in
  let m := OlsSpec.ols_multiplier (map voltage pts) (map pressure pts) in
  let c := OlsSpec.ols_offset (map voltage pts) (map pressure pts) in
  CalibrationManager.current_chamber (manager b) = Some 0%Z ->
  (2 <= length pts)%nat ->
  ~ (OlsSpec.sxx (map voltage pts) == 0)%Q ->
  exists (ok : bool) (b' : Bench),
    complete_calibration printer now b = Some (ok, b')
    /\ pressure_sensor b'
       = PressureSensor.set_conversion_parameters c m (pressure_sensor b)
    /\ (forall s : PressureSensor,
          _load_active_calibrations
            {| manager := manager b'; pressure_sensor := s |}
          = Some {| manager := manager b';
                    pressure_sensor :=
                      PressureSensor.set_conversion_parameters c m s |})
    /\ (forall (e : env) (channel raw : Z),
          healthy channel (pressure_sensor b) ->
          adc_answer e = Raw raw ->
          exists p : Q,
            (read_pressure e channel false (pressure_sensor b')).1 = Some p
            /\ (p == Qmax 0
                       (1000 * (m * (inject_Z raw / 32767 * 4.096) + c)
                        + (if (channel <=? 2)%Z
                           then default 0 (chamber_offsets (pressure_sensor b)
                                           !! Z.to_nat channel)
                           else 0)))%Q).
Proof.
  intros pts m c Hc Hlen Hvar.
  pose proof (manager_calculate_calibration_fin (manager b) now 0
                Hc Hlen Hvar) as Hcalc.
  cbv zeta in Hcalc. fold pts in Hcalc. fold m c in Hcalc.
  destruct (finite_result_is_saved (manager b) 0 now m c
              (OlsSpec.ols_r_squared (map voltage pts) (map pressure pts))
              pts (Qeqb (OlsSpec.ss_tot (map pressure pts)) 0))
    as (db' & row & Hdb & Hsave & _ & Hm & Ho & Hact & _).
  cbv zeta in Hsave.
  assert (Hload : forall (mgr : CalibrationManager.CalibrationManager)
                         (s : PressureSensor),
             CalibrationManager.calibration_db mgr = db' ->
             _load_active_calibrations {| manager := mgr; pressure_sensor := s |}
             = Some {| manager := mgr;
                       pressure_sensor :=
                         PressureSensor.set_conversion_parameters c m s |}).
  { intros mgr s Hmgr. rewrite load_active_calibrations_sensor.
    cbn [manager pressure_sensor]. rewrite Hmgr, Hact.
    unfold result_of_row. cbn [offset multiplier].
    rewrite Hm, Ho. reflexivity. }
  assert (Hread : forall (e : env) (channel raw : Z),
             healthy channel (pressure_sensor b) ->
             adc_answer e = Raw raw ->
             exists p : Q,
               (read_pressure e channel false
                  (PressureSensor.set_conversion_parameters c m
                     (pressure_sensor b))).1 = Some p
               /\ (p == Qmax 0
                          (1000 * (m * (inject_Z raw / 32767 * 4.096) + c)
                           + (if (channel <=? 2)%Z
                              then default 0
                                     (chamber_offsets (pressure_sensor b)
                                      !! Z.to_nat channel)
                              else 0)))%Q).
  { intros e channel raw Hh Ha.
    rewrite (read_pressure_healthy e channel raw false _
               (healthy_set_conversion_parameters channel c m _ Hh) Ha).
    eexists. split; [reflexivity|].
    unfold converted. cbn [voltage_multiplier voltage_offset chamber_offsets
                           PressureSensor.set_conversion_parameters
                           with_conversion].
    destruct (channel <=? 2)%Z; apply Q.max_compat; try reflexivity; ring. }
  unfold complete_calibration, CalibrationSession.save_calibration.
  rewrite Hc, Hcalc, Hsave. cbn [chamber_id offset multiplier].
  change (0 =? 0)%Z with true. cbv iota.
  unfold CalibrationSession.set_conversion_parameters. cbn [as_rational].
  destruct printer.
  - eexists _, _. split; [reflexivity|]. cbn [pressure_sensor reset_session].
    split; [reflexivity|]. split; [|exact Hread].
    intros s. apply Hload. reflexivity.
  - eexists _, _. split; [reflexivity|]. cbn [pressure_sensor reset_session].
    split; [reflexivity|]. split; [|exact Hread].
    intros s. apply Hload. reflexivity.
  - eexists _, _. split; [reflexivity|]. cbn [pressure_sensor].
    split; [reflexivity|]. split; [|exact Hread].
    intros s. apply Hload. reflexivity.
Qed.

(** The result of [calculate_calibration] is for the chamber of the
    session. *)
Lemma calculate_calibration_chamber
    (self : CalibrationManager.CalibrationManager) (now : Z)
    (cal : CalibrationResult) :
  CalibrationManager.calculate_calibration self now = Some cal ->
  CalibrationManager.current_chamber self = Some (chamber_id cal).
Proof.
  unfold CalibrationManager.calculate_calibration.
  destruct (CalibrationManager.current_chamber self) as [k|];
    [|discriminate].
  destruct (_ <? _)%nat; [discriminate|]. cbv zeta.
  destruct (feqb _ _); [discriminate|].
  intros [= <-]. reflexivity.
Qed.

(** X26.  A calibration of chamber 1 or 2 is stored, but it never
    reaches the sensor: completing it leaves the sensor as it was, and
    what a restart loads is still the calibration of chamber 0. *)
Theorem other_chambers_calibration_never_reaches_the_sensor
    (printer : printer_manager) (now k : Z) (b b' : Bench) (ok : bool) :
  CalibrationManager.current_chamber (manager b) = Some k ->
  k <> 0%Z ->
  complete_calibration printer now b = Some (ok, b') ->
  pressure_sensor b' = pressure_sensor b
  /\ forall s : PressureSensor,
       pressure_sensor
         <$> _load_active_calibrations
               {| manager := manager b'; pressure_sensor := s |}
       = pressure_sensor
           <$> _load_active_calibrations
                 {| manager := manager b; pressure_sensor := s |}.
Proof.
  intros Hk Hne. unfold complete_calibration. rewrite Hk.
  destruct (CalibrationManager.calculate_calibration (manager b) now)
    as [cal|] eqn:Hcalc.
  2:{ intros [= <- <-]. split; reflexivity. }
  pose proof (calculate_calibration_chamber _ _ _ Hcalc) as Hch.
  rewrite Hk in Hch. injection Hch as Hch.
  unfold CalibrationSession.save_calibration,
         CalibrationManager.save_calibration.
  destruct (CalibrationDb.save_calibration _ cal) as [db'|] eqn:Es.
  2:{ intros [= <- <-]. split; reflexivity. }
  assert (E0 : (chamber_id cal =? 0)%Z = false)
    by (apply Z.eqb_neq; congruence).
  rewrite E0.
  destruct (save_calibration_rows _ _ _ Es)
    as (row & _ & _ & _ & _ & _ & _ & Hother).
  assert (Hact : forall s mgr,
             CalibrationManager.calibration_db mgr = db' ->
             pressure_sensor
               <$> _load_active_calibrations
                     {| manager := mgr; pressure_sensor := s |}
             = pressure_sensor
                 <$> _load_active_calibrations
                       {| manager := manager b; pressure_sensor := s |}).
  { intros s mgr Hmgr. rewrite !load_active_calibrations_sensor.
    cbn [manager pressure_sensor]. rewrite Hmgr.
    unfold get_active_calibration.
    change (filter _ (calibration_records db')) with (active_rows db' 0).
    change (filter _ (calibration_records
                        (CalibrationManager.calibration_db (manager b))))
      with (active_rows (CalibrationManager.calibration_db (manager b)) 0).
    rewrite (Hother 0%Z) by congruence.
    destruct (merge_sort date_desc _) as [|r rest]; [reflexivity|].
    unfold result_of_row. cbn [offset multiplier].
    destruct (CalibrationSession.set_conversion_parameters _ _ s);
      reflexivity. }
  destruct printer; intros [= <- <-]; cbn [pressure_sensor reset_session];
    (split; [reflexivity|]); intros s; apply Hact; reflexivity.
Qed.

(** X27.  [complete_calibration] is all or nothing, and the printer has
    no say in it.  An answer of [False] leaves the database, the sensor
    and the session as they were.  An answer of [True] means that the
    calibration computed from the points of the session is stored as one
    more row and is the active one of the chamber, and that the session
    is ended.  With no printer, a printer that prints and one that fails
    the answer and the bench are the same. *)
Theorem complete_calibration_all_or_nothing
    (printer : printer_manager) (now : Z) (b b' : Bench) (ok : bool) :
  let table (x : Bench) :=
    calibration_records (CalibrationManager.calibration_db (manager x)) in
  complete_calibration printer now b = Some (ok, b') ->
  (forall other : printer_manager,
     complete_calibration other now b = Some (ok, b'))
  /\ (ok = false -> b' = b)
  /\ (ok = true ->
      exists (chamber : Z) (cal res : CalibrationResult),
        CalibrationManager.current_chamber (manager b) = Some chamber
        /\ CalibrationManager.calculate_calibration (manager b) now
           = Some cal
        /\ get_active_calibration
             (CalibrationManager.calibration_db (manager b')) chamber
           = Some res
        /\ multiplier res = multiplier cal
        /\ offset res = offset cal
        /\ r_squared res = r_squared cal
        /\ calibration_date res = calibration_date cal
        /\ length (table b') = S (length (table b))
        /\ CalibrationManager.current_chamber (manager b') = None
        /\ CalibrationManager.calibration_points (manager b') = []
        /\ CalibrationManager.current_point_index (manager b') = 0%nat).
Proof.
  intros table. unfold complete_calibration.
  destruct (CalibrationManager.current_chamber (manager b)) as [k|] eqn:Hk.
  2:{ intros [= <- <-]. repeat split; try discriminate; reflexivity. }
  destruct (CalibrationManager.calculate_calibration (manager b) now)
    as [cal|] eqn:Hcalc.
  2:{ intros [= <- <-]. repeat split; try discriminate; reflexivity. }
  pose proof (calculate_calibration_chamber _ _ _ Hcalc) as Hch.
  rewrite Hk in Hch. injection Hch as Hch.
  unfold CalibrationSession.save_calibration,
         CalibrationManager.save_calibration.
  destruct (CalibrationDb.save_calibration _ cal) as [db'|] eqn:Es.
  2:{ intros [= <- <-]. repeat split; try discriminate; reflexivity. }
  destruct (if (chamber_id cal =? 0)%Z
            then CalibrationSession.set_conversion_parameters
                   (offset cal) (multiplier cal) (pressure_sensor b)
            else Some (pressure_sensor b)) as [s|]; [|discriminate].
  destruct (save_calibration_rows _ _ _ Es)
    as (row & Hrows & (_ & Hm & Ho & Hr & Hd) & _ & _ & _ & Hact & _).
  cbv zeta.
  set (b1 := {| manager := _; pressure_sensor := s |}).
  assert (Hsame : forall other : printer_manager,
             match other with
             | NoPrinter => Some (true, b1)
             | _ => Some (true, b1)
             end = Some (true, b1)).
  { intros []; reflexivity. }
  rewrite (Hsame printer). intros [= <- <-].
  split; [|split].
  - intros other. rewrite (Hsame other). reflexivity.
  - discriminate.
  - intros _. subst b1. exists k, cal, (result_of_row db' k row).
    split; [reflexivity|]. split; [reflexivity|].
    cbn [manager reset_session CalibrationManager.calibration_db
         CalibrationManager.current_chamber
         CalibrationManager.calibration_points
         CalibrationManager.current_point_index].
    split.
    { unfold get_active_calibration.
      change (filter _ (calibration_records db')) with (active_rows db' k).
      rewrite Hch, Hact. reflexivity. }
    unfold result_of_row. cbn [multiplier offset r_squared calibration_date].
    repeat split; try assumption.
    unfold table.
    cbn [manager reset_session CalibrationManager.calibration_db].
    rewrite Hrows, length_app, length_map. cbn [length]. lia.
Qed.

End CalibrationApplied.

Section CalibrationWitnesses.
Import NumPy CalibrationDb CalibrationSession CalibrationScenario.
Import PressureSensor.

Lemma chamber_zero_calibration_is_read_a_thousandfold_witness :
  exists (ok : bool) (b' : Bench),
    complete_calibration Prints 4 (calibrating 0) = Some (ok, b')
    /\ (voltage_multiplier (pressure_sensor b') == 1500)%Q
    /\ (voltage_offset (pressure_sensor b') == -750)%Q.
Proof.
  destruct (chamber_zero_calibration_is_read_a_thousandfold
              Prints 4 (calibrating 0) eq_refl
              ltac:(simpl; lia) ltac:(vm_compute; discriminate))
    as (ok & b' & Hrun & Hs & _).
  exists ok, b'. split; [exact Hrun|]. rewrite Hs.
  split; vm_compute; reflexivity.
Defined.

Lemma other_chambers_calibration_never_reaches_the_sensor_witness :
  exists (ok : bool) (b' : Bench),
    complete_calibration Prints 4 (calibrating 1) = Some (ok, b')
    /\ pressure_sensor b' = init.
Proof.
  let v := eval vm_compute in (complete_calibration Prints 4 (calibrating 1)) in
  match v with
  | Some (?ok, ?b') =>
      assert (E : complete_calibration Prints 4 (calibrating 1)
                  = Some (ok, b')) by (vm_compute; reflexivity);
      exists ok, b'; split; [exact E|];
      exact (proj1 (other_chambers_calibration_never_reaches_the_sensor
                      Prints 4 1 (calibrating 1) b' ok eq_refl
                      ltac:(discriminate) E))
  end.
Defined.

Lemma complete_calibration_all_or_nothing_witness :
  exists b' : Bench,
    complete_calibration PrintFails 4 (calibrating 2) = Some (true, b')
    /\ complete_calibration Prints 4 (calibrating 2) = Some (true, b')
    /\ CalibrationManager.current_chamber (manager b') = None.
Proof.
  let v := eval vm_compute in (complete_calibration PrintFails 4 (calibrating 2)) in
  match v with
  | Some (?ok, ?b') =>
      assert (E : complete_calibration PrintFails 4 (calibrating 2)
                  = Some (ok, b')) by (vm_compute; reflexivity);
      exists b';
      destruct (complete_calibration_all_or_nothing
                  PrintFails 4 (calibrating 2) b' ok E)
        as (Hsame & _ & Hdone)
  end.
  split; [exact E|]. split; [exact (Hsame Prints)|].
  destruct (Hdone eq_refl) as (k & cal & res & _ & _ & _ & _ & _ & _ & _
                               & _ & Hnone & _).
  exact Hnone.
Defined.

End CalibrationWitnesses.
